(** * GRUB USB SNES gamepad modules: report codec, key queue, poll step and
      slot table

    A shallow embedding of the two GRUB modules of this repository,

    - [src/usb_snes.c]          (module [UsbSnes] below), and
    - [src/usb_snes_gamepad.c]  (module [UsbSnesGamepad] below),

    and the properties their specification states about them.  The two C
    files are near-duplicates that differ in a handful of policies (queue
    overflow, button table, the order of queue drain and transfer poll, the
    [dead] flag, the attach filter); each is embedded on its own, function by
    function, and the theorems say which file they talk about.

    Conventions.  A C [int] is a [Z]; every counter of the drivers stays
    within [0, 32] on well-formed states, so signed overflow never arises and
    no wrap-around is written.  [%] is C's truncating remainder, [Z.rem].  A
    [grub_uint8_t] is a [Z] in [0, 256); [&] is [Z.land].  A C array is a list
    read with [array_get] and written with stdpp's [<[i:=x]>]; a pointer that
    may be [NULL] is an [option]. *)

From Stdlib Require Import ZArith Lia List Bool String DecimalString DecimalNat.
From stdpp Require Import base option list gmap.

Local Open Scope Z_scope.
Set Warnings "-clear-no-such-hyp".

(** ** The host interface (GRUB headers, not part of the repository) *)

(** The key codes of [grub/term.h] used by the drivers.  Their values are not
    in the repository, so the development is parametric in them. *)
Class grub_term_keys := {
  GRUB_TERM_NO_KEY : Z;
  GRUB_TERM_ESC : Z;
  GRUB_TERM_KEY_UP : Z;
  GRUB_TERM_KEY_DOWN : Z;
  GRUB_TERM_KEY_LEFT : Z;
  GRUB_TERM_KEY_RIGHT : Z;
  GRUB_TERM_KEY_PPAGE : Z;
  GRUB_TERM_KEY_NPAGE : Z
}.

(** The values GRUB 2 gives these codes; the concrete runs below use them. *)
Definition grub_term_h : grub_term_keys := {|
  GRUB_TERM_NO_KEY := 0;
  GRUB_TERM_ESC := 0x1b;
  GRUB_TERM_KEY_UP := 0x00800048;
  GRUB_TERM_KEY_DOWN := 0x00800050;
  GRUB_TERM_KEY_LEFT := 0x0080004b;
  GRUB_TERM_KEY_RIGHT := 0x0080004d;
  GRUB_TERM_KEY_PPAGE := 0x00800049;
  GRUB_TERM_KEY_NPAGE := 0x00800051
|}.

(** [grub_usb_err_t] of [grub/usb.h]. *)
Inductive grub_usb_err_t :=
| GRUB_USB_ERR_NONE
| GRUB_USB_ERR_WAIT
| GRUB_USB_ERR_INTERNAL
| GRUB_USB_ERR_STALL
| GRUB_USB_ERR_DATA
| GRUB_USB_ERR_NAK
| GRUB_USB_ERR_BABBLE
| GRUB_USB_ERR_TIMEOUT
| GRUB_USB_ERR_BADDEVICE.

#[global] Instance grub_usb_err_eq_dec : EqDecision grub_usb_err_t.
Proof. solve_decision. Defined.

(** Endpoint types, as [grub_usb_get_ep_type] returns them. *)
Inductive grub_usb_ep_type_t :=
| GRUB_USB_EP_CONTROL
| GRUB_USB_EP_ISOCHRONOUS
| GRUB_USB_EP_BULK
| GRUB_USB_EP_INTERRUPT.

#[global] Instance grub_usb_ep_type_eq_dec : EqDecision grub_usb_ep_type_t.
Proof. solve_decision. Defined.

(** Addresses of heap blocks and of devices; handles of background
    transfers ([grub_usb_transfer_t], [NULL] being [None]). *)
Abbreviation addr := positive.
Abbreviation transfer_handle := positive.

(** An endpoint descriptor: its address byte and the type the host's
    accessor [grub_usb_get_ep_type] reads off its attributes. *)
Record grub_usb_desc_endp := {
  endp_addr : Z;
  ep_type : grub_usb_ep_type_t
}.

Definition grub_usb_get_ep_type (endp : grub_usb_desc_endp) : grub_usb_ep_type_t :=
  ep_type endp.

(** One interface of a configuration: the protocol byte of its descriptor
    ([descif->protocol]) and its endpoint descriptors ([descendp], of which
    there are [descif->endpointcnt]). *)
Record grub_usb_interface := {
  descif_protocol : Z;
  descendp : list grub_usb_desc_endp
}.

Definition descif_endpointcnt (i : grub_usb_interface) : Z :=
  Z.of_nat (length (descendp i)).

(** A device as the attach hook sees it.  [dev_ptr] stands for the pointer
    value [grub_usb_device_t]: the drivers only compare it. *)
Record grub_usb_device := {
  dev_ptr : addr;
  descdev_vendorid : Z;
  descdev_prodid : Z;
  config_interf : Z -> Z -> grub_usb_interface
}.

(** The calls into the USB stack that leave a trace: the control requests of
    the attach sequence and the two halves of an asynchronous read. *)
Inductive usb_call :=
| UsbSetConfiguration (dev : addr) (config : Z)
| UsbControlMsg (dev : addr) (request value index : Z)
| UsbSetDetachHook (dev : addr) (configno interfno : Z)
| UsbCheckTransfer (transfer : option transfer_handle)
| UsbBulkReadBackground (dev : addr) (endp : option grub_usb_desc_endp) (size : Z).

(** What the USB stack answers during one [getkey]: the result of
    [grub_usb_check_transfer] (error code and [actual] byte count) and the
    handle [grub_usb_bulk_read_background] returns, should the driver ask. *)
Record usb_reply := {
  reply_err : grub_usb_err_t;
  reply_actual : Z;
  reply_transfer : option transfer_handle
}.

(** What the USB stack does around one [getkey] when reports arrive: the
    bytes the host controller has written into the buffer of the read in
    flight since the last poll (none when [io_bytes] is empty), and its
    answers during the poll. *)
Record usb_io := {
  io_bytes : list Z;
  io_reply : usb_reply
}.

(** Reading a C array.  The drivers index their arrays within bounds on
    well-formed states; outside, the model reads 0. *)
Definition array_get (a : list Z) (i : Z) : Z :=
  default 0 (a !! Z.to_nat i).

Definition array_set (a : list Z) (i : Z) (v : Z) : list Z :=
  <[Z.to_nat i := v]> a.

(** [grub_memcpy (dst, src, n)] on two byte arrays. *)
Definition grub_memcpy (dst src : list Z) (n : nat) : list Z :=
  take n src ++ drop n dst.


(** ** The driver's share of the machine state

    Both files keep a static table of [grub_term_input] records whose [data]
    field points to a [grub_malloc]ed session and whose [name] field points
    to a [grub_xasprintf]ed string.  The heap makes a pointer to a freed block
    visible: it is an address the heap no longer maps.  The function-pointer
    fields of [grub_term_input] ([getkey], [getkeystatus]) and [next] are
    written with constants by attach and are not modelled. *)

Record grub_term_input := {
  name : option addr;
  data : option addr
}.

Inductive block (D : Type) :=
| BlockData (d : D)
| BlockName (s : string).
Arguments BlockData {D} d.
Arguments BlockName {D} s.

Record machine (D : Type) := {
  terms : list grub_term_input;         (* the static table *)
  heap : gmap addr (block D);           (* live allocations *)
  term_inputs : gset nat;               (* table entries registered as inputs *)
  transfers : gset transfer_handle;     (* background reads in flight *)
  usb_log : list usb_call               (* requests sent so far *)
}.
Arguments terms {D} m.
Arguments heap {D} m.
Arguments term_inputs {D} m.
Arguments transfers {D} m.
Arguments usb_log {D} m.

(** What the allocator and the USB stack answer during one attach:
    [grub_malloc], [grub_xasprintf] and [grub_usb_bulk_read_background]
    return [NULL] ([None]) on failure.  A block that [grub_malloc] returns
    is not initialised: [env_garbage] is the content of the key queue found
    there. *)
Record attach_env := {
  env_malloc : option addr;
  env_garbage : list Z;
  env_xasprintf : option addr;
  env_bulk_read : option transfer_handle
}.

Section Machine.
Context {D : Type}.

Definition set_terms (ts : list grub_term_input) (m : machine D) : machine D :=
  {| terms := ts; heap := heap m; term_inputs := term_inputs m;
     transfers := transfers m; usb_log := usb_log m |}.

Definition set_heap (h : gmap addr (block D)) (m : machine D) : machine D :=
  {| terms := terms m; heap := h; term_inputs := term_inputs m;
     transfers := transfers m; usb_log := usb_log m |}.

Definition set_term_inputs (s : gset nat) (m : machine D) : machine D :=
  {| terms := terms m; heap := heap m; term_inputs := s;
     transfers := transfers m; usb_log := usb_log m |}.

Definition set_transfers (s : gset transfer_handle) (m : machine D) : machine D :=
  {| terms := terms m; heap := heap m; term_inputs := term_inputs m;
     transfers := s; usb_log := usb_log m |}.

Definition usb_request (c : usb_call) (m : machine D) : machine D :=
  {| terms := terms m; heap := heap m; term_inputs := term_inputs m;
     transfers := transfers m; usb_log := usb_log m ++ [c] |}.

(** A successful [grub_malloc] or [grub_xasprintf]: the block now lives at
    the address the allocator chose. *)
Definition alloc (p : addr) (b : block D) (m : machine D) : machine D :=
  set_heap (<[p := b]> (heap m)) m.

(** [grub_free (p)]: nothing for [NULL], the block is released if it is
    live, and undefined ([None]) if [p] points to no live block. *)
Definition grub_free (p : option addr) (m : machine D) : option (machine D) :=
  match p with
  | None => Some m
  | Some a =>
      match heap m !! a with
      | Some _ => Some (set_heap (delete a (heap m)) m)
      | None => None
      end
  end.

(** Writing one field of table entry [i]. *)
Definition set_term_name (i : nat) (n : option addr) (m : machine D) : machine D :=
  match terms m !! i with
  | Some t => set_terms (<[i := {| name := n; data := data t |}]> (terms m)) m
  | None => m
  end.

Definition set_term_data (i : nat) (p : option addr) (m : machine D) : machine D :=
  match terms m !! i with
  | Some t => set_terms (<[i := {| name := name t; data := p |}]> (terms m)) m
  | None => m
  end.

Definition grub_term_register_input_active (i : nat) (m : machine D) : machine D :=
  set_term_inputs ({[ i ]} ∪ term_inputs m) m.

Definition grub_term_unregister_input (i : nat) (m : machine D) : machine D :=
  set_term_inputs (term_inputs m ∖ {[ i ]}) m.

Definition grub_usb_cancel_transfer (t : transfer_handle) (m : machine D) : machine D :=
  set_transfers (transfers m ∖ {[ t ]}) m.

(** The slot search of attach: the first entry whose [data] is [NULL], or
    the length of the table when there is none. *)
Fixpoint find_free_slot (ts : list grub_term_input) : nat :=
  match ts with
  | [] => 0%nat
  | t :: ts' =>
      match data t with
      | None => 0%nat
      | Some _ => S (find_free_slot ts')
      end
  end.

(** The endpoint search of attach: the first descriptor with the IN bit set
    and of interrupt type, [None] when the loop runs to [endpointcnt]. *)
Fixpoint find_interrupt_in (l : list grub_usb_desc_endp) : option grub_usb_desc_endp :=
  match l with
  | [] => None
  | e :: l' =>
      if negb (Z.land (endp_addr e) 128 =? 0)
         && bool_decide (grub_usb_get_ep_type e = GRUB_USB_EP_INTERRUPT)
      then Some e
      else find_interrupt_in l'
  end.

(** The body of the detach loop, the same text in both files.  [dev_of] and
    [transfer_of] read the [usbdev] and [transfer] fields of the session.
    Reading through a [data] pointer that is not live is undefined
    ([None]). *)
Definition detach_slot (dev_of : D -> addr) (transfer_of : D -> option transfer_handle)
    (dev : addr) (i : nat) (m : machine D) : option (machine D) :=
  match terms m !! i with
  | None => None
  | Some t =>
      match data t with
      | None => Some m
      | Some p =>
          match heap m !! p with
          | Some (BlockData d) =>
              if bool_decide (dev_of d = dev) then
                let m := match transfer_of d with
                         | Some tr => grub_usb_cancel_transfer tr m
                         | None => m
                         end in
                let m := grub_term_unregister_input i m in
                m ← grub_free (name t) m;
                let m := set_term_name i None m in
                m ← grub_free (Some p) m;
                Some (set_term_data i None m)
              else Some m
          | _ => None
          end
      end
  end.

Fixpoint detach_slots (dev_of : D -> addr) (transfer_of : D -> option transfer_handle)
    (dev : addr) (slots : list nat) (m : machine D) : option (machine D) :=
  match slots with
  | [] => Some m
  | i :: slots' =>
      m ← detach_slot dev_of transfer_of dev i m;
      detach_slots dev_of transfer_of dev slots' m
  end.

(** The body of the loop of the modules' fini functions: the release
    sequence of [detach_slot] for every occupied entry, whatever its
    device. *)
Definition fini_slot (transfer_of : D -> option transfer_handle)
    (i : nat) (m : machine D) : option (machine D) :=
  match terms m !! i with
  | None => None
  | Some t =>
      match data t with
      | None => Some m
      | Some p =>
          match heap m !! p with
          | Some (BlockData d) =>
              let m := match transfer_of d with
                       | Some tr => grub_usb_cancel_transfer tr m
                       | None => m
                       end in
              let m := grub_term_unregister_input i m in
              m ← grub_free (name t) m;
              let m := set_term_name i None m in
              m ← grub_free (Some p) m;
              Some (set_term_data i None m)
          | _ => None
          end
      end
  end.

Fixpoint fini_slots (transfer_of : D -> option transfer_handle)
    (slots : list nat) (m : machine D) : option (machine D) :=
  match slots with
  | [] => Some m
  | i :: slots' =>
      m ← fini_slot transfer_of i m;
      fini_slots transfer_of slots' m
  end.

End Machine.

(** The table before any device is attached: static storage is zeroed. *)
Definition boot_machine (D : Type) (n : nat) : machine D :=
  {| terms := replicate n {| name := None; data := None |};
     heap := ∅; term_inputs := ∅; transfers := ∅; usb_log := [] |}.

(** A loaded module: its slot table and whether its attach hook is
    registered with the USB stack
    ([grub_usb_register_attach_hook_class]). *)
Record driver (D : Type) := {
  attach_hook_registered : bool;
  driver_machine : machine D
}.
Arguments attach_hook_registered {D} d.
Arguments driver_machine {D} d.

(** [terms[i].name], read back from the table. *)
Definition term_name {D : Type} (i : nat) (m : machine D) : option addr :=
  t ← terms m !! i; name t.

(** The text [grub_xasprintf (fmt "%d", curnum)] produces. *)
Definition xasprintf_d (prefix : string) (curnum : nat) : string :=
  (prefix ++ NilZero.string_of_uint (Nat.to_uint curnum))%string.

(** C truth of an [int]. *)
Definition c_true (x : Z) : bool := negb (x =? 0).
Definition c_not (x : Z) : bool := x =? 0.

(** ** src/usb_snes.c *)

Module UsbSnes.

Definition USB_HID_SET_IDLE : Z := 0x0A.
Definition USB_HID_SET_PROTOCOL : Z := 0x0B.
Definition SNES_REPORT_SIZE : Z := 8.
Definition AXIS_CENTER : Z := 0x7F.
Definition AXIS_THRESHOLD : Z := 0x40.
Definition MAX_GAMEPADS : nat := 8.

(** [supported_devices], end marker included. *)
Definition supported_devices : list (Z * Z) :=
  [ (0x0810, 0xe501); (0x0079, 0x0011); (0x0583, 0x2060); (0x2dc8, 0x9018);
    (0x12bd, 0xd015); (0x1a34, 0x0802); (0x0810, 0x0001); (0x0079, 0x0006);
    (0x046d, 0xc218); (0, 0) ].

Record grub_usb_snes_data := {
  usbdev : addr;
  interfno : Z;
  endp : option grub_usb_desc_endp;
  transfer : option transfer_handle;
  report : list Z;
  prev_report : list Z;
  dead : Z;
  key_queue : list Z;
  key_queue_head : Z;
  key_queue_tail : Z;
  key_queue_count : Z
}.

Definition set_transfer (t : option transfer_handle) (d : grub_usb_snes_data) :=
  {| usbdev := usbdev d; interfno := interfno d; endp := endp d;
     transfer := t; report := report d; prev_report := prev_report d;
     dead := dead d; key_queue := key_queue d;
     key_queue_head := key_queue_head d; key_queue_tail := key_queue_tail d;
     key_queue_count := key_queue_count d |}.

Definition set_prev_report (r : list Z) (d : grub_usb_snes_data) :=
  {| usbdev := usbdev d; interfno := interfno d; endp := endp d;
     transfer := transfer d; report := report d; prev_report := r;
     dead := dead d; key_queue := key_queue d;
     key_queue_head := key_queue_head d; key_queue_tail := key_queue_tail d;
     key_queue_count := key_queue_count d |}.

Definition set_dead (v : Z) (d : grub_usb_snes_data) :=
  {| usbdev := usbdev d; interfno := interfno d; endp := endp d;
     transfer := transfer d; report := report d; prev_report := prev_report d;
     dead := v; key_queue := key_queue d;
     key_queue_head := key_queue_head d; key_queue_tail := key_queue_tail d;
     key_queue_count := key_queue_count d |}.

Definition set_queue (q : list Z) (h t c : Z) (d : grub_usb_snes_data) :=
  {| usbdev := usbdev d; interfno := interfno d; endp := endp d;
     transfer := transfer d; report := report d; prev_report := prev_report d;
     dead := dead d; key_queue := q;
     key_queue_head := h; key_queue_tail := t; key_queue_count := c |}.

(** Lines 307-321: the session as attach fills it in, after the
    [grub_memset] to zero. *)
Definition init_data (dev : grub_usb_device) (interfno : Z) (e : grub_usb_desc_endp)
    : grub_usb_snes_data :=
  {| usbdev := dev_ptr dev;
     interfno := interfno;
     endp := Some e;
     transfer := None;
     report := replicate 8 0;
     prev_report := [AXIS_CENTER; AXIS_CENTER; AXIS_CENTER; AXIS_CENTER; 0; 0; 0; 0];
     dead := 0;
     key_queue := replicate 32 0;
     key_queue_head := 0;
     key_queue_tail := 0;
     key_queue_count := 0 |}.

(** The session with other report buffers: what the controller's write into
    [report] and a test harness's choice of baseline amount to. *)
Definition set_reports (prev curr : list Z) (d : grub_usb_snes_data) :=
  {| usbdev := usbdev d; interfno := interfno d; endp := endp d;
     transfer := transfer d; report := curr; prev_report := prev;
     dead := dead d; key_queue := key_queue d;
     key_queue_head := key_queue_head d; key_queue_tail := key_queue_tail d;
     key_queue_count := key_queue_count d |}.

(** The reads attach and [getkey] start have [data->report] as their buffer
    and 8 as their size: the host controller writes at most 8 bytes, at the
    start of that buffer. *)
Definition usb_deliver (bytes : list Z) (d : grub_usb_snes_data) : grub_usb_snes_data :=
  set_reports (prev_report d)
    (grub_memcpy (report d) (take 8 bytes) (length (take 8 bytes))) d.

(** The keys a queue holds, oldest first. *)
Definition queue_contents (d : grub_usb_snes_data) : list Z :=
  map (fun i : nat => array_get (key_queue d) (Z.rem (key_queue_head d + Z.of_nat i) 32))
      (seq 0 (Z.to_nat (key_queue_count d))).

(** The states the queue functions keep the queue in. *)
Definition queue_wf (d : grub_usb_snes_data) : Prop :=
  length (key_queue d) = 32%nat /\
  0 <= key_queue_head d < 32 /\
  0 <= key_queue_count d <= 32 /\
  key_queue_tail d = Z.rem (key_queue_head d + key_queue_count d) 32.

(** Lines 88-99: the scan stops at the entry whose [vid] is 0. *)
Fixpoint is_supported_device_from (tbl : list (Z * Z)) (vid pid : Z) : Z :=
  match tbl with
  | [] => 0
  | (v, p) :: tbl' =>
      if v =? 0 then 0
      else if (v =? vid) && (p =? pid) then 1
      else is_supported_device_from tbl' vid pid
  end.

Definition is_supported_device (vid pid : Z) : Z :=
  is_supported_device_from supported_devices vid pid.

Section WithKeys.
Context {K : grub_term_keys}.

(** Lines 66-74.  A full queue and [GRUB_TERM_NO_KEY] are both refused. *)
Definition key_queue_push (data : grub_usb_snes_data) (key : Z) : grub_usb_snes_data :=
  if (key_queue_count data >=? 32) || (key =? GRUB_TERM_NO_KEY) then data
  else
    set_queue (array_set (key_queue data) (key_queue_tail data) key)
              (key_queue_head data)
              (Z.rem (key_queue_tail data + 1) 32)
              (key_queue_count data + 1)
              data.

(** Lines 76-85. *)
Definition key_queue_pop (data : grub_usb_snes_data) : Z * grub_usb_snes_data :=
  if key_queue_count data <=? 0 then (GRUB_TERM_NO_KEY, data)
  else
    let key := array_get (key_queue data) (key_queue_head data) in
    (key,
     set_queue (key_queue data)
               (Z.rem (key_queue_head data + 1) 32)
               (key_queue_tail data)
               (key_queue_count data - 1)
               data).

(** Lines 102-171.  ['\r'] is 13, ['e'] is 101, ['c'] is 99.  The debug
    print at the end has no effect on the state. *)
Definition parse_snes_report (data : grub_usb_snes_data) : grub_usb_snes_data :=
  let prev := prev_report data in
  let curr := report data in
  let prev_up    := array_get prev 1 <? AXIS_CENTER - AXIS_THRESHOLD in
  let prev_down  := array_get prev 1 >? AXIS_CENTER + AXIS_THRESHOLD in
  let prev_left  := array_get prev 0 <? AXIS_CENTER - AXIS_THRESHOLD in
  let prev_right := array_get prev 0 >? AXIS_CENTER + AXIS_THRESHOLD in
  let curr_up    := array_get curr 1 <? AXIS_CENTER - AXIS_THRESHOLD in
  let curr_down  := array_get curr 1 >? AXIS_CENTER + AXIS_THRESHOLD in
  let curr_left  := array_get curr 0 <? AXIS_CENTER - AXIS_THRESHOLD in
  let curr_right := array_get curr 0 >? AXIS_CENTER + AXIS_THRESHOLD in
  let data := if negb prev_up && curr_up
              then key_queue_push data GRUB_TERM_KEY_UP else data in
  let data := if negb prev_down && curr_down
              then key_queue_push data GRUB_TERM_KEY_DOWN else data in
  let data := if negb prev_left && curr_left
              then key_queue_push data GRUB_TERM_KEY_LEFT else data in
  let data := if negb prev_right && curr_right
              then key_queue_push data GRUB_TERM_KEY_RIGHT else data in
  let prev_btns := array_get prev 4 in
  let curr_btns := array_get curr 4 in
  let data := if (c_not (Z.land prev_btns 0x02) && c_true (Z.land curr_btns 0x02))
                 || (c_not (Z.land prev_btns 0x04) && c_true (Z.land curr_btns 0x04))
              then key_queue_push data 13 else data in
  let data := if c_not (Z.land prev_btns 0x80) && c_true (Z.land curr_btns 0x80)
              then key_queue_push data 13 else data in
  let data := if c_not (Z.land prev_btns 0x40) && c_true (Z.land curr_btns 0x40)
              then key_queue_push data GRUB_TERM_ESC else data in
  let data := if c_not (Z.land prev_btns 0x01) && c_true (Z.land curr_btns 0x01)
              then key_queue_push data 101 else data in
  let data := if c_not (Z.land prev_btns 0x08) && c_true (Z.land curr_btns 0x08)
              then key_queue_push data 99 else data in
  let data := if c_not (Z.land prev_btns 0x10) && c_true (Z.land curr_btns 0x10)
              then key_queue_push data GRUB_TERM_KEY_PPAGE else data in
  let data := if c_not (Z.land prev_btns 0x20) && c_true (Z.land curr_btns 0x20)
              then key_queue_push data GRUB_TERM_KEY_NPAGE else data in
  data.

(** The keys [parse_snes_report] hands to [key_queue_push], in the order of
    the calls, as a function of the two reports (the codec of the
    specification, [deriveEvents]).  Lemma [parse_snes_report_pushes] shows
    that [parse_snes_report] pushes exactly this list. *)
Definition deriveEvents (prev curr : list Z) : list Z :=
  let prev_up    := array_get prev 1 <? AXIS_CENTER - AXIS_THRESHOLD in
  let prev_down  := array_get prev 1 >? AXIS_CENTER + AXIS_THRESHOLD in
  let prev_left  := array_get prev 0 <? AXIS_CENTER - AXIS_THRESHOLD in
  let prev_right := array_get prev 0 >? AXIS_CENTER + AXIS_THRESHOLD in
  let curr_up    := array_get curr 1 <? AXIS_CENTER - AXIS_THRESHOLD in
  let curr_down  := array_get curr 1 >? AXIS_CENTER + AXIS_THRESHOLD in
  let curr_left  := array_get curr 0 <? AXIS_CENTER - AXIS_THRESHOLD in
  let curr_right := array_get curr 0 >? AXIS_CENTER + AXIS_THRESHOLD in
  let prev_btns := array_get prev 4 in
  let curr_btns := array_get curr 4 in
  (if negb prev_up && curr_up then [GRUB_TERM_KEY_UP] else [])
  ++ (if negb prev_down && curr_down then [GRUB_TERM_KEY_DOWN] else [])
  ++ (if negb prev_left && curr_left then [GRUB_TERM_KEY_LEFT] else [])
  ++ (if negb prev_right && curr_right then [GRUB_TERM_KEY_RIGHT] else [])
  ++ (if (c_not (Z.land prev_btns 0x02) && c_true (Z.land curr_btns 0x02))
         || (c_not (Z.land prev_btns 0x04) && c_true (Z.land curr_btns 0x04))
      then [13] else [])
  ++ (if c_not (Z.land prev_btns 0x80) && c_true (Z.land curr_btns 0x80)
      then [13] else [])
  ++ (if c_not (Z.land prev_btns 0x40) && c_true (Z.land curr_btns 0x40)
      then [GRUB_TERM_ESC] else [])
  ++ (if c_not (Z.land prev_btns 0x01) && c_true (Z.land curr_btns 0x01)
      then [101] else [])
  ++ (if c_not (Z.land prev_btns 0x08) && c_true (Z.land curr_btns 0x08)
      then [99] else [])
  ++ (if c_not (Z.land prev_btns 0x10) && c_true (Z.land curr_btns 0x10)
      then [GRUB_TERM_KEY_PPAGE] else [])
  ++ (if c_not (Z.land prev_btns 0x20) && c_true (Z.land curr_btns 0x20)
      then [GRUB_TERM_KEY_NPAGE] else []).

(** Pushing a sequence of keys, first to last. *)
Definition push_all (data : grub_usb_snes_data) (keys : list Z) : grub_usb_snes_data :=
  fold_left key_queue_push keys data.

(** [n] calls of [key_queue_pop]: the keys returned and the session left. *)
Fixpoint pop_n (n : nat) (data : grub_usb_snes_data) : list Z * grub_usb_snes_data :=
  match n with
  | O => ([], data)
  | S n' =>
      let '(key, data) := key_queue_pop data in
      let '(keys, data) := pop_n n' data in
      (key :: keys, data)
  end.

(** Lines 173-217.  The result is the key returned, the session afterwards
    and the calls made into the USB stack.  The model has no console: the
    message [grub_printf] writes at line 211 when the restart fails is not
    modelled. *)
Definition grub_usb_snes_getkey (env : usb_reply) (data : grub_usb_snes_data)
    : Z * grub_usb_snes_data * list usb_call :=
  if c_true (dead data) then (GRUB_TERM_NO_KEY, data, [])
  else if key_queue_count data >? 0 then
    let '(key, data) := key_queue_pop data in (key, data, [])
  else
    let err := reply_err env in
    let actual := reply_actual env in
    let calls := [UsbCheckTransfer (transfer data)] in
    if bool_decide (err = GRUB_USB_ERR_WAIT) then (GRUB_TERM_NO_KEY, data, calls)
    else
      let data :=
        if bool_decide (err = GRUB_USB_ERR_NONE) && (actual >=? 1) then
          let data := parse_snes_report data in
          set_prev_report
            (grub_memcpy (prev_report data) (report data) (Z.to_nat SNES_REPORT_SIZE))
            data
        else data in
      let calls := calls ++ [UsbBulkReadBackground (usbdev data) (endp data) 8] in
      let data := set_transfer (reply_transfer env) data in
      match transfer data with
      | None => (GRUB_TERM_NO_KEY, set_dead 1 data, calls)
      | Some _ =>
          let '(key, data) := key_queue_pop data in (key, data, calls)
      end.

(** A run of polls during which no report arrives, one reply of the USB
    stack per poll: the keys returned, the session at the end and all the
    calls made.  The report buffer stays as the run finds it, so these are
    the runs between two deliveries; [polls_io] has the others. *)
Fixpoint polls (envs : list usb_reply) (data : grub_usb_snes_data)
    : list Z * grub_usb_snes_data * list usb_call :=
  match envs with
  | [] => ([], data, [])
  | env :: envs' =>
      let '(key, data, calls) := grub_usb_snes_getkey env data in
      let '(keys, data, calls') := polls envs' data in
      (key :: keys, data, calls ++ calls')
  end.

(** A run of polls with the host controller writing into the report buffer:
    before each poll the bytes of [io_bytes] are delivered, then the poll
    runs with the replies of [io_reply]. *)
Fixpoint polls_io (ios : list usb_io) (data : grub_usb_snes_data)
    : list Z * grub_usb_snes_data * list usb_call :=
  match ios with
  | [] => ([], data, [])
  | io :: ios' =>
      let '(key, data, calls) :=
        grub_usb_snes_getkey (io_reply io) (usb_deliver (io_bytes io) data) in
      let '(keys, data, calls') := polls_io ios' data in
      (key :: keys, data, calls ++ calls')
  end.

End WithKeys.

(** Lines 225-246. *)
Definition grub_usb_snes_detach (dev : addr) (m : machine grub_usb_snes_data)
    : option (machine grub_usb_snes_data) :=
  detach_slots usbdev transfer dev (seq 0 MAX_GAMEPADS) m.

(** Lines 248-392.  The debug prints are left out.  The model has no
    console: the message [grub_printf] writes at line 388 on success, with
    the entry's index and the device's ids, is not modelled. *)
Definition grub_usb_snes_attach (env : attach_env) (dev : grub_usb_device)
    (configno interfno : Z) (m : machine grub_usb_snes_data)
    : option (Z * machine grub_usb_snes_data) :=
  if c_not (is_supported_device (descdev_vendorid dev) (descdev_prodid dev))
  then Some (0, m)
  else
    let curnum := find_free_slot (terms m) in
    if bool_decide (curnum = MAX_GAMEPADS) then Some (0, m)
    else
      match find_interrupt_in (descendp (config_interf dev configno interfno)) with
      | None => Some (0, m)
      | Some e =>
          match env_malloc env with
          | None => Some (0, m)
          | Some p =>
              let d := init_data dev interfno e in
              let m := alloc p (BlockData d) m in
              let m := usb_request (UsbSetConfiguration (dev_ptr dev) (configno + 1)) m in
              let m := usb_request
                         (UsbControlMsg (dev_ptr dev) USB_HID_SET_PROTOCOL 0 interfno) m in
              let m := usb_request
                         (UsbControlMsg (dev_ptr dev) USB_HID_SET_IDLE 0 interfno) m in
              let m := match env_xasprintf env with
                       | Some n => alloc n (BlockName (xasprintf_d "usb_snes" curnum)) m
                       | None => m
                       end in
              let m := set_term_name curnum (env_xasprintf env) m in
              let m := set_term_data curnum (Some p) m in
              match term_name curnum m with
              | None =>
                  m ← grub_free (Some p) m;
                  Some (0, m)
              | Some _ =>
                  let m := usb_request
                             (UsbSetDetachHook (dev_ptr dev) configno interfno) m in
                  let m := usb_request
                             (UsbBulkReadBackground (dev_ptr dev) (Some e) 8) m in
                  let d := set_transfer (env_bulk_read env) d in
                  let m := alloc p (BlockData d) m in
                  match transfer d with
                  | None =>
                      m ← grub_free (term_name curnum m) m;
                      m ← grub_free (Some p) m;
                      let m := set_term_data curnum None m in
                      Some (0, m)
                  | Some tr =>
                      let m := set_transfers ({[ tr ]} ∪ transfers m) m in
                      let m := grub_term_register_input_active curnum m in
                      Some (1, m)
                  end
              end
          end
      end.

(** Lines 401-405: the module's init function registers the attach
    hook. *)
Definition grub_mod_init (drv : driver grub_usb_snes_data) : driver grub_usb_snes_data :=
  {| attach_hook_registered := true; driver_machine := driver_machine drv |}.

(** Lines 407-427: the module's fini function releases every occupied
    entry and unregisters the attach hook. *)
Definition grub_mod_fini (drv : driver grub_usb_snes_data)
    : option (driver grub_usb_snes_data) :=
  m ← fini_slots transfer (seq 0 MAX_GAMEPADS) (driver_machine drv);
  Some {| attach_hook_registered := false; driver_machine := m |}.

End UsbSnes.

(** ** src/usb_snes_gamepad.c *)

Module UsbSnesGamepad.

Definition USB_HID_SET_IDLE : Z := 0x0A.
Definition USB_HID_SET_PROTOCOL : Z := 0x0B.
Definition GAMEPADS_CAPACITY : nat := 8.
Definition KEY_QUEUE_CAPACITY : Z := 32.
Definition USB_REPORT_SIZE : Z := 8.
Definition AXIS_CENTER : Z := 0x7F.
Definition AXIS_THRESHOLD : Z := 0x40.

Definition BTN_X : Z := Z.shiftl 1 0.
Definition BTN_A : Z := Z.shiftl 1 1.
Definition BTN_B : Z := Z.shiftl 1 2.
Definition BTN_Y : Z := Z.shiftl 1 3.
Definition BTN_L : Z := Z.shiftl 1 4.
Definition BTN_R : Z := Z.shiftl 1 5.
Definition BTN_SELECT : Z := Z.shiftl 1 6.
Definition BTN_START : Z := Z.shiftl 1 7.

Definition ACCEPT_ANY_HID : Z := 1.

(** [known_devices], end marker included; a [NULL] name is [None]. *)
Definition known_devices : list (Z * Z * option string) :=
  [ (0x0810, 0xe501, Some "Generic SNES (0810:e501)"%string);
    (0x0079, 0x0011, Some "DragonRise (0079:0011)"%string);
    (0x0583, 0x2060, Some "iBuffalo SNES (0583:2060)"%string);
    (0x2dc8, 0x9018, Some "8BitDo SN30 (2dc8:9018)"%string);
    (0x12bd, 0xd015, Some "Generic 2-pack (12bd:d015)"%string);
    (0x1a34, 0x0802, Some "USB Gamepad (1a34:0802)"%string);
    (0x0810, 0x0001, Some "Generic Gamepad (0810:0001)"%string);
    (0x0079, 0x0006, Some "DragonRise (0079:0006)"%string);
    (0x0000, 0x0000, None) ].

Definition baseline_report : list Z :=
  [0x7F; 0x7F; 0x7F; 0x7F; 0x00; 0x00; 0x00; 0x00].

Record grub_usb_snes_data := {
  usbdev : addr;
  configno : Z;
  interfno : Z;
  endp : option grub_usb_desc_endp;
  transfer : option transfer_handle;
  report : list Z;
  prev_report : list Z;
  key_queue : list Z;
  key_queue_begin : Z;
  key_queue_size : Z
}.

Definition set_transfer (t : option transfer_handle) (d : grub_usb_snes_data) :=
  {| usbdev := usbdev d; configno := configno d; interfno := interfno d;
     endp := endp d; transfer := t; report := report d;
     prev_report := prev_report d; key_queue := key_queue d;
     key_queue_begin := key_queue_begin d; key_queue_size := key_queue_size d |}.

Definition set_prev_report (r : list Z) (d : grub_usb_snes_data) :=
  {| usbdev := usbdev d; configno := configno d; interfno := interfno d;
     endp := endp d; transfer := transfer d; report := report d;
     prev_report := r; key_queue := key_queue d;
     key_queue_begin := key_queue_begin d; key_queue_size := key_queue_size d |}.

Definition set_queue (q : list Z) (b s : Z) (d : grub_usb_snes_data) :=
  {| usbdev := usbdev d; configno := configno d; interfno := interfno d;
     endp := endp d; transfer := transfer d; report := report d;
     prev_report := prev_report d; key_queue := q;
     key_queue_begin := b; key_queue_size := s |}.

(** Lines 426-433: the session as attach fills it in.  The block comes
    from [grub_malloc] as it is: the key queue holds [garbage], the two
    report buffers are overwritten whole. *)
Definition init_data (garbage : list Z) (dev : grub_usb_device) (configno interfno : Z)
    (e : grub_usb_desc_endp) : grub_usb_snes_data :=
  {| usbdev := dev_ptr dev;
     configno := configno;
     interfno := interfno;
     endp := Some e;
     transfer := None;
     report := replicate (Z.to_nat USB_REPORT_SIZE) 0;
     prev_report :=
       grub_memcpy (replicate (Z.to_nat USB_REPORT_SIZE) 0)
                   baseline_report (Z.to_nat USB_REPORT_SIZE);
     key_queue := garbage;
     key_queue_begin := 0;
     key_queue_size := 0 |}.

(** The session with other report buffers. *)
Definition set_reports (prev curr : list Z) (d : grub_usb_snes_data) :=
  {| usbdev := usbdev d; configno := configno d; interfno := interfno d;
     endp := endp d; transfer := transfer d; report := curr;
     prev_report := prev; key_queue := key_queue d;
     key_queue_begin := key_queue_begin d; key_queue_size := key_queue_size d |}.

(** The reads attach and [getkey] start have [data->report] as their buffer
    and 8 as their size: the host controller writes at most 8 bytes, at the
    start of that buffer. *)
Definition usb_deliver (bytes : list Z) (d : grub_usb_snes_data) : grub_usb_snes_data :=
  set_reports (prev_report d)
    (grub_memcpy (report d) (take 8 bytes) (length (take 8 bytes))) d.

(** The keys a queue holds, oldest first. *)
Definition queue_contents (d : grub_usb_snes_data) : list Z :=
  map (fun i : nat =>
         array_get (key_queue d)
                   (Z.rem (key_queue_begin d + Z.of_nat i) KEY_QUEUE_CAPACITY))
      (seq 0 (Z.to_nat (key_queue_size d))).

(** The states the queue functions keep the queue in. *)
Definition queue_wf (d : grub_usb_snes_data) : Prop :=
  length (key_queue d) = 32%nat /\
  0 <= key_queue_begin d < KEY_QUEUE_CAPACITY /\
  0 <= key_queue_size d <= KEY_QUEUE_CAPACITY.

(** Lines 181-191: the scan stops at the entry whose [name] is [NULL]. *)
Fixpoint get_device_name_from (tbl : list (Z * Z * option string)) (vid pid : Z)
    : option string :=
  match tbl with
  | [] => None
  | (v, p, None) :: _ => None
  | (v, p, Some n) :: tbl' =>
      if (v =? vid) && (p =? pid) then Some n
      else get_device_name_from tbl' vid pid
  end.

Definition get_device_name (vid pid : Z) : option string :=
  get_device_name_from known_devices vid pid.

Section WithKeys.
Context {K : grub_term_keys}.

(** Lines 101-112: the key table. *)
Definition key_up : Z := GRUB_TERM_KEY_UP.
Definition key_down : Z := GRUB_TERM_KEY_DOWN.
Definition key_left : Z := GRUB_TERM_KEY_LEFT.
Definition key_right : Z := GRUB_TERM_KEY_RIGHT.
Definition key_a : Z := 13.
Definition key_b : Z := GRUB_TERM_ESC.
Definition key_start : Z := 13.
Definition key_select : Z := 101.
Definition key_x : Z := 99.
Definition key_y : Z := GRUB_TERM_ESC.
Definition key_l : Z := GRUB_TERM_KEY_PPAGE.
Definition key_r : Z := GRUB_TERM_KEY_NPAGE.

(** Lines 146-164.  The key is written at the tail position first; on a
    full queue that position is the head, which then moves on. *)
Definition key_queue_push (data : grub_usb_snes_data) (key : Z) : grub_usb_snes_data :=
  if key =? GRUB_TERM_NO_KEY then data
  else
    let pos := Z.rem (key_queue_begin data + key_queue_size data) KEY_QUEUE_CAPACITY in
    let q := array_set (key_queue data) pos key in
    if key_queue_size data <? KEY_QUEUE_CAPACITY then
      set_queue q (key_queue_begin data) (key_queue_size data + 1) data
    else
      set_queue q (Z.rem (key_queue_begin data + 1) KEY_QUEUE_CAPACITY)
                (key_queue_size data) data.

(** Lines 166-176. *)
Definition key_queue_pop (data : grub_usb_snes_data) : Z * grub_usb_snes_data :=
  if key_queue_size data <=? 0 then (GRUB_TERM_NO_KEY, data)
  else
    let key := array_get (key_queue data) (key_queue_begin data) in
    (key,
     set_queue (key_queue data)
               (Z.rem (key_queue_begin data + 1) KEY_QUEUE_CAPACITY)
               (key_queue_size data - 1)
               data).

(** The macro of line 228. *)
Definition BTN_PRESSED (p c m : Z) : bool :=
  c_not (Z.land p m) && c_true (Z.land c m).

(** Lines 196-248. *)
Definition process_report (data : grub_usb_snes_data) : grub_usb_snes_data :=
  let prev := prev_report data in
  let curr := report data in
  let prev_left  := array_get prev 0 <? AXIS_CENTER - AXIS_THRESHOLD in
  let prev_right := array_get prev 0 >? AXIS_CENTER + AXIS_THRESHOLD in
  let curr_left  := array_get curr 0 <? AXIS_CENTER - AXIS_THRESHOLD in
  let curr_right := array_get curr 0 >? AXIS_CENTER + AXIS_THRESHOLD in
  let prev_up   := array_get prev 1 <? AXIS_CENTER - AXIS_THRESHOLD in
  let prev_down := array_get prev 1 >? AXIS_CENTER + AXIS_THRESHOLD in
  let curr_up   := array_get curr 1 <? AXIS_CENTER - AXIS_THRESHOLD in
  let curr_down := array_get curr 1 >? AXIS_CENTER + AXIS_THRESHOLD in
  let data := if negb prev_up && curr_up then key_queue_push data key_up else data in
  let data := if negb prev_down && curr_down then key_queue_push data key_down else data in
  let data := if negb prev_left && curr_left then key_queue_push data key_left else data in
  let data := if negb prev_right && curr_right then key_queue_push data key_right else data in
  let prev_btns := array_get prev 4 in
  let curr_btns := array_get curr 4 in
  let data := if BTN_PRESSED prev_btns curr_btns BTN_A
              then key_queue_push data key_a else data in
  let data := if BTN_PRESSED prev_btns curr_btns BTN_B
              then key_queue_push data key_b else data in
  let data := if BTN_PRESSED prev_btns curr_btns BTN_X
              then key_queue_push data key_x else data in
  let data := if BTN_PRESSED prev_btns curr_btns BTN_Y
              then key_queue_push data key_y else data in
  let data := if BTN_PRESSED prev_btns curr_btns BTN_START
              then key_queue_push data key_start else data in
  let data := if BTN_PRESSED prev_btns curr_btns BTN_SELECT
              then key_queue_push data key_select else data in
  let data := if BTN_PRESSED prev_btns curr_btns BTN_L
              then key_queue_push data key_l else data in
  let data := if BTN_PRESSED prev_btns curr_btns BTN_R
              then key_queue_push data key_r else data in
  data.

(** The keys [process_report] hands to [key_queue_push], in the order of
    the calls, as a function of the two reports (the codec of the
    specification, [deriveEvents]).  Lemma [process_report_pushes] shows that
    [process_report] pushes exactly this list. *)
Definition deriveEvents (prev curr : list Z) : list Z :=
  let prev_left  := array_get prev 0 <? AXIS_CENTER - AXIS_THRESHOLD in
  let prev_right := array_get prev 0 >? AXIS_CENTER + AXIS_THRESHOLD in
  let curr_left  := array_get curr 0 <? AXIS_CENTER - AXIS_THRESHOLD in
  let curr_right := array_get curr 0 >? AXIS_CENTER + AXIS_THRESHOLD in
  let prev_up   := array_get prev 1 <? AXIS_CENTER - AXIS_THRESHOLD in
  let prev_down := array_get prev 1 >? AXIS_CENTER + AXIS_THRESHOLD in
  let curr_up   := array_get curr 1 <? AXIS_CENTER - AXIS_THRESHOLD in
  let curr_down := array_get curr 1 >? AXIS_CENTER + AXIS_THRESHOLD in
  let prev_btns := array_get prev 4 in
  let curr_btns := array_get curr 4 in
  (if negb prev_up && curr_up then [key_up] else [])
  ++ (if negb prev_down && curr_down then [key_down] else [])
  ++ (if negb prev_left && curr_left then [key_left] else [])
  ++ (if negb prev_right && curr_right then [key_right] else [])
  ++ (if BTN_PRESSED prev_btns curr_btns BTN_A then [key_a] else [])
  ++ (if BTN_PRESSED prev_btns curr_btns BTN_B then [key_b] else [])
  ++ (if BTN_PRESSED prev_btns curr_btns BTN_X then [key_x] else [])
  ++ (if BTN_PRESSED prev_btns curr_btns BTN_Y then [key_y] else [])
  ++ (if BTN_PRESSED prev_btns curr_btns BTN_START then [key_start] else [])
  ++ (if BTN_PRESSED prev_btns curr_btns BTN_SELECT then [key_select] else [])
  ++ (if BTN_PRESSED prev_btns curr_btns BTN_L then [key_l] else [])
  ++ (if BTN_PRESSED prev_btns curr_btns BTN_R then [key_r] else []).

(** Pushing a sequence of keys, first to last. *)
Definition push_all (data : grub_usb_snes_data) (keys : list Z) : grub_usb_snes_data :=
  fold_left key_queue_push keys data.

(** [n] calls of [key_queue_pop]: the keys returned and the session left. *)
Fixpoint pop_n (n : nat) (data : grub_usb_snes_data) : list Z * grub_usb_snes_data :=
  match n with
  | O => ([], data)
  | S n' =>
      let '(key, data) := key_queue_pop data in
      let '(keys, data) := pop_n n' data in
      (key :: keys, data)
  end.

(** Lines 254-291.  There is no [dead] flag: a failed restart leaves a
    [NULL] handle in [transfer] and the key at the head of the queue is
    returned all the same. *)
Definition grub_usb_snes_getkey (env : usb_reply) (data : grub_usb_snes_data)
    : Z * grub_usb_snes_data * list usb_call :=
  let err := reply_err env in
  let actual := reply_actual env in
  let calls := [UsbCheckTransfer (transfer data)] in
  if negb (bool_decide (err = GRUB_USB_ERR_WAIT)) then
    let data :=
      if bool_decide (err = GRUB_USB_ERR_NONE) && (actual =? USB_REPORT_SIZE)
      then process_report data else data in
    let data :=
      set_prev_report
        (grub_memcpy (prev_report data) (report data) (Z.to_nat USB_REPORT_SIZE))
        data in
    let calls := calls ++ [UsbBulkReadBackground (usbdev data) (endp data) 8] in
    let data := set_transfer (reply_transfer env) data in
    let '(key, data) := key_queue_pop data in (key, data, calls)
  else
    let '(key, data) := key_queue_pop data in (key, data, calls).

(** A run of polls during which no report arrives, one reply of the USB
    stack per poll: the keys returned, the session at the end and all the
    calls made.  The report buffer stays as the run finds it, so these are
    the runs between two deliveries; [polls_io] has the others. *)
Fixpoint polls (envs : list usb_reply) (data : grub_usb_snes_data)
    : list Z * grub_usb_snes_data * list usb_call :=
  match envs with
  | [] => ([], data, [])
  | env :: envs' =>
      let '(key, data, calls) := grub_usb_snes_getkey env data in
      let '(keys, data, calls') := polls envs' data in
      (key :: keys, data, calls ++ calls')
  end.

(** A run of polls with the host controller writing into the report buffer:
    before each poll the bytes of [io_bytes] are delivered, then the poll
    runs with the replies of [io_reply]. *)
Fixpoint polls_io (ios : list usb_io) (data : grub_usb_snes_data)
    : list Z * grub_usb_snes_data * list usb_call :=
  match ios with
  | [] => ([], data, [])
  | io :: ios' =>
      let '(key, data, calls) :=
        grub_usb_snes_getkey (io_reply io) (usb_deliver (io_bytes io) data) in
      let '(keys, data, calls') := polls_io ios' data in
      (key :: keys, data, calls ++ calls')
  end.

End WithKeys.

(** Lines 306-340. *)
Definition grub_usb_snes_detach (dev : addr) (m : machine grub_usb_snes_data)
    : option (machine grub_usb_snes_data) :=
  detach_slots usbdev transfer dev (seq 0 GAMEPADS_CAPACITY) m.

(** Lines 346-520.  The debug prints are left out, and so is the reset of
    [grub_errno].  The model has no console: the message [grub_printf]
    writes at line 517 on success, with [device_name] and the entry's index,
    is not modelled, so [device_name] has no further use here.  [transfer]
    is not initialised before the read is started; nothing reads it
    before. *)
Definition grub_usb_snes_attach (env : attach_env) (dev : grub_usb_device)
    (configno interfno : Z) (m : machine grub_usb_snes_data)
    : option (Z * machine grub_usb_snes_data) :=
  let device_name := get_device_name (descdev_vendorid dev) (descdev_prodid dev) in
  let interf := config_interf dev configno interfno in
  match
    (if c_true ACCEPT_ANY_HID then
       if descif_protocol interf =? 0x01 then None
       else Some (default "Generic HID Gamepad"%string device_name)
     else device_name)
  with
  | None => Some (0, m)
  | Some device_name =>
    let curnum := find_free_slot (terms m) in
    if bool_decide (GAMEPADS_CAPACITY <= curnum)%nat then Some (0, m)
    else
      match find_interrupt_in (descendp interf) with
      | None => Some (0, m)
      | Some e =>
          match env_malloc env with
          | None => Some (0, m)
          | Some p =>
              let d := init_data (env_garbage env) dev configno interfno e in
              let m := alloc p (BlockData d) m in
              let m := usb_request (UsbSetConfiguration (dev_ptr dev) (configno + 1)) m in
              let m := usb_request
                         (UsbControlMsg (dev_ptr dev) USB_HID_SET_PROTOCOL 0 interfno) m in
              let m := usb_request
                         (UsbControlMsg (dev_ptr dev) USB_HID_SET_IDLE 0 interfno) m in
              let m := match env_xasprintf env with
                       | Some n => alloc n (BlockName (xasprintf_d "snes_gamepad" curnum)) m
                       | None => m
                       end in
              let m := set_term_name curnum (env_xasprintf env) m in
              match term_name curnum m with
              | None =>
                  m ← grub_free (Some p) m;
                  Some (0, m)
              | Some _ =>
                  let m := set_term_data curnum (Some p) m in
                  let m := usb_request
                             (UsbSetDetachHook (dev_ptr dev) configno interfno) m in
                  let m := usb_request
                             (UsbBulkReadBackground (dev_ptr dev) (Some e) 8) m in
                  let d := set_transfer (env_bulk_read env) d in
                  let m := alloc p (BlockData d) m in
                  match transfer d with
                  | None =>
                      m ← grub_free (term_name curnum m) m;
                      let m := set_term_name curnum None m in
                      m ← grub_free (Some p) m;
                      Some (0, m)
                  | Some tr =>
                      let m := set_transfers ({[ tr ]} ∪ transfers m) m in
                      let m := grub_term_register_input_active curnum m in
                      Some (1, m)
                  end
              end
          end
      end
  end.

(** Lines 533-538: the module's init function registers the attach
    hook. *)
Definition grub_mod_init (drv : driver grub_usb_snes_data) : driver grub_usb_snes_data :=
  {| attach_hook_registered := true; driver_machine := driver_machine drv |}.

(** Lines 543-569: the module's fini function releases every occupied
    entry and unregisters the attach hook. *)
Definition grub_mod_fini (drv : driver grub_usb_snes_data)
    : option (driver grub_usb_snes_data) :=
  m ← fini_slots transfer (seq 0 GAMEPADS_CAPACITY) (driver_machine drv);
  Some {| attach_hook_registered := false; driver_machine := m |}.

End UsbSnesGamepad.

(** ** The codec as the specification words it

    Section 4.1 of the specification describes the codec by an axis
    classification, a rising-edge rule and a static button table.  These
    definitions follow its words, to be compared with the two
    implementations. *)

Module Spec.

Inductive axis_class := Low | Neutral | High.

#[global] Instance axis_class_eq_dec : EqDecision axis_class.
Proof. solve_decision. Defined.

(** [center = 0x7F], [threshold = 0x40]: low below [0x3F], high above
    [0xBF]. *)
Definition classify (v : Z) : axis_class :=
  if v <? 0x3F then Low else if 0xBF <? v then High else Neutral.

(** Byte 4 of a report, from the least significant bit: X, A, B, Y, L, R,
    Select, Start. *)
Inductive button := X | A | B | Y | L | R | Select | Start.

Definition button_bit (b : button) : Z :=
  match b with
  | X => 0 | A => 1 | B => 2 | Y => 3 | L => 4 | R => 5 | Select => 6 | Start => 7
  end.

Definition pressed (b : button) (r : list Z) : bool :=
  Z.testbit (array_get r 4) (button_bit b).

(** A signal rises when it is false in the previous report and true in the
    current one. *)
Definition rising (b : button) (prev curr : list Z) : bool :=
  negb (pressed b prev) && pressed b curr.

Definition edge (was now : bool) (key : Z) : list Z :=
  if negb was && now then [key] else [].

Section WithKeys.
Context {K : grub_term_keys}.

(** Up, Down, Left, Right, in this order: byte 1 low is Up and high is Down,
    byte 0 low is Left and high is Right. *)
Definition direction_events (prev curr : list Z) : list Z :=
  edge (bool_decide (classify (array_get prev 1) = Low))
       (bool_decide (classify (array_get curr 1) = Low)) GRUB_TERM_KEY_UP
  ++ edge (bool_decide (classify (array_get prev 1) = High))
          (bool_decide (classify (array_get curr 1) = High)) GRUB_TERM_KEY_DOWN
  ++ edge (bool_decide (classify (array_get prev 0) = Low))
          (bool_decide (classify (array_get curr 0) = Low)) GRUB_TERM_KEY_LEFT
  ++ edge (bool_decide (classify (array_get prev 0) = High))
          (bool_decide (classify (array_get curr 0) = High)) GRUB_TERM_KEY_RIGHT.

(** A button table is a list of rows, each a group of buttons and the key
    of the group; a row yields its key once when any of its buttons rises,
    and the rows are evaluated in order. *)
Definition button_events (table : list (list button * Z)) (prev curr : list Z) : list Z :=
  flat_map (fun row => if existsb (fun b => rising b prev curr) (fst row)
                       then [snd row] else [])
           table.

(** The table of section 4.1: A and B share a row. *)
Definition merged_table : list (list button * Z) :=
  [ ([A; B], 13); ([Start], 13); ([Select], GRUB_TERM_ESC); ([X], 101);
    ([Y], 99); ([L], GRUB_TERM_KEY_PPAGE); ([R], GRUB_TERM_KEY_NPAGE) ].

(** The other table the specification mentions: one row per button, B and Y
    on Escape, X on ['c'], Select on ['e']. *)
Definition split_table : list (list button * Z) :=
  [ ([A], 13); ([B], GRUB_TERM_ESC); ([X], 99); ([Y], GRUB_TERM_ESC);
    ([Start], 13); ([Select], 101); ([L], GRUB_TERM_KEY_PPAGE);
    ([R], GRUB_TERM_KEY_NPAGE) ].

Definition events (table : list (list button * Z)) (prev curr : list Z) : list Z :=
  direction_events prev curr ++ button_events table prev curr.

End WithKeys.

(** The neutral report sessions start from. *)
Definition baseline : list Z := [0x7F; 0x7F; 0x7F; 0x7F; 0; 0; 0; 0].

End Spec.

(** The shape of the USB traffic of a session on device [dev] and endpoint
    [e]: transfer checks, each followed by at most one start of an 8-byte
    read from [dev] and [e]; no read is started without a check just
    before, and no other request is made. *)
Fixpoint poll_traffic (dev : addr) (e : option grub_usb_desc_endp)
    (calls : list usb_call) : Prop :=
  match calls with
  | [] => True
  | UsbCheckTransfer _ :: rest =>
      match rest with
      | UsbBulkReadBackground dev' e' size :: rest' =>
          dev' = dev /\ e' = e /\ size = 8 /\ poll_traffic dev e rest'
      | _ => poll_traffic dev e rest
      end
  | _ => False
  end.

(** The last [n] elements of a list. *)
Definition keep_last {A : Type} (n : nat) (l : list A) : list A :=
  drop (length l - n) l.

(** ** Well-formed states and the contracts of attach and detach *)

(** The states of the slot table the drivers maintain: the table has its [n]
    entries; the [data] pointer of an occupied entry points to a live
    session and its [name] pointer, if not [NULL], to a live string; no two
    occupied entries share a block; and an entry is registered as an input
    exactly when it is occupied. *)
Record machine_wf {D : Type} (n : nat) (m : machine D) : Prop := {
  wf_length : length (terms m) = n;
  wf_data : forall i t p,
    terms m !! i = Some t -> data t = Some p ->
    exists d, heap m !! p = Some (BlockData d);
  wf_name : forall i t p nm,
    terms m !! i = Some t -> data t = Some p -> name t = Some nm ->
    exists s, heap m !! nm = Some (BlockName s);
  wf_data_inj : forall i j ti tj p,
    terms m !! i = Some ti -> terms m !! j = Some tj ->
    data ti = Some p -> data tj = Some p -> i = j;
  wf_name_inj : forall i j ti tj nm,
    terms m !! i = Some ti -> terms m !! j = Some tj ->
    is_Some (data ti) -> is_Some (data tj) ->
    name ti = Some nm -> name tj = Some nm -> i = j;
  wf_inputs : forall i,
    i ∈ term_inputs m <-> exists t, terms m !! i = Some t /\ is_Some (data t)
}.

(** The state detach leaves when entry [i], which holds [t] and points to a
    session with transfer handle [tr] at [p], is released. *)
Definition release {D : Type} (i : nat) (t : grub_term_input) (p : addr)
    (tr : option transfer_handle) (m : machine D) : machine D :=
  {| terms := <[i := {| name := None; data := None |}]> (terms m);
     heap := delete p (match name t with
                       | Some nm => delete nm (heap m)
                       | None => heap m
                       end);
     term_inputs := term_inputs m ∖ {[ i ]};
     transfers := match tr with
                  | Some x => transfers m ∖ {[ x ]}
                  | None => transfers m
                  end;
     usb_log := usb_log m |}.

(** Entry [i] holds a live session of device [dev]. *)
Definition slot_matches {D : Type} (dev_of : D -> addr) (dev : addr) (m : machine D)
    (i : nat) : Prop :=
  exists t p d,
    terms m !! i = Some t /\ data t = Some p
    /\ heap m !! p = Some (BlockData d) /\ dev_of d = dev.

(** What a run of the detach loop over the entries [slots] for device [dev]
    achieves, from [m] to [m']: the entries among [slots] that hold a session
    of [dev] are released (read cancelled, input unregistered, name and
    session freed, entry cleared), every other entry and its blocks are
    kept, and nothing else appears. *)
Record detached {D : Type} (dev_of : D -> addr) (transfer_of : D -> option transfer_handle)
    (n : nat) (dev : addr) (slots : list nat) (m m' : machine D) : Prop := {
  det_wf : machine_wf n m';
  det_log : usb_log m' = usb_log m;
  det_heap : heap m' ⊆ heap m;
  det_inputs : term_inputs m' ⊆ term_inputs m;
  det_transfers : transfers m' ⊆ transfers m;
  det_released : forall i t p d,
    i ∈ slots -> terms m !! i = Some t -> data t = Some p ->
    heap m !! p = Some (BlockData d) -> dev_of d = dev ->
    terms m' !! i = Some {| name := None; data := None |}
    /\ (i ∉ term_inputs m')
    /\ heap m' !! p = None
    /\ (forall nm, name t = Some nm -> heap m' !! nm = None)
    /\ (forall tr, transfer_of d = Some tr -> tr ∉ transfers m');
  det_kept : forall i t,
    terms m !! i = Some t -> i ∉ slots \/ ~ slot_matches dev_of dev m i ->
    terms m' !! i = Some t
    /\ (i ∈ term_inputs m' <-> i ∈ term_inputs m)
    /\ (forall q, data t = Some q -> heap m' !! q = heap m !! q)
    /\ (forall q nm, data t = Some q -> name t = Some nm ->
                     heap m' !! nm = heap m !! nm)
}.

(** What the specification asks of a detach function [detach] over a table
    of [n] entries: on every well-formed state it returns; every entry whose
    session belongs to [dev] has its read cancelled, its input unregistered,
    its name and session released and is marked free; every other entry, its
    blocks and its registration are untouched; when no entry matches, the
    state is unchanged; and detaching the same device again changes
    nothing. *)
Definition detach_contract {D : Type} (dev_of : D -> addr)
    (transfer_of : D -> option transfer_handle) (n : nat)
    (detach : addr -> machine D -> option (machine D)) : Prop :=
  forall (dev : addr) (m : machine D),
    machine_wf n m ->
    exists m',
      detach dev m = Some m'
      /\ machine_wf n m'
      /\ (forall i t p d,
            terms m !! i = Some t -> data t = Some p ->
            heap m !! p = Some (BlockData d) -> dev_of d = dev ->
            terms m' !! i = Some {| name := None; data := None |}
            /\ (i ∉ term_inputs m')
            /\ heap m' !! p = None
            /\ (forall nm, name t = Some nm -> heap m' !! nm = None)
            /\ (forall tr, transfer_of d = Some tr -> tr ∉ transfers m'))
      /\ (forall i t,
            terms m !! i = Some t -> ~ slot_matches dev_of dev m i ->
            terms m' !! i = Some t
            /\ (i ∈ term_inputs m' <-> i ∈ term_inputs m)
            /\ (forall q, data t = Some q -> heap m' !! q = heap m !! q)
            /\ (forall q nm, data t = Some q -> name t = Some nm ->
                             heap m' !! nm = heap m !! nm))
      /\ ((forall i, ~ slot_matches dev_of dev m i) -> m' = m)
      /\ detach dev m' = Some m'.

(** What unloading the module achieves, for a fini function [fini] over a
    table of [n] entries: on every well-formed state it returns and the
    attach hook is unregistered; every occupied entry has its read
    cancelled, its name and session released and is marked free; free
    entries are left as they are; no entry stays registered as an input;
    nothing is allocated and no request is sent; and running it again
    changes nothing. *)
Definition fini_contract {D : Type} (transfer_of : D -> option transfer_handle)
    (n : nat) (fini : driver D -> option (driver D)) : Prop :=
  forall drv : driver D,
    let m := driver_machine drv in
    machine_wf n m ->
    exists m',
      fini drv = Some {| attach_hook_registered := false; driver_machine := m' |}
      /\ machine_wf n m'
      /\ (forall i t p d,
            terms m !! i = Some t -> data t = Some p ->
            heap m !! p = Some (BlockData d) ->
            terms m' !! i = Some {| name := None; data := None |}
            /\ heap m' !! p = None
            /\ (forall nm, name t = Some nm -> heap m' !! nm = None)
            /\ (forall tr, transfer_of d = Some tr -> tr ∉ transfers m'))
      /\ (forall i t, terms m !! i = Some t -> data t = None -> terms m' !! i = Some t)
      /\ (forall i t, terms m' !! i = Some t -> data t = None)
      /\ (forall i, i ∉ term_inputs m')
      /\ heap m' ⊆ heap m
      /\ usb_log m' = usb_log m
      /\ fini {| attach_hook_registered := false; driver_machine := m' |}
         = Some {| attach_hook_registered := false; driver_machine := m' |}.

(** The state a successful attach leaves: entry [c] points to the new
    session [d] at [p] and to the name [s] at [nm], is registered as an
    input, and its first read [tr] is in flight. *)
Definition installed {D : Type} (c : nat) (p nm : addr) (d : D) (s : string)
    (tr : transfer_handle) (calls : list usb_call) (m : machine D) : machine D :=
  {| terms := <[c := {| name := Some nm; data := Some p |}]> (terms m);
     heap := <[p := BlockData d]> (<[nm := BlockName s]> (heap m));
     term_inputs := {[ c ]} ∪ term_inputs m;
     transfers := {[ tr ]} ∪ transfers m;
     usb_log := usb_log m ++ calls |}.

(** The requests of the attach sequence, in order. *)
Definition attach_calls (set_protocol set_idle : Z) (dev : grub_usb_device)
    (configno interfno : Z) (e : grub_usb_desc_endp) : list usb_call :=
  [ UsbSetConfiguration (dev_ptr dev) (configno + 1);
    UsbControlMsg (dev_ptr dev) set_protocol 0 interfno;
    UsbControlMsg (dev_ptr dev) set_idle 0 interfno;
    UsbSetDetachHook (dev_ptr dev) configno interfno;
    UsbBulkReadBackground (dev_ptr dev) (Some e) 8 ].

(** The allow list of [usb_snes.c]: the entries before the end marker. *)
Definition snes_allow_list : list (Z * Z) := take 9 UsbSnes.supported_devices.

(** ** Sample inputs

    For the concrete runs: a gamepad with one interrupt IN endpoint, a
    device with the same identifiers and a keyboard's protocol byte, and the
    sessions attach creates for the first, their first read (handle 3) in
    flight. *)
Definition sample_endp : grub_usb_desc_endp :=
  {| endp_addr := 0x81; ep_type := GRUB_USB_EP_INTERRUPT |}.

Definition sample_device : grub_usb_device :=
  {| dev_ptr := 7%positive; descdev_vendorid := 0x0810; descdev_prodid := 0xe501;
     config_interf := fun _ _ => {| descif_protocol := 0; descendp := [sample_endp] |} |}.

Definition sample_keyboard : grub_usb_device :=
  {| dev_ptr := 9%positive; descdev_vendorid := 0x0810; descdev_prodid := 0xe501;
     config_interf := fun _ _ => {| descif_protocol := 1; descendp := [sample_endp] |} |}.

Definition snes_session : UsbSnes.grub_usb_snes_data :=
  UsbSnes.set_transfer (Some 3%positive)
    (UsbSnes.init_data sample_device 0 sample_endp).

Definition gamepad_session : UsbSnesGamepad.grub_usb_snes_data :=
  UsbSnesGamepad.set_transfer (Some 3%positive)
    (UsbSnesGamepad.init_data (replicate 32 0) sample_device 0 0 sample_endp).

(** Forty keys, all different from [GRUB_TERM_NO_KEY], for the concrete
    runs. *)
Definition keys40 : list Z := map Z.of_nat (seq 1 40).

(** A report with the stick pushed left, and sample replies of the USB
    stack. *)
Definition left_report : list Z := [0; 0x7F; 0x7F; 0x7F; 0; 0; 0; 0].

Definition reply_stall : usb_reply :=
  {| reply_err := GRUB_USB_ERR_STALL; reply_actual := 0;
     reply_transfer := Some 5%positive |}.

Definition reply_short : usb_reply :=
  {| reply_err := GRUB_USB_ERR_NONE; reply_actual := 4;
     reply_transfer := Some 5%positive |}.

Definition reply_full_no_rearm : usb_reply :=
  {| reply_err := GRUB_USB_ERR_NONE; reply_actual := 8; reply_transfer := None |}.

Definition reply_wait : usb_reply :=
  {| reply_err := GRUB_USB_ERR_WAIT; reply_actual := 0; reply_transfer := None |}.

Definition reply_full : usb_reply :=
  {| reply_err := GRUB_USB_ERR_NONE; reply_actual := 8;
     reply_transfer := Some 5%positive |}.

(** Two polls with the host controller at work: a report with the stick
    pushed left has arrived and the read is restarted; nothing has arrived
    and the read is pending. *)
Definition io_left : usb_io := {| io_bytes := left_report; io_reply := reply_full |}.

Definition io_wait : usb_io := {| io_bytes := []; io_reply := reply_wait |}.

(** Sample answers of the allocator and the USB stack during attach, and
    the state after one successful attach of the sample device. *)
Definition env_ok : attach_env :=
  {| env_malloc := Some 1%positive; env_garbage := replicate 32 0;
     env_xasprintf := Some 2%positive; env_bulk_read := Some 5%positive |}.

Definition env_read_fails : attach_env :=
  {| env_malloc := Some 1%positive; env_garbage := replicate 32 0;
     env_xasprintf := Some 2%positive; env_bulk_read := None |}.

Definition env_name_fails : attach_env :=
  {| env_malloc := Some 1%positive; env_garbage := replicate 32 0;
     env_xasprintf := None; env_bulk_read := Some 5%positive |}.

Definition snes_machine : machine UsbSnes.grub_usb_snes_data :=
  installed 0 1%positive 2%positive
    (UsbSnes.set_transfer (Some 5%positive) snes_session)
    (xasprintf_d "usb_snes" 0) 5%positive
    (attach_calls UsbSnes.USB_HID_SET_PROTOCOL UsbSnes.USB_HID_SET_IDLE
                  sample_device 0 0 sample_endp)
    (boot_machine UsbSnes.grub_usb_snes_data 8).


(** * Properties *)

(** ** Bytes, bits and arrays *)

Lemma land_pow2_testbit (p k : Z) :
  0 <= k -> c_true (Z.land p (2 ^ k)) = Z.testbit p k.
Proof.
  intros Hk. unfold c_true.
  destruct (Z.testbit p k) eqn:E.
  - destruct (Z.eqb_spec (Z.land p (2 ^ k)) 0) as [H0|]; [|reflexivity].
    assert (Hb : Z.testbit (Z.land p (2 ^ k)) k = true).
    { rewrite Z.land_spec, E, Z.pow2_bits_true by assumption. reflexivity. }
    rewrite H0, Z.bits_0 in Hb. discriminate.
  - assert (H0 : Z.land p (2 ^ k) = 0).
    { apply Z.bits_inj'. intros n Hn.
      rewrite Z.land_spec, Z.bits_0, Z.pow2_bits_eqb by assumption.
      destruct (Z.eqb_spec k n) as [->|]; [rewrite E|]; apply andb_false_r || reflexivity. }
    rewrite H0. reflexivity.
Qed.

Lemma c_not_land_pow2 (p k : Z) :
  0 <= k -> c_not (Z.land p (2 ^ k)) = negb (Z.testbit p k).
Proof.
  intros Hk. rewrite <- (land_pow2_testbit p k Hk).
  unfold c_not, c_true. rewrite negb_involutive. reflexivity.
Qed.

(** The mask test of the C code is the rising edge of the button's bit. *)
Lemma mask_edge_rising (b : Spec.button) (prev curr : list Z) :
  c_not (Z.land (array_get prev 4) (2 ^ Spec.button_bit b))
  && c_true (Z.land (array_get curr 4) (2 ^ Spec.button_bit b))
  = Spec.rising b prev curr.
Proof.
  assert (0 <= Spec.button_bit b) by (destruct b; cbn; lia).
  rewrite c_not_land_pow2, land_pow2_testbit by assumption. reflexivity.
Qed.

Lemma classify_low (v : Z) : bool_decide (Spec.classify v = Spec.Low) = (v <? 0x3F).
Proof.
  unfold Spec.classify.
  destruct (v <? 0x3F); [reflexivity|]. destruct (0xBF <? v); reflexivity.
Qed.

Lemma classify_high (v : Z) : bool_decide (Spec.classify v = Spec.High) = (v >? 0xBF).
Proof.
  unfold Spec.classify. rewrite Z.gtb_ltb.
  destruct (Z.ltb_spec v 0x3F), (Z.ltb_spec 0xBF v); try reflexivity; lia.
Qed.

Lemma edge_if (was now : bool) (key : Z) :
  Spec.edge was now key = if negb was && now then [key] else [].
Proof. reflexivity. Qed.

(** ** The report codec *)

Section Codec.
Context {K : grub_term_keys}.

Lemma snes_push_if (c : bool) (k : Z) (d : UsbSnes.grub_usb_snes_data) :
  fold_left UsbSnes.key_queue_push (if c then [k] else []) d
  = if c then UsbSnes.key_queue_push d k else d.
Proof. destruct c; reflexivity. Qed.

(** [parse_snes_report] pushes the keys of [deriveEvents], in order, and
    does nothing else. *)
Lemma parse_snes_report_pushes (d : UsbSnes.grub_usb_snes_data) :
  UsbSnes.parse_snes_report d
  = UsbSnes.push_all d (UsbSnes.deriveEvents (UsbSnes.prev_report d) (UsbSnes.report d)).
Proof.
  unfold UsbSnes.parse_snes_report, UsbSnes.deriveEvents, UsbSnes.push_all.
  cbv zeta. rewrite !fold_left_app, !snes_push_if. reflexivity.
Qed.

Lemma gamepad_push_if (c : bool) (k : Z) (d : UsbSnesGamepad.grub_usb_snes_data) :
  fold_left UsbSnesGamepad.key_queue_push (if c then [k] else []) d
  = if c then UsbSnesGamepad.key_queue_push d k else d.
Proof. destruct c; reflexivity. Qed.

(** [process_report] pushes the keys of [deriveEvents], in order, and does
    nothing else. *)
Lemma process_report_pushes (d : UsbSnesGamepad.grub_usb_snes_data) :
  UsbSnesGamepad.process_report d
  = UsbSnesGamepad.push_all d
      (UsbSnesGamepad.deriveEvents (UsbSnesGamepad.prev_report d)
                                   (UsbSnesGamepad.report d)).
Proof.
  unfold UsbSnesGamepad.process_report, UsbSnesGamepad.deriveEvents,
    UsbSnesGamepad.push_all.
  cbv zeta. rewrite !fold_left_app, !gamepad_push_if. reflexivity.
Qed.

(** The codec of [usb_snes.c] is the specification's, with the merged
    table. *)
Lemma snes_deriveEvents_spec (prev curr : list Z) :
  UsbSnes.deriveEvents prev curr = Spec.events Spec.merged_table prev curr.
Proof.
  unfold UsbSnes.deriveEvents, Spec.events, Spec.direction_events,
    Spec.button_events, Spec.merged_table.
  cbv zeta. cbn [flat_map existsb fst snd app].
  rewrite !edge_if, !classify_low, !classify_high, !orb_false_r.
  rewrite <- !mask_edge_rising.
  change (UsbSnes.AXIS_CENTER - UsbSnes.AXIS_THRESHOLD) with 0x3F.
  change (UsbSnes.AXIS_CENTER + UsbSnes.AXIS_THRESHOLD) with 0xBF.
  cbn [Spec.button_bit].
  change (2 ^ 0) with 0x01. change (2 ^ 1) with 0x02. change (2 ^ 2) with 0x04.
  change (2 ^ 3) with 0x08. change (2 ^ 4) with 0x10. change (2 ^ 5) with 0x20.
  change (2 ^ 6) with 0x40. change (2 ^ 7) with 0x80.
  rewrite <- !app_assoc, ?app_nil_r. reflexivity.
Qed.

(** The codec of [usb_snes_gamepad.c] is the specification's, with the
    split table. *)
Lemma gamepad_deriveEvents_spec (prev curr : list Z) :
  UsbSnesGamepad.deriveEvents prev curr = Spec.events Spec.split_table prev curr.
Proof.
  unfold UsbSnesGamepad.deriveEvents, Spec.events, Spec.direction_events,
    Spec.button_events, Spec.split_table, UsbSnesGamepad.BTN_PRESSED.
  cbv zeta. cbn [flat_map existsb fst snd app].
  rewrite !edge_if, !classify_low, !classify_high, !orb_false_r.
  rewrite <- !mask_edge_rising.
  change (UsbSnesGamepad.AXIS_CENTER - UsbSnesGamepad.AXIS_THRESHOLD) with 0x3F.
  change (UsbSnesGamepad.AXIS_CENTER + UsbSnesGamepad.AXIS_THRESHOLD) with 0xBF.
  cbn [Spec.button_bit].
  change (2 ^ 0) with UsbSnesGamepad.BTN_X. change (2 ^ 1) with UsbSnesGamepad.BTN_A.
  change (2 ^ 2) with UsbSnesGamepad.BTN_B. change (2 ^ 3) with UsbSnesGamepad.BTN_Y.
  change (2 ^ 4) with UsbSnesGamepad.BTN_L. change (2 ^ 5) with UsbSnesGamepad.BTN_R.
  change (2 ^ 6) with UsbSnesGamepad.BTN_SELECT.
  change (2 ^ 7) with UsbSnesGamepad.BTN_START.
  rewrite <- !app_assoc, ?app_nil_r. reflexivity.
Qed.

End Codec.

Section CodecClaims.
Context {K : grub_term_keys}.

Lemma button_events_same_byte (table : list (list Spec.button * Z)) (prev curr : list Z) :
  array_get prev 4 = array_get curr 4 ->
  Spec.button_events table prev curr = [].
Proof.
  intros E. unfold Spec.button_events.
  induction table as [|[bs k] table IH]; [reflexivity|].
  cbn [flat_map fst snd]. rewrite IH, app_nil_r.
  assert (Hbs : existsb (fun b => Spec.rising b prev curr) bs = false).
  { induction bs as [|b bs IHbs]; [reflexivity|].
    cbn [existsb]. rewrite IHbs, orb_false_r.
    unfold Spec.rising, Spec.pressed. rewrite E. apply andb_negb_l. }
  rewrite Hbs. reflexivity.
Qed.

Lemma spec_events_same (table : list (list Spec.button * Z)) (R : list Z) :
  Spec.events table R R = [].
Proof.
  unfold Spec.events. rewrite button_events_same_byte by reflexivity.
  unfold Spec.direction_events, Spec.edge. rewrite !andb_negb_l. reflexivity.
Qed.

Lemma snes_push_set_reports (p c : list Z) (d : UsbSnes.grub_usb_snes_data) (keys : list Z) :
  UsbSnes.push_all (UsbSnes.set_reports p c d) keys
  = UsbSnes.set_reports p c (UsbSnes.push_all d keys).
Proof.
  unfold UsbSnes.push_all. revert d.
  induction keys as [|k keys IH]; intros d; [reflexivity|].
  cbn [fold_left]. rewrite <- IH. f_equal.
  unfold UsbSnes.key_queue_push. cbn.
  destruct ((UsbSnes.key_queue_count d >=? 32) || (k =? GRUB_TERM_NO_KEY)); reflexivity.
Qed.

Lemma gamepad_push_set_reports (p c : list Z) (d : UsbSnesGamepad.grub_usb_snes_data)
    (keys : list Z) :
  UsbSnesGamepad.push_all (UsbSnesGamepad.set_reports p c d) keys
  = UsbSnesGamepad.set_reports p c (UsbSnesGamepad.push_all d keys).
Proof.
  unfold UsbSnesGamepad.push_all. revert d.
  induction keys as [|k keys IH]; intros d; [reflexivity|].
  cbn [fold_left]. rewrite <- IH. f_equal.
  unfold UsbSnesGamepad.key_queue_push. cbn.
  destruct (k =? GRUB_TERM_NO_KEY); [reflexivity|].
  destruct (UsbSnesGamepad.key_queue_size d <? UsbSnesGamepad.KEY_QUEUE_CAPACITY);
    reflexivity.
Qed.

(** C5: the codec applied to two identical reports emits no key: in both
    files [deriveEvents R R] is empty for every report [R], and a session
    whose previous and current buffers are equal is left as it is by
    [parse_snes_report] and by [process_report]. *)
Theorem identical_reports_no_events :
  (forall R : list Z, UsbSnes.deriveEvents R R = [])
  /\ (forall R : list Z, UsbSnesGamepad.deriveEvents R R = [])
  /\ (forall d, UsbSnes.prev_report d = UsbSnes.report d ->
                UsbSnes.parse_snes_report d = d)
  /\ (forall d, UsbSnesGamepad.prev_report d = UsbSnesGamepad.report d ->
                UsbSnesGamepad.process_report d = d).
Proof.
  repeat split.
  - intros R. rewrite snes_deriveEvents_spec. apply spec_events_same.
  - intros R. rewrite gamepad_deriveEvents_spec. apply spec_events_same.
  - intros d E. rewrite parse_snes_report_pushes, E, snes_deriveEvents_spec,
      spec_events_same. reflexivity.
  - intros d E. rewrite process_report_pushes, E, gamepad_deriveEvents_spec,
      spec_events_same. reflexivity.
Qed.

Lemma direction_events_x (v : Z) (tl : list Z) :
  Spec.direction_events (0x7F :: tl) (v :: tl)
  = match Spec.classify v with
    | Spec.Low => [GRUB_TERM_KEY_LEFT]
    | Spec.High => [GRUB_TERM_KEY_RIGHT]
    | Spec.Neutral => []
    end.
Proof.
  unfold Spec.direction_events.
  change (array_get (0x7F :: tl) 1) with (array_get (v :: tl) 1).
  change (array_get (0x7F :: tl) 0) with 0x7F.
  change (array_get (v :: tl) 0) with v.
  unfold Spec.edge. rewrite !andb_negb_l.
  destruct (Spec.classify v); reflexivity.
Qed.

Lemma direction_events_y (x v : Z) (tl : list Z) :
  Spec.direction_events (x :: 0x7F :: tl) (x :: v :: tl)
  = match Spec.classify v with
    | Spec.Low => [GRUB_TERM_KEY_UP]
    | Spec.High => [GRUB_TERM_KEY_DOWN]
    | Spec.Neutral => []
    end.
Proof.
  unfold Spec.direction_events.
  change (array_get (x :: 0x7F :: tl) 0) with x.
  change (array_get (x :: v :: tl) 0) with x.
  change (array_get (x :: 0x7F :: tl) 1) with 0x7F.
  change (array_get (x :: v :: tl) 1) with v.
  unfold Spec.edge. rewrite !andb_negb_l, !app_nil_r.
  destruct (Spec.classify v); reflexivity.
Qed.

Lemma edge_same (b : bool) (k : Z) : Spec.edge b b k = [].
Proof. unfold Spec.edge. rewrite andb_negb_l. reflexivity. Qed.

Lemma direction_events_x_from (p v : Z) (tl : list Z) :
  Spec.direction_events (p :: tl) (v :: tl)
  = Spec.edge (bool_decide (Spec.classify p = Spec.Low))
              (bool_decide (Spec.classify v = Spec.Low)) GRUB_TERM_KEY_LEFT
    ++ Spec.edge (bool_decide (Spec.classify p = Spec.High))
                 (bool_decide (Spec.classify v = Spec.High)) GRUB_TERM_KEY_RIGHT.
Proof.
  unfold Spec.direction_events.
  change (array_get (p :: tl) 1) with (array_get (v :: tl) 1).
  change (array_get (p :: tl) 0) with p.
  change (array_get (v :: tl) 0) with v.
  rewrite !edge_same. reflexivity.
Qed.

Lemma direction_events_y_from (x p v : Z) (tl : list Z) :
  Spec.direction_events (x :: p :: tl) (x :: v :: tl)
  = Spec.edge (bool_decide (Spec.classify p = Spec.Low))
              (bool_decide (Spec.classify v = Spec.Low)) GRUB_TERM_KEY_UP
    ++ Spec.edge (bool_decide (Spec.classify p = Spec.High))
                 (bool_decide (Spec.classify v = Spec.High)) GRUB_TERM_KEY_DOWN.
Proof.
  unfold Spec.direction_events.
  change (array_get (x :: p :: tl) 0) with x.
  change (array_get (x :: v :: tl) 0) with x.
  change (array_get (x :: p :: tl) 1) with p.
  change (array_get (x :: v :: tl) 1) with v.
  rewrite !edge_same, !app_nil_r. reflexivity.
Qed.

(** What the two codecs push when the two reports differ in one axis byte
    only: the keys of the direction edges, whatever byte 4 holds. *)
Lemma snes_parse_pushes_directions (prev curr : list Z) (d : UsbSnes.grub_usb_snes_data) :
  array_get prev 4 = array_get curr 4 ->
  UsbSnes.parse_snes_report (UsbSnes.set_reports prev curr d)
  = UsbSnes.push_all (UsbSnes.set_reports prev curr d)
      (Spec.direction_events prev curr).
Proof.
  intros E. rewrite parse_snes_report_pushes.
  cbn [UsbSnes.prev_report UsbSnes.report UsbSnes.set_reports].
  rewrite snes_deriveEvents_spec. unfold Spec.events.
  rewrite button_events_same_byte, app_nil_r by assumption. reflexivity.
Qed.

Lemma gamepad_process_pushes_directions (prev curr : list Z)
    (d : UsbSnesGamepad.grub_usb_snes_data) :
  array_get prev 4 = array_get curr 4 ->
  UsbSnesGamepad.process_report (UsbSnesGamepad.set_reports prev curr d)
  = UsbSnesGamepad.push_all (UsbSnesGamepad.set_reports prev curr d)
      (Spec.direction_events prev curr).
Proof.
  intros E. rewrite process_report_pushes.
  cbn [UsbSnesGamepad.prev_report UsbSnesGamepad.report UsbSnesGamepad.set_reports].
  rewrite gamepad_deriveEvents_spec. unfold Spec.events.
  rewrite button_events_same_byte, app_nil_r by assumption. reflexivity.
Qed.

(** C6: an axis byte [v] in 0..255 falls in exactly one of the classes low,
    neutral and high, low iff [v < 0x3F] and high iff [v > 0xBF]; 0x3E is
    low, 0x3F and 0xBF are neutral, 0xC0 is high.  In both files the codec
    derives the direction signals from this class: the class of byte 0
    decides Left (low) and Right (high), the class of byte 1 decides Up
    (low) and Down (high).  [parse_snes_report] and [process_report], run on
    a session whose reports differ in one axis byte only, push the key of
    every direction that byte asserts now and did not assert before, and
    nothing else; when the byte moves from the centre to [v] that is the one
    key of [v]'s class. *)
Theorem axis_classification (v : Z) :
  0 <= v <= 255 ->
  (Spec.classify v = Spec.Low <-> v < 0x3F)
  /\ (Spec.classify v = Spec.High <-> v > 0xBF)
  /\ (Spec.classify v = Spec.Neutral <-> 0x3F <= v <= 0xBF)
  /\ Spec.classify 0x3E = Spec.Low
  /\ Spec.classify 0x3F = Spec.Neutral
  /\ Spec.classify 0xBF = Spec.Neutral
  /\ Spec.classify 0xC0 = Spec.High
  /\ (forall tl : list Z,
        let keys := match Spec.classify v with
                    | Spec.Low => [GRUB_TERM_KEY_LEFT]
                    | Spec.High => [GRUB_TERM_KEY_RIGHT]
                    | Spec.Neutral => []
                    end in
        UsbSnes.deriveEvents (0x7F :: tl) (v :: tl) = keys
        /\ UsbSnesGamepad.deriveEvents (0x7F :: tl) (v :: tl) = keys)
  /\ (forall (x : Z) (tl : list Z),
        let keys := match Spec.classify v with
                    | Spec.Low => [GRUB_TERM_KEY_UP]
                    | Spec.High => [GRUB_TERM_KEY_DOWN]
                    | Spec.Neutral => []
                    end in
        UsbSnes.deriveEvents (x :: 0x7F :: tl) (x :: v :: tl) = keys
        /\ UsbSnesGamepad.deriveEvents (x :: 0x7F :: tl) (x :: v :: tl) = keys)
  /\ (forall (tl : list Z) ds dg,
        let keys := match Spec.classify v with
                    | Spec.Low => [GRUB_TERM_KEY_LEFT]
                    | Spec.High => [GRUB_TERM_KEY_RIGHT]
                    | Spec.Neutral => []
                    end in
        UsbSnes.parse_snes_report (UsbSnes.set_reports (0x7F :: tl) (v :: tl) ds)
        = UsbSnes.push_all (UsbSnes.set_reports (0x7F :: tl) (v :: tl) ds) keys
        /\ UsbSnesGamepad.process_report
             (UsbSnesGamepad.set_reports (0x7F :: tl) (v :: tl) dg)
           = UsbSnesGamepad.push_all
               (UsbSnesGamepad.set_reports (0x7F :: tl) (v :: tl) dg) keys)
  /\ (forall (x : Z) (tl : list Z) ds dg,
        let keys := match Spec.classify v with
                    | Spec.Low => [GRUB_TERM_KEY_UP]
                    | Spec.High => [GRUB_TERM_KEY_DOWN]
                    | Spec.Neutral => []
                    end in
        UsbSnes.parse_snes_report
          (UsbSnes.set_reports (x :: 0x7F :: tl) (x :: v :: tl) ds)
        = UsbSnes.push_all
            (UsbSnes.set_reports (x :: 0x7F :: tl) (x :: v :: tl) ds) keys
        /\ UsbSnesGamepad.process_report
             (UsbSnesGamepad.set_reports (x :: 0x7F :: tl) (x :: v :: tl) dg)
           = UsbSnesGamepad.push_all
               (UsbSnesGamepad.set_reports (x :: 0x7F :: tl) (x :: v :: tl) dg) keys)
  /\ (forall (p : Z) (tl : list Z) ds dg,
        let keys :=
          (if negb (bool_decide (Spec.classify p = Spec.Low))
              && bool_decide (Spec.classify v = Spec.Low)
           then [GRUB_TERM_KEY_LEFT] else [])
          ++ (if negb (bool_decide (Spec.classify p = Spec.High))
                 && bool_decide (Spec.classify v = Spec.High)
              then [GRUB_TERM_KEY_RIGHT] else []) in
        UsbSnes.parse_snes_report (UsbSnes.set_reports (p :: tl) (v :: tl) ds)
        = UsbSnes.push_all (UsbSnes.set_reports (p :: tl) (v :: tl) ds) keys
        /\ UsbSnesGamepad.process_report
             (UsbSnesGamepad.set_reports (p :: tl) (v :: tl) dg)
           = UsbSnesGamepad.push_all
               (UsbSnesGamepad.set_reports (p :: tl) (v :: tl) dg) keys)
  /\ (forall (x p : Z) (tl : list Z) ds dg,
        let keys :=
          (if negb (bool_decide (Spec.classify p = Spec.Low))
              && bool_decide (Spec.classify v = Spec.Low)
           then [GRUB_TERM_KEY_UP] else [])
          ++ (if negb (bool_decide (Spec.classify p = Spec.High))
                 && bool_decide (Spec.classify v = Spec.High)
              then [GRUB_TERM_KEY_DOWN] else []) in
        UsbSnes.parse_snes_report
          (UsbSnes.set_reports (x :: p :: tl) (x :: v :: tl) ds)
        = UsbSnes.push_all
            (UsbSnes.set_reports (x :: p :: tl) (x :: v :: tl) ds) keys
        /\ UsbSnesGamepad.process_report
             (UsbSnesGamepad.set_reports (x :: p :: tl) (x :: v :: tl) dg)
           = UsbSnesGamepad.push_all
               (UsbSnesGamepad.set_reports (x :: p :: tl) (x :: v :: tl) dg) keys).
Proof.
  intros Hv.
  assert (Hc : Spec.classify v
               = if v <? 0x3F then Spec.Low
                 else if 0xBF <? v then Spec.High else Spec.Neutral) by reflexivity.
  split; [|split; [|split]].
  - rewrite Hc. destruct (Z.ltb_spec v 0x3F), (Z.ltb_spec 0xBF v);
      split; intros; try discriminate; try reflexivity; lia.
  - rewrite Hc. destruct (Z.ltb_spec v 0x3F), (Z.ltb_spec 0xBF v);
      split; intros; try discriminate; try reflexivity; lia.
  - rewrite Hc. destruct (Z.ltb_spec v 0x3F), (Z.ltb_spec 0xBF v);
      split; intros; try discriminate; try reflexivity; lia.
  - repeat (split; [reflexivity|]). split; [|split; [|split; [|split; [|split]]]].
    + intros tl keys. subst keys.
      rewrite snes_deriveEvents_spec, gamepad_deriveEvents_spec.
      unfold Spec.events.
      rewrite !button_events_same_byte, !app_nil_r by reflexivity.
      split; apply direction_events_x.
    + intros x tl keys. subst keys.
      rewrite snes_deriveEvents_spec, gamepad_deriveEvents_spec.
      unfold Spec.events.
      rewrite !button_events_same_byte, !app_nil_r by reflexivity.
      split; apply direction_events_y.
    + intros tl ds dg keys. subst keys.
      rewrite snes_parse_pushes_directions, gamepad_process_pushes_directions
        by reflexivity.
      rewrite direction_events_x. auto.
    + intros x tl ds dg keys. subst keys.
      rewrite snes_parse_pushes_directions, gamepad_process_pushes_directions
        by reflexivity.
      rewrite direction_events_y. auto.
    + intros p tl ds dg keys. subst keys.
      rewrite snes_parse_pushes_directions, gamepad_process_pushes_directions
        by reflexivity.
      rewrite direction_events_x_from, !edge_if. auto.
    + intros x p tl ds dg keys. subst keys.
      rewrite snes_parse_pushes_directions, gamepad_process_pushes_directions
        by reflexivity.
      rewrite direction_events_y_from, !edge_if. auto.
Qed.

(** C10: two runs of the codec whose previous reports agree on bytes 0, 1
    and 4 and whose current reports agree on bytes 0, 1 and 4 produce the
    same keys in the same order, in both files; and a session parsed with
    the one pair of reports ends with the queue it would have with the
    other pair. *)
Theorem codec_reads_bytes_0_1_4 (prev curr prev' curr' : list Z) :
  array_get prev 0 = array_get prev' 0 ->
  array_get prev 1 = array_get prev' 1 ->
  array_get prev 4 = array_get prev' 4 ->
  array_get curr 0 = array_get curr' 0 ->
  array_get curr 1 = array_get curr' 1 ->
  array_get curr 4 = array_get curr' 4 ->
  UsbSnes.deriveEvents prev curr = UsbSnes.deriveEvents prev' curr'
  /\ UsbSnesGamepad.deriveEvents prev curr = UsbSnesGamepad.deriveEvents prev' curr'
  /\ (forall d,
        UsbSnes.parse_snes_report (UsbSnes.set_reports prev curr d)
        = UsbSnes.set_reports prev curr
            (UsbSnes.parse_snes_report (UsbSnes.set_reports prev' curr' d)))
  /\ (forall d,
        UsbSnesGamepad.process_report (UsbSnesGamepad.set_reports prev curr d)
        = UsbSnesGamepad.set_reports prev curr
            (UsbSnesGamepad.process_report (UsbSnesGamepad.set_reports prev' curr' d))).
Proof.
  intros P0 P1 P4 C0 C1 C4.
  assert (E1 : UsbSnes.deriveEvents prev curr = UsbSnes.deriveEvents prev' curr').
  { unfold UsbSnes.deriveEvents. rewrite P0, P1, P4, C0, C1, C4. reflexivity. }
  assert (E2 : UsbSnesGamepad.deriveEvents prev curr
               = UsbSnesGamepad.deriveEvents prev' curr').
  { unfold UsbSnesGamepad.deriveEvents. rewrite P0, P1, P4, C0, C1, C4. reflexivity. }
  repeat split; try assumption.
  - intros d. rewrite !parse_snes_report_pushes. cbn [UsbSnes.set_reports
      UsbSnes.prev_report UsbSnes.report].
    rewrite E1, !snes_push_set_reports. reflexivity.
  - intros d. rewrite !process_report_pushes. cbn [UsbSnesGamepad.set_reports
      UsbSnesGamepad.prev_report UsbSnesGamepad.report].
    rewrite E2, !gamepad_push_set_reports. reflexivity.
Qed.

End CodecClaims.

Section ButtonTable.
Context {K : grub_term_keys}.

(** C4, as the code has it: in [usb_snes.c] the rising edges of the eight
    buttons of byte 4 are mapped by the table of the specification (A or B
    to Enter, once even when both rise together; Start to Enter; Select to
    Escape; X to ['e']; Y to ['c']; L to PageUp; R to PageDown), and
    [parse_snes_report] pushes exactly the keys of that table after the
    direction keys.  In [usb_snes_gamepad.c] every button has a row of its
    own (A to Enter, B to Escape, X to ['c'], Y to Escape, Start to Enter,
    Select to ['e'], L to PageUp, R to PageDown), so A and B rising together
    yield Enter followed by Escape. *)
Theorem button_tables :
  (forall d,
     UsbSnes.parse_snes_report d
     = UsbSnes.push_all d
         (Spec.direction_events (UsbSnes.prev_report d) (UsbSnes.report d)
          ++ Spec.button_events Spec.merged_table
               (UsbSnes.prev_report d) (UsbSnes.report d)))
  /\ UsbSnes.deriveEvents Spec.baseline [0x7F; 0x7F; 0x7F; 0x7F; 0x02; 0; 0; 0] = [13]
  /\ UsbSnes.deriveEvents Spec.baseline [0x7F; 0x7F; 0x7F; 0x7F; 0x06; 0; 0; 0] = [13]
  /\ (forall d,
        UsbSnesGamepad.process_report d
        = UsbSnesGamepad.push_all d
            (Spec.direction_events (UsbSnesGamepad.prev_report d)
                                   (UsbSnesGamepad.report d)
             ++ Spec.button_events Spec.split_table
                  (UsbSnesGamepad.prev_report d) (UsbSnesGamepad.report d)))
  /\ UsbSnesGamepad.deriveEvents Spec.baseline [0x7F; 0x7F; 0x7F; 0x7F; 0x06; 0; 0; 0]
     = [13; GRUB_TERM_ESC].
Proof.
  repeat split.
  - intros d. rewrite parse_snes_report_pushes, snes_deriveEvents_spec. reflexivity.
  - intros d. rewrite process_report_pushes, gamepad_deriveEvents_spec. reflexivity.
Qed.

End ButtonTable.

(** C4 fails on [usb_snes_gamepad.c]: X rising from the baseline queues
    ['c'] (99), where the table of the claim has the edit character ['e']
    (101); and B rising queues Escape where the claim has Enter. *)
Lemma gamepad_x_is_not_edit :
  let K := grub_term_h in
  let curr_x := [0x7F; 0x7F; 0x7F; 0x7F; 0x01; 0; 0; 0] in
  let curr_b := [0x7F; 0x7F; 0x7F; 0x7F; 0x04; 0; 0; 0] in
  UsbSnesGamepad.queue_contents
    (UsbSnesGamepad.process_report
       (UsbSnesGamepad.set_reports Spec.baseline curr_x gamepad_session)) = [99]
  /\ Spec.events Spec.merged_table Spec.baseline curr_x = [101]
  /\ UsbSnesGamepad.queue_contents
       (UsbSnesGamepad.process_report
          (UsbSnesGamepad.set_reports Spec.baseline curr_b gamepad_session)) = [0x1b]
  /\ Spec.events Spec.merged_table Spec.baseline curr_b = [13].
Proof. vm_compute. repeat split. Qed.

(** ** The key queue *)

Lemma rem32_nonneg (a : Z) : 0 <= a -> 0 <= Z.rem a 32 < 32.
Proof.
  intros Ha. rewrite Z.rem_mod_nonneg by lia. apply Z.mod_pos_bound. lia.
Qed.

Lemma rem32_small (a : Z) : 0 <= a < 32 -> Z.rem a 32 = a.
Proof. intros Ha. apply Z.rem_small. assumption. Qed.

Lemma rem32_add_inj (b i j : Z) :
  0 <= b -> 0 <= i -> 0 <= j -> i - j < 32 -> j - i < 32 ->
  Z.rem (b + i) 32 = Z.rem (b + j) 32 -> i = j.
Proof.
  intros Hb Hi Hj H1 H2. rewrite !Z.rem_mod_nonneg by lia. intros E.
  pose proof (Z.div_mod (b + i) 32 ltac:(lia)) as Di.
  pose proof (Z.div_mod (b + j) 32 ltac:(lia)) as Dj.
  rewrite E in Di. lia.
Qed.

Lemma rem32_rem_add (a i : Z) :
  0 <= a -> 0 <= i -> Z.rem (Z.rem a 32 + i) 32 = Z.rem (a + i) 32.
Proof.
  intros Ha Hi. pose proof (rem32_nonneg a Ha) as Hr.
  rewrite (Z.rem_mod_nonneg (Z.rem a 32 + i)) by lia.
  rewrite (Z.rem_mod_nonneg a) by lia.
  rewrite (Z.rem_mod_nonneg (a + i)) by lia.
  apply Z.add_mod_idemp_l. lia.
Qed.

Lemma rem32_add_32 (b : Z) : 0 <= b < 32 -> Z.rem (b + 32) 32 = b.
Proof.
  intros Hb. rewrite Z.rem_mod_nonneg by lia.
  replace (b + 32) with (b + 1 * 32) by lia.
  rewrite Z.mod_add by lia. apply Z.mod_small. assumption.
Qed.

Lemma array_get_set_eq (a : list Z) (i v : Z) :
  (Z.to_nat i < length a)%nat -> array_get (array_set a i v) i = v.
Proof.
  intros Hi. unfold array_get, array_set.
  rewrite list_lookup_insert_eq by assumption. reflexivity.
Qed.

Lemma array_get_set_ne (a : list Z) (i j v : Z) :
  0 <= i -> 0 <= j -> i <> j -> array_get (array_set a i v) j = array_get a j.
Proof.
  intros Hi Hj Hne. unfold array_get, array_set.
  rewrite list_lookup_insert_ne by lia. reflexivity.
Qed.

Lemma length_array_set (a : list Z) (i v : Z) : length (array_set a i v) = length a.
Proof. apply length_insert. Qed.

Lemma keep_last_short {A : Type} (n : nat) (l : list A) :
  (length l <= n)%nat -> keep_last n l = l.
Proof.
  intros H. unfold keep_last. replace (length l - n)%nat with 0%nat by lia.
  reflexivity.
Qed.

Lemma keep_last_app {A : Type} (n : nat) (l ks : list A) :
  keep_last n (keep_last n l ++ ks) = keep_last n (l ++ ks).
Proof.
  unfold keep_last. rewrite !length_app, length_drop.
  destruct (Nat.le_gt_cases (length l) n) as [Hle|Hgt].
  - replace (length l - n)%nat with 0%nat by lia. cbn [drop].
    rewrite Nat.sub_0_r. reflexivity.
  - replace (length l - (length l - n) + length ks - n)%nat with (length ks) by lia.
    replace (length l + length ks - n)%nat with ((length l - n) + length ks)%nat by lia.
    rewrite <- drop_drop.
    rewrite (drop_app_le l ks (length l - n)) by lia.
    reflexivity.
Qed.

Section GamepadQueue.
Context {K : grub_term_keys}.
Import UsbSnesGamepad.

Lemma gamepad_push_no_key (d : grub_usb_snes_data) :
  key_queue_push d GRUB_TERM_NO_KEY = d.
Proof. unfold key_queue_push. rewrite Z.eqb_refl. reflexivity. Qed.

Lemma gamepad_push_wf (d : grub_usb_snes_data) (k : Z) :
  queue_wf d -> queue_wf (key_queue_push d k).
Proof.
  unfold queue_wf, key_queue_push, KEY_QUEUE_CAPACITY. intros (Hl & Hb & Hs).
  destruct (k =? GRUB_TERM_NO_KEY); [auto|].
  destruct (Z.ltb_spec (key_queue_size d) 32); cbn; rewrite length_array_set.
  - repeat split; lia.
  - pose proof (rem32_nonneg (key_queue_begin d + 1) ltac:(lia)).
    repeat split; lia.
Qed.

Lemma gamepad_contents_length (d : grub_usb_snes_data) :
  length (queue_contents d) = Z.to_nat (key_queue_size d).
Proof. unfold queue_contents. rewrite length_map, length_seq. reflexivity. Qed.

Lemma gamepad_push_room (d : grub_usb_snes_data) (k : Z) :
  queue_wf d -> k <> GRUB_TERM_NO_KEY -> key_queue_size d < KEY_QUEUE_CAPACITY ->
  queue_contents (key_queue_push d k) = queue_contents d ++ [k].
Proof.
  unfold queue_wf, KEY_QUEUE_CAPACITY. intros (Hl & Hb & Hs) Hk Hroom.
  unfold key_queue_push, KEY_QUEUE_CAPACITY.
  destruct (Z.eqb_spec k GRUB_TERM_NO_KEY) as [|_]; [contradiction|].
  destruct (Z.ltb_spec (key_queue_size d) 32) as [_|]; [|lia].
  unfold queue_contents, KEY_QUEUE_CAPACITY. cbn.
  replace (Z.to_nat (key_queue_size d + 1)) with (S (Z.to_nat (key_queue_size d))) by lia.
  rewrite seq_S, map_app. f_equal.
  - apply map_ext_in. intros i Hi. apply in_seq in Hi.
    pose proof (rem32_nonneg (key_queue_begin d + key_queue_size d) ltac:(lia)).
    pose proof (rem32_nonneg (key_queue_begin d + Z.of_nat i) ltac:(lia)).
    apply array_get_set_ne; [lia|lia|].
    intros E. apply rem32_add_inj in E; lia.
  - cbn [map]. f_equal.
    replace (Z.of_nat (0 + Z.to_nat (key_queue_size d))) with (key_queue_size d) by lia.
    pose proof (rem32_nonneg (key_queue_begin d + key_queue_size d) ltac:(lia)).
    apply array_get_set_eq. lia.
Qed.

Lemma gamepad_push_full (d : grub_usb_snes_data) (k : Z) :
  queue_wf d -> k <> GRUB_TERM_NO_KEY -> key_queue_size d = KEY_QUEUE_CAPACITY ->
  queue_contents (key_queue_push d k) = drop 1 (queue_contents d) ++ [k].
Proof.
  unfold queue_wf, KEY_QUEUE_CAPACITY. intros (Hl & Hb & Hs) Hk Hfull.
  unfold key_queue_push, KEY_QUEUE_CAPACITY.
  destruct (Z.eqb_spec k GRUB_TERM_NO_KEY) as [|_]; [contradiction|].
  destruct (Z.ltb_spec (key_queue_size d) 32) as [|_]; [lia|].
  unfold queue_contents, KEY_QUEUE_CAPACITY. cbn.
  rewrite Hfull, rem32_add_32 by lia.
  change (Z.to_nat 32) with (S 31).
  rewrite <- cons_seq at 2. cbn [map]. rewrite drop_0 || cbn [drop skipn].
  rewrite seq_S, map_app, <- seq_shift, map_map.
  f_equal.
  - apply map_ext_in. intros i Hi. apply in_seq in Hi.
    rewrite rem32_rem_add by lia.
    replace (key_queue_begin d + 1 + Z.of_nat i)
      with (key_queue_begin d + Z.of_nat (S i)) by lia.
    pose proof (rem32_nonneg (key_queue_begin d + Z.of_nat (S i)) ltac:(lia)).
    apply array_get_set_ne; [lia|lia|].
    intros E. rewrite <- (rem32_small (key_queue_begin d)) in E at 1 by lia.
    replace (key_queue_begin d) with (key_queue_begin d + 0) in E at 1 by lia.
    apply rem32_add_inj in E; lia.
  - cbn [map]. f_equal. rewrite rem32_rem_add by lia.
    replace (key_queue_begin d + 1 + Z.of_nat (0 + 31)) with (key_queue_begin d + 32) by lia.
    rewrite rem32_add_32 by lia.
    apply array_get_set_eq. lia.
Qed.

Lemma gamepad_push_contents (d : grub_usb_snes_data) (k : Z) :
  queue_wf d -> k <> GRUB_TERM_NO_KEY ->
  queue_contents (key_queue_push d k) = keep_last 32 (queue_contents d ++ [k]).
Proof.
  intros Hwf Hk. pose proof Hwf as (Hl & Hb & Hs). unfold KEY_QUEUE_CAPACITY in *.
  pose proof (gamepad_contents_length d) as Hlen.
  destruct (Z.eq_dec (key_queue_size d) 32) as [Hfull|Hroom].
  - rewrite gamepad_push_full by assumption.
    unfold keep_last. rewrite length_app, Hlen, Hfull. cbn [length].
    change (Z.to_nat 32 + 1 - 32)%nat with 1%nat.
    rewrite drop_app_le by (rewrite Hlen, Hfull; compute; lia). reflexivity.
  - rewrite gamepad_push_room by (unfold KEY_QUEUE_CAPACITY; auto; lia).
    rewrite keep_last_short; [reflexivity|].
    rewrite length_app, Hlen. cbn [length]. lia.
Qed.

Lemma gamepad_push_all_wf (keys : list Z) (d : grub_usb_snes_data) :
  queue_wf d -> queue_wf (push_all d keys).
Proof.
  unfold push_all. revert d. induction keys as [|k keys IH]; intros d Hwf; [assumption|].
  cbn [fold_left]. apply IH, gamepad_push_wf, Hwf.
Qed.

Lemma gamepad_push_all_contents (keys : list Z) (d : grub_usb_snes_data) :
  queue_wf d -> Forall (fun k => k <> GRUB_TERM_NO_KEY) keys ->
  queue_contents (push_all d keys) = keep_last 32 (queue_contents d ++ keys).
Proof.
  intros Hwf Hkeys. revert d Hwf.
  induction Hkeys as [|k keys Hk Hkeys IH]; intros d Hwf.
  - cbn. rewrite app_nil_r, keep_last_short; [reflexivity|].
    rewrite gamepad_contents_length. destruct Hwf as (_ & _ & Hs).
    unfold KEY_QUEUE_CAPACITY in Hs. lia.
  - unfold push_all in *. cbn [fold_left].
    rewrite IH by (apply gamepad_push_wf, Hwf).
    rewrite gamepad_push_contents by assumption.
    rewrite keep_last_app, <- app_assoc. reflexivity.
Qed.

Lemma gamepad_pop_empty (d : grub_usb_snes_data) :
  key_queue_size d <= 0 -> key_queue_pop d = (GRUB_TERM_NO_KEY, d).
Proof.
  intros H. unfold key_queue_pop.
  destruct (Z.leb_spec (key_queue_size d) 0); [reflexivity|lia].
Qed.

Lemma gamepad_pop_head (d : grub_usb_snes_data) :
  queue_wf d -> 0 < key_queue_size d ->
  exists k d',
    key_queue_pop d = (k, d') /\ queue_wf d'
    /\ queue_contents d = k :: queue_contents d'.
Proof.
  unfold queue_wf, KEY_QUEUE_CAPACITY. intros (Hl & Hb & Hs) Hpos.
  unfold key_queue_pop, KEY_QUEUE_CAPACITY.
  destruct (Z.leb_spec (key_queue_size d) 0); [lia|].
  eexists _, _. split; [reflexivity|]. cbn.
  pose proof (rem32_nonneg (key_queue_begin d + 1) ltac:(lia)).
  split; [repeat split; lia|].
  unfold queue_contents, KEY_QUEUE_CAPACITY. cbn.
  replace (Z.to_nat (key_queue_size d)) with (S (Z.to_nat (key_queue_size d - 1))) by lia.
  rewrite <- cons_seq. cbn [map]. f_equal.
  - rewrite Z.add_0_r, rem32_small by lia. reflexivity.
  - rewrite <- seq_shift, map_map. apply map_ext. intros i.
    rewrite rem32_rem_add by lia. do 2 f_equal. lia.
Qed.

(** Popping [n] times returns the first [n] queued keys, then
    [GRUB_TERM_NO_KEY] for every pop of the empty queue. *)
Lemma gamepad_pop_n (n : nat) (d : grub_usb_snes_data) :
  queue_wf d ->
  fst (pop_n n d)
  = take n (queue_contents d)
    ++ replicate (n - length (queue_contents d)) GRUB_TERM_NO_KEY.
Proof.
  revert d. induction n as [|n IH]; intros d Hwf; [reflexivity|].
  cbn [pop_n].
  destruct (Z.le_gt_cases (key_queue_size d) 0) as [Hz|Hpos].
  - rewrite gamepad_pop_empty by assumption.
    specialize (IH d Hwf). destruct (pop_n n d) as [ks d'] eqn:E. cbn [fst] in *.
    rewrite IH.
    assert (Hnil : queue_contents d = []).
    { unfold queue_contents. replace (Z.to_nat (key_queue_size d)) with 0%nat by lia.
      reflexivity. }
    rewrite Hnil. cbn [length]. rewrite !take_nil, !Nat.sub_0_r. reflexivity.
  - destruct (gamepad_pop_head d Hwf ltac:(lia)) as (k & d' & Hpop & Hwf' & Hc).
    rewrite Hpop. specialize (IH d' Hwf').
    destruct (pop_n n d') as [ks d''] eqn:E. cbn [fst] in *.
    rewrite IH, Hc. reflexivity.
Qed.

End GamepadQueue.

Lemma take_take_app {A : Type} (n : nat) (l ks : list A) :
  take n (take n l ++ ks) = take n (l ++ ks).
Proof.
  destruct (Nat.le_gt_cases n (length l)) as [Hle|Hgt].
  - rewrite (take_app_le (take n l)) by (rewrite length_take; lia).
    rewrite take_take, Nat.min_id.
    rewrite (take_app_le l) by lia. reflexivity.
  - rewrite (take_ge l) by lia. reflexivity.
Qed.

Section SnesQueue.
Context {K : grub_term_keys}.
Import UsbSnes.

Lemma snes_push_refused (d : grub_usb_snes_data) (k : Z) :
  32 <= key_queue_count d \/ k = GRUB_TERM_NO_KEY -> key_queue_push d k = d.
Proof.
  intros H. unfold key_queue_push.
  destruct (Z.geb_spec (key_queue_count d) 32), (Z.eqb_spec k GRUB_TERM_NO_KEY);
    try reflexivity.
  destruct H; [lia|contradiction].
Qed.

Lemma snes_push_wf (d : grub_usb_snes_data) (k : Z) :
  queue_wf d -> queue_wf (key_queue_push d k).
Proof.
  unfold queue_wf, key_queue_push. intros (Hl & Hh & Hc & Ht).
  destruct (Z.geb_spec (key_queue_count d) 32); [auto|].
  destruct (k =? GRUB_TERM_NO_KEY); [auto|]. cbn.
  rewrite length_array_set. repeat split; try lia.
  rewrite Ht, rem32_rem_add by lia. f_equal. lia.
Qed.

Lemma snes_contents_length (d : grub_usb_snes_data) :
  length (queue_contents d) = Z.to_nat (key_queue_count d).
Proof. unfold queue_contents. rewrite length_map, length_seq. reflexivity. Qed.

Lemma snes_push_room (d : grub_usb_snes_data) (k : Z) :
  queue_wf d -> k <> GRUB_TERM_NO_KEY -> key_queue_count d < 32 ->
  queue_contents (key_queue_push d k) = queue_contents d ++ [k].
Proof.
  unfold queue_wf. intros (Hl & Hh & Hc & Ht) Hk Hroom.
  unfold key_queue_push.
  destruct (Z.geb_spec (key_queue_count d) 32); [lia|].
  destruct (Z.eqb_spec k GRUB_TERM_NO_KEY) as [|_]; [contradiction|].
  unfold queue_contents. cbn. rewrite Ht.
  replace (Z.to_nat (key_queue_count d + 1))
    with (S (Z.to_nat (key_queue_count d))) by lia.
  rewrite seq_S, map_app. f_equal.
  - apply map_ext_in. intros i Hi. apply in_seq in Hi.
    pose proof (rem32_nonneg (key_queue_head d + key_queue_count d) ltac:(lia)).
    pose proof (rem32_nonneg (key_queue_head d + Z.of_nat i) ltac:(lia)).
    apply array_get_set_ne; [lia|lia|].
    intros E. apply rem32_add_inj in E; lia.
  - cbn [map]. f_equal.
    replace (Z.of_nat (0 + Z.to_nat (key_queue_count d)))
      with (key_queue_count d) by lia.
    pose proof (rem32_nonneg (key_queue_head d + key_queue_count d) ltac:(lia)).
    apply array_get_set_eq. lia.
Qed.

Lemma snes_push_contents (d : grub_usb_snes_data) (k : Z) :
  queue_wf d -> k <> GRUB_TERM_NO_KEY ->
  queue_contents (key_queue_push d k) = take 32 (queue_contents d ++ [k]).
Proof.
  intros Hwf Hk. pose proof Hwf as (Hl & Hh & Hc & Ht).
  pose proof (snes_contents_length d) as Hlen.
  destruct (Z.eq_dec (key_queue_count d) 32) as [Hfull|Hroom].
  - rewrite snes_push_refused by lia.
    rewrite take_app_le by lia. rewrite take_ge by lia. reflexivity.
  - rewrite snes_push_room by (auto; lia).
    rewrite take_ge; [reflexivity|].
    rewrite length_app, Hlen. cbn [length]. lia.
Qed.

Lemma snes_push_all_wf (keys : list Z) (d : grub_usb_snes_data) :
  queue_wf d -> queue_wf (push_all d keys).
Proof.
  unfold push_all. revert d. induction keys as [|k keys IH]; intros d Hwf; [assumption|].
  cbn [fold_left]. apply IH, snes_push_wf, Hwf.
Qed.

Lemma snes_push_all_contents (keys : list Z) (d : grub_usb_snes_data) :
  queue_wf d -> Forall (fun k => k <> GRUB_TERM_NO_KEY) keys ->
  queue_contents (push_all d keys) = take 32 (queue_contents d ++ keys).
Proof.
  intros Hwf Hkeys. revert d Hwf.
  induction Hkeys as [|k keys Hk Hkeys IH]; intros d Hwf.
  - cbn. rewrite app_nil_r, take_ge; [reflexivity|].
    rewrite snes_contents_length. destruct Hwf as (_ & _ & Hc & _). lia.
  - unfold push_all in *. cbn [fold_left].
    rewrite IH by (apply snes_push_wf, Hwf).
    rewrite snes_push_contents by assumption.
    rewrite take_take_app, <- app_assoc. reflexivity.
Qed.

Lemma snes_pop_empty (d : grub_usb_snes_data) :
  key_queue_count d <= 0 -> key_queue_pop d = (GRUB_TERM_NO_KEY, d).
Proof.
  intros H. unfold key_queue_pop.
  destruct (Z.leb_spec (key_queue_count d) 0); [reflexivity|lia].
Qed.

Lemma snes_pop_head (d : grub_usb_snes_data) :
  queue_wf d -> 0 < key_queue_count d ->
  exists k d',
    key_queue_pop d = (k, d') /\ queue_wf d'
    /\ queue_contents d = k :: queue_contents d'.
Proof.
  unfold queue_wf. intros (Hl & Hh & Hc & Ht) Hpos.
  unfold key_queue_pop.
  destruct (Z.leb_spec (key_queue_count d) 0); [lia|].
  eexists _, _. split; [reflexivity|]. cbn.
  pose proof (rem32_nonneg (key_queue_head d + 1) ltac:(lia)).
  split.
  { repeat split; try lia. rewrite Ht, rem32_rem_add by lia. f_equal. lia. }
  unfold queue_contents. cbn.
  replace (Z.to_nat (key_queue_count d))
    with (S (Z.to_nat (key_queue_count d - 1))) by lia.
  rewrite <- cons_seq. cbn [map]. f_equal.
  - rewrite Z.add_0_r, rem32_small by lia. reflexivity.
  - rewrite <- seq_shift, map_map. apply map_ext. intros i.
    rewrite rem32_rem_add by lia. do 2 f_equal. lia.
Qed.

End SnesQueue.

Section QueueClaim.
Context {K : grub_term_keys}.

(** C1, as the code has it.  In [usb_snes_gamepad.c], for every sequence of
    pushes: [key_queue_push] does nothing for [GRUB_TERM_NO_KEY]; any other
    key is inserted at the tail, and when the queue already holds its 32
    keys the head (the oldest key) is evicted to make room, so no key is
    refused; pushing 40 keys other than [GRUB_TERM_NO_KEY] (distinct or
    not) into an empty queue leaves exactly the last 32 in FIFO order, which
    32 pops return in that order; [key_queue_pop] on an empty queue returns
    [GRUB_TERM_NO_KEY] and leaves the queue as it is.  In [usb_snes.c]
    [key_queue_push] also does nothing when the queue holds 32 keys: a key
    is inserted at the tail only while there is room, so of 40 keys pushed
    into an empty queue the first 32 remain; [key_queue_pop] on an empty
    queue returns [GRUB_TERM_NO_KEY] there too. *)
Theorem key_queue_overflow_policies :
  (forall d, UsbSnesGamepad.key_queue_push d GRUB_TERM_NO_KEY = d)
  /\ (forall d k,
        UsbSnesGamepad.queue_wf d -> k <> GRUB_TERM_NO_KEY ->
        UsbSnesGamepad.queue_wf (UsbSnesGamepad.key_queue_push d k)
        /\ UsbSnesGamepad.queue_contents (UsbSnesGamepad.key_queue_push d k)
           = if UsbSnesGamepad.key_queue_size d <? 32
             then UsbSnesGamepad.queue_contents d ++ [k]
             else drop 1 (UsbSnesGamepad.queue_contents d) ++ [k])
  /\ (forall d keys,
        UsbSnesGamepad.queue_wf d -> UsbSnesGamepad.key_queue_size d = 0 ->
        length keys = 40%nat -> Forall (fun k => k <> GRUB_TERM_NO_KEY) keys ->
        UsbSnesGamepad.queue_contents (UsbSnesGamepad.push_all d keys) = drop 8 keys
        /\ fst (UsbSnesGamepad.pop_n 32 (UsbSnesGamepad.push_all d keys)) = drop 8 keys)
  /\ (forall d, UsbSnesGamepad.key_queue_size d <= 0 ->
                UsbSnesGamepad.key_queue_pop d = (GRUB_TERM_NO_KEY, d))
  /\ (forall d k,
        32 <= UsbSnes.key_queue_count d \/ k = GRUB_TERM_NO_KEY ->
        UsbSnes.key_queue_push d k = d)
  /\ (forall d k,
        UsbSnes.queue_wf d -> k <> GRUB_TERM_NO_KEY -> UsbSnes.key_queue_count d < 32 ->
        UsbSnes.queue_wf (UsbSnes.key_queue_push d k)
        /\ UsbSnes.queue_contents (UsbSnes.key_queue_push d k)
           = UsbSnes.queue_contents d ++ [k])
  /\ (forall d keys,
        UsbSnes.queue_wf d -> UsbSnes.key_queue_count d = 0 ->
        length keys = 40%nat -> Forall (fun k => k <> GRUB_TERM_NO_KEY) keys ->
        UsbSnes.queue_contents (UsbSnes.push_all d keys) = take 32 keys)
  /\ (forall d, UsbSnes.key_queue_count d <= 0 ->
                UsbSnes.key_queue_pop d = (GRUB_TERM_NO_KEY, d)).
Proof.
  split; [exact gamepad_push_no_key|].
  split.
  { intros d k Hwf Hk. split; [apply gamepad_push_wf, Hwf|].
    pose proof Hwf as (_ & _ & Hs). unfold UsbSnesGamepad.KEY_QUEUE_CAPACITY in Hs.
    destruct (Z.ltb_spec (UsbSnesGamepad.key_queue_size d) 32).
    - apply gamepad_push_room; assumption.
    - apply gamepad_push_full; [assumption..|].
      unfold UsbSnesGamepad.KEY_QUEUE_CAPACITY. lia. }
  split.
  { intros d keys Hwf Hempty Hlen Hkeys.
    assert (Hc : UsbSnesGamepad.queue_contents (UsbSnesGamepad.push_all d keys)
                 = drop 8 keys).
    { rewrite gamepad_push_all_contents by assumption.
      unfold UsbSnesGamepad.queue_contents at 1. rewrite Hempty.
      change (Z.to_nat 0) with 0%nat. cbn [seq map app].
      unfold keep_last. rewrite Hlen. reflexivity. }
    split; [exact Hc|].
    rewrite gamepad_pop_n by (apply gamepad_push_all_wf, Hwf).
    rewrite Hc. rewrite take_ge by (rewrite length_drop; lia).
    rewrite length_drop, Hlen. cbn [Nat.sub replicate]. apply app_nil_r. }
  split; [exact gamepad_pop_empty|].
  split; [exact snes_push_refused|].
  split.
  { intros d k Hwf Hk Hroom. split; [apply snes_push_wf, Hwf|].
    apply snes_push_room; assumption. }
  split; [|exact snes_pop_empty].
  intros d keys Hwf Hempty Hlen Hkeys.
  rewrite snes_push_all_contents by assumption.
  unfold UsbSnes.queue_contents at 1. rewrite Hempty. reflexivity.
Qed.

End QueueClaim.

Lemma keys40_not_no_key :
  Forall (fun k => k <> GRUB_TERM_NO_KEY (grub_term_keys := grub_term_h)) keys40.
Proof.
  unfold keys40. apply List.Forall_forall. intros k Hk.
  apply in_map_iff in Hk as (n & <- & Hn). apply in_seq in Hn. cbn. lia.
Qed.

Lemma gamepad_session_wf : UsbSnesGamepad.queue_wf gamepad_session.
Proof.
  unfold UsbSnesGamepad.queue_wf, UsbSnesGamepad.KEY_QUEUE_CAPACITY. cbn. lia.
Qed.

Lemma snes_session_wf : UsbSnes.queue_wf snes_session.
Proof.
  unfold UsbSnes.queue_wf. cbn.
  split; [lia|]. split; [lia|]. split; [lia|reflexivity].
Qed.

Lemma key_queue_overflow_policies_witness :
  UsbSnesGamepad.queue_contents
    (UsbSnesGamepad.push_all (K := grub_term_h) gamepad_session keys40)
  = drop 8 keys40
  /\ UsbSnes.queue_contents (UsbSnes.push_all (K := grub_term_h) snes_session keys40)
     = take 32 keys40.
Proof.
  pose proof (@key_queue_overflow_policies grub_term_h)
    as (_ & _ & Hg & _ & _ & _ & Hs & _).
  split.
  - exact (proj1 (Hg gamepad_session keys40 gamepad_session_wf eq_refl eq_refl
                     keys40_not_no_key)).
  - exact (Hs snes_session keys40 snes_session_wf eq_refl eq_refl keys40_not_no_key).
Defined.

(** C1 fails on [usb_snes.c]: pushing the 40 keys 1..40 into the empty
    queue of a fresh session leaves the first 32 and not the last 32, and a
    push into the full queue changes nothing: the key 33 is refused. *)
Lemma snes_queue_refuses_when_full :
  let K := grub_term_h in
  UsbSnes.queue_contents (UsbSnes.push_all snes_session keys40) = take 32 keys40
  /\ UsbSnes.queue_contents (UsbSnes.push_all snes_session keys40) <> drop 8 keys40
  /\ UsbSnes.key_queue_push (UsbSnes.push_all snes_session (take 32 keys40)) 33
     = UsbSnes.push_all snes_session (take 32 keys40).
Proof.
  vm_compute. repeat split. intros H. discriminate H.
Qed.

(** ** The poll step *)

Section Frame.
Context {K : grub_term_keys}.

(** The queue functions touch the queue fields only. *)
Lemma snes_push_all_frame (keys : list Z) (d : UsbSnes.grub_usb_snes_data) :
  let d' := UsbSnes.push_all d keys in
  UsbSnes.usbdev d' = UsbSnes.usbdev d
  /\ UsbSnes.endp d' = UsbSnes.endp d
  /\ UsbSnes.transfer d' = UsbSnes.transfer d
  /\ UsbSnes.report d' = UsbSnes.report d
  /\ UsbSnes.prev_report d' = UsbSnes.prev_report d
  /\ UsbSnes.dead d' = UsbSnes.dead d.
Proof.
  unfold UsbSnes.push_all. revert d.
  induction keys as [|k keys IH]; intros d; [cbn; auto 10|].
  cbn [fold_left]. cbn zeta in IH |- *.
  destruct (IH (UsbSnes.key_queue_push d k)) as (-> & -> & -> & -> & -> & ->).
  unfold UsbSnes.key_queue_push.
  destruct ((UsbSnes.key_queue_count d >=? 32) || (k =? GRUB_TERM_NO_KEY));
    cbn; auto 10.
Qed.

Lemma gamepad_push_all_frame (keys : list Z) (d : UsbSnesGamepad.grub_usb_snes_data) :
  let d' := UsbSnesGamepad.push_all d keys in
  UsbSnesGamepad.usbdev d' = UsbSnesGamepad.usbdev d
  /\ UsbSnesGamepad.endp d' = UsbSnesGamepad.endp d
  /\ UsbSnesGamepad.transfer d' = UsbSnesGamepad.transfer d
  /\ UsbSnesGamepad.report d' = UsbSnesGamepad.report d
  /\ UsbSnesGamepad.prev_report d' = UsbSnesGamepad.prev_report d.
Proof.
  unfold UsbSnesGamepad.push_all. revert d.
  induction keys as [|k keys IH]; intros d; [cbn; auto 10|].
  cbn [fold_left]. cbn zeta in IH |- *.
  destruct (IH (UsbSnesGamepad.key_queue_push d k)) as (-> & -> & -> & -> & ->).
  unfold UsbSnesGamepad.key_queue_push.
  destruct (k =? GRUB_TERM_NO_KEY); [cbn; auto 10|].
  destruct (UsbSnesGamepad.key_queue_size d <? UsbSnesGamepad.KEY_QUEUE_CAPACITY);
    cbn; auto 10.
Qed.

End Frame.

Section Poll.
Context {K : grub_term_keys}.

Lemma snes_getkey_skipped :
  forall env d,
     UsbSnes.dead d = 0 -> UsbSnes.key_queue_count d <= 0 ->
     reply_err env <> GRUB_USB_ERR_WAIT ->
     reply_err env <> GRUB_USB_ERR_NONE \/ reply_actual env < 1 ->
     exists d',
       UsbSnes.grub_usb_snes_getkey env d
       = (GRUB_TERM_NO_KEY, d',
          [UsbCheckTransfer (UsbSnes.transfer d);
           UsbBulkReadBackground (UsbSnes.usbdev d) (UsbSnes.endp d) 8])
       /\ UsbSnes.prev_report d' = UsbSnes.prev_report d
       /\ UsbSnes.report d' = UsbSnes.report d
       /\ UsbSnes.key_queue d' = UsbSnes.key_queue d
       /\ UsbSnes.key_queue_head d' = UsbSnes.key_queue_head d
       /\ UsbSnes.key_queue_tail d' = UsbSnes.key_queue_tail d
       /\ UsbSnes.key_queue_count d' = UsbSnes.key_queue_count d
       /\ UsbSnes.transfer d' = reply_transfer env
       /\ UsbSnes.dead d' = match reply_transfer env with
                            | None => 1
                            | Some _ => UsbSnes.dead d
                            end.
Proof.
  intros env d Hdead Hcount Hwait Hbad.
  unfold UsbSnes.grub_usb_snes_getkey.
  rewrite Hdead. cbn [c_true Z.eqb negb].
  destruct (Z.gtb_spec (UsbSnes.key_queue_count d) 0); [lia|].
  rewrite bool_decide_eq_false_2 by assumption.
  assert (Hskip : bool_decide (reply_err env = GRUB_USB_ERR_NONE)
                  && (reply_actual env >=? 1) = false).
  { destruct Hbad as [Herr|Hact].
    - rewrite bool_decide_eq_false_2 by assumption. reflexivity.
    - destruct (Z.geb_spec (reply_actual env) 1); [lia|]. apply andb_false_r. }
  rewrite Hskip. cbn [UsbSnes.transfer UsbSnes.set_transfer UsbSnes.usbdev UsbSnes.endp].
  destruct (reply_transfer env) as [t|] eqn:Ht.
  + rewrite snes_pop_empty by (cbn; lia).
    eexists. split; [reflexivity|]. cbn. auto 10.
  + eexists. split; [reflexivity|]. cbn. auto 10.
Qed.

Lemma snes_getkey_parsed :
  forall env d,
        UsbSnes.dead d = 0 -> UsbSnes.key_queue_count d <= 0 ->
        reply_err env = GRUB_USB_ERR_NONE -> 1 <= reply_actual env ->
        let parsed :=
          UsbSnes.set_transfer (reply_transfer env)
            (UsbSnes.set_prev_report
               (grub_memcpy (UsbSnes.prev_report d) (UsbSnes.report d) 8)
               (UsbSnes.parse_snes_report d)) in
        let calls :=
          [UsbCheckTransfer (UsbSnes.transfer d);
           UsbBulkReadBackground (UsbSnes.usbdev d) (UsbSnes.endp d) 8] in
        UsbSnes.grub_usb_snes_getkey env d
        = match reply_transfer env with
          | None => (GRUB_TERM_NO_KEY, UsbSnes.set_dead 1 parsed, calls)
          | Some _ => (UsbSnes.key_queue_pop parsed, calls)
          end.
Proof.
  intros env d Hdead Hcount Herr Hact parsed calls.
  unfold UsbSnes.grub_usb_snes_getkey.
  rewrite Hdead. cbn [c_true Z.eqb negb].
  destruct (Z.gtb_spec (UsbSnes.key_queue_count d) 0); [lia|].
  rewrite Herr.
  rewrite (bool_decide_eq_false_2 (GRUB_USB_ERR_NONE = GRUB_USB_ERR_WAIT)) by discriminate.
  rewrite (bool_decide_eq_true_2 (GRUB_USB_ERR_NONE = GRUB_USB_ERR_NONE)) by reflexivity.
  destruct (Z.geb_spec (reply_actual env) 1); [|lia].
  cbn [andb]. subst parsed calls.
  change (Z.to_nat UsbSnes.SNES_REPORT_SIZE) with 8%nat.
  rewrite parse_snes_report_pushes.
  destruct (snes_push_all_frame
              (UsbSnes.deriveEvents (UsbSnes.prev_report d) (UsbSnes.report d)) d)
    as (Hu & He & _ & Hr & Hp & _).
  cbn zeta in Hu, He, Hr, Hp.
  cbn [UsbSnes.transfer UsbSnes.set_transfer UsbSnes.usbdev UsbSnes.endp
       UsbSnes.set_prev_report UsbSnes.prev_report UsbSnes.report].
  rewrite Hu, He, Hr, Hp.
  destruct (reply_transfer env) as [t|]; [|reflexivity].
  destruct (UsbSnes.key_queue_pop _) as [k d']. reflexivity.
Qed.

Lemma gamepad_getkey_completed :
  forall env d,
        reply_err env <> GRUB_USB_ERR_WAIT ->
        let run_codec :=
          bool_decide (reply_err env = GRUB_USB_ERR_NONE) && (reply_actual env =? 8) in
        let copied :=
          UsbSnesGamepad.set_transfer (reply_transfer env)
            (UsbSnesGamepad.set_prev_report
               (grub_memcpy (UsbSnesGamepad.prev_report d) (UsbSnesGamepad.report d) 8)
               (if run_codec then UsbSnesGamepad.process_report d else d)) in
        UsbSnesGamepad.grub_usb_snes_getkey env d
        = (UsbSnesGamepad.key_queue_pop copied,
           [UsbCheckTransfer (UsbSnesGamepad.transfer d);
            UsbBulkReadBackground (UsbSnesGamepad.usbdev d) (UsbSnesGamepad.endp d) 8])
        /\ UsbSnesGamepad.prev_report (snd (UsbSnesGamepad.key_queue_pop copied))
           = grub_memcpy (UsbSnesGamepad.prev_report d) (UsbSnesGamepad.report d) 8.
Proof.
  intros env d Hwait run_codec copied.
  unfold UsbSnesGamepad.grub_usb_snes_getkey.
  rewrite bool_decide_eq_false_2 by assumption. cbn [negb].
  change (Z.to_nat UsbSnesGamepad.USB_REPORT_SIZE) with 8%nat.
  change UsbSnesGamepad.USB_REPORT_SIZE with 8.
  fold run_codec.
  assert (Hf : let d1 := if run_codec then UsbSnesGamepad.process_report d else d in
               UsbSnesGamepad.usbdev d1 = UsbSnesGamepad.usbdev d
               /\ UsbSnesGamepad.endp d1 = UsbSnesGamepad.endp d
               /\ UsbSnesGamepad.report d1 = UsbSnesGamepad.report d
               /\ UsbSnesGamepad.prev_report d1 = UsbSnesGamepad.prev_report d).
  { destruct run_codec; [|cbn; auto].
    rewrite process_report_pushes.
    destruct (gamepad_push_all_frame
                (UsbSnesGamepad.deriveEvents (UsbSnesGamepad.prev_report d)
                                             (UsbSnesGamepad.report d)) d)
      as (Hu & He & _ & Hr & Hp).
    cbn; auto. }
  cbn zeta in Hf. destruct Hf as (Hu & He & Hr & Hp).
  cbn [UsbSnesGamepad.transfer UsbSnesGamepad.set_transfer UsbSnesGamepad.usbdev
       UsbSnesGamepad.endp UsbSnesGamepad.set_prev_report
       UsbSnesGamepad.prev_report UsbSnesGamepad.report].
  rewrite Hu, He, Hr, Hp. fold copied.
  split.
  + destruct (UsbSnesGamepad.key_queue_pop copied) as [k d']. reflexivity.
  + unfold UsbSnesGamepad.key_queue_pop.
    destruct (UsbSnesGamepad.key_queue_size copied <=? 0); reflexivity.
Qed.

(** C2, as the code has it.  In [usb_snes.c], on a poll that reaches the
    transfer check (session not dead, queue empty) and finds the read
    completed: with an error or with no byte at all, the codec is skipped,
    the previous report and the queue are left as they were and the read is
    re-armed; with success and at least one byte, the codec runs, the
    current report is copied into the previous one and the read is
    re-armed.  In [usb_snes_gamepad.c], on every poll that finds the read
    completed, the codec runs exactly when the read succeeded with 8 bytes,
    while the current report is copied into the previous one and the read is
    re-armed in every case, error included. *)
Theorem completed_read_handling :
  (forall env d,
     UsbSnes.dead d = 0 -> UsbSnes.key_queue_count d <= 0 ->
     reply_err env <> GRUB_USB_ERR_WAIT ->
     reply_err env <> GRUB_USB_ERR_NONE \/ reply_actual env < 1 ->
     exists d',
       UsbSnes.grub_usb_snes_getkey env d
       = (GRUB_TERM_NO_KEY, d',
          [UsbCheckTransfer (UsbSnes.transfer d);
           UsbBulkReadBackground (UsbSnes.usbdev d) (UsbSnes.endp d) 8])
       /\ UsbSnes.prev_report d' = UsbSnes.prev_report d
       /\ UsbSnes.report d' = UsbSnes.report d
       /\ UsbSnes.key_queue d' = UsbSnes.key_queue d
       /\ UsbSnes.key_queue_head d' = UsbSnes.key_queue_head d
       /\ UsbSnes.key_queue_tail d' = UsbSnes.key_queue_tail d
       /\ UsbSnes.key_queue_count d' = UsbSnes.key_queue_count d
       /\ UsbSnes.transfer d' = reply_transfer env)
  /\ (forall env d,
        UsbSnes.dead d = 0 -> UsbSnes.key_queue_count d <= 0 ->
        reply_err env = GRUB_USB_ERR_NONE -> 1 <= reply_actual env ->
        let parsed :=
          UsbSnes.set_transfer (reply_transfer env)
            (UsbSnes.set_prev_report
               (grub_memcpy (UsbSnes.prev_report d) (UsbSnes.report d) 8)
               (UsbSnes.parse_snes_report d)) in
        let calls :=
          [UsbCheckTransfer (UsbSnes.transfer d);
           UsbBulkReadBackground (UsbSnes.usbdev d) (UsbSnes.endp d) 8] in
        UsbSnes.grub_usb_snes_getkey env d
        = match reply_transfer env with
          | None => (GRUB_TERM_NO_KEY, UsbSnes.set_dead 1 parsed, calls)
          | Some _ => (UsbSnes.key_queue_pop parsed, calls)
          end)
  /\ (forall env d,
        reply_err env <> GRUB_USB_ERR_WAIT ->
        let run_codec :=
          bool_decide (reply_err env = GRUB_USB_ERR_NONE) && (reply_actual env =? 8) in
        let copied :=
          UsbSnesGamepad.set_transfer (reply_transfer env)
            (UsbSnesGamepad.set_prev_report
               (grub_memcpy (UsbSnesGamepad.prev_report d) (UsbSnesGamepad.report d) 8)
               (if run_codec then UsbSnesGamepad.process_report d else d)) in
        UsbSnesGamepad.grub_usb_snes_getkey env d
        = (UsbSnesGamepad.key_queue_pop copied,
           [UsbCheckTransfer (UsbSnesGamepad.transfer d);
            UsbBulkReadBackground (UsbSnesGamepad.usbdev d) (UsbSnesGamepad.endp d) 8])
        /\ UsbSnesGamepad.prev_report (snd (UsbSnesGamepad.key_queue_pop copied))
           = grub_memcpy (UsbSnesGamepad.prev_report d) (UsbSnesGamepad.report d) 8).
Proof.
  split; [|split; [exact snes_getkey_parsed|exact gamepad_getkey_completed]].
  intros env d Hdead Hcount Hwait Hbad.
  destruct (snes_getkey_skipped env d Hdead Hcount Hwait Hbad)
    as (d' & Hget & Hp & Hr & Hq & Hh & Ht & Hc & Htr & _).
  exists d'. auto 10.
Qed.

End Poll.

Lemma completed_read_handling_witness :
  (exists d',
     UsbSnes.grub_usb_snes_getkey (K := grub_term_h) reply_stall snes_session
     = (0, d',
        [UsbCheckTransfer (Some 3%positive);
         UsbBulkReadBackground 7%positive (Some sample_endp) 8])
     /\ UsbSnes.prev_report d' = UsbSnes.prev_report snes_session)
  /\ UsbSnesGamepad.prev_report
       (snd (fst (UsbSnesGamepad.grub_usb_snes_getkey (K := grub_term_h)
                    reply_stall gamepad_session)))
     = grub_memcpy (UsbSnesGamepad.prev_report gamepad_session)
                   (UsbSnesGamepad.report gamepad_session) 8.
Proof.
  pose proof (@completed_read_handling grub_term_h) as (Herr & _ & Hg).
  assert (H1 : UsbSnes.dead snes_session = 0) by exact eq_refl.
  assert (H2 : UsbSnes.key_queue_count snes_session <= 0) by exact (Z.le_refl 0).
  assert (H3 : reply_err reply_stall <> GRUB_USB_ERR_WAIT) by discriminate.
  assert (H4 : reply_err reply_stall <> GRUB_USB_ERR_NONE \/ reply_actual reply_stall < 1)
    by (left; discriminate).
  split.
  - destruct (Herr reply_stall snes_session H1 H2 H3 H4) as (d' & Hget & Hprev & _).
    exists d'. split; [exact Hget | exact Hprev].
  - destruct (Hg reply_stall gamepad_session H3) as (Hget & Hprev).
    rewrite Hget. exact Hprev.
Defined.

(** C2 fails on both files.  In [usb_snes.c] a read that completes with 4
    of the 8 bytes runs the codec (the poll returns Left) and overwrites the
    previous report.  In [usb_snes_gamepad.c] a read that completes with an
    error overwrites the previous report, which is then no longer the
    baseline. *)
Lemma short_or_failed_read_disturbs_baseline :
  let K := grub_term_h in
  let s := UsbSnes.set_reports Spec.baseline left_report snes_session in
  let g := UsbSnesGamepad.set_reports Spec.baseline left_report gamepad_session in
  fst (fst (UsbSnes.grub_usb_snes_getkey reply_short s)) = GRUB_TERM_KEY_LEFT
  /\ UsbSnes.prev_report (snd (fst (UsbSnes.grub_usb_snes_getkey reply_short s)))
     = left_report
  /\ UsbSnesGamepad.prev_report g = Spec.baseline
  /\ UsbSnesGamepad.prev_report
       (snd (fst (UsbSnesGamepad.grub_usb_snes_getkey reply_stall g)))
     = left_report.
Proof. vm_compute. auto. Qed.

(** The end-to-end run of the specification, in both files: the first poll
    finds the read pending and returns no key; the controller then delivers
    a report with the stick pushed left and the second poll returns Left;
    the third poll finds the same bytes again and returns no key. *)
Example three_polls_end_to_end :
  let K := grub_term_h in
  (let '(k1, s1, _) := UsbSnes.grub_usb_snes_getkey reply_wait snes_session in
   let delivered := UsbSnes.set_reports (UsbSnes.prev_report s1) left_report s1 in
   let '(k2, s2, _) := UsbSnes.grub_usb_snes_getkey reply_full delivered in
   let '(k3, _, _) := UsbSnes.grub_usb_snes_getkey reply_full s2 in
   [k1; k2; k3] = [GRUB_TERM_NO_KEY; GRUB_TERM_KEY_LEFT; GRUB_TERM_NO_KEY])
  /\ (let '(k1, g1, _) :=
         UsbSnesGamepad.grub_usb_snes_getkey reply_wait gamepad_session in
      let delivered :=
        UsbSnesGamepad.set_reports (UsbSnesGamepad.prev_report g1) left_report g1 in
      let '(k2, g2, _) := UsbSnesGamepad.grub_usb_snes_getkey reply_full delivered in
      let '(k3, _, _) := UsbSnesGamepad.grub_usb_snes_getkey reply_full g2 in
      [k1; k2; k3] = [GRUB_TERM_NO_KEY; GRUB_TERM_KEY_LEFT; GRUB_TERM_NO_KEY]).
Proof. vm_compute. split; reflexivity. Qed.

Section DeadSession.
Context {K : grub_term_keys}.

Lemma snes_dead_polls (envs : list usb_reply) (d : UsbSnes.grub_usb_snes_data) :
  UsbSnes.dead d <> 0 ->
  UsbSnes.polls envs d = (replicate (length envs) GRUB_TERM_NO_KEY, d, []).
Proof.
  intros Hdead. induction envs as [|env envs IH]; [reflexivity|].
  cbn [UsbSnes.polls]. unfold UsbSnes.grub_usb_snes_getkey, c_true.
  destruct (Z.eqb_spec (UsbSnes.dead d) 0); [contradiction|]. cbn [negb].
  rewrite IH. reflexivity.
Qed.

(** C3, as the code has it.  In [usb_snes.c], when the restart of the read
    fails during a poll the session is marked dead and that poll returns
    [GRUB_TERM_NO_KEY]; a dead session stays as it is for ever: every later
    poll returns [GRUB_TERM_NO_KEY], checks no transfer and starts no read.
    [usb_snes_gamepad.c] has no dead state: when the restart fails the
    [NULL] handle is stored and the poll returns what [key_queue_pop]
    yields, the key at the head of the queue if there is one. *)
Theorem rearm_failure :
  (forall env d,
     UsbSnes.dead d = 0 -> UsbSnes.key_queue_count d <= 0 ->
     reply_err env <> GRUB_USB_ERR_WAIT -> reply_transfer env = None ->
     exists d',
       UsbSnes.grub_usb_snes_getkey env d
       = (GRUB_TERM_NO_KEY, d',
          [UsbCheckTransfer (UsbSnes.transfer d);
           UsbBulkReadBackground (UsbSnes.usbdev d) (UsbSnes.endp d) 8])
       /\ UsbSnes.dead d' = 1
       /\ forall envs,
            UsbSnes.polls envs d'
            = (replicate (length envs) GRUB_TERM_NO_KEY, d', []))
  /\ (forall env d,
        reply_err env <> GRUB_USB_ERR_WAIT -> reply_transfer env = None ->
        exists k d',
          UsbSnesGamepad.grub_usb_snes_getkey env d
          = (k, d',
             [UsbCheckTransfer (UsbSnesGamepad.transfer d);
              UsbBulkReadBackground (UsbSnesGamepad.usbdev d)
                                    (UsbSnesGamepad.endp d) 8])
          /\ UsbSnesGamepad.transfer d' = None
          /\ let queued :=
               UsbSnesGamepad.set_transfer None
                 (UsbSnesGamepad.set_prev_report
                    (grub_memcpy (UsbSnesGamepad.prev_report d)
                                 (UsbSnesGamepad.report d) 8)
                    (if bool_decide (reply_err env = GRUB_USB_ERR_NONE)
                        && (reply_actual env =? 8)
                     then UsbSnesGamepad.process_report d else d)) in
             (UsbSnesGamepad.key_queue_size queued <= 0 -> k = GRUB_TERM_NO_KEY)
             /\ (0 < UsbSnesGamepad.key_queue_size queued ->
                 k = array_get (UsbSnesGamepad.key_queue queued)
                               (UsbSnesGamepad.key_queue_begin queued))).
Proof.
  split.
  - intros env d Hdead Hcount Hwait Hrt.
    assert (Hres : exists d',
               UsbSnes.grub_usb_snes_getkey env d
               = (GRUB_TERM_NO_KEY, d',
                  [UsbCheckTransfer (UsbSnes.transfer d);
                   UsbBulkReadBackground (UsbSnes.usbdev d) (UsbSnes.endp d) 8])
               /\ UsbSnes.dead d' = 1).
    { destruct (decide (reply_err env = GRUB_USB_ERR_NONE)) as [Herr|Herr].
      - destruct (Z.le_gt_cases 1 (reply_actual env)) as [Hact|Hact].
        + rewrite (snes_getkey_parsed env d Hdead Hcount Herr Hact), Hrt.
          eexists. split; reflexivity.
        + destruct (snes_getkey_skipped env d Hdead Hcount Hwait (or_intror Hact))
            as (d' & Hget & _ & _ & _ & _ & _ & _ & _ & Hd).
          rewrite Hrt in Hd. exists d'. auto.
      - destruct (snes_getkey_skipped env d Hdead Hcount Hwait (or_introl Herr))
          as (d' & Hget & _ & _ & _ & _ & _ & _ & _ & Hd).
        rewrite Hrt in Hd. exists d'. auto. }
    destruct Hres as (d' & Hget & Hd). exists d'.
    split; [exact Hget|]. split; [exact Hd|].
    intros envs. apply snes_dead_polls. rewrite Hd. discriminate.
  - intros env d Hwait Hrt.
    destruct (gamepad_getkey_completed env d Hwait) as (Hget & _).
    rewrite Hrt in Hget. rewrite Hget.
    set (copied := UsbSnesGamepad.set_transfer None _).
    exists (fst (UsbSnesGamepad.key_queue_pop copied)),
           (snd (UsbSnesGamepad.key_queue_pop copied)).
    split; [destruct (UsbSnesGamepad.key_queue_pop copied); reflexivity|].
    unfold UsbSnesGamepad.key_queue_pop.
    destruct (Z.leb_spec (UsbSnesGamepad.key_queue_size copied) 0).
    + split; [reflexivity|]. cbn zeta. split; [intros; reflexivity|intros; lia].
    + split; [reflexivity|]. cbn zeta. split; [intros; lia|intros; reflexivity].
Qed.

End DeadSession.

Lemma rearm_failure_witness :
  exists d',
    UsbSnes.grub_usb_snes_getkey (K := grub_term_h) reply_full_no_rearm snes_session
    = (0, d',
       [UsbCheckTransfer (Some 3%positive);
        UsbBulkReadBackground 7%positive (Some sample_endp) 8])
    /\ UsbSnes.dead d' = 1
    /\ UsbSnes.polls (K := grub_term_h) [reply_stall; reply_short] d' = ([0; 0], d', []).
Proof.
  pose proof (@rearm_failure grub_term_h) as (Hs & _).
  assert (H1 : UsbSnes.dead snes_session = 0) by exact eq_refl.
  assert (H2 : UsbSnes.key_queue_count snes_session <= 0) by exact (Z.le_refl 0).
  assert (H3 : reply_err reply_full_no_rearm <> GRUB_USB_ERR_WAIT) by discriminate.
  assert (H4 : reply_transfer reply_full_no_rearm = None) by exact eq_refl.
  destruct (Hs reply_full_no_rearm snes_session H1 H2 H3 H4) as (d' & Hget & Hd & Hp).
  exists d'. split; [exact Hget|]. split; [exact Hd|]. exact (Hp [reply_stall; reply_short]).
Defined.

(** C3 fails on [usb_snes_gamepad.c]: with Left waiting to be derived, a
    poll whose restart of the read fails returns Left, not
    [GRUB_TERM_NO_KEY], and the next poll checks the [NULL] transfer and
    starts another read. *)
Lemma gamepad_session_never_dead :
  let K := grub_term_h in
  let g := UsbSnesGamepad.set_reports Spec.baseline left_report gamepad_session in
  let g1 := snd (fst (UsbSnesGamepad.grub_usb_snes_getkey reply_full_no_rearm g)) in
  fst (fst (UsbSnesGamepad.grub_usb_snes_getkey reply_full_no_rearm g))
  = GRUB_TERM_KEY_LEFT
  /\ GRUB_TERM_KEY_LEFT <> GRUB_TERM_NO_KEY
  /\ UsbSnesGamepad.transfer g1 = None
  /\ snd (UsbSnesGamepad.grub_usb_snes_getkey reply_stall g1)
     = [UsbCheckTransfer None; UsbBulkReadBackground 7%positive (Some sample_endp) 8].
Proof. vm_compute. split; [reflexivity|]. split; [discriminate|]. split; reflexivity. Qed.

(** ** The slot table: detach *)

Lemma bind_Some {A B : Type} (f : A -> option B) (x : A) : Some x ≫= f = f x.
Proof. reflexivity. Qed.

Section Detach.
Context {D : Type} (dev_of : D -> addr) (transfer_of : D -> option transfer_handle).
Context (n : nat).

Lemma boot_machine_wf : machine_wf n (boot_machine D n).
Proof.
  assert (Hfree : forall i t, terms (boot_machine D n) !! i = Some t -> data t = None).
  { intros i t Ht. cbn in Ht. apply lookup_replicate in Ht as [-> _]. reflexivity. }
  split.
  - cbn. apply length_replicate.
  - intros i t p Ht Hd. rewrite (Hfree i t Ht) in Hd. discriminate.
  - intros i t p nm Ht Hd. rewrite (Hfree i t Ht) in Hd. discriminate.
  - intros i j ti tj p Hi _ Hd. rewrite (Hfree i ti Hi) in Hd. discriminate.
  - intros i j ti tj nm Hi _ [p Hd]. rewrite (Hfree i ti Hi) in Hd. discriminate.
  - intros i. cbn. split; [set_solver|].
    intros (t & Ht & [p Hd]). apply lookup_replicate in Ht as [-> _]. discriminate.
Qed.

Lemma detach_slot_free (dev : addr) (i : nat) (t : grub_term_input) (m : machine D) :
  terms m !! i = Some t -> data t = None ->
  detach_slot dev_of transfer_of dev i m = Some m.
Proof. intros Ht Hd. unfold detach_slot. rewrite Ht, Hd. reflexivity. Qed.

Lemma detach_slot_other (dev : addr) (i : nat) (t : grub_term_input) (p : addr) (d : D)
    (m : machine D) :
  terms m !! i = Some t -> data t = Some p -> heap m !! p = Some (BlockData d) ->
  dev_of d <> dev ->
  detach_slot dev_of transfer_of dev i m = Some m.
Proof.
  intros Ht Hd Hp Hne. unfold detach_slot. rewrite Ht, Hd, Hp.
  rewrite bool_decide_eq_false_2 by assumption. reflexivity.
Qed.

Lemma detach_slot_hit (dev : addr) (i : nat) (t : grub_term_input) (p : addr) (d : D)
    (m : machine D) :
  machine_wf n m ->
  terms m !! i = Some t -> data t = Some p -> heap m !! p = Some (BlockData d) ->
  dev_of d = dev ->
  detach_slot dev_of transfer_of dev i m = Some (release i t p (transfer_of d) m).
Proof.
  intros Hwf Ht Hd Hp Hdev.
  assert (Hlt : (i < length (terms m))%nat) by (eapply lookup_lt_Some; eassumption).
  assert (Hnm : forall nm, name t = Some nm ->
                  nm <> p /\ exists s, heap m !! nm = Some (BlockName s)).
  { intros nm Hn. destruct (wf_name n m Hwf i t p nm Ht Hd Hn) as [s Hs].
    split; [|eauto]. intros ->. rewrite Hp in Hs. discriminate. }
  clear Hwf. destruct m as [ts hp ins trs lg]. destruct t as [nmo dto].
  cbn in Ht, Hd, Hp, Hlt, Hnm. subst dto.
  unfold detach_slot, release. cbn [terms heap]. rewrite Ht. cbn [data name]. rewrite Hp.
  rewrite bool_decide_eq_true_2 by assumption.
  assert (Hins : forall (l : list grub_term_input) x y,
             (i < length l)%nat -> <[i := y]> (<[i := x]> l) = <[i := y]> l).
  { intros l x y _. apply list_insert_insert_eq. }
  destruct nmo as [nm|].
  - destruct (Hnm nm eq_refl) as (Hne & s & Hs).
    destruct (transfer_of d) as [tr|];
      unfold grub_free, set_term_name, set_term_data, grub_term_unregister_input,
        grub_usb_cancel_transfer, set_terms, set_heap, set_term_inputs, set_transfers;
      cbn [terms heap term_inputs transfers usb_log];
      rewrite Hs, bind_Some; cbn [terms heap term_inputs transfers usb_log];
      rewrite Ht; cbn [terms heap term_inputs transfers usb_log data name];
      rewrite lookup_delete_ne, Hp, bind_Some by assumption;
      cbn [terms heap term_inputs transfers usb_log];
      rewrite list_lookup_insert_eq by assumption;
      cbn [terms heap term_inputs transfers usb_log data name];
      rewrite list_insert_insert_eq; reflexivity.
  - destruct (transfer_of d) as [tr|];
      unfold grub_free, set_term_name, set_term_data, grub_term_unregister_input,
        grub_usb_cancel_transfer, set_terms, set_heap, set_term_inputs, set_transfers;
      cbn [terms heap term_inputs transfers usb_log];
      rewrite bind_Some; cbn [terms heap term_inputs transfers usb_log];
      rewrite Ht; cbn [terms heap term_inputs transfers usb_log data name];
      rewrite Hp, bind_Some;
      cbn [terms heap term_inputs transfers usb_log];
      rewrite list_lookup_insert_eq by assumption;
      cbn [terms heap term_inputs transfers usb_log data name];
      rewrite list_insert_insert_eq; reflexivity.
Qed.


Lemma release_other (i : nat) (t : grub_term_input) (p : addr) (d : D)
    (tr : option transfer_handle) (m : machine D) (j : nat) (tj : grub_term_input) :
  machine_wf n m ->
  terms m !! i = Some t -> data t = Some p -> heap m !! p = Some (BlockData d) ->
  j <> i -> terms m !! j = Some tj ->
  terms (release i t p tr m) !! j = Some tj
  /\ (j ∈ term_inputs (release i t p tr m) <-> j ∈ term_inputs m)
  /\ (forall q, data tj = Some q -> heap (release i t p tr m) !! q = heap m !! q)
  /\ (forall q nm, data tj = Some q -> name tj = Some nm ->
                   heap (release i t p tr m) !! nm = heap m !! nm).
Proof.
  intros Hwf Ht Hd Hp Hne Htj. unfold release. cbn [terms heap term_inputs].
  split; [rewrite list_lookup_insert_ne by auto; exact Htj|].
  split; [set_solver|].
  assert (Hdel : forall q, q <> p ->
            (forall nm, name t = Some nm -> q <> nm) ->
            delete p (match name t with
                      | Some nm => delete nm (heap m)
                      | None => heap m
                      end) !! q = heap m !! q).
  { intros q Hqp Hqn. rewrite lookup_delete_ne by auto.
    destruct (name t) as [nm|]; [|reflexivity].
    rewrite lookup_delete_ne; [reflexivity|]. intros ->. exact (Hqn _ eq_refl eq_refl). }
  split.
  - intros q Hq. apply Hdel.
    + intros ->. apply Hne. exact (wf_data_inj n m Hwf j i tj t p Htj Ht Hq Hd).
    + intros nm Hn ->.
      destruct (wf_name n m Hwf i t p nm Ht Hd Hn) as [s Hs].
      destruct (wf_data n m Hwf j tj nm Htj Hq) as [d' Hd']. congruence.
  - intros q nm Hq Hn. apply Hdel.
    + intros ->. destruct (wf_name n m Hwf j tj q p Htj Hq Hn) as [s Hs]. congruence.
    + intros nm' Hn' ->. apply Hne.
      apply (wf_name_inj n m Hwf j i tj t nm' Htj Ht); eauto.
Qed.

Lemma release_self (i : nat) (t : grub_term_input) (p : addr)
    (tr : option transfer_handle) (m : machine D) :
  terms m !! i = Some t ->
  terms (release i t p tr m) !! i = Some {| name := None; data := None |}
  /\ (i ∉ term_inputs (release i t p tr m))
  /\ heap (release i t p tr m) !! p = None
  /\ (forall nm, name t = Some nm -> heap (release i t p tr m) !! nm = None)
  /\ (forall x, tr = Some x -> x ∉ transfers (release i t p tr m)).
Proof.
  intros Ht. unfold release. cbn [terms heap term_inputs transfers].
  split; [apply list_lookup_insert_eq; eapply lookup_lt_Some; eassumption|].
  split; [set_solver|].
  split; [apply lookup_delete_eq|].
  split.
  - intros nm ->. destruct (decide (nm = p)) as [->|Hne].
    + apply lookup_delete_eq.
    + rewrite lookup_delete_ne by auto. apply lookup_delete_eq.
  - intros x ->. set_solver.
Qed.

Lemma release_subset (i : nat) (t : grub_term_input) (p : addr)
    (tr : option transfer_handle) (m : machine D) :
  heap (release i t p tr m) ⊆ heap m
  /\ term_inputs (release i t p tr m) ⊆ term_inputs m
  /\ transfers (release i t p tr m) ⊆ transfers m.
Proof.
  unfold release. cbn [heap term_inputs transfers]. split; [|split].
  - etransitivity; [apply delete_subseteq|].
    destruct (name t); [apply delete_subseteq|reflexivity].
  - set_solver.
  - destruct tr; set_solver.
Qed.

Lemma release_wf (i : nat) (t : grub_term_input) (p : addr) (d : D)
    (tr : option transfer_handle) (m : machine D) :
  machine_wf n m ->
  terms m !! i = Some t -> data t = Some p -> heap m !! p = Some (BlockData d) ->
  machine_wf n (release i t p tr m).
Proof.
  intros Hwf Ht Hd Hp.
  assert (Hlook : forall j tj,
            terms (release i t p tr m) !! j = Some tj ->
            (j = i /\ tj = {| name := None; data := None |})
            \/ (j <> i /\ terms m !! j = Some tj)).
  { intros j tj Hj. destruct (decide (j = i)) as [->|Hne].
    - left. destruct (release_self i t p tr m Ht) as (Hs & _). split; congruence.
    - right. split; [assumption|]. unfold release in Hj. cbn [terms] in Hj.
      rewrite list_lookup_insert_ne in Hj by auto. exact Hj. }
  split.
  - unfold release. cbn [terms]. rewrite length_insert. apply (wf_length n m Hwf).
  - intros j tj q Hj Hq. destruct (Hlook j tj Hj) as [[-> ->]|[Hne Hj']]; [discriminate|].
    destruct (release_other i t p d tr m j tj Hwf Ht Hd Hp Hne Hj') as (_ & _ & Hk & _).
    rewrite (Hk q Hq). exact (wf_data n m Hwf j tj q Hj' Hq).
  - intros j tj q nm Hj Hq Hn.
    destruct (Hlook j tj Hj) as [[-> ->]|[Hne Hj']]; [discriminate|].
    destruct (release_other i t p d tr m j tj Hwf Ht Hd Hp Hne Hj') as (_ & _ & _ & Hk).
    rewrite (Hk q nm Hq Hn). exact (wf_name n m Hwf j tj q nm Hj' Hq Hn).
  - intros j k tj tk q Hj Hk Hqj Hqk.
    destruct (Hlook j tj Hj) as [[-> ->]|[Hnej Hj']]; [discriminate|].
    destruct (Hlook k tk Hk) as [[-> ->]|[Hnek Hk']]; [discriminate|].
    exact (wf_data_inj n m Hwf j k tj tk q Hj' Hk' Hqj Hqk).
  - intros j k tj tk nm Hj Hk Hsj Hsk Hnj Hnk.
    destruct (Hlook j tj Hj) as [[-> ->]|[Hnej Hj']]; [discriminate|].
    destruct (Hlook k tk Hk) as [[-> ->]|[Hnek Hk']]; [discriminate|].
    exact (wf_name_inj n m Hwf j k tj tk nm Hj' Hk' Hsj Hsk Hnj Hnk).
  - intros j. unfold release at 1. cbn [term_inputs].
    rewrite elem_of_difference, (wf_inputs n m Hwf j), elem_of_singleton.
    split.
    + intros ((tj & Hj & Hs) & Hne). exists tj. split; [|assumption].
      unfold release. cbn [terms]. rewrite list_lookup_insert_ne by auto. exact Hj.
    + intros (tj & Hj & Hs).
      destruct (Hlook j tj Hj) as [[-> ->]|[Hne Hj']].
      * destruct Hs as [? Hs]. discriminate.
      * split; [eauto|assumption].
Qed.


Lemma slot_matches_inv (dev : addr) (m : machine D) (i : nat) (t : grub_term_input)
    (p : addr) (d : D) :
  slot_matches dev_of dev m i ->
  terms m !! i = Some t -> data t = Some p -> heap m !! p = Some (BlockData d) ->
  dev_of d = dev.
Proof.
  intros (t' & p' & d' & Ht' & Hp' & Hd' & Hdev) Ht Hp Hd. congruence.
Qed.

Lemma detach_slots_detached (dev : addr) (slots : list nat) (m : machine D) :
  machine_wf n m -> (forall i, i ∈ slots -> (i < n)%nat) ->
  exists m',
    detach_slots dev_of transfer_of dev slots m = Some m'
    /\ detached dev_of transfer_of n dev slots m m'.
Proof.
  revert m. induction slots as [|i slots IH]; intros m Hwf Hslots.
  { exists m. split; [reflexivity|]. split; try reflexivity; try assumption.
    - intros i t p d Hi. set_solver.
    - intros i t Ht _. auto. }
  assert (Hrest : forall j, j ∈ slots -> (j < n)%nat) by (intros j Hj; apply Hslots; set_solver).
  assert (Hi : (i < length (terms m))%nat).
  { rewrite (wf_length n m Hwf). apply Hslots. set_solver. }
  destruct (lookup_lt_is_Some_2 _ _ Hi) as [t Ht].
  assert (Hskip : detach_slot dev_of transfer_of dev i m = Some m ->
                  ~ slot_matches dev_of dev m i ->
                  exists m', detach_slots dev_of transfer_of dev (i :: slots) m = Some m'
                             /\ detached dev_of transfer_of n dev (i :: slots) m m').
  { intros Hstep Hno. destruct (IH m Hwf Hrest) as (m' & Hrun & Hdet).
    exists m'. cbn [detach_slots]. rewrite Hstep, bind_Some. split; [exact Hrun|].
    destruct Hdet as [H1 H2 H3 H4 H5 H6 H7]. split; try assumption.
    - intros j tj pj dj Hj Htj Hpj Hdj Hdev.
      apply elem_of_cons in Hj as [->|Hj]; [|eauto].
      exfalso. apply Hno. exists tj, pj, dj. auto.
    - intros j tj Htj Hor. apply H7; [assumption|].
      destruct Hor as [Hor|Hor]; [left; set_solver|right; assumption]. }
  destruct (data t) as [p|] eqn:Hp.
  2:{ apply Hskip.
      - eapply detach_slot_free; eassumption.
      - intros (t' & p' & d' & Ht' & Hp' & _). congruence. }
  destruct (wf_data n m Hwf i t p Ht Hp) as [d Hd].
  destruct (decide (dev_of d = dev)) as [Hdev|Hdev].
  2:{ apply Hskip.
      - eapply detach_slot_other; eassumption.
      - intros Hm. apply Hdev. eapply slot_matches_inv; eassumption. }
  set (m1 := release i t p (transfer_of d) m).
  assert (Hwf1 : machine_wf n m1) by (eapply release_wf; eassumption).
  destruct (IH m1 Hwf1 Hrest) as (m' & Hrun & Hdet).
  exists m'. cbn [detach_slots].
  rewrite (detach_slot_hit dev i t p d m Hwf Ht Hp Hd Hdev), bind_Some.
  split; [exact Hrun|].
  destruct Hdet as [H1 H2 H3 H4 H5 H6 H7].
  destruct (release_subset i t p (transfer_of d) m) as (S1 & S2 & S3).
  destruct (release_self i t p (transfer_of d) m Ht) as (R1 & R2 & R3 & R4 & R5).
  fold m1 in S1, S2, S3, R1, R2, R3, R4, R5.
  split.
  - assumption.
  - rewrite H2. reflexivity.
  - etransitivity; eassumption.
  - etransitivity; eassumption.
  - etransitivity; eassumption.
  - intros j tj pj dj Hj Htj Hpj Hdj Hdevj.
    destruct (decide (j = i)) as [->|Hne].
    + assert (tj = t) by congruence. subst tj.
      assert (pj = p) by congruence. subst pj.
      assert (dj = d) by congruence. subst dj.
      destruct (H7 i _ R1) as (K1 & K2 & _).
      { right. intros (t' & p' & d' & Ht' & Hp' & _). rewrite R1 in Ht'.
        inversion Ht'. subst t'. discriminate. }
      split; [exact K1|].
      split; [intros Hin; apply R2; set_solver|].
      split; [eapply lookup_weaken_None; eassumption|].
      split.
      * intros nm Hn. eapply lookup_weaken_None; [apply R4; exact Hn|assumption].
      * intros tr Htr Hin. apply (R5 tr Htr). set_solver.
    + apply elem_of_cons in Hj as [->|Hj]; [contradiction|].
      destruct (release_other i t p d (transfer_of d) m j tj Hwf Ht Hp Hd Hne Htj)
        as (O1 & O2 & O3 & O4).
      fold m1 in O1, O2, O3, O4.
      apply (H6 j tj pj dj Hj O1 Hpj); [|assumption].
      rewrite (O3 pj Hpj). exact Hdj.
  - intros j tj Htj Hor.
    destruct (decide (j = i)) as [->|Hne].
    + exfalso. destruct Hor as [Hor|Hor]; [set_solver|].
      apply Hor. exists t, p, d. auto.
    + destruct (release_other i t p d (transfer_of d) m j tj Hwf Ht Hp Hd Hne Htj)
        as (O1 & O2 & O3 & O4).
      fold m1 in O1, O2, O3, O4.
      destruct (H7 j tj O1) as (K1 & K2 & K3 & K4).
      { destruct Hor as [Hor|Hor]; [left; set_solver|].
        right. intros (t' & p' & d' & Ht' & Hp' & Hd' & Hdev').
        apply Hor. exists t', p', d'.
        assert (t' = tj) by congruence. subst t'.
        rewrite (O3 p' Hp') in Hd'. auto. }
      split; [exact K1|].
      split; [rewrite K2; exact O2|].
      split.
      * intros q Hq. rewrite (K3 q Hq). apply O3. exact Hq.
      * intros q nm Hq Hn. rewrite (K4 q nm Hq Hn). eapply O4; eassumption.
Qed.


Lemma detach_slots_no_match (dev : addr) (slots : list nat) (m : machine D) :
  machine_wf n m -> (forall i, i ∈ slots -> (i < n)%nat) ->
  (forall i, ~ slot_matches dev_of dev m i) ->
  detach_slots dev_of transfer_of dev slots m = Some m.
Proof.
  intros Hwf Hslots Hno. induction slots as [|i slots IH]; [reflexivity|].
  cbn [detach_slots].
  assert (Hi : (i < length (terms m))%nat).
  { rewrite (wf_length n m Hwf). apply Hslots. set_solver. }
  destruct (lookup_lt_is_Some_2 _ _ Hi) as [t Ht].
  assert (Hstep : detach_slot dev_of transfer_of dev i m = Some m).
  { destruct (data t) as [p|] eqn:Hp; [|eapply detach_slot_free; eassumption].
    destruct (wf_data n m Hwf i t p Ht Hp) as [d Hd].
    eapply detach_slot_other; try eassumption.
    intros Hdev. apply (Hno i). exists t, p, d. auto. }
  rewrite Hstep, bind_Some. apply IH. intros j Hj. apply Hslots. set_solver.
Qed.

Lemma detach_slots_contract :
  detach_contract dev_of transfer_of n
    (fun dev m => detach_slots dev_of transfer_of dev (seq 0 n) m).
Proof.
  intros dev m Hwf.
  assert (Hslots : forall i, i ∈ seq 0 n -> (i < n)%nat).
  { intros i Hi. apply list_elem_of_In, in_seq in Hi. lia. }
  destruct (detach_slots_detached dev (seq 0 n) m Hwf Hslots) as (m' & Hrun & Hdet).
  destruct Hdet as [H1 H2 H3 H4 H5 H6 H7].
  assert (Hin : forall i t, terms m !! i = Some t -> i ∈ seq 0 n).
  { intros i t Ht. apply lookup_lt_Some in Ht. rewrite (wf_length n m Hwf) in Ht.
    apply list_elem_of_In, in_seq. lia. }
  exists m'. split; [exact Hrun|]. split; [exact H1|].
  split; [intros i t p d Ht; apply H6; eauto|].
  split; [intros i t Ht Hno; apply H7; auto|].
  split; [intros Hno; rewrite (detach_slots_no_match dev _ m Hwf Hslots Hno) in Hrun;
          congruence|].
  apply detach_slots_no_match; [assumption..|].
  intros i (t' & p' & d' & Ht' & Hp' & Hd' & Hdev').
  assert (Hi : (i < length (terms m))%nat).
  { apply lookup_lt_Some in Ht'.
    rewrite (wf_length n m' H1) in Ht'. rewrite (wf_length n m Hwf). exact Ht'. }
  destruct (lookup_lt_is_Some_2 _ _ Hi) as [t Ht].
  destruct (data t) as [p|] eqn:Hp.
  - destruct (wf_data n m Hwf i t p Ht Hp) as [d Hd].
    destruct (decide (dev_of d = dev)) as [Hdev|Hdev].
    + destruct (H6 i t p d (Hin i t Ht) Ht Hp Hd Hdev) as (K & _).
      rewrite K in Ht'. inversion Ht'. subst t'. discriminate.
    + destruct (H7 i t Ht) as (K1 & _ & K3 & _).
      { right. intros Hm. apply Hdev. eapply slot_matches_inv; eassumption. }
      rewrite K1 in Ht'. inversion Ht'. subst t'.
      assert (p' = p) by congruence. subst p'.
      rewrite (K3 p Hp), Hd in Hd'. congruence.
  - destruct (H7 i t Ht) as (K1 & _).
    { right. intros (t0 & p0 & d0 & Ht0 & Hp0 & _). congruence. }
    rewrite K1 in Ht'. inversion Ht'. subst t'. congruence.
Qed.

End Detach.

(** C9: in both files, [grub_usb_snes_detach] meets the detach contract on
    the 8 entries of the table: for every entry (none, one or several) whose
    session belongs to the detaching device, the outstanding read is
    cancelled, the input is unregistered, the name and the session are
    released and the entry is marked free; every other entry is untouched;
    when no entry matches (an unknown handle, or one already detached) the
    state is unchanged, so detaching twice is the same as detaching once. *)
Theorem detach_meets_contract :
  detach_contract UsbSnes.usbdev UsbSnes.transfer UsbSnes.MAX_GAMEPADS
    UsbSnes.grub_usb_snes_detach
  /\ detach_contract UsbSnesGamepad.usbdev UsbSnesGamepad.transfer
       UsbSnesGamepad.GAMEPADS_CAPACITY UsbSnesGamepad.grub_usb_snes_detach.
Proof.
  split.
  - exact (detach_slots_contract UsbSnes.usbdev UsbSnes.transfer UsbSnes.MAX_GAMEPADS).
  - exact (detach_slots_contract UsbSnesGamepad.usbdev UsbSnesGamepad.transfer
             UsbSnesGamepad.GAMEPADS_CAPACITY).
Qed.

(** ** The slot table: attach *)

Section SlotSearch.

Lemma find_free_slot_le (ts : list grub_term_input) :
  (find_free_slot ts <= length ts)%nat.
Proof.
  induction ts as [|t ts IH]; cbn; [lia|]. destruct (data t); lia.
Qed.

Lemma find_free_slot_free (ts : list grub_term_input) :
  (find_free_slot ts < length ts)%nat ->
  exists t, ts !! find_free_slot ts = Some t /\ data t = None.
Proof.
  induction ts as [|t ts IH]; cbn; [lia|].
  destruct (data t) eqn:E; intros H.
  - apply IH. lia.
  - exists t. auto.
Qed.

Lemma find_free_slot_lowest (ts : list grub_term_input) (j : nat) :
  (j < find_free_slot ts)%nat -> exists t q, ts !! j = Some t /\ data t = Some q.
Proof.
  revert j. induction ts as [|t ts IH]; cbn; [lia|].
  destruct (data t) as [q|] eqn:E; intros j H; [|lia].
  destruct j as [|j]; [exists t, q; auto|].
  apply IH. lia.
Qed.

End SlotSearch.

Section Installed.
Context {D : Type} (n : nat).

Lemma installed_wf (c : nat) (t : grub_term_input) (p nm : addr) (d : D) (s : string)
    (tr : transfer_handle) (calls : list usb_call) (m : machine D) :
  machine_wf n m ->
  terms m !! c = Some t -> data t = None ->
  heap m !! p = None -> heap m !! nm = None -> p <> nm ->
  machine_wf n (installed c p nm d s tr calls m).
Proof.
  intros Hwf Ht Hfree Hp Hnm Hne.
  assert (Hc : (c < length (terms m))%nat) by (eapply lookup_lt_Some; eassumption).
  assert (Hlook : forall j tj,
            terms (installed c p nm d s tr calls m) !! j = Some tj ->
            (j = c /\ tj = {| name := Some nm; data := Some p |})
            \/ (j <> c /\ terms m !! j = Some tj)).
  { intros j tj Hj. unfold installed in Hj. cbn [terms] in Hj.
    destruct (decide (j = c)) as [->|Hjc].
    - rewrite list_lookup_insert_eq in Hj by assumption. left. split; congruence.
    - rewrite list_lookup_insert_ne in Hj by auto. right. auto. }
  assert (Hold : forall q b, heap m !! q = Some b ->
            heap (installed c p nm d s tr calls m) !! q = Some b).
  { intros q b Hq. unfold installed. cbn [heap].
    rewrite !lookup_insert_ne by congruence. exact Hq. }
  split.
  - unfold installed. cbn [terms]. rewrite length_insert. apply (wf_length n m Hwf).
  - intros j tj q Hj Hq. destruct (Hlook j tj Hj) as [[-> ->]|[Hjc Hj']].
    + cbn in Hq. inversion Hq. subst q. exists d. unfold installed. cbn [heap].
      apply lookup_insert_eq.
    + destruct (wf_data n m Hwf j tj q Hj' Hq) as [d' Hd']. eauto.
  - intros j tj q nm' Hj Hq Hn. destruct (Hlook j tj Hj) as [[-> ->]|[Hjc Hj']].
    + cbn in Hn. inversion Hn. subst nm'. exists s. unfold installed. cbn [heap].
      rewrite lookup_insert_ne by auto. apply lookup_insert_eq.
    + destruct (wf_name n m Hwf j tj q nm' Hj' Hq Hn) as [s' Hs']. eauto.
  - intros j k tj tk q Hj Hk Hqj Hqk.
    destruct (Hlook j tj Hj) as [[-> ->]|[Hjc Hj']];
      destruct (Hlook k tk Hk) as [[-> ->]|[Hkc Hk']]; try reflexivity.
    + cbn in Hqj. inversion Hqj. subst q.
      destruct (wf_data n m Hwf k tk p Hk' Hqk) as [d' Hd']. congruence.
    + cbn in Hqk. inversion Hqk. subst q.
      destruct (wf_data n m Hwf j tj p Hj' Hqj) as [d' Hd']. congruence.
    + exact (wf_data_inj n m Hwf j k tj tk q Hj' Hk' Hqj Hqk).
  - intros j k tj tk nm' Hj Hk Hsj Hsk Hnj Hnk.
    destruct (Hlook j tj Hj) as [[-> ->]|[Hjc Hj']];
      destruct (Hlook k tk Hk) as [[-> ->]|[Hkc Hk']]; try reflexivity.
    + cbn in Hnj. inversion Hnj. subst nm'. destruct Hsk as [q Hq].
      destruct (wf_name n m Hwf k tk q nm Hk' Hq Hnk) as [s' Hs']. congruence.
    + cbn in Hnk. inversion Hnk. subst nm'. destruct Hsj as [q Hq].
      destruct (wf_name n m Hwf j tj q nm Hj' Hq Hnj) as [s' Hs']. congruence.
    + exact (wf_name_inj n m Hwf j k tj tk nm' Hj' Hk' Hsj Hsk Hnj Hnk).
  - intros j. unfold installed at 1. cbn [term_inputs].
    rewrite elem_of_union, elem_of_singleton, (wf_inputs n m Hwf j).
    split.
    + intros [->|(tj & Hj & Hs)].
      * exists {| name := Some nm; data := Some p |}. split; [|eexists; reflexivity].
        unfold installed. cbn [terms]. apply list_lookup_insert_eq. assumption.
      * destruct (decide (j = c)) as [->|Hjc].
        { rewrite Ht in Hj. inversion Hj. subst tj. rewrite Hfree in Hs.
          destruct Hs. discriminate. }
        exists tj. split; [|assumption].
        unfold installed. cbn [terms]. rewrite list_lookup_insert_ne by auto. exact Hj.
    + intros (tj & Hj & Hs). destruct (Hlook j tj Hj) as [[-> ->]|[Hjc Hj']]; eauto.
Qed.

End Installed.

(** *** Running the machine operations on an explicit state *)

Section MachineSteps.
Context {D : Type}.
Implicit Types (ts : list grub_term_input) (hp : gmap addr (block D))
  (ins : gset nat) (trs : gset transfer_handle) (lg : list usb_call).

Lemma alloc_lit p b ts hp ins trs lg :
  alloc p b (Build_machine D ts hp ins trs lg)
  = Build_machine D ts (<[p := b]> hp) ins trs lg.
Proof. reflexivity. Qed.

Lemma usb_request_lit c ts hp ins trs lg :
  usb_request c (Build_machine D ts hp ins trs lg)
  = Build_machine D ts hp ins trs (lg ++ [c]).
Proof. reflexivity. Qed.

Lemma set_transfers_lit s ts hp ins trs lg :
  set_transfers s (Build_machine D ts hp ins trs lg)
  = Build_machine D ts hp ins s lg.
Proof. reflexivity. Qed.

Lemma register_lit i ts hp ins trs lg :
  grub_term_register_input_active i (Build_machine D ts hp ins trs lg)
  = Build_machine D ts hp ({[ i ]} ∪ ins) trs lg.
Proof. reflexivity. Qed.

Lemma set_term_name_lit i nmo t ts hp ins trs lg :
  ts !! i = Some t ->
  set_term_name i nmo (Build_machine D ts hp ins trs lg)
  = Build_machine D (<[i := {| name := nmo; data := data t |}]> ts) hp ins trs lg.
Proof. intros H. unfold set_term_name. cbn [terms]. rewrite H. reflexivity. Qed.

Lemma set_term_data_lit i po t ts hp ins trs lg :
  ts !! i = Some t ->
  set_term_data i po (Build_machine D ts hp ins trs lg)
  = Build_machine D (<[i := {| name := name t; data := po |}]> ts) hp ins trs lg.
Proof. intros H. unfold set_term_data. cbn [terms]. rewrite H. reflexivity. Qed.

Lemma term_name_lit i t ts hp ins trs lg :
  ts !! i = Some t ->
  term_name i (Build_machine D ts hp ins trs lg) = name t.
Proof. intros H. unfold term_name. cbn [terms]. rewrite H. reflexivity. Qed.

Lemma grub_free_lit a b ts hp ins trs lg :
  hp !! a = Some b ->
  grub_free (Some a) (Build_machine D ts hp ins trs lg)
  = Some (Build_machine D ts (delete a hp) ins trs lg).
Proof. intros H. unfold grub_free. cbn [heap]. rewrite H. reflexivity. Qed.

End MachineSteps.

Create Rewrite HintDb machine.
#[local] Hint Rewrite @alloc_lit @usb_request_lit @set_transfers_lit @register_lit
  : machine.

(** One step of a run: the innermost operation on an explicit state. *)
Ltac machine_run :=
  repeat first
    [ progress autorewrite with machine
    | erewrite set_term_name_lit by
        first [eassumption | apply list_lookup_insert_eq; rewrite ?length_insert; lia]
    | erewrite set_term_data_lit by
        first [eassumption | apply list_lookup_insert_eq; rewrite ?length_insert; lia]
    | erewrite term_name_lit by
        first [eassumption | apply list_lookup_insert_eq; rewrite ?length_insert; lia]
    | erewrite grub_free_lit by
        (rewrite ?lookup_delete_ne, ?lookup_insert_ne by congruence;
         apply lookup_insert_eq)
    | rewrite bind_Some
    | progress cbn [name data] ].

Lemma heap_release_fresh {D : Type} (hp : gmap addr (block D)) (p nm : addr)
    (b1 b2 b3 : block D) :
  p <> nm ->
  delete p (delete nm (<[p := b1]> (<[nm := b2]> (<[p := b3]> hp))))
  = delete p (delete nm hp).
Proof.
  intros Hne. apply map_eq. intros k.
  destruct (decide (k = p)) as [->|Hkp]; [rewrite !lookup_delete_eq; reflexivity|].
  rewrite !(lookup_delete_ne _ p) by auto.
  destruct (decide (k = nm)) as [->|Hkn]; [rewrite !lookup_delete_eq; reflexivity|].
  rewrite !lookup_delete_ne, !lookup_insert_ne by auto. reflexivity.
Qed.

Section SnesAttach.
Import UsbSnes.

Lemma snes_attach_accepts (env : attach_env) (dev : grub_usb_device)
    (configno interfno : Z) (m : machine grub_usb_snes_data)
    (e : grub_usb_desc_endp) (p nm : addr) (tr : transfer_handle) :
  is_supported_device (descdev_vendorid dev) (descdev_prodid dev) <> 0 ->
  length (terms m) = MAX_GAMEPADS ->
  (find_free_slot (terms m) < MAX_GAMEPADS)%nat ->
  find_interrupt_in (descendp (config_interf dev configno interfno)) = Some e ->
  env_malloc env = Some p -> env_xasprintf env = Some nm ->
  env_bulk_read env = Some tr -> p <> nm ->
  grub_usb_snes_attach env dev configno interfno m
  = Some (1, installed (find_free_slot (terms m)) p nm
               (set_transfer (Some tr) (init_data dev interfno e))
               (xasprintf_d "usb_snes" (find_free_slot (terms m))) tr
               (attach_calls USB_HID_SET_PROTOCOL USB_HID_SET_IDLE
                             dev configno interfno e)
               m).
Proof.
  intros Hsup Hlen Hslot Hendp Hmalloc Hname Hread Hne.
  destruct (find_free_slot_free (terms m) ltac:(lia)) as (t & Ht & Hfree).
  unfold grub_usb_snes_attach, c_not.
  destruct (Z.eqb_spec (is_supported_device (descdev_vendorid dev) (descdev_prodid dev)) 0);
    [contradiction|].
  rewrite bool_decide_eq_false_2 by lia.
  rewrite Hendp, Hmalloc, Hname, Hread.
  set (c := find_free_slot (terms m)) in *.
  destruct m as [ts hp ins trs lg]. cbn [terms] in *.
  cbv zeta. cbn [transfer set_transfer].
  machine_run.
  unfold installed, attach_calls. cbn [terms heap term_inputs transfers usb_log].
  rewrite list_insert_insert_eq, (insert_insert_ne _ nm p), insert_insert_eq,
    <- !app_assoc by auto.
  reflexivity.
Qed.

Lemma snes_attach_name_failure (env : attach_env) (dev : grub_usb_device)
    (configno interfno : Z) (m : machine grub_usb_snes_data)
    (e : grub_usb_desc_endp) (p : addr) :
  is_supported_device (descdev_vendorid dev) (descdev_prodid dev) <> 0 ->
  length (terms m) = MAX_GAMEPADS ->
  (find_free_slot (terms m) < MAX_GAMEPADS)%nat ->
  find_interrupt_in (descendp (config_interf dev configno interfno)) = Some e ->
  env_malloc env = Some p -> env_xasprintf env = None ->
  exists m',
    grub_usb_snes_attach env dev configno interfno m = Some (0, m')
    /\ terms m' = <[find_free_slot (terms m) := {| name := None; data := Some p |}]>
                    (terms m)
    /\ heap m' = delete p (heap m)
    /\ term_inputs m' = term_inputs m
    /\ transfers m' = transfers m.
Proof.
  intros Hsup Hlen Hslot Hendp Hmalloc Hname.
  destruct (find_free_slot_free (terms m) ltac:(lia)) as (t & Ht & Hfree).
  unfold grub_usb_snes_attach, c_not.
  destruct (Z.eqb_spec (is_supported_device (descdev_vendorid dev) (descdev_prodid dev)) 0);
    [contradiction|].
  rewrite bool_decide_eq_false_2 by lia.
  rewrite Hendp, Hmalloc, Hname.
  set (c := find_free_slot (terms m)) in *.
  destruct m as [ts hp ins trs lg]. cbn [terms] in *.
  cbv zeta. machine_run.
  eexists. split; [reflexivity|]. cbn [terms heap term_inputs transfers].
  rewrite list_insert_insert_eq, delete_insert_eq. auto.
Qed.

Lemma snes_attach_read_failure (env : attach_env) (dev : grub_usb_device)
    (configno interfno : Z) (m : machine grub_usb_snes_data)
    (e : grub_usb_desc_endp) (p nm : addr) :
  is_supported_device (descdev_vendorid dev) (descdev_prodid dev) <> 0 ->
  length (terms m) = MAX_GAMEPADS ->
  (find_free_slot (terms m) < MAX_GAMEPADS)%nat ->
  find_interrupt_in (descendp (config_interf dev configno interfno)) = Some e ->
  env_malloc env = Some p -> env_xasprintf env = Some nm ->
  env_bulk_read env = None -> p <> nm ->
  exists m',
    grub_usb_snes_attach env dev configno interfno m = Some (0, m')
    /\ terms m' = <[find_free_slot (terms m) := {| name := Some nm; data := None |}]>
                    (terms m)
    /\ heap m' = delete p (delete nm (heap m))
    /\ term_inputs m' = term_inputs m
    /\ transfers m' = transfers m.
Proof.
  intros Hsup Hlen Hslot Hendp Hmalloc Hname Hread Hne.
  destruct (find_free_slot_free (terms m) ltac:(lia)) as (t & Ht & Hfree).
  unfold grub_usb_snes_attach, c_not.
  destruct (Z.eqb_spec (is_supported_device (descdev_vendorid dev) (descdev_prodid dev)) 0);
    [contradiction|].
  rewrite bool_decide_eq_false_2 by lia.
  rewrite Hendp, Hmalloc, Hname, Hread.
  set (c := find_free_slot (terms m)) in *.
  destruct m as [ts hp ins trs lg]. cbn [terms] in *.
  cbv zeta. cbn [transfer set_transfer]. machine_run.
  eexists. split; [reflexivity|]. cbn [terms heap term_inputs transfers].
  rewrite !list_insert_insert_eq, heap_release_fresh by assumption. auto.
Qed.

Lemma snes_attach_early_rejections (env : attach_env) (dev : grub_usb_device)
    (configno interfno : Z) (m : machine grub_usb_snes_data) :
  is_supported_device (descdev_vendorid dev) (descdev_prodid dev) = 0
  \/ find_free_slot (terms m) = MAX_GAMEPADS
  \/ find_interrupt_in (descendp (config_interf dev configno interfno)) = None
  \/ env_malloc env = None ->
  grub_usb_snes_attach env dev configno interfno m = Some (0, m).
Proof.
  intros H. unfold grub_usb_snes_attach, c_not.
  destruct (Z.eqb_spec (is_supported_device (descdev_vendorid dev) (descdev_prodid dev)) 0)
    as [|Hsup]; [reflexivity|].
  destruct (decide (find_free_slot (terms m) = MAX_GAMEPADS)) as [Hc|Hc].
  { rewrite bool_decide_eq_true_2 by assumption. reflexivity. }
  rewrite bool_decide_eq_false_2 by assumption.
  destruct (find_interrupt_in _) as [e|] eqn:He; [|reflexivity].
  destruct (env_malloc env) as [p|] eqn:Hm; [|reflexivity].
  destruct H as [H|[H|[H|H]]]; congruence.
Qed.

End SnesAttach.

Section GamepadAttach.
Import UsbSnesGamepad.

Lemma gamepad_attach_rejects_keyboard (env : attach_env) (dev : grub_usb_device)
    (configno interfno : Z) (m : machine grub_usb_snes_data) :
  descif_protocol (config_interf dev configno interfno) = 1 ->
  grub_usb_snes_attach env dev configno interfno m = Some (0, m).
Proof.
  intros H. unfold grub_usb_snes_attach. cbv zeta. rewrite H. reflexivity.
Qed.

Lemma gamepad_attach_early_rejections (env : attach_env) (dev : grub_usb_device)
    (configno interfno : Z) (m : machine grub_usb_snes_data) :
  descif_protocol (config_interf dev configno interfno) = 1
  \/ (GAMEPADS_CAPACITY <= find_free_slot (terms m))%nat
  \/ find_interrupt_in (descendp (config_interf dev configno interfno)) = None
  \/ env_malloc env = None ->
  grub_usb_snes_attach env dev configno interfno m = Some (0, m).
Proof.
  intros H. unfold grub_usb_snes_attach. cbv zeta.
  change (c_true ACCEPT_ANY_HID) with true. cbv iota.
  destruct (Z.eqb_spec (descif_protocol (config_interf dev configno interfno)) 1)
    as [|Hp]; [reflexivity|].
  destruct (decide (GAMEPADS_CAPACITY <= find_free_slot (terms m))%nat) as [Hc|Hc].
  { rewrite bool_decide_eq_true_2 by assumption. reflexivity. }
  rewrite bool_decide_eq_false_2 by assumption.
  destruct (find_interrupt_in _) as [e|] eqn:He; [|reflexivity].
  destruct (env_malloc env) as [p|] eqn:Hm; [|reflexivity].
  destruct H as [H|[H|[H|H]]]; congruence.
Qed.

Lemma gamepad_attach_accepts (env : attach_env) (dev : grub_usb_device)
    (configno interfno : Z) (m : machine grub_usb_snes_data)
    (e : grub_usb_desc_endp) (p nm : addr) (tr : transfer_handle) :
  descif_protocol (config_interf dev configno interfno) <> 1 ->
  length (terms m) = GAMEPADS_CAPACITY ->
  (find_free_slot (terms m) < GAMEPADS_CAPACITY)%nat ->
  find_interrupt_in (descendp (config_interf dev configno interfno)) = Some e ->
  env_malloc env = Some p -> env_xasprintf env = Some nm ->
  env_bulk_read env = Some tr -> p <> nm ->
  grub_usb_snes_attach env dev configno interfno m
  = Some (1, installed (find_free_slot (terms m)) p nm
               (set_transfer (Some tr)
                  (init_data (env_garbage env) dev configno interfno e))
               (xasprintf_d "snes_gamepad" (find_free_slot (terms m))) tr
               (attach_calls USB_HID_SET_PROTOCOL USB_HID_SET_IDLE
                             dev configno interfno e)
               m).
Proof.
  intros Hproto Hlen Hslot Hendp Hmalloc Hname Hread Hne.
  destruct (find_free_slot_free (terms m) ltac:(lia)) as (t & Ht & Hfree).
  unfold grub_usb_snes_attach. cbv zeta.
  change (c_true ACCEPT_ANY_HID) with true. cbv iota.
  destruct (Z.eqb_spec (descif_protocol (config_interf dev configno interfno)) 1);
    [contradiction|].
  rewrite bool_decide_eq_false_2 by lia.
  rewrite Hendp, Hmalloc, Hname, Hread.
  set (c := find_free_slot (terms m)) in *.
  destruct m as [ts hp ins trs lg]. cbn [terms] in *.
  cbn [transfer set_transfer]. machine_run.
  unfold installed, attach_calls. cbn [terms heap term_inputs transfers usb_log].
  rewrite list_insert_insert_eq, (insert_insert_ne _ nm p), insert_insert_eq,
    <- !app_assoc by auto.
  reflexivity.
Qed.

Lemma gamepad_attach_read_failure (env : attach_env) (dev : grub_usb_device)
    (configno interfno : Z) (m : machine grub_usb_snes_data)
    (e : grub_usb_desc_endp) (p nm : addr) :
  descif_protocol (config_interf dev configno interfno) <> 1 ->
  length (terms m) = GAMEPADS_CAPACITY ->
  (find_free_slot (terms m) < GAMEPADS_CAPACITY)%nat ->
  find_interrupt_in (descendp (config_interf dev configno interfno)) = Some e ->
  env_malloc env = Some p -> env_xasprintf env = Some nm ->
  env_bulk_read env = None -> p <> nm ->
  exists m',
    grub_usb_snes_attach env dev configno interfno m = Some (0, m')
    /\ terms m' = <[find_free_slot (terms m) := {| name := None; data := Some p |}]>
                    (terms m)
    /\ heap m' = delete p (delete nm (heap m))
    /\ term_inputs m' = term_inputs m
    /\ transfers m' = transfers m.
Proof.
  intros Hproto Hlen Hslot Hendp Hmalloc Hname Hread Hne.
  destruct (find_free_slot_free (terms m) ltac:(lia)) as (t & Ht & Hfree).
  unfold grub_usb_snes_attach. cbv zeta.
  change (c_true ACCEPT_ANY_HID) with true. cbv iota.
  destruct (Z.eqb_spec (descif_protocol (config_interf dev configno interfno)) 1);
    [contradiction|].
  rewrite bool_decide_eq_false_2 by lia.
  rewrite Hendp, Hmalloc, Hname, Hread.
  set (c := find_free_slot (terms m)) in *.
  destruct m as [ts hp ins trs lg]. cbn [terms] in *.
  cbn [transfer set_transfer]. machine_run.
  eexists. split; [reflexivity|]. cbn [terms heap term_inputs transfers].
  rewrite !list_insert_insert_eq, heap_release_fresh by assumption. auto.
Qed.

End GamepadAttach.

(** A successful attach keeps the slot table well formed, provided the
    allocator returns blocks that are not in use. *)
Lemma snes_attach_keeps_wf (env : attach_env) (dev : grub_usb_device)
    (configno interfno : Z) (m : machine UsbSnes.grub_usb_snes_data)
    (e : grub_usb_desc_endp) (p nm : addr) (tr : transfer_handle) :
  machine_wf UsbSnes.MAX_GAMEPADS m ->
  UsbSnes.is_supported_device (descdev_vendorid dev) (descdev_prodid dev) <> 0 ->
  (find_free_slot (terms m) < UsbSnes.MAX_GAMEPADS)%nat ->
  find_interrupt_in (descendp (config_interf dev configno interfno)) = Some e ->
  env_malloc env = Some p -> env_xasprintf env = Some nm ->
  env_bulk_read env = Some tr ->
  heap m !! p = None -> heap m !! nm = None -> p <> nm ->
  exists m',
    UsbSnes.grub_usb_snes_attach env dev configno interfno m = Some (1, m')
    /\ machine_wf UsbSnes.MAX_GAMEPADS m'.
Proof.
  intros Hwf Hsup Hslot Hendp Hm Hn Hr Hp Hnm Hne.
  pose proof (wf_length _ m Hwf) as Hlen.
  destruct (find_free_slot_free (terms m) ltac:(lia)) as (t & Ht & Hfree).
  eexists. split; [eapply snes_attach_accepts; eassumption|].
  eapply installed_wf; eassumption.
Qed.

Lemma gamepad_attach_keeps_wf (env : attach_env) (dev : grub_usb_device)
    (configno interfno : Z) (m : machine UsbSnesGamepad.grub_usb_snes_data)
    (e : grub_usb_desc_endp) (p nm : addr) (tr : transfer_handle) :
  machine_wf UsbSnesGamepad.GAMEPADS_CAPACITY m ->
  descif_protocol (config_interf dev configno interfno) <> 1 ->
  (find_free_slot (terms m) < UsbSnesGamepad.GAMEPADS_CAPACITY)%nat ->
  find_interrupt_in (descendp (config_interf dev configno interfno)) = Some e ->
  env_malloc env = Some p -> env_xasprintf env = Some nm ->
  env_bulk_read env = Some tr ->
  heap m !! p = None -> heap m !! nm = None -> p <> nm ->
  exists m',
    UsbSnesGamepad.grub_usb_snes_attach env dev configno interfno m = Some (1, m')
    /\ machine_wf UsbSnesGamepad.GAMEPADS_CAPACITY m'.
Proof.
  intros Hwf Hproto Hslot Hendp Hm Hn Hr Hp Hnm Hne.
  pose proof (wf_length _ m Hwf) as Hlen.
  destruct (find_free_slot_free (terms m) ltac:(lia)) as (t & Ht & Hfree).
  eexists. split; [eapply gamepad_attach_accepts; eassumption|].
  eapply installed_wf; eassumption.
Qed.

Lemma is_supported_device_from_spec (pre rest : list (Z * Z)) (x vid pid : Z) :
  Forall (fun e => fst e <> 0) pre ->
  UsbSnes.is_supported_device_from (pre ++ (0, x) :: rest) vid pid
  = if bool_decide ((vid, pid) ∈ pre) then 1 else 0.
Proof.
  induction 1 as [|[v p] pre Hv _ IH]; cbn [app UsbSnes.is_supported_device_from].
  - rewrite bool_decide_eq_false_2 by apply not_elem_of_nil. reflexivity.
  - cbn in Hv. destruct (Z.eqb_spec v 0); [contradiction|].
    destruct (Z.eqb_spec v vid) as [->|Hne]; cbn [andb].
    + destruct (Z.eqb_spec p pid) as [->|Hne].
      * rewrite bool_decide_eq_true_2 by (apply elem_of_cons; auto). reflexivity.
      * rewrite IH.
        assert (E : bool_decide ((vid, pid) ∈ (vid, p) :: pre)
                    = bool_decide ((vid, pid) ∈ pre)).
        { apply bool_decide_ext. rewrite elem_of_cons.
          split; [intros [E|E]; [congruence|assumption]|auto]. }
        rewrite E. reflexivity.
    + rewrite IH.
      assert (E : bool_decide ((vid, pid) ∈ (v, p) :: pre)
                  = bool_decide ((vid, pid) ∈ pre)).
      { apply bool_decide_ext. rewrite elem_of_cons.
        split; [intros [E|E]; [congruence|assumption]|auto]. }
      rewrite E. reflexivity.
Qed.

Lemma is_supported_device_spec (vid pid : Z) :
  UsbSnes.is_supported_device vid pid
  = if bool_decide ((vid, pid) ∈ snes_allow_list) then 1 else 0.
Proof.
  unfold UsbSnes.is_supported_device.
  change UsbSnes.supported_devices with (snes_allow_list ++ [(0, 0)]).
  apply is_supported_device_from_spec.
  unfold snes_allow_list, UsbSnes.supported_devices. cbn [take].
  repeat constructor; cbn; discriminate.
Qed.

(** C7, as the code has it.  In [usb_snes_gamepad.c], where the
    accept-any-HID policy is enabled at compile time ([ACCEPT_ANY_HID] is 1),
    attach rejects a device whose interface protocol byte is 1 (a keyboard)
    and leaves the state as it is, and accepts every other device, on the
    allow list or not: with a free entry, an interrupt IN endpoint and the
    allocations and the first read succeeding, it returns 1 and installs the
    session.  In [usb_snes.c] attach does not read the protocol byte: it
    rejects a device that is not on the allow list and accepts one that is,
    keyboard or not. *)
Theorem attach_filter :
  (forall env dev configno interfno m,
     descif_protocol (config_interf dev configno interfno) = 1 ->
     UsbSnesGamepad.grub_usb_snes_attach env dev configno interfno m = Some (0, m))
  /\ (forall env dev configno interfno m e p nm tr,
        descif_protocol (config_interf dev configno interfno) <> 1 ->
        length (terms m) = UsbSnesGamepad.GAMEPADS_CAPACITY ->
        (find_free_slot (terms m) < UsbSnesGamepad.GAMEPADS_CAPACITY)%nat ->
        find_interrupt_in (descendp (config_interf dev configno interfno)) = Some e ->
        env_malloc env = Some p -> env_xasprintf env = Some nm ->
        env_bulk_read env = Some tr -> p <> nm ->
        exists m',
          UsbSnesGamepad.grub_usb_snes_attach env dev configno interfno m = Some (1, m')
          /\ terms m' !! find_free_slot (terms m)
             = Some {| name := Some nm; data := Some p |}
          /\ find_free_slot (terms m) ∈ term_inputs m'
          /\ tr ∈ transfers m')
  /\ (forall env dev configno interfno m,
        (descdev_vendorid dev, descdev_prodid dev) ∉ snes_allow_list ->
        UsbSnes.grub_usb_snes_attach env dev configno interfno m = Some (0, m))
  /\ (forall env dev configno interfno m e p nm tr,
        (descdev_vendorid dev, descdev_prodid dev) ∈ snes_allow_list ->
        length (terms m) = UsbSnes.MAX_GAMEPADS ->
        (find_free_slot (terms m) < UsbSnes.MAX_GAMEPADS)%nat ->
        find_interrupt_in (descendp (config_interf dev configno interfno)) = Some e ->
        env_malloc env = Some p -> env_xasprintf env = Some nm ->
        env_bulk_read env = Some tr -> p <> nm ->
        exists m',
          UsbSnes.grub_usb_snes_attach env dev configno interfno m = Some (1, m')
          /\ terms m' !! find_free_slot (terms m)
             = Some {| name := Some nm; data := Some p |}
          /\ find_free_slot (terms m) ∈ term_inputs m'
          /\ tr ∈ transfers m').
Proof.
  assert (Hinst : forall (D : Type) c p nm (d : D) s tr calls (m : machine D),
            (c < length (terms m))%nat ->
            terms (installed c p nm d s tr calls m) !! c
            = Some {| name := Some nm; data := Some p |}
            /\ c ∈ term_inputs (installed c p nm d s tr calls m)
            /\ tr ∈ transfers (installed c p nm d s tr calls m)).
  { intros D c p nm d s tr calls m Hc. unfold installed. cbn.
    split; [apply list_lookup_insert_eq; assumption|]. split; set_solver. }
  split; [exact gamepad_attach_rejects_keyboard|].
  split.
  { intros env dev configno interfno m e p nm tr Hproto Hlen Hslot Hendp Hm Hn Hr Hne.
    eexists. split; [eapply gamepad_attach_accepts; eassumption|].
    apply Hinst. lia. }
  split.
  { intros env dev configno interfno m Hnot.
    apply snes_attach_early_rejections. left.
    rewrite is_supported_device_spec, bool_decide_eq_false_2 by assumption.
    reflexivity. }
  intros env dev configno interfno m e p nm tr Hin Hlen Hslot Hendp Hm Hn Hr Hne.
  eexists. split; [eapply snes_attach_accepts; try eassumption|].
  - rewrite is_supported_device_spec, bool_decide_eq_true_2 by assumption. discriminate.
  - apply Hinst. lia.
Qed.

(** C8 is violated in both files, each in one path.  In
    [usb_snes_gamepad.c], when the first read cannot be started, attach
    frees the session but leaves the [data] pointer of the entry set; in
    [usb_snes.c] the same happens when the name cannot be allocated.  In
    both cases attach returns 0 with the entry still marked occupied and
    pointing to a freed block, so the state is no longer well formed. *)
Theorem attach_failure_leaves_slot_occupied :
  (forall env dev configno interfno m e p nm,
     descif_protocol (config_interf dev configno interfno) <> 1 ->
     length (terms m) = UsbSnesGamepad.GAMEPADS_CAPACITY ->
     (find_free_slot (terms m) < UsbSnesGamepad.GAMEPADS_CAPACITY)%nat ->
     find_interrupt_in (descendp (config_interf dev configno interfno)) = Some e ->
     env_malloc env = Some p -> env_xasprintf env = Some nm ->
     env_bulk_read env = None -> p <> nm ->
     exists m',
       UsbSnesGamepad.grub_usb_snes_attach env dev configno interfno m = Some (0, m')
       /\ terms m' !! find_free_slot (terms m)
          = Some {| name := None; data := Some p |}
       /\ heap m' !! p = None
       /\ ~ machine_wf UsbSnesGamepad.GAMEPADS_CAPACITY m')
  /\ (forall env dev configno interfno m e p,
        (descdev_vendorid dev, descdev_prodid dev) ∈ snes_allow_list ->
        length (terms m) = UsbSnes.MAX_GAMEPADS ->
        (find_free_slot (terms m) < UsbSnes.MAX_GAMEPADS)%nat ->
        find_interrupt_in (descendp (config_interf dev configno interfno)) = Some e ->
        env_malloc env = Some p -> env_xasprintf env = None ->
        exists m',
          UsbSnes.grub_usb_snes_attach env dev configno interfno m = Some (0, m')
          /\ terms m' !! find_free_slot (terms m)
             = Some {| name := None; data := Some p |}
          /\ heap m' !! p = None
          /\ ~ machine_wf UsbSnes.MAX_GAMEPADS m').
Proof.
  assert (Hbad : forall (D : Type) n (m' : machine D) c p,
            terms m' !! c = Some {| name := None; data := Some p |} ->
            heap m' !! p = None -> ~ machine_wf n m').
  { intros D n m' c p Hc Hp Hwf.
    destruct (wf_data n m' Hwf c _ p Hc eq_refl) as [d Hd]. congruence. }
  split.
  - intros env dev configno interfno m e p nm Hproto Hlen Hslot Hendp Hm Hn Hr Hne.
    destruct (gamepad_attach_read_failure env dev configno interfno m e p nm
                Hproto Hlen Hslot Hendp Hm Hn Hr Hne)
      as (m' & Hrun & Hts & Hhp & _).
    assert (Hc : terms m' !! find_free_slot (terms m)
                 = Some {| name := None; data := Some p |}).
    { rewrite Hts. apply list_lookup_insert_eq. lia. }
    assert (Hp : heap m' !! p = None) by (rewrite Hhp; apply lookup_delete_eq).
    exists m'. eauto 10.
  - intros env dev configno interfno m e p Hin Hlen Hslot Hendp Hm Hn.
    assert (Hsup : UsbSnes.is_supported_device (descdev_vendorid dev) (descdev_prodid dev)
                   <> 0).
    { rewrite is_supported_device_spec, bool_decide_eq_true_2 by assumption.
      discriminate. }
    destruct (snes_attach_name_failure env dev configno interfno m e p
                Hsup Hlen Hslot Hendp Hm Hn)
      as (m' & Hrun & Hts & Hhp & _).
    assert (Hc : terms m' !! find_free_slot (terms m)
                 = Some {| name := None; data := Some p |}).
    { rewrite Hts. apply list_lookup_insert_eq. lia. }
    assert (Hp : heap m' !! p = None) by (rewrite Hhp; apply lookup_delete_eq).
    exists m'. eauto 10.
Qed.

(** ** Concrete runs *)

Lemma attach_filter_witness :
  UsbSnesGamepad.grub_usb_snes_attach env_ok sample_keyboard 0 0
    (boot_machine UsbSnesGamepad.grub_usb_snes_data 8)
  = Some (0, boot_machine UsbSnesGamepad.grub_usb_snes_data 8)
  /\ (exists m',
        UsbSnes.grub_usb_snes_attach env_ok sample_device 0 0
          (boot_machine UsbSnes.grub_usb_snes_data 8) = Some (1, m')
        /\ 5%positive ∈ transfers m').
Proof.
  pose proof attach_filter as (Hkbd & _ & _ & Hsnes).
  split.
  - apply Hkbd. reflexivity.
  - assert (H1 : (descdev_vendorid sample_device, descdev_prodid sample_device)
                 ∈ snes_allow_list) by (apply elem_of_cons; left; reflexivity).
    assert (H2 : length (terms (boot_machine UsbSnes.grub_usb_snes_data 8))
                 = UsbSnes.MAX_GAMEPADS) by reflexivity.
    assert (H3 : (find_free_slot (terms (boot_machine UsbSnes.grub_usb_snes_data 8))
                  < UsbSnes.MAX_GAMEPADS)%nat) by (vm_compute; lia).
    assert (H4 : find_interrupt_in (descendp (config_interf sample_device 0 0))
                 = Some sample_endp) by reflexivity.
    assert (H5 : 1%positive <> 2%positive) by discriminate.
    destruct (Hsnes env_ok sample_device 0 0 _ sample_endp 1%positive 2%positive
                5%positive H1 H2 H3 H4 eq_refl eq_refl eq_refl H5)
      as (m' & Hrun & _ & _ & Htr).
    exists m'. split; assumption.
Defined.

(** C7 fails on [usb_snes.c]: a device with a keyboard's protocol byte and
    an allow-listed VID/PID is accepted. *)
Lemma snes_attach_accepts_keyboard :
  descif_protocol (config_interf sample_keyboard 0 0) = 1
  /\ fst <$> UsbSnes.grub_usb_snes_attach env_ok sample_keyboard 0 0
               (boot_machine UsbSnes.grub_usb_snes_data 8)
     = Some 1.
Proof. split; [reflexivity|]. vm_compute. reflexivity. Qed.

Lemma attach_failure_leaves_slot_occupied_witness :
  (exists m',
     UsbSnesGamepad.grub_usb_snes_attach env_read_fails sample_device 0 0
       (boot_machine UsbSnesGamepad.grub_usb_snes_data 8) = Some (0, m')
     /\ terms m' !! 0%nat = Some {| name := None; data := Some 1%positive |}
     /\ heap m' !! 1%positive = None)
  /\ (exists m',
        UsbSnes.grub_usb_snes_attach env_name_fails sample_device 0 0
          (boot_machine UsbSnes.grub_usb_snes_data 8) = Some (0, m')
        /\ terms m' !! 0%nat = Some {| name := None; data := Some 1%positive |}
        /\ heap m' !! 1%positive = None).
Proof.
  pose proof attach_failure_leaves_slot_occupied as (Hg & Hs).
  assert (H4 : find_interrupt_in (descendp (config_interf sample_device 0 0))
               = Some sample_endp) by reflexivity.
  split.
  - assert (H1 : descif_protocol (config_interf sample_device 0 0) <> 1) by discriminate.
    assert (H2 : length (terms (boot_machine UsbSnesGamepad.grub_usb_snes_data 8))
                 = UsbSnesGamepad.GAMEPADS_CAPACITY) by reflexivity.
    assert (H3 : (find_free_slot (terms (boot_machine UsbSnesGamepad.grub_usb_snes_data 8))
                  < UsbSnesGamepad.GAMEPADS_CAPACITY)%nat) by (vm_compute; lia).
    assert (H5 : 1%positive <> 2%positive) by discriminate.
    destruct (Hg env_read_fails sample_device 0 0 _ sample_endp 1%positive 2%positive
                H1 H2 H3 H4 eq_refl eq_refl eq_refl H5)
      as (m' & Hrun & Hslot & Hheap & _).
    exists m'. split; [exact Hrun|]. split; [exact Hslot|exact Hheap].
  - assert (H1 : (descdev_vendorid sample_device, descdev_prodid sample_device)
                 ∈ snes_allow_list) by (apply elem_of_cons; left; reflexivity).
    assert (H2 : length (terms (boot_machine UsbSnes.grub_usb_snes_data 8))
                 = UsbSnes.MAX_GAMEPADS) by reflexivity.
    assert (H3 : (find_free_slot (terms (boot_machine UsbSnes.grub_usb_snes_data 8))
                  < UsbSnes.MAX_GAMEPADS)%nat) by (vm_compute; lia).
    destruct (Hs env_name_fails sample_device 0 0 _ sample_endp 1%positive
                H1 H2 H3 H4 eq_refl eq_refl)
      as (m' & Hrun & Hslot & Hheap & _).
    exists m'. split; [exact Hrun|]. split; [exact Hslot|exact Hheap].
Defined.

Lemma snes_machine_wf : machine_wf 8 snes_machine.
Proof.
  unfold snes_machine.
  apply (installed_wf 8 0 {| name := None; data := None |}).
  - apply boot_machine_wf.
  - reflexivity.
  - reflexivity.
  - apply lookup_empty.
  - apply lookup_empty.
  - discriminate.
Qed.

Lemma detach_meets_contract_witness :
  exists m',
    UsbSnes.grub_usb_snes_detach 7%positive snes_machine = Some m'
    /\ terms m' !! 0%nat = Some {| name := None; data := None |}
    /\ heap m' !! 1%positive = None
    /\ UsbSnes.grub_usb_snes_detach 7%positive m' = Some m'.
Proof.
  pose proof detach_meets_contract as (Hs & _).
  destruct (Hs 7%positive snes_machine snes_machine_wf)
    as (m' & Hrun & _ & Hrel & _ & _ & Hidem).
  assert (H1 : terms snes_machine !! 0%nat
               = Some {| name := Some 2%positive; data := Some 1%positive |})
    by reflexivity.
  assert (H2 : heap snes_machine !! 1%positive
               = Some (BlockData (UsbSnes.set_transfer (Some 5%positive) snes_session)))
    by (unfold snes_machine, installed; cbn [heap]; apply lookup_insert_eq).
  destruct (Hrel 0%nat _ 1%positive _ H1 eq_refl H2 eq_refl) as (Hslot & _ & Hheap & _).
  exists m'. split; [exact Hrun|]. split; [exact Hslot|]. split; [exact Hheap|exact Hidem].
Defined.

Lemma identical_reports_no_events_witness :
  UsbSnes.parse_snes_report (K := grub_term_h)
    (UsbSnes.set_reports left_report left_report snes_session)
  = UsbSnes.set_reports left_report left_report snes_session.
Proof.
  pose proof (@identical_reports_no_events grub_term_h) as (_ & _ & Hs & _).
  apply Hs. reflexivity.
Defined.

Lemma axis_classification_witness :
  UsbSnes.deriveEvents (K := grub_term_h) Spec.baseline
    [0x3E; 0x7F; 0x7F; 0x7F; 0; 0; 0; 0]
  = [GRUB_TERM_KEY_LEFT (grub_term_keys := grub_term_h)]
  /\ UsbSnes.parse_snes_report (K := grub_term_h)
       (UsbSnes.set_reports Spec.baseline [0x3E; 0x7F; 0x7F; 0x7F; 0; 0; 0; 0]
          snes_session)
     = UsbSnes.push_all (K := grub_term_h)
         (UsbSnes.set_reports Spec.baseline [0x3E; 0x7F; 0x7F; 0x7F; 0; 0; 0; 0]
            snes_session)
         [GRUB_TERM_KEY_LEFT (grub_term_keys := grub_term_h)]
  /\ UsbSnesGamepad.process_report (K := grub_term_h)
       (UsbSnesGamepad.set_reports Spec.baseline [0x3E; 0x7F; 0x7F; 0x7F; 0; 0; 0; 0]
          gamepad_session)
     = UsbSnesGamepad.push_all (K := grub_term_h)
         (UsbSnesGamepad.set_reports Spec.baseline
            [0x3E; 0x7F; 0x7F; 0x7F; 0; 0; 0; 0] gamepad_session)
         [GRUB_TERM_KEY_LEFT (grub_term_keys := grub_term_h)].
Proof.
  assert (H : 0 <= 0x3E <= 255) by lia.
  pose proof (@axis_classification grub_term_h 0x3E H)
    as (_ & _ & _ & _ & _ & _ & _ & Hx & _ & Hcode & _).
  split; [exact (proj1 (Hx [0x7F; 0x7F; 0x7F; 0; 0; 0; 0]))|].
  exact (Hcode [0x7F; 0x7F; 0x7F; 0; 0; 0; 0] snes_session gamepad_session).
Defined.

Lemma codec_reads_bytes_0_1_4_witness :
  UsbSnes.deriveEvents (K := grub_term_h) Spec.baseline left_report
  = UsbSnes.deriveEvents (K := grub_term_h)
      [0x7F; 0x7F; 1; 2; 0; 3; 4; 5] [0; 0x7F; 6; 7; 0; 8; 9; 10].
Proof.
  pose proof (@codec_reads_bytes_0_1_4 grub_term_h Spec.baseline left_report
                [0x7F; 0x7F; 1; 2; 0; 3; 4; 5] [0; 0x7F; 6; 7; 0; 8; 9; 10]
                eq_refl eq_refl eq_refl eq_refl eq_refl eq_refl) as (H & _).
  exact H.
Defined.


(** * Further properties

    Properties of the code beyond the statements of the specification:
    the queue as a first-in first-out buffer, the order and the triggers of
    the codec's keys, the USB traffic and the invariants of polling, the
    device tables, the endpoint search, attach as a whole, attach followed
    by detach, and the unloading of the module. *)

(** ** Further properties of the key queues *)

Section QueueRuns.
Context {K : grub_term_keys}.

Lemma snes_contents_empty (d : UsbSnes.grub_usb_snes_data) :
  UsbSnes.key_queue_count d <= 0 -> UsbSnes.queue_contents d = [].
Proof.
  intros H. unfold UsbSnes.queue_contents.
  replace (Z.to_nat (UsbSnes.key_queue_count d)) with 0%nat by lia. reflexivity.
Qed.

Lemma gamepad_contents_empty (d : UsbSnesGamepad.grub_usb_snes_data) :
  UsbSnesGamepad.key_queue_size d <= 0 -> UsbSnesGamepad.queue_contents d = [].
Proof.
  intros H. unfold UsbSnesGamepad.queue_contents.
  replace (Z.to_nat (UsbSnesGamepad.key_queue_size d)) with 0%nat by lia. reflexivity.
Qed.

(** [key_queue_pop] touches the queue fields only. *)
Lemma snes_pop_frame (d : UsbSnes.grub_usb_snes_data) :
  let d' := snd (UsbSnes.key_queue_pop d) in
  UsbSnes.usbdev d' = UsbSnes.usbdev d
  /\ UsbSnes.endp d' = UsbSnes.endp d
  /\ UsbSnes.transfer d' = UsbSnes.transfer d
  /\ UsbSnes.report d' = UsbSnes.report d
  /\ UsbSnes.prev_report d' = UsbSnes.prev_report d
  /\ UsbSnes.dead d' = UsbSnes.dead d.
Proof.
  unfold UsbSnes.key_queue_pop.
  destruct (UsbSnes.key_queue_count d <=? 0); cbn; auto 10.
Qed.

Lemma gamepad_pop_frame (d : UsbSnesGamepad.grub_usb_snes_data) :
  let d' := snd (UsbSnesGamepad.key_queue_pop d) in
  UsbSnesGamepad.usbdev d' = UsbSnesGamepad.usbdev d
  /\ UsbSnesGamepad.endp d' = UsbSnesGamepad.endp d
  /\ UsbSnesGamepad.transfer d' = UsbSnesGamepad.transfer d
  /\ UsbSnesGamepad.report d' = UsbSnesGamepad.report d
  /\ UsbSnesGamepad.prev_report d' = UsbSnesGamepad.prev_report d.
Proof.
  unfold UsbSnesGamepad.key_queue_pop.
  destruct (UsbSnesGamepad.key_queue_size d <=? 0); cbn; auto 10.
Qed.

(** One pop on any well-formed queue: the head of the contents (or
    [GRUB_TERM_NO_KEY]) is returned and the tail is left. *)
Lemma snes_pop_spec (d : UsbSnes.grub_usb_snes_data) :
  UsbSnes.queue_wf d ->
  fst (UsbSnes.key_queue_pop d) = hd GRUB_TERM_NO_KEY (UsbSnes.queue_contents d)
  /\ UsbSnes.queue_wf (snd (UsbSnes.key_queue_pop d))
  /\ UsbSnes.queue_contents (snd (UsbSnes.key_queue_pop d))
     = tl (UsbSnes.queue_contents d).
Proof.
  intros Hwf. destruct (Z.le_gt_cases (UsbSnes.key_queue_count d) 0) as [Hz|Hpos].
  - rewrite snes_pop_empty, snes_contents_empty by assumption. cbn.
    auto using snes_contents_empty.
  - destruct (snes_pop_head d Hwf ltac:(lia)) as (k & d' & -> & Hwf' & ->). cbn. auto.
Qed.

Lemma gamepad_pop_spec (d : UsbSnesGamepad.grub_usb_snes_data) :
  UsbSnesGamepad.queue_wf d ->
  fst (UsbSnesGamepad.key_queue_pop d)
  = hd GRUB_TERM_NO_KEY (UsbSnesGamepad.queue_contents d)
  /\ UsbSnesGamepad.queue_wf (snd (UsbSnesGamepad.key_queue_pop d))
  /\ UsbSnesGamepad.queue_contents (snd (UsbSnesGamepad.key_queue_pop d))
     = tl (UsbSnesGamepad.queue_contents d).
Proof.
  intros Hwf.
  destruct (Z.le_gt_cases (UsbSnesGamepad.key_queue_size d) 0) as [Hz|Hpos].
  - rewrite gamepad_pop_empty, gamepad_contents_empty by assumption. cbn.
    auto using gamepad_contents_empty.
  - destruct (gamepad_pop_head d Hwf ltac:(lia)) as (k & d' & -> & Hwf' & ->). cbn. auto.
Qed.

Lemma take_hd_tl {A : Type} (x : A) (n : nat) (l : list A) :
  hd x l :: (take n (tl l) ++ replicate (n - length (tl l)) x)
  = take (S n) l ++ replicate (S n - length l) x.
Proof. destruct l as [|a l]; cbn; [rewrite take_nil, Nat.sub_0_r|]; reflexivity. Qed.

Lemma snes_pop_n_spec (n : nat) (d : UsbSnes.grub_usb_snes_data) :
  UsbSnes.queue_wf d ->
  fst (UsbSnes.pop_n n d)
  = take n (UsbSnes.queue_contents d)
    ++ replicate (n - length (UsbSnes.queue_contents d)) GRUB_TERM_NO_KEY
  /\ UsbSnes.queue_wf (snd (UsbSnes.pop_n n d))
  /\ UsbSnes.queue_contents (snd (UsbSnes.pop_n n d))
     = drop n (UsbSnes.queue_contents d).
Proof.
  revert d. induction n as [|n IH]; intros d Hwf.
  { cbn. rewrite take_0, drop_0. auto. }
  cbn [UsbSnes.pop_n].
  destruct (snes_pop_spec d Hwf) as (Hk & Hwf' & Hc).
  destruct (UsbSnes.key_queue_pop d) as [k d']. cbn [fst snd] in *.
  destruct (IH d' Hwf') as (IH1 & IH2 & IH3).
  destruct (UsbSnes.pop_n n d') as [ks d'']. cbn [fst snd] in *.
  subst k ks. rewrite Hc in *. split; [apply take_hd_tl|]. split; [assumption|].
  rewrite IH3. destruct (UsbSnes.queue_contents d); cbn; [apply drop_nil|reflexivity].
Qed.

Lemma gamepad_pop_n_spec (n : nat) (d : UsbSnesGamepad.grub_usb_snes_data) :
  UsbSnesGamepad.queue_wf d ->
  fst (UsbSnesGamepad.pop_n n d)
  = take n (UsbSnesGamepad.queue_contents d)
    ++ replicate (n - length (UsbSnesGamepad.queue_contents d)) GRUB_TERM_NO_KEY
  /\ UsbSnesGamepad.queue_wf (snd (UsbSnesGamepad.pop_n n d))
  /\ UsbSnesGamepad.queue_contents (snd (UsbSnesGamepad.pop_n n d))
     = drop n (UsbSnesGamepad.queue_contents d).
Proof.
  revert d. induction n as [|n IH]; intros d Hwf.
  { cbn. rewrite take_0, drop_0. auto. }
  cbn [UsbSnesGamepad.pop_n].
  destruct (gamepad_pop_spec d Hwf) as (Hk & Hwf' & Hc).
  destruct (UsbSnesGamepad.key_queue_pop d) as [k d']. cbn [fst snd] in *.
  destruct (IH d' Hwf') as (IH1 & IH2 & IH3).
  destruct (UsbSnesGamepad.pop_n n d') as [ks d'']. cbn [fst snd] in *.
  subst k ks. rewrite Hc in *. split; [apply take_hd_tl|]. split; [assumption|].
  rewrite IH3.
  destruct (UsbSnesGamepad.queue_contents d); cbn; [apply drop_nil|reflexivity].
Qed.

(** Pushing [GRUB_TERM_NO_KEY] is refused in both files, so a run of
    pushes is the run of its other keys. *)
Lemma snes_push_all_filter (keys : list Z) (d : UsbSnes.grub_usb_snes_data) :
  UsbSnes.push_all d keys
  = UsbSnes.push_all d (filter (fun k => k <> GRUB_TERM_NO_KEY) keys).
Proof.
  unfold UsbSnes.push_all. revert d.
  induction keys as [|k keys IH]; intros d; [reflexivity|].
  cbn [fold_left]. rewrite filter_cons. destruct (decide (k <> GRUB_TERM_NO_KEY)) as [Hk|Hk].
  - cbn [fold_left]. apply IH.
  - rewrite snes_push_refused by (right; destruct (decide (k = GRUB_TERM_NO_KEY)); tauto).
    apply IH.
Qed.

Lemma gamepad_push_all_filter (keys : list Z) (d : UsbSnesGamepad.grub_usb_snes_data) :
  UsbSnesGamepad.push_all d keys
  = UsbSnesGamepad.push_all d (filter (fun k => k <> GRUB_TERM_NO_KEY) keys).
Proof.
  unfold UsbSnesGamepad.push_all. revert d.
  induction keys as [|k keys IH]; intros d; [reflexivity|].
  cbn [fold_left]. rewrite filter_cons. destruct (decide (k <> GRUB_TERM_NO_KEY)) as [Hk|Hk].
  - cbn [fold_left]. apply IH.
  - assert (k = GRUB_TERM_NO_KEY) as -> by (destruct (decide (k = GRUB_TERM_NO_KEY)); tauto).
    rewrite gamepad_push_no_key. apply IH.
Qed.

Lemma filter_not_no_key (keys : list Z) :
  Forall (fun k => k <> GRUB_TERM_NO_KEY) (filter (fun k => k <> GRUB_TERM_NO_KEY) keys).
Proof.
  apply Forall_forall. intros k Hk. apply list_elem_of_filter in Hk. tauto.
Qed.

(** The queue of either file holds, after any run of pushes, what the
    overflow policy keeps of the keys other than [GRUB_TERM_NO_KEY]. *)
Lemma snes_push_all_any (keys : list Z) (d : UsbSnes.grub_usb_snes_data) :
  UsbSnes.queue_wf d ->
  UsbSnes.queue_contents (UsbSnes.push_all d keys)
  = take 32 (UsbSnes.queue_contents d
             ++ filter (fun k => k <> GRUB_TERM_NO_KEY) keys).
Proof.
  intros Hwf. rewrite snes_push_all_filter.
  apply snes_push_all_contents; [assumption|apply filter_not_no_key].
Qed.

Lemma gamepad_push_all_any (keys : list Z) (d : UsbSnesGamepad.grub_usb_snes_data) :
  UsbSnesGamepad.queue_wf d ->
  UsbSnesGamepad.queue_contents (UsbSnesGamepad.push_all d keys)
  = keep_last 32 (UsbSnesGamepad.queue_contents d
                  ++ filter (fun k => k <> GRUB_TERM_NO_KEY) keys).
Proof.
  intros Hwf. rewrite gamepad_push_all_filter.
  apply gamepad_push_all_contents; [assumption|apply filter_not_no_key].
Qed.

(** X1: in both files the queue is first-in first-out: on a well-formed
    queue, [n] pops return the first [n] queued keys in the order they were
    pushed, then [GRUB_TERM_NO_KEY] for every pop of the empty queue, and
    leave the remaining keys queued; so up to 32 keys pushed into an empty
    queue come back unchanged and leave the queue empty. *)
Theorem key_queue_fifo :
  (forall n d,
     UsbSnes.queue_wf d ->
     fst (UsbSnes.pop_n n d)
     = take n (UsbSnes.queue_contents d)
       ++ replicate (n - length (UsbSnes.queue_contents d)) GRUB_TERM_NO_KEY
     /\ UsbSnes.queue_wf (snd (UsbSnes.pop_n n d))
     /\ UsbSnes.queue_contents (snd (UsbSnes.pop_n n d))
        = drop n (UsbSnes.queue_contents d))
  /\ (forall n d,
        UsbSnesGamepad.queue_wf d ->
        fst (UsbSnesGamepad.pop_n n d)
        = take n (UsbSnesGamepad.queue_contents d)
          ++ replicate (n - length (UsbSnesGamepad.queue_contents d)) GRUB_TERM_NO_KEY
        /\ UsbSnesGamepad.queue_wf (snd (UsbSnesGamepad.pop_n n d))
        /\ UsbSnesGamepad.queue_contents (snd (UsbSnesGamepad.pop_n n d))
           = drop n (UsbSnesGamepad.queue_contents d))
  /\ (forall d keys,
        UsbSnes.queue_wf d -> UsbSnes.key_queue_count d = 0 ->
        (length keys <= 32)%nat -> Forall (fun k => k <> GRUB_TERM_NO_KEY) keys ->
        fst (UsbSnes.pop_n (length keys) (UsbSnes.push_all d keys)) = keys
        /\ UsbSnes.key_queue_count
             (snd (UsbSnes.pop_n (length keys) (UsbSnes.push_all d keys))) = 0)
  /\ (forall d keys,
        UsbSnesGamepad.queue_wf d -> UsbSnesGamepad.key_queue_size d = 0 ->
        (length keys <= 32)%nat -> Forall (fun k => k <> GRUB_TERM_NO_KEY) keys ->
        fst (UsbSnesGamepad.pop_n (length keys) (UsbSnesGamepad.push_all d keys)) = keys
        /\ UsbSnesGamepad.key_queue_size
             (snd (UsbSnesGamepad.pop_n (length keys)
                     (UsbSnesGamepad.push_all d keys))) = 0).
Proof.
  split; [exact snes_pop_n_spec|]. split; [exact gamepad_pop_n_spec|]. split.
  - intros d keys Hwf Hz Hlen Hk.
    pose proof (snes_push_all_wf keys d Hwf) as Hwf'.
    pose proof (snes_push_all_contents keys d Hwf Hk) as Hc.
    rewrite (snes_contents_empty d) in Hc by lia. cbn [app] in Hc.
    rewrite take_ge in Hc by lia.
    destruct (snes_pop_n_spec (length keys) _ Hwf') as (H1 & H2 & H3).
    rewrite Hc in H1, H3. split.
    + rewrite H1, firstn_all, Nat.sub_diag. apply app_nil_r.
    + rewrite drop_all in H3.
      pose proof (snes_contents_length
                    (snd (UsbSnes.pop_n (length keys) (UsbSnes.push_all d keys)))) as Hl.
      rewrite H3 in Hl. cbn in Hl. destruct H2 as (_ & _ & ? & _). lia.
  - intros d keys Hwf Hz Hlen Hk.
    pose proof (gamepad_push_all_wf keys d Hwf) as Hwf'.
    pose proof (gamepad_push_all_contents keys d Hwf Hk) as Hc.
    rewrite (gamepad_contents_empty d) in Hc by lia. cbn [app] in Hc.
    rewrite keep_last_short in Hc by lia.
    destruct (gamepad_pop_n_spec (length keys) _ Hwf') as (H1 & H2 & H3).
    rewrite Hc in H1, H3. split.
    + rewrite H1, firstn_all, Nat.sub_diag. apply app_nil_r.
    + rewrite drop_all in H3.
      pose proof (gamepad_contents_length
                    (snd (UsbSnesGamepad.pop_n (length keys)
                            (UsbSnesGamepad.push_all d keys)))) as Hl.
      rewrite H3 in Hl. cbn in Hl. destruct H2 as (_ & _ & ?). lia.
Qed.

End QueueRuns.

Lemma key_queue_fifo_witness :
  fst (UsbSnes.pop_n (K := grub_term_h) 32
         (UsbSnes.push_all (K := grub_term_h) snes_session (take 32 keys40)))
  = take 32 keys40
  /\ fst (UsbSnesGamepad.pop_n (K := grub_term_h) 32
            (UsbSnesGamepad.push_all (K := grub_term_h) gamepad_session (take 32 keys40)))
     = take 32 keys40.
Proof.
  pose proof (key_queue_fifo (K := grub_term_h)) as (_ & _ & Hs & Hg).
  assert (Hk : Forall (fun k => k <> GRUB_TERM_NO_KEY (grub_term_keys := grub_term_h))
                      (take 32 keys40)).
  { apply Forall_take, keys40_not_no_key. }
  assert (Hl : (length (take 32 keys40) <= 32)%nat) by (vm_compute; lia).
  split.
  - exact (proj1 (Hs snes_session (take 32 keys40) snes_session_wf eq_refl Hl Hk)).
  - exact (proj1 (Hg gamepad_session (take 32 keys40) gamepad_session_wf eq_refl Hl Hk)).
Defined.

(** ** Further properties of the report codec *)

Section CodecOrder.
Context {K : grub_term_keys}.

Lemma sublist_if_cons (c : bool) (k : Z) (l1 l2 : list Z) :
  l1 `sublist_of` l2 -> (if c then [k] else []) ++ l1 `sublist_of` k :: l2.
Proof. destruct c; cbn; [apply sublist_skip|apply sublist_cons]. Qed.

Lemma sublist_if_last (c : bool) (k : Z) :
  (if c then [k] else []) `sublist_of` [k].
Proof. destruct c; [reflexivity|apply sublist_nil_l]. Qed.

(** The keys one report can produce in [usb_snes.c], in the order of the
    tests of [parse_snes_report]. *)
Lemma snes_events_sublist (prev curr : list Z) :
  UsbSnes.deriveEvents prev curr
  `sublist_of` [GRUB_TERM_KEY_UP; GRUB_TERM_KEY_DOWN; GRUB_TERM_KEY_LEFT;
                GRUB_TERM_KEY_RIGHT; 13; 13; GRUB_TERM_ESC; 101; 99;
                GRUB_TERM_KEY_PPAGE; GRUB_TERM_KEY_NPAGE].
Proof.
  unfold UsbSnes.deriveEvents. cbv zeta.
  repeat apply sublist_if_cons. apply sublist_if_last.
Qed.

Lemma gamepad_events_sublist (prev curr : list Z) :
  UsbSnesGamepad.deriveEvents prev curr
  `sublist_of` [UsbSnesGamepad.key_up; UsbSnesGamepad.key_down;
                UsbSnesGamepad.key_left; UsbSnesGamepad.key_right;
                UsbSnesGamepad.key_a; UsbSnesGamepad.key_b; UsbSnesGamepad.key_x;
                UsbSnesGamepad.key_y; UsbSnesGamepad.key_start;
                UsbSnesGamepad.key_select; UsbSnesGamepad.key_l;
                UsbSnesGamepad.key_r].
Proof.
  unfold UsbSnesGamepad.deriveEvents. cbv zeta.
  repeat apply sublist_if_cons. apply sublist_if_last.
Qed.

Lemma snes_events_length (prev curr : list Z) :
  (length (UsbSnes.deriveEvents prev curr) <= 11)%nat.
Proof. apply (sublist_length _ _ (snes_events_sublist prev curr)). Qed.

Lemma gamepad_events_length (prev curr : list Z) :
  (length (UsbSnesGamepad.deriveEvents prev curr) <= 12)%nat.
Proof. apply (sublist_length _ _ (gamepad_events_sublist prev curr)). Qed.

Lemma length_if_singleton (c : bool) (k : Z) :
  length (if c then [k] else []) = if c then 1%nat else 0%nat.
Proof. destruct c; reflexivity. Qed.

(** An axis byte is not below the low threshold and above the high one at
    once. *)
Lemma axis_edges_exclusive (p q : bool) (v lo hi : Z) (k1 k2 : Z) :
  lo <= hi ->
  (length (if negb p && (v <? lo)%Z then [k1] else [])
   + length (if negb q && (v >? hi)%Z then [k2] else []) <= 1)%nat.
Proof.
  intros H. rewrite !length_if_singleton.
  destruct (Z.ltb_spec v lo), (Z.gtb_spec v hi); try lia;
    rewrite ?andb_false_r; destruct (negb p), (negb q); cbn; lia.
Qed.

Lemma filter_sublist_of (evs : list Z) :
  filter (fun k => k <> GRUB_TERM_NO_KEY) evs `sublist_of` evs.
Proof.
  induction evs as [|k evs IH]; [constructor|].
  rewrite filter_cons. destruct (decide (k <> GRUB_TERM_NO_KEY)).
  - apply sublist_skip, IH.
  - apply sublist_cons, IH.
Qed.

Lemma snes_events_at_most_9 (prev curr : list Z) :
  (length (UsbSnes.deriveEvents prev curr) <= 9)%nat.
Proof.
  unfold UsbSnes.deriveEvents. cbv zeta.
  pose proof (axis_edges_exclusive
                (array_get prev 1 <? UsbSnes.AXIS_CENTER - UsbSnes.AXIS_THRESHOLD)
                (array_get prev 1 >? UsbSnes.AXIS_CENTER + UsbSnes.AXIS_THRESHOLD)
                (array_get curr 1)
                (UsbSnes.AXIS_CENTER - UsbSnes.AXIS_THRESHOLD)
                (UsbSnes.AXIS_CENTER + UsbSnes.AXIS_THRESHOLD)
                GRUB_TERM_KEY_UP GRUB_TERM_KEY_DOWN
                ltac:(vm_compute; discriminate)) as Hy.
  pose proof (axis_edges_exclusive
                (array_get prev 0 <? UsbSnes.AXIS_CENTER - UsbSnes.AXIS_THRESHOLD)
                (array_get prev 0 >? UsbSnes.AXIS_CENTER + UsbSnes.AXIS_THRESHOLD)
                (array_get curr 0)
                (UsbSnes.AXIS_CENTER - UsbSnes.AXIS_THRESHOLD)
                (UsbSnes.AXIS_CENTER + UsbSnes.AXIS_THRESHOLD)
                GRUB_TERM_KEY_LEFT GRUB_TERM_KEY_RIGHT
                ltac:(vm_compute; discriminate)) as Hx.
  rewrite !length_app.
  repeat match goal with
         | |- context [length (if ?c then [?k] else [])] =>
             let n := fresh "n" in
             let Hn := fresh "Hn" in
             assert (Hn : (length (if c then [k] else []) <= 1)%nat)
               by (rewrite length_if_singleton; destruct c; lia);
             set (n := length (if c then [k] else [])) in *
         end.
  lia.
Qed.

Lemma gamepad_events_at_most_10 (prev curr : list Z) :
  (length (UsbSnesGamepad.deriveEvents prev curr) <= 10)%nat.
Proof.
  unfold UsbSnesGamepad.deriveEvents. cbv zeta.
  pose proof (axis_edges_exclusive
                (array_get prev 1
                 <? UsbSnesGamepad.AXIS_CENTER - UsbSnesGamepad.AXIS_THRESHOLD)
                (array_get prev 1
                 >? UsbSnesGamepad.AXIS_CENTER + UsbSnesGamepad.AXIS_THRESHOLD)
                (array_get curr 1)
                (UsbSnesGamepad.AXIS_CENTER - UsbSnesGamepad.AXIS_THRESHOLD)
                (UsbSnesGamepad.AXIS_CENTER + UsbSnesGamepad.AXIS_THRESHOLD)
                UsbSnesGamepad.key_up UsbSnesGamepad.key_down
                ltac:(vm_compute; discriminate)) as Hy.
  pose proof (axis_edges_exclusive
                (array_get prev 0
                 <? UsbSnesGamepad.AXIS_CENTER - UsbSnesGamepad.AXIS_THRESHOLD)
                (array_get prev 0
                 >? UsbSnesGamepad.AXIS_CENTER + UsbSnesGamepad.AXIS_THRESHOLD)
                (array_get curr 0)
                (UsbSnesGamepad.AXIS_CENTER - UsbSnesGamepad.AXIS_THRESHOLD)
                (UsbSnesGamepad.AXIS_CENTER + UsbSnesGamepad.AXIS_THRESHOLD)
                UsbSnesGamepad.key_left UsbSnesGamepad.key_right
                ltac:(vm_compute; discriminate)) as Hx.
  rewrite !length_app.
  repeat match goal with
         | |- context [length (if ?c then [?k] else [])] =>
             let n := fresh "n" in
             let Hn := fresh "Hn" in
             assert (Hn : (length (if c then [k] else []) <= 1)%nat)
               by (rewrite length_if_singleton; destruct c; lia);
             set (n := length (if c then [k] else [])) in *
         end.
  lia.
Qed.

(** What one run of the codec does to the queue. *)
Lemma snes_parse_queue (d : UsbSnes.grub_usb_snes_data) :
  UsbSnes.queue_wf d ->
  UsbSnes.queue_wf (UsbSnes.parse_snes_report d)
  /\ UsbSnes.queue_contents (UsbSnes.parse_snes_report d)
     = take 32 (UsbSnes.queue_contents d
                ++ filter (fun k => k <> GRUB_TERM_NO_KEY)
                     (UsbSnes.deriveEvents (UsbSnes.prev_report d) (UsbSnes.report d))).
Proof.
  intros Hwf. rewrite parse_snes_report_pushes.
  split; [apply snes_push_all_wf, Hwf|apply snes_push_all_any, Hwf].
Qed.

Lemma gamepad_process_queue (d : UsbSnesGamepad.grub_usb_snes_data) :
  UsbSnesGamepad.queue_wf d ->
  UsbSnesGamepad.queue_wf (UsbSnesGamepad.process_report d)
  /\ UsbSnesGamepad.queue_contents (UsbSnesGamepad.process_report d)
     = keep_last 32 (UsbSnesGamepad.queue_contents d
                     ++ filter (fun k => k <> GRUB_TERM_NO_KEY)
                          (UsbSnesGamepad.deriveEvents
                             (UsbSnesGamepad.prev_report d)
                             (UsbSnesGamepad.report d))).
Proof.
  intros Hwf. rewrite process_report_pushes.
  split; [apply gamepad_push_all_wf, Hwf|apply gamepad_push_all_any, Hwf].
Qed.

Lemma snes_count_length (d : UsbSnes.grub_usb_snes_data) :
  UsbSnes.queue_wf d ->
  UsbSnes.key_queue_count d = Z.of_nat (length (UsbSnes.queue_contents d)).
Proof. intros (_ & _ & ? & _). rewrite snes_contents_length. lia. Qed.

Lemma gamepad_size_length (d : UsbSnesGamepad.grub_usb_snes_data) :
  UsbSnesGamepad.queue_wf d ->
  UsbSnesGamepad.key_queue_size d = Z.of_nat (length (UsbSnesGamepad.queue_contents d)).
Proof. intros (_ & _ & ?). rewrite gamepad_contents_length. lia. Qed.

(** X2: the keys one report produces come in the fixed order of the
    codec's tests, each test giving at most one key.  [parse_snes_report]
    and [process_report] push exactly the keys of the tests that fire, in
    the order Up, Down, Left, Right and then the button keys in table order;
    as an axis byte cannot be low and high at once these are at most 9 keys
    in [usb_snes.c] and at most 10 in [usb_snes_gamepad.c].  On a
    well-formed queue the codec leaves the keys that were queued followed by
    the new ones ([usb_snes.c] cut after 32 keys, [usb_snes_gamepad.c]
    keeping the last 32), so the number of queued keys never decreases and
    grows by at most 9, respectively 10. *)
Theorem codec_events_ordered_and_bounded :
  (forall prev curr,
     UsbSnes.deriveEvents prev curr
     `sublist_of` [GRUB_TERM_KEY_UP; GRUB_TERM_KEY_DOWN; GRUB_TERM_KEY_LEFT;
                   GRUB_TERM_KEY_RIGHT; 13; 13; GRUB_TERM_ESC; 101; 99;
                   GRUB_TERM_KEY_PPAGE; GRUB_TERM_KEY_NPAGE]
     /\ (length (UsbSnes.deriveEvents prev curr) <= 9)%nat
     /\ UsbSnesGamepad.deriveEvents prev curr
        `sublist_of` [UsbSnesGamepad.key_up; UsbSnesGamepad.key_down;
                      UsbSnesGamepad.key_left; UsbSnesGamepad.key_right;
                      UsbSnesGamepad.key_a; UsbSnesGamepad.key_b;
                      UsbSnesGamepad.key_x; UsbSnesGamepad.key_y;
                      UsbSnesGamepad.key_start; UsbSnesGamepad.key_select;
                      UsbSnesGamepad.key_l; UsbSnesGamepad.key_r]
     /\ (length (UsbSnesGamepad.deriveEvents prev curr) <= 10)%nat)
  /\ (forall d,
        UsbSnes.parse_snes_report d
        = UsbSnes.push_all d
            (UsbSnes.deriveEvents (UsbSnes.prev_report d) (UsbSnes.report d)))
  /\ (forall d,
        UsbSnesGamepad.process_report d
        = UsbSnesGamepad.push_all d
            (UsbSnesGamepad.deriveEvents (UsbSnesGamepad.prev_report d)
                                         (UsbSnesGamepad.report d)))
  /\ (forall d,
        UsbSnes.queue_wf d ->
        exists new,
          new `sublist_of` [GRUB_TERM_KEY_UP; GRUB_TERM_KEY_DOWN; GRUB_TERM_KEY_LEFT;
                            GRUB_TERM_KEY_RIGHT; 13; 13; GRUB_TERM_ESC; 101; 99;
                            GRUB_TERM_KEY_PPAGE; GRUB_TERM_KEY_NPAGE]
          /\ (length new <= 9)%nat
          /\ UsbSnes.queue_contents (UsbSnes.parse_snes_report d)
             = take 32 (UsbSnes.queue_contents d ++ new)
          /\ UsbSnes.key_queue_count d
             <= UsbSnes.key_queue_count (UsbSnes.parse_snes_report d)
             <= UsbSnes.key_queue_count d + 9)
  /\ (forall d,
        UsbSnesGamepad.queue_wf d ->
        exists new,
          new `sublist_of` [UsbSnesGamepad.key_up; UsbSnesGamepad.key_down;
                            UsbSnesGamepad.key_left; UsbSnesGamepad.key_right;
                            UsbSnesGamepad.key_a; UsbSnesGamepad.key_b;
                            UsbSnesGamepad.key_x; UsbSnesGamepad.key_y;
                            UsbSnesGamepad.key_start; UsbSnesGamepad.key_select;
                            UsbSnesGamepad.key_l; UsbSnesGamepad.key_r]
          /\ (length new <= 10)%nat
          /\ UsbSnesGamepad.queue_contents (UsbSnesGamepad.process_report d)
             = keep_last 32 (UsbSnesGamepad.queue_contents d ++ new)
          /\ UsbSnesGamepad.key_queue_size d
             <= UsbSnesGamepad.key_queue_size (UsbSnesGamepad.process_report d)
             <= UsbSnesGamepad.key_queue_size d + 10).
Proof.
  split; [|split; [exact parse_snes_report_pushes
                  |split; [exact process_report_pushes|split]]].
  - intros prev curr.
    split; [apply snes_events_sublist|]. split; [apply snes_events_at_most_9|].
    split; [apply gamepad_events_sublist|apply gamepad_events_at_most_10].
  - intros d Hwf.
    destruct (snes_parse_queue d Hwf) as (Hwf' & Hc).
    set (evs := UsbSnes.deriveEvents (UsbSnes.prev_report d) (UsbSnes.report d)) in *.
    pose proof (filter_sublist_of evs) as Hsub.
    pose proof (sublist_length _ _ Hsub) as Hlen.
    pose proof (snes_events_at_most_9 (UsbSnes.prev_report d) (UsbSnes.report d)) as H9.
    fold evs in H9.
    exists (filter (fun k => k <> GRUB_TERM_NO_KEY) evs).
    split; [etransitivity; [exact Hsub|apply snes_events_sublist]|].
    split; [lia|]. split; [exact Hc|].
    rewrite (snes_count_length d Hwf), (snes_count_length _ Hwf'), Hc.
    rewrite length_take, length_app.
    pose proof (snes_contents_length d) as Hl. destruct Hwf as (_ & _ & ? & _). lia.
  - intros d Hwf.
    destruct (gamepad_process_queue d Hwf) as (Hwf' & Hc).
    set (evs := UsbSnesGamepad.deriveEvents (UsbSnesGamepad.prev_report d)
                                            (UsbSnesGamepad.report d)) in *.
    pose proof (filter_sublist_of evs) as Hsub.
    pose proof (sublist_length _ _ Hsub) as Hlen.
    pose proof (gamepad_events_at_most_10 (UsbSnesGamepad.prev_report d)
                                          (UsbSnesGamepad.report d)) as H10.
    fold evs in H10.
    exists (filter (fun k => k <> GRUB_TERM_NO_KEY) evs).
    split; [etransitivity; [exact Hsub|apply gamepad_events_sublist]|].
    split; [lia|]. split; [exact Hc|].
    rewrite (gamepad_size_length d Hwf), (gamepad_size_length _ Hwf'), Hc.
    unfold keep_last. rewrite length_drop, length_app.
    pose proof (gamepad_contents_length d) as Hl.
    destruct Hwf as (_ & _ & ?). unfold UsbSnesGamepad.KEY_QUEUE_CAPACITY in *. lia.
Qed.

Lemma if_app_nil_iff (c : bool) (k : Z) (l : list Z) :
  (if c then [k] else []) ++ l = [] <-> c = false /\ l = [].
Proof. destruct c; cbn; intuition congruence. Qed.

Lemma edge_false_iff (was now : bool) :
  negb was && now = false <-> (now = true -> was = true).
Proof. destruct was, now; cbn; intuition congruence. Qed.

Lemma edge_nil_iff (was now : bool) (k : Z) :
  Spec.edge was now k = [] <-> (now = true -> was = true).
Proof.
  rewrite edge_if, <- edge_false_iff.
  destruct (negb was && now); split; intros; try tauto; discriminate.
Qed.

Lemma rising_false_iff (b : Spec.button) (prev curr : list Z) :
  Spec.rising b prev curr = false
  <-> (Z.testbit (array_get curr 4) (Spec.button_bit b) = true ->
       Z.testbit (array_get prev 4) (Spec.button_bit b) = true).
Proof. unfold Spec.rising, Spec.pressed. apply edge_false_iff. Qed.

(** No signal rises from [prev] to [curr]: a direction that is asserted
    now was asserted before, and so was every button of byte 4. *)
Lemma direction_events_nil_iff (prev curr : list Z) :
  Spec.direction_events prev curr = []
  <-> (array_get curr 1 < 0x3F -> array_get prev 1 < 0x3F)
      /\ (0xBF < array_get curr 1 -> 0xBF < array_get prev 1)
      /\ (array_get curr 0 < 0x3F -> array_get prev 0 < 0x3F)
      /\ (0xBF < array_get curr 0 -> 0xBF < array_get prev 0).
Proof.
  unfold Spec.direction_events.
  rewrite !edge_if, !classify_low, !classify_high, !Z.gtb_ltb.
  rewrite !if_app_nil_iff.
  replace ((if negb (191 <? array_get prev 0) && (191 <? array_get curr 0)
            then [GRUB_TERM_KEY_RIGHT] else []) = [])
    with ((if negb (191 <? array_get prev 0) && (191 <? array_get curr 0)
           then [GRUB_TERM_KEY_RIGHT] else []) ++ [] = [])
    by (rewrite app_nil_r; reflexivity).
  rewrite if_app_nil_iff, !edge_false_iff.
  rewrite !Z.ltb_lt. tauto.
Qed.

Lemma buttons_silent_iff (prev curr : list Z) :
  (forall b : Spec.button, Spec.rising b prev curr = false)
  <-> (forall i : Z, 0 <= i < 8 ->
         Z.testbit (array_get curr 4) i = true ->
         Z.testbit (array_get prev 4) i = true).
Proof.
  split.
  - intros H i Hi.
    assert (Hb : exists b, Spec.button_bit b = i).
    { assert (i = 0 \/ i = 1 \/ i = 2 \/ i = 3 \/ i = 4 \/ i = 5 \/ i = 6 \/ i = 7)
        as [->|[->|[->|[->|[->|[->|[->| ->]]]]]]] by lia;
        [exists Spec.X|exists Spec.A|exists Spec.B|exists Spec.Y
        |exists Spec.L|exists Spec.R|exists Spec.Select|exists Spec.Start];
        reflexivity. }
    destruct Hb as (b & <-). apply rising_false_iff, H.
  - intros H b. apply rising_false_iff, H. destruct b; cbn; lia.
Qed.

Lemma if_nil_iff (c : bool) (k : Z) :
  (if c then [k] else []) = [] <-> c = false.
Proof. destruct c; split; intros; try reflexivity; discriminate. Qed.

Lemma merged_events_nil_iff (prev curr : list Z) :
  Spec.button_events Spec.merged_table prev curr = []
  <-> forall b : Spec.button, Spec.rising b prev curr = false.
Proof.
  unfold Spec.button_events, Spec.merged_table.
  cbn [flat_map existsb fst snd]. rewrite app_nil_r, !orb_false_r.
  rewrite !if_app_nil_iff, if_nil_iff, orb_false_iff.
  split.
  - intros ((Ha & Hb) & Hst & Hse & Hx & Hy & Hl & Hr) b. destruct b; assumption.
  - intros H. repeat split; apply H.
Qed.

Lemma split_events_nil_iff (prev curr : list Z) :
  Spec.button_events Spec.split_table prev curr = []
  <-> forall b : Spec.button, Spec.rising b prev curr = false.
Proof.
  unfold Spec.button_events, Spec.split_table.
  cbn [flat_map existsb fst snd]. rewrite app_nil_r, !orb_false_r.
  rewrite !if_app_nil_iff, if_nil_iff.
  split.
  - intros (Ha & Hb & Hx & Hy & Hst & Hse & Hl & Hr) b. destruct b; assumption.
  - intros H. repeat split; apply H.
Qed.

Lemma filter_all (evs : list Z) :
  Forall (fun k => k <> GRUB_TERM_NO_KEY) evs ->
  filter (fun k => k <> GRUB_TERM_NO_KEY) evs = evs.
Proof.
  induction 1 as [|k evs Hk _ IH]; [reflexivity|].
  rewrite filter_cons, decide_True by assumption. f_equal. exact IH.
Qed.

Lemma Forall_sublist_of (P : Z -> Prop) (l t : list Z) :
  l `sublist_of` t -> Forall P t -> Forall P l.
Proof.
  intros Hs Ht. apply Forall_forall. intros k Hk.
  rewrite Forall_forall in Ht. apply Ht. eapply elem_of_sublist; eassumption.
Qed.

Lemma snes_events_same_nil (prev curr : list Z) :
  UsbSnes.deriveEvents prev curr = [] ->
  forall d, UsbSnes.parse_snes_report (UsbSnes.set_reports prev curr d)
            = UsbSnes.set_reports prev curr d.
Proof.
  intros H d. rewrite parse_snes_report_pushes.
  cbn [UsbSnes.prev_report UsbSnes.report UsbSnes.set_reports]. rewrite H. reflexivity.
Qed.

Lemma gamepad_events_same_nil (prev curr : list Z) :
  UsbSnesGamepad.deriveEvents prev curr = [] ->
  forall d, UsbSnesGamepad.process_report (UsbSnesGamepad.set_reports prev curr d)
            = UsbSnesGamepad.set_reports prev curr d.
Proof.
  intros H d. rewrite process_report_pushes.
  cbn [UsbSnesGamepad.prev_report UsbSnesGamepad.report UsbSnesGamepad.set_reports].
  rewrite H. reflexivity.
Qed.

Lemma snes_events_grow (prev curr : list Z) (d : UsbSnes.grub_usb_snes_data) :
  UsbSnes.deriveEvents prev curr <> [] ->
  Forall (fun k => k <> GRUB_TERM_NO_KEY)
         [GRUB_TERM_KEY_UP; GRUB_TERM_KEY_DOWN; GRUB_TERM_KEY_LEFT;
          GRUB_TERM_KEY_RIGHT; 13; 13; GRUB_TERM_ESC; 101; 99;
          GRUB_TERM_KEY_PPAGE; GRUB_TERM_KEY_NPAGE] ->
  UsbSnes.queue_wf d -> UsbSnes.key_queue_count d < 32 ->
  UsbSnes.key_queue_count d
  < UsbSnes.key_queue_count (UsbSnes.parse_snes_report (UsbSnes.set_reports prev curr d)).
Proof.
  intros Hne Hkeys Hwf Hroom.
  assert (Hwfs : UsbSnes.queue_wf (UsbSnes.set_reports prev curr d)) by exact Hwf.
  destruct (snes_parse_queue _ Hwfs) as (Hwf' & Hc).
  cbn [UsbSnes.prev_report UsbSnes.report UsbSnes.set_reports] in Hc.
  rewrite filter_all in Hc
    by (eapply Forall_sublist_of; [apply snes_events_sublist|exact Hkeys]).
  rewrite (snes_count_length _ Hwf'), Hc, length_take, length_app.
  change (UsbSnes.queue_contents (UsbSnes.set_reports prev curr d))
    with (UsbSnes.queue_contents d).
  rewrite (snes_count_length d Hwf) in *.
  destruct (UsbSnes.deriveEvents prev curr); [contradiction|]. cbn [length]. lia.
Qed.

Lemma gamepad_events_grow (prev curr : list Z) (d : UsbSnesGamepad.grub_usb_snes_data) :
  UsbSnesGamepad.deriveEvents prev curr <> [] ->
  Forall (fun k => k <> GRUB_TERM_NO_KEY)
         [UsbSnesGamepad.key_up; UsbSnesGamepad.key_down;
          UsbSnesGamepad.key_left; UsbSnesGamepad.key_right;
          UsbSnesGamepad.key_a; UsbSnesGamepad.key_b;
          UsbSnesGamepad.key_x; UsbSnesGamepad.key_y;
          UsbSnesGamepad.key_start; UsbSnesGamepad.key_select;
          UsbSnesGamepad.key_l; UsbSnesGamepad.key_r] ->
  UsbSnesGamepad.queue_wf d -> UsbSnesGamepad.key_queue_size d < 32 ->
  UsbSnesGamepad.key_queue_size d
  < UsbSnesGamepad.key_queue_size
      (UsbSnesGamepad.process_report (UsbSnesGamepad.set_reports prev curr d)).
Proof.
  intros Hne Hkeys Hwf Hroom.
  assert (Hwfs : UsbSnesGamepad.queue_wf (UsbSnesGamepad.set_reports prev curr d))
    by exact Hwf.
  destruct (gamepad_process_queue _ Hwfs) as (Hwf' & Hc).
  cbn [UsbSnesGamepad.prev_report UsbSnesGamepad.report UsbSnesGamepad.set_reports]
    in Hc.
  rewrite filter_all in Hc
    by (eapply Forall_sublist_of; [apply gamepad_events_sublist|exact Hkeys]).
  rewrite (gamepad_size_length _ Hwf'), Hc.
  unfold keep_last. rewrite length_drop, length_app.
  change (UsbSnesGamepad.queue_contents (UsbSnesGamepad.set_reports prev curr d))
    with (UsbSnesGamepad.queue_contents d).
  rewrite (gamepad_size_length d Hwf) in *.
  destruct (UsbSnesGamepad.deriveEvents prev curr); [contradiction|]. cbn [length]. lia.
Qed.

(** X3: both codecs are edge-triggered and react to the same report pairs.
    No signal rises from the previous report to the current one when every
    direction asserted now (axis byte below [0x3F] or above [0xBF]) was
    asserted before and every button bit of byte 4 set now was set before.
    When no signal rises, [parse_snes_report] and [process_report] leave the
    session as it is: holding or releasing buttons and directions queues
    nothing.  When a signal rises, and the key codes of the table differ
    from [GRUB_TERM_NO_KEY], they queue at least one key on a well-formed
    queue that has room. *)
Theorem codec_silent_iff_no_rising_signal (prev curr : list Z) :
  let no_signal_rises :=
    (array_get curr 1 < 0x3F -> array_get prev 1 < 0x3F)
    /\ (0xBF < array_get curr 1 -> 0xBF < array_get prev 1)
    /\ (array_get curr 0 < 0x3F -> array_get prev 0 < 0x3F)
    /\ (0xBF < array_get curr 0 -> 0xBF < array_get prev 0)
    /\ (forall i : Z, 0 <= i < 8 ->
          Z.testbit (array_get curr 4) i = true ->
          Z.testbit (array_get prev 4) i = true) in
  (UsbSnes.deriveEvents prev curr = [] <-> no_signal_rises)
  /\ (UsbSnesGamepad.deriveEvents prev curr = [] <-> no_signal_rises)
  /\ (no_signal_rises ->
      forall d, UsbSnes.parse_snes_report (UsbSnes.set_reports prev curr d)
                = UsbSnes.set_reports prev curr d)
  /\ (no_signal_rises ->
      forall d, UsbSnesGamepad.process_report (UsbSnesGamepad.set_reports prev curr d)
                = UsbSnesGamepad.set_reports prev curr d)
  /\ (~ no_signal_rises ->
      Forall (fun k => k <> GRUB_TERM_NO_KEY)
             [GRUB_TERM_KEY_UP; GRUB_TERM_KEY_DOWN; GRUB_TERM_KEY_LEFT;
              GRUB_TERM_KEY_RIGHT; 13; 13; GRUB_TERM_ESC; 101; 99;
              GRUB_TERM_KEY_PPAGE; GRUB_TERM_KEY_NPAGE] ->
      forall d,
        UsbSnes.queue_wf d -> UsbSnes.key_queue_count d < 32 ->
        UsbSnes.key_queue_count d
        < UsbSnes.key_queue_count
            (UsbSnes.parse_snes_report (UsbSnes.set_reports prev curr d)))
  /\ (~ no_signal_rises ->
      Forall (fun k => k <> GRUB_TERM_NO_KEY)
             [UsbSnesGamepad.key_up; UsbSnesGamepad.key_down;
              UsbSnesGamepad.key_left; UsbSnesGamepad.key_right;
              UsbSnesGamepad.key_a; UsbSnesGamepad.key_b;
              UsbSnesGamepad.key_x; UsbSnesGamepad.key_y;
              UsbSnesGamepad.key_start; UsbSnesGamepad.key_select;
              UsbSnesGamepad.key_l; UsbSnesGamepad.key_r] ->
      forall d,
        UsbSnesGamepad.queue_wf d -> UsbSnesGamepad.key_queue_size d < 32 ->
        UsbSnesGamepad.key_queue_size d
        < UsbSnesGamepad.key_queue_size
            (UsbSnesGamepad.process_report (UsbSnesGamepad.set_reports prev curr d))).
Proof.
  cbv zeta.
  assert (Hs : UsbSnes.deriveEvents prev curr = []
               <-> (array_get curr 1 < 0x3F -> array_get prev 1 < 0x3F)
                   /\ (0xBF < array_get curr 1 -> 0xBF < array_get prev 1)
                   /\ (array_get curr 0 < 0x3F -> array_get prev 0 < 0x3F)
                   /\ (0xBF < array_get curr 0 -> 0xBF < array_get prev 0)
                   /\ (forall i : Z, 0 <= i < 8 ->
                         Z.testbit (array_get curr 4) i = true ->
                         Z.testbit (array_get prev 4) i = true)).
  { rewrite snes_deriveEvents_spec. unfold Spec.events. split.
    + intros H. apply app_eq_nil in H as (Hd & Hb).
      apply direction_events_nil_iff in Hd.
      pose proof (proj1 (buttons_silent_iff prev curr)
                    (proj1 (merged_events_nil_iff prev curr) Hb)).
      tauto.
    + intros (H1 & H2 & H3 & H4 & H5).
      rewrite (proj2 (direction_events_nil_iff prev curr)) by tauto.
      apply merged_events_nil_iff, buttons_silent_iff, H5. }
  assert (Hg : UsbSnesGamepad.deriveEvents prev curr = []
               <-> (array_get curr 1 < 0x3F -> array_get prev 1 < 0x3F)
                   /\ (0xBF < array_get curr 1 -> 0xBF < array_get prev 1)
                   /\ (array_get curr 0 < 0x3F -> array_get prev 0 < 0x3F)
                   /\ (0xBF < array_get curr 0 -> 0xBF < array_get prev 0)
                   /\ (forall i : Z, 0 <= i < 8 ->
                         Z.testbit (array_get curr 4) i = true ->
                         Z.testbit (array_get prev 4) i = true)).
  { rewrite gamepad_deriveEvents_spec. unfold Spec.events. split.
    + intros H. apply app_eq_nil in H as (Hd & Hb).
      apply direction_events_nil_iff in Hd.
      pose proof (proj1 (buttons_silent_iff prev curr)
                    (proj1 (split_events_nil_iff prev curr) Hb)).
      tauto.
    + intros (H1 & H2 & H3 & H4 & H5).
      rewrite (proj2 (direction_events_nil_iff prev curr)) by tauto.
      apply split_events_nil_iff, buttons_silent_iff, H5. }
  split; [exact Hs|]. split; [exact Hg|].
  split; [intros H; apply snes_events_same_nil, Hs, H|].
  split; [intros H; apply gamepad_events_same_nil, Hg, H|].
  split.
  - intros Hn Hkeys d Hwf Hroom. apply snes_events_grow; try assumption.
    intros H. apply Hn, Hs, H.
  - intros Hn Hkeys d Hwf Hroom. apply gamepad_events_grow; try assumption.
    intros H. apply Hn, Hg, H.
Qed.

End CodecOrder.

(** ** Further properties of the poll step *)

Section PollRuns.
Context {K : grub_term_keys}.

(** [grub_usb_snes_getkey] of [usb_snes.c], case by case, with the codec
    written as the pushes of its events. *)
Lemma snes_getkey_eq (env : usb_reply) (d : UsbSnes.grub_usb_snes_data) :
  UsbSnes.grub_usb_snes_getkey env d
  = if c_true (UsbSnes.dead d) then (GRUB_TERM_NO_KEY, d, [])
    else if UsbSnes.key_queue_count d >? 0 then (UsbSnes.key_queue_pop d, [])
    else if bool_decide (reply_err env = GRUB_USB_ERR_WAIT)
    then (GRUB_TERM_NO_KEY, d, [UsbCheckTransfer (UsbSnes.transfer d)])
    else
      let d1 :=
        if bool_decide (reply_err env = GRUB_USB_ERR_NONE) && (reply_actual env >=? 1)
        then UsbSnes.set_prev_report
               (grub_memcpy (UsbSnes.prev_report d) (UsbSnes.report d) 8)
               (UsbSnes.push_all d
                  (UsbSnes.deriveEvents (UsbSnes.prev_report d) (UsbSnes.report d)))
        else d in
      let d2 := UsbSnes.set_transfer (reply_transfer env) d1 in
      let calls := [UsbCheckTransfer (UsbSnes.transfer d);
                    UsbBulkReadBackground (UsbSnes.usbdev d) (UsbSnes.endp d) 8] in
      match reply_transfer env with
      | None => (GRUB_TERM_NO_KEY, UsbSnes.set_dead 1 d2, calls)
      | Some _ => (UsbSnes.key_queue_pop d2, calls)
      end.
Proof.
  unfold UsbSnes.grub_usb_snes_getkey.
  destruct (c_true (UsbSnes.dead d)); [reflexivity|].
  destruct (UsbSnes.key_queue_count d >? 0).
  { destruct (UsbSnes.key_queue_pop d); reflexivity. }
  destruct (bool_decide (reply_err env = GRUB_USB_ERR_WAIT)); [reflexivity|].
  change (Z.to_nat UsbSnes.SNES_REPORT_SIZE) with 8%nat.
  rewrite parse_snes_report_pushes.
  destruct (snes_push_all_frame
              (UsbSnes.deriveEvents (UsbSnes.prev_report d) (UsbSnes.report d)) d)
    as (Hu & He & _ & Hr & Hp & _).
  cbn zeta in Hu, He, Hr, Hp.
  destruct (bool_decide (reply_err env = GRUB_USB_ERR_NONE) && (reply_actual env >=? 1));
    cbv zeta;
    cbn [UsbSnes.transfer UsbSnes.set_transfer UsbSnes.usbdev UsbSnes.endp
         UsbSnes.set_prev_report UsbSnes.prev_report UsbSnes.report];
    rewrite ?Hu, ?He, ?Hr, ?Hp;
    (destruct (reply_transfer env); [|reflexivity]);
    destruct (UsbSnes.key_queue_pop _); reflexivity.
Qed.

(** The same for [usb_snes_gamepad.c]. *)
Lemma gamepad_getkey_eq (env : usb_reply) (d : UsbSnesGamepad.grub_usb_snes_data) :
  UsbSnesGamepad.grub_usb_snes_getkey env d
  = if bool_decide (reply_err env = GRUB_USB_ERR_WAIT)
    then (UsbSnesGamepad.key_queue_pop d, [UsbCheckTransfer (UsbSnesGamepad.transfer d)])
    else
      let d1 :=
        if bool_decide (reply_err env = GRUB_USB_ERR_NONE) && (reply_actual env =? 8)
        then UsbSnesGamepad.push_all d
               (UsbSnesGamepad.deriveEvents (UsbSnesGamepad.prev_report d)
                                            (UsbSnesGamepad.report d))
        else d in
      let d2 :=
        UsbSnesGamepad.set_transfer (reply_transfer env)
          (UsbSnesGamepad.set_prev_report
             (grub_memcpy (UsbSnesGamepad.prev_report d) (UsbSnesGamepad.report d) 8)
             d1) in
      (UsbSnesGamepad.key_queue_pop d2,
       [UsbCheckTransfer (UsbSnesGamepad.transfer d);
        UsbBulkReadBackground (UsbSnesGamepad.usbdev d) (UsbSnesGamepad.endp d) 8]).
Proof.
  destruct (bool_decide (reply_err env = GRUB_USB_ERR_WAIT)) eqn:Hw.
  - unfold UsbSnesGamepad.grub_usb_snes_getkey. rewrite Hw. cbn [negb].
    destruct (UsbSnesGamepad.key_queue_pop d); reflexivity.
  - apply bool_decide_eq_false in Hw.
    destruct (gamepad_getkey_completed env d Hw) as (-> & _).
    rewrite <- process_report_pushes. reflexivity.
Qed.

(** The session invariant of the poll step: a well-formed queue and two
    report buffers of 8 bytes. *)
Lemma length_memcpy_8 (dst src : list Z) :
  length src = 8%nat -> length dst = 8%nat -> grub_memcpy dst src 8 = src.
Proof.
  intros Hs Hd. unfold grub_memcpy.
  rewrite take_ge, drop_ge by lia. apply app_nil_r.
Qed.

Lemma snes_getkey_step (env : usb_reply) (d : UsbSnes.grub_usb_snes_data) :
  UsbSnes.queue_wf d ->
  length (UsbSnes.report d) = 8%nat -> length (UsbSnes.prev_report d) = 8%nat ->
  let d' := snd (fst (UsbSnes.grub_usb_snes_getkey env d)) in
  UsbSnes.queue_wf d'
  /\ length (UsbSnes.report d') = 8%nat /\ length (UsbSnes.prev_report d') = 8%nat
  /\ UsbSnes.usbdev d' = UsbSnes.usbdev d
  /\ UsbSnes.endp d' = UsbSnes.endp d
  /\ UsbSnes.report d' = UsbSnes.report d.
Proof.
  intros Hwf Hr Hp. cbv zeta. rewrite snes_getkey_eq.
  destruct (c_true (UsbSnes.dead d)); [cbn; auto 10|].
  destruct (UsbSnes.key_queue_count d >? 0).
  { cbn [fst snd]. destruct (snes_pop_spec d Hwf) as (_ & Hwf' & _).
    destruct (snes_pop_frame d) as (Hu & He & _ & Hr' & Hp' & _). cbv zeta in *.
    rewrite Hr', Hp'. auto 10. }
  destruct (bool_decide (reply_err env = GRUB_USB_ERR_WAIT)); [cbn; auto 10|].
  cbv zeta.
  set (evs := UsbSnes.deriveEvents (UsbSnes.prev_report d) (UsbSnes.report d)).
  set (d2 := UsbSnes.set_transfer _ _).
  assert (H2 : UsbSnes.queue_wf d2
               /\ length (UsbSnes.report d2) = 8%nat
               /\ length (UsbSnes.prev_report d2) = 8%nat
               /\ UsbSnes.usbdev d2 = UsbSnes.usbdev d
               /\ UsbSnes.endp d2 = UsbSnes.endp d
               /\ UsbSnes.report d2 = UsbSnes.report d).
  { subst d2.
    destruct (bool_decide (reply_err env = GRUB_USB_ERR_NONE) && (reply_actual env >=? 1)).
    - pose proof (snes_push_all_wf evs d Hwf) as Hwf'.
      destruct (snes_push_all_frame evs d) as (Hu & He & _ & Hr' & Hp' & _).
      cbv zeta in *. cbn. rewrite Hr', Hu, He, length_memcpy_8 by assumption.
      auto 10.
    - cbn. auto 10. }
  destruct H2 as (Hwf2 & Hr2 & Hp2 & Hu2 & He2 & Hrr2).
  destruct (reply_transfer env).
  - cbn [fst snd]. destruct (snes_pop_spec d2 Hwf2) as (_ & Hwf' & _).
    destruct (snes_pop_frame d2) as (Hu & He & _ & Hr' & Hp' & _). cbv zeta in *.
    rewrite Hr', Hp', Hu, He. auto 10.
  - cbn. auto 10.
Qed.

Lemma gamepad_getkey_step (env : usb_reply) (d : UsbSnesGamepad.grub_usb_snes_data) :
  UsbSnesGamepad.queue_wf d ->
  length (UsbSnesGamepad.report d) = 8%nat ->
  length (UsbSnesGamepad.prev_report d) = 8%nat ->
  let d' := snd (fst (UsbSnesGamepad.grub_usb_snes_getkey env d)) in
  UsbSnesGamepad.queue_wf d'
  /\ length (UsbSnesGamepad.report d') = 8%nat
  /\ length (UsbSnesGamepad.prev_report d') = 8%nat
  /\ UsbSnesGamepad.usbdev d' = UsbSnesGamepad.usbdev d
  /\ UsbSnesGamepad.endp d' = UsbSnesGamepad.endp d
  /\ UsbSnesGamepad.report d' = UsbSnesGamepad.report d.
Proof.
  intros Hwf Hr Hp. cbv zeta. rewrite gamepad_getkey_eq.
  destruct (bool_decide (reply_err env = GRUB_USB_ERR_WAIT)).
  { cbn [fst snd]. destruct (gamepad_pop_spec d Hwf) as (_ & Hwf' & _).
    destruct (gamepad_pop_frame d) as (Hu & He & _ & Hr' & Hp'). cbv zeta in *.
    rewrite Hr', Hp'. auto 10. }
  cbv zeta.
  set (evs := UsbSnesGamepad.deriveEvents (UsbSnesGamepad.prev_report d)
                                          (UsbSnesGamepad.report d)).
  set (d2 := UsbSnesGamepad.set_transfer _ _).
  assert (H2 : UsbSnesGamepad.queue_wf d2
               /\ length (UsbSnesGamepad.report d2) = 8%nat
               /\ length (UsbSnesGamepad.prev_report d2) = 8%nat
               /\ UsbSnesGamepad.usbdev d2 = UsbSnesGamepad.usbdev d
               /\ UsbSnesGamepad.endp d2 = UsbSnesGamepad.endp d
               /\ UsbSnesGamepad.report d2 = UsbSnesGamepad.report d).
  { subst d2.
    destruct (bool_decide (reply_err env = GRUB_USB_ERR_NONE) && (reply_actual env =? 8)).
    - pose proof (gamepad_push_all_wf evs d Hwf) as Hwf'.
      destruct (gamepad_push_all_frame evs d) as (Hu & He & _ & Hr' & Hp').
      cbv zeta in *. cbn. rewrite Hr', Hu, He, length_memcpy_8 by assumption.
      auto 10.
    - cbn. rewrite length_memcpy_8 by assumption. auto 10. }
  destruct H2 as (Hwf2 & Hr2 & Hp2 & Hu2 & He2 & Hrr2).
  cbn [fst snd]. destruct (gamepad_pop_spec d2 Hwf2) as (_ & Hwf' & _).
  destruct (gamepad_pop_frame d2) as (Hu & He & _ & Hr' & Hp'). cbv zeta in *.
  rewrite Hr', Hp', Hu, He. auto 10.
Qed.

End PollRuns.

Section PollTheorems.
Context {K : grub_term_keys}.

(** The fields a poll never writes, on any session. *)
Lemma snes_getkey_frame (env : usb_reply) (d : UsbSnes.grub_usb_snes_data) :
  let d' := snd (fst (UsbSnes.grub_usb_snes_getkey env d)) in
  UsbSnes.usbdev d' = UsbSnes.usbdev d
  /\ UsbSnes.endp d' = UsbSnes.endp d
  /\ UsbSnes.report d' = UsbSnes.report d.
Proof.
  cbv zeta. rewrite snes_getkey_eq.
  destruct (c_true (UsbSnes.dead d)); [cbn; auto|].
  destruct (UsbSnes.key_queue_count d >? 0).
  { destruct (snes_pop_frame d) as (Hu & He & _ & Hr & _). cbn [fst snd]. auto. }
  destruct (bool_decide (reply_err env = GRUB_USB_ERR_WAIT)); [cbn; auto|].
  cbv zeta.
  set (evs := UsbSnes.deriveEvents (UsbSnes.prev_report d) (UsbSnes.report d)).
  set (d2 := UsbSnes.set_transfer _ _).
  assert (H2 : UsbSnes.usbdev d2 = UsbSnes.usbdev d
               /\ UsbSnes.endp d2 = UsbSnes.endp d
               /\ UsbSnes.report d2 = UsbSnes.report d).
  { subst d2.
    destruct (bool_decide (reply_err env = GRUB_USB_ERR_NONE) && (reply_actual env >=? 1));
      [|cbn; auto].
    destruct (snes_push_all_frame evs d) as (Hu & He & _ & Hr & _). cbn. auto. }
  destruct H2 as (Hu2 & He2 & Hr2).
  destruct (reply_transfer env); [|cbn; auto].
  destruct (snes_pop_frame d2) as (Hu & He & _ & Hr & _). cbv zeta in *.
  cbn [fst snd]. rewrite Hu, He, Hr. auto.
Qed.

Lemma gamepad_getkey_frame (env : usb_reply) (d : UsbSnesGamepad.grub_usb_snes_data) :
  let d' := snd (fst (UsbSnesGamepad.grub_usb_snes_getkey env d)) in
  UsbSnesGamepad.usbdev d' = UsbSnesGamepad.usbdev d
  /\ UsbSnesGamepad.endp d' = UsbSnesGamepad.endp d
  /\ UsbSnesGamepad.report d' = UsbSnesGamepad.report d.
Proof.
  cbv zeta. rewrite gamepad_getkey_eq.
  destruct (bool_decide (reply_err env = GRUB_USB_ERR_WAIT)).
  { destruct (gamepad_pop_frame d) as (Hu & He & _ & Hr & _). cbn [fst snd]. auto. }
  cbv zeta.
  set (evs := UsbSnesGamepad.deriveEvents (UsbSnesGamepad.prev_report d)
                                          (UsbSnesGamepad.report d)).
  set (d2 := UsbSnesGamepad.set_transfer _ _).
  assert (H2 : UsbSnesGamepad.usbdev d2 = UsbSnesGamepad.usbdev d
               /\ UsbSnesGamepad.endp d2 = UsbSnesGamepad.endp d
               /\ UsbSnesGamepad.report d2 = UsbSnesGamepad.report d).
  { subst d2.
    destruct (bool_decide (reply_err env = GRUB_USB_ERR_NONE) && (reply_actual env =? 8));
      [|cbn; auto].
    destruct (gamepad_push_all_frame evs d) as (Hu & He & _ & Hr & _). cbn. auto. }
  destruct H2 as (Hu2 & He2 & Hr2).
  destruct (gamepad_pop_frame d2) as (Hu & He & _ & Hr & _). cbv zeta in *.
  cbn [fst snd]. rewrite Hu, He, Hr. auto.
Qed.

(** The calls of one poll. *)
Lemma snes_getkey_calls (env : usb_reply) (d : UsbSnes.grub_usb_snes_data) :
  snd (UsbSnes.grub_usb_snes_getkey env d)
  = if c_true (UsbSnes.dead d) || (UsbSnes.key_queue_count d >? 0) then []
    else if bool_decide (reply_err env = GRUB_USB_ERR_WAIT)
    then [UsbCheckTransfer (UsbSnes.transfer d)]
    else [UsbCheckTransfer (UsbSnes.transfer d);
          UsbBulkReadBackground (UsbSnes.usbdev d) (UsbSnes.endp d) 8].
Proof.
  rewrite snes_getkey_eq.
  destruct (c_true (UsbSnes.dead d)); [reflexivity|].
  destruct (UsbSnes.key_queue_count d >? 0); [reflexivity|].
  destruct (bool_decide (reply_err env = GRUB_USB_ERR_WAIT)); [reflexivity|].
  cbv zeta. destruct (reply_transfer env); reflexivity.
Qed.

Lemma gamepad_getkey_calls (env : usb_reply) (d : UsbSnesGamepad.grub_usb_snes_data) :
  snd (UsbSnesGamepad.grub_usb_snes_getkey env d)
  = if bool_decide (reply_err env = GRUB_USB_ERR_WAIT)
    then [UsbCheckTransfer (UsbSnesGamepad.transfer d)]
    else [UsbCheckTransfer (UsbSnesGamepad.transfer d);
          UsbBulkReadBackground (UsbSnesGamepad.usbdev d) (UsbSnesGamepad.endp d) 8].
Proof.
  rewrite gamepad_getkey_eq.
  destruct (bool_decide (reply_err env = GRUB_USB_ERR_WAIT)); reflexivity.
Qed.

(** Delivering bytes touches the current report buffer only, and keeps its
    8 bytes. *)
Lemma snes_deliver_frame (bytes : list Z) (d : UsbSnes.grub_usb_snes_data) :
  let d' := UsbSnes.usb_deliver bytes d in
  UsbSnes.usbdev d' = UsbSnes.usbdev d
  /\ UsbSnes.endp d' = UsbSnes.endp d
  /\ UsbSnes.transfer d' = UsbSnes.transfer d
  /\ UsbSnes.prev_report d' = UsbSnes.prev_report d
  /\ UsbSnes.dead d' = UsbSnes.dead d
  /\ UsbSnes.key_queue_count d' = UsbSnes.key_queue_count d
  /\ UsbSnes.queue_contents d' = UsbSnes.queue_contents d
  /\ (UsbSnes.queue_wf d -> UsbSnes.queue_wf d')
  /\ (length (UsbSnes.report d) = 8%nat -> length (UsbSnes.report d') = 8%nat).
Proof.
  cbv zeta. unfold UsbSnes.usb_deliver. repeat (split; [reflexivity|]).
  split; [intros H; exact H|].
  intros H. cbn [UsbSnes.report UsbSnes.set_reports]. unfold grub_memcpy.
  rewrite length_app, length_take, length_drop, !length_take. lia.
Qed.

Lemma gamepad_deliver_frame (bytes : list Z) (d : UsbSnesGamepad.grub_usb_snes_data) :
  let d' := UsbSnesGamepad.usb_deliver bytes d in
  UsbSnesGamepad.usbdev d' = UsbSnesGamepad.usbdev d
  /\ UsbSnesGamepad.endp d' = UsbSnesGamepad.endp d
  /\ UsbSnesGamepad.transfer d' = UsbSnesGamepad.transfer d
  /\ UsbSnesGamepad.prev_report d' = UsbSnesGamepad.prev_report d
  /\ UsbSnesGamepad.queue_contents d' = UsbSnesGamepad.queue_contents d
  /\ (UsbSnesGamepad.queue_wf d -> UsbSnesGamepad.queue_wf d')
  /\ (length (UsbSnesGamepad.report d) = 8%nat ->
      length (UsbSnesGamepad.report d') = 8%nat).
Proof.
  cbv zeta. unfold UsbSnesGamepad.usb_deliver. repeat (split; [reflexivity|]).
  split; [intros H; exact H|].
  intros H. cbn [UsbSnesGamepad.report UsbSnesGamepad.set_reports]. unfold grub_memcpy.
  rewrite length_app, length_take, length_drop, !length_take. lia.
Qed.

(** The traffic of one poll followed by well-shaped traffic is well
    shaped. *)
Lemma poll_traffic_check (dev : addr) (e : option grub_usb_desc_endp)
    (t : option transfer_handle) (calls : list usb_call) :
  poll_traffic dev e calls -> poll_traffic dev e (UsbCheckTransfer t :: calls).
Proof.
  intros H. destruct calls as [|c calls]; [exact I|].
  destruct c; cbn in H |- *; try contradiction; exact H.
Qed.

Lemma poll_traffic_check_read (dev : addr) (e : option grub_usb_desc_endp)
    (t : option transfer_handle) (calls : list usb_call) :
  poll_traffic dev e calls ->
  poll_traffic dev e (UsbCheckTransfer t :: UsbBulkReadBackground dev e 8 :: calls).
Proof. intros H. cbn. auto. Qed.

(** The handle a poll of [usb_snes.c] checks and the handle it leaves: a
    session that is dead or has a read in flight stays so, and never checks
    a [NULL] handle. *)
Lemma snes_getkey_handle (env : usb_reply) (d : UsbSnes.grub_usb_snes_data) :
  c_true (UsbSnes.dead d) = true \/ is_Some (UsbSnes.transfer d) ->
  let r := UsbSnes.grub_usb_snes_getkey env d in
  Forall (fun c => c <> UsbCheckTransfer None) (snd r)
  /\ (c_true (UsbSnes.dead (snd (fst r))) = true
      \/ is_Some (UsbSnes.transfer (snd (fst r)))).
Proof.
  intros H. cbv zeta. rewrite snes_getkey_eq.
  destruct (c_true (UsbSnes.dead d)) eqn:Hdead.
  { cbn [fst snd]. split; [apply List.Forall_nil|]. left. exact Hdead. }
  destruct H as [H|[t Ht]]; [discriminate|].
  assert (Hchk : UsbCheckTransfer (UsbSnes.transfer d) <> UsbCheckTransfer None)
    by (rewrite Ht; discriminate).
  destruct (UsbSnes.key_queue_count d >? 0).
  { destruct (snes_pop_frame d) as (_ & _ & Htr & _ & _ & Hd). cbv zeta in Htr, Hd.
    cbn [fst snd]. split; [apply List.Forall_nil|]. right. rewrite Htr, Ht. eauto. }
  destruct (bool_decide (reply_err env = GRUB_USB_ERR_WAIT)).
  { cbn [fst snd]. split; [|right; rewrite Ht; eauto].
    apply List.Forall_cons; [exact Hchk|apply List.Forall_nil]. }
  cbv zeta. set (d2 := UsbSnes.set_transfer _ _).
  assert (Hcalls : Forall (fun c => c <> UsbCheckTransfer None)
                     [UsbCheckTransfer (UsbSnes.transfer d);
                      UsbBulkReadBackground (UsbSnes.usbdev d) (UsbSnes.endp d) 8]).
  { apply List.Forall_cons; [exact Hchk|].
    apply List.Forall_cons; [discriminate|apply List.Forall_nil]. }
  destruct (reply_transfer env) as [t'|] eqn:Hrt.
  - cbn [fst snd]. split; [exact Hcalls|]. right.
    destruct (snes_pop_frame d2) as (_ & _ & Htr & _). cbv zeta in Htr.
    rewrite Htr. subst d2. cbn [UsbSnes.transfer UsbSnes.set_transfer]. eauto.
  - cbn [fst snd]. split; [exact Hcalls|]. left. reflexivity.
Qed.

Lemma gamepad_getkey_handle (env : usb_reply) (d : UsbSnesGamepad.grub_usb_snes_data) :
  is_Some (UsbSnesGamepad.transfer d) ->
  reply_err env = GRUB_USB_ERR_WAIT \/ is_Some (reply_transfer env) ->
  let r := UsbSnesGamepad.grub_usb_snes_getkey env d in
  Forall (fun c => c <> UsbCheckTransfer None) (snd r)
  /\ is_Some (UsbSnesGamepad.transfer (snd (fst r))).
Proof.
  intros [t Ht] Henv. cbv zeta. rewrite gamepad_getkey_eq.
  assert (Hchk : UsbCheckTransfer (UsbSnesGamepad.transfer d) <> UsbCheckTransfer None)
    by (rewrite Ht; discriminate).
  destruct (bool_decide_reflect (reply_err env = GRUB_USB_ERR_WAIT)) as [Hw|Hw].
  { destruct (gamepad_pop_frame d) as (_ & _ & Htr & _). cbv zeta in Htr.
    cbn [fst snd]. split; [|rewrite Htr, Ht; eauto].
    apply List.Forall_cons; [exact Hchk|apply List.Forall_nil]. }
  destruct Henv as [Hw'|[t' Ht']]; [contradiction|].
  cbv zeta. set (d2 := UsbSnesGamepad.set_transfer _ _).
  destruct (gamepad_pop_frame d2) as (_ & _ & Htr & _). cbv zeta in Htr.
  cbn [fst snd]. split.
  - apply List.Forall_cons; [exact Hchk|].
    apply List.Forall_cons; [discriminate|apply List.Forall_nil].
  - rewrite Htr. subst d2. cbn [UsbSnesGamepad.transfer UsbSnesGamepad.set_transfer].
    rewrite Ht'. eauto.
Qed.

Lemma snes_polls_io_traffic (ios : list usb_io) (d : UsbSnes.grub_usb_snes_data) :
  poll_traffic (UsbSnes.usbdev d) (UsbSnes.endp d) (snd (UsbSnes.polls_io ios d))
  /\ (length (snd (UsbSnes.polls_io ios d)) <= 2 * length ios)%nat
  /\ (c_true (UsbSnes.dead d) = true \/ is_Some (UsbSnes.transfer d) ->
      Forall (fun c => c <> UsbCheckTransfer None) (snd (UsbSnes.polls_io ios d))).
Proof.
  revert d. induction ios as [|io ios IH]; intros d.
  { cbn. split; [exact I|]. split; [lia|]. intros _. apply List.Forall_nil. }
  cbn [UsbSnes.polls_io].
  destruct (snes_deliver_frame (io_bytes io) d)
    as (Hu0 & He0 & Ht0 & _ & Hd0 & _). cbv zeta in Hu0, He0, Ht0, Hd0.
  set (d0 := UsbSnes.usb_deliver (io_bytes io) d) in *.
  pose proof (snes_getkey_calls (io_reply io) d0) as Hc.
  destruct (snes_getkey_frame (io_reply io) d0) as (Hu & He & _). cbv zeta in Hu, He.
  pose proof (snes_getkey_handle (io_reply io) d0) as Hh. cbv zeta in Hh.
  destruct (UsbSnes.grub_usb_snes_getkey (io_reply io) d0) as [[k d1] c1].
  cbn [fst snd] in Hc, Hu, He, Hh.
  destruct (IH d1) as (IH1 & IH2 & IH3). rewrite Hu, He, Hu0, He0 in IH1.
  destruct (UsbSnes.polls_io ios d1) as [[ks d2] c2]. cbn [fst snd length] in *.
  split; [|split].
  - subst c1.
    destruct (c_true (UsbSnes.dead d0) || (UsbSnes.key_queue_count d0 >? 0));
      [exact IH1|].
    destruct (bool_decide (reply_err (io_reply io) = GRUB_USB_ERR_WAIT)).
    + apply poll_traffic_check, IH1.
    + rewrite Hu0, He0. apply poll_traffic_check_read, IH1.
  - rewrite length_app. subst c1.
    destruct (c_true (UsbSnes.dead d0) || (UsbSnes.key_queue_count d0 >? 0));
      [cbn; lia|].
    destruct (bool_decide (reply_err (io_reply io) = GRUB_USB_ERR_WAIT)); cbn; lia.
  - intros H. rewrite <- Hd0, <- Ht0 in H. destruct (Hh H) as (Hc1 & H1).
    apply Forall_app. split; [exact Hc1|apply IH3, H1].
Qed.

Lemma gamepad_polls_io_traffic (ios : list usb_io)
    (d : UsbSnesGamepad.grub_usb_snes_data) :
  is_Some (UsbSnesGamepad.transfer d) ->
  Forall (fun io => reply_err (io_reply io) = GRUB_USB_ERR_WAIT
                    \/ is_Some (reply_transfer (io_reply io))) ios ->
  poll_traffic (UsbSnesGamepad.usbdev d) (UsbSnesGamepad.endp d)
    (snd (UsbSnesGamepad.polls_io ios d))
  /\ (length ios <= length (snd (UsbSnesGamepad.polls_io ios d)) <= 2 * length ios)%nat
  /\ Forall (fun c => c <> UsbCheckTransfer None) (snd (UsbSnesGamepad.polls_io ios d))
  /\ is_Some (UsbSnesGamepad.transfer (snd (fst (UsbSnesGamepad.polls_io ios d)))).
Proof.
  revert d. induction ios as [|io ios IH]; intros d Htr Hios.
  { cbn. split; [exact I|]. split; [lia|]. split; [apply List.Forall_nil|exact Htr]. }
  apply Forall_cons in Hios as (Hio & Hios).
  cbn [UsbSnesGamepad.polls_io].
  destruct (gamepad_deliver_frame (io_bytes io) d) as (Hu0 & He0 & Ht0 & _).
  cbv zeta in Hu0, He0, Ht0.
  set (d0 := UsbSnesGamepad.usb_deliver (io_bytes io) d) in *.
  pose proof (gamepad_getkey_calls (io_reply io) d0) as Hc.
  destruct (gamepad_getkey_frame (io_reply io) d0) as (Hu & He & _).
  cbv zeta in Hu, He.
  rewrite <- Ht0 in Htr.
  destruct (gamepad_getkey_handle (io_reply io) d0 Htr Hio) as (Hc1 & Htr1).
  cbv zeta in Hc1, Htr1.
  destruct (UsbSnesGamepad.grub_usb_snes_getkey (io_reply io) d0) as [[k d1] c1].
  cbn [fst snd] in Hc, Hu, He, Hc1, Htr1.
  destruct (IH d1 Htr1 Hios) as (IH1 & IH2 & IH3 & IH4). rewrite Hu, He, Hu0, He0 in IH1.
  destruct (UsbSnesGamepad.polls_io ios d1) as [[ks d2] c2]. cbn [fst snd length] in *.
  split; [|split; [|split]].
  - subst c1.
    destruct (bool_decide (reply_err (io_reply io) = GRUB_USB_ERR_WAIT)).
    + apply poll_traffic_check, IH1.
    + rewrite Hu0, He0. apply poll_traffic_check_read, IH1.
  - rewrite length_app. subst c1.
    destruct (bool_decide (reply_err (io_reply io) = GRUB_USB_ERR_WAIT)); cbn; lia.
  - apply Forall_app. split; assumption.
  - exact IH4.
Qed.

(** X5: the USB traffic of polling, reports arriving or not.  Over every
    run of polls, whatever bytes the host controller delivers and whatever
    the USB stack answers, the calls of [usb_snes.c] are transfer checks,
    each followed by at most one start of an 8-byte read from the device and
    endpoint the session was created for: no read is started without a
    check just before, there are at most two calls per poll, and a session
    that is dead or has a read in flight never checks a [NULL] handle, the
    dead flag standing in for the handle once a restart has failed.  The
    same holds of [usb_snes_gamepad.c] over the runs in which every restart
    succeeds, where in addition every poll checks the transfer. *)
Theorem poll_usb_traffic :
  (forall ios d,
     poll_traffic (UsbSnes.usbdev d) (UsbSnes.endp d) (snd (UsbSnes.polls_io ios d))
     /\ (length (snd (UsbSnes.polls_io ios d)) <= 2 * length ios)%nat
     /\ (c_true (UsbSnes.dead d) = true \/ is_Some (UsbSnes.transfer d) ->
         Forall (fun c => c <> UsbCheckTransfer None) (snd (UsbSnes.polls_io ios d))))
  /\ (forall ios d,
        is_Some (UsbSnesGamepad.transfer d) ->
        Forall (fun io => reply_err (io_reply io) = GRUB_USB_ERR_WAIT
                          \/ is_Some (reply_transfer (io_reply io))) ios ->
        poll_traffic (UsbSnesGamepad.usbdev d) (UsbSnesGamepad.endp d)
          (snd (UsbSnesGamepad.polls_io ios d))
        /\ (length ios <= length (snd (UsbSnesGamepad.polls_io ios d))
            <= 2 * length ios)%nat
        /\ Forall (fun c => c <> UsbCheckTransfer None)
                  (snd (UsbSnesGamepad.polls_io ios d))
        /\ is_Some (UsbSnesGamepad.transfer
                      (snd (fst (UsbSnesGamepad.polls_io ios d))))).
Proof.
  split; [exact snes_polls_io_traffic|exact gamepad_polls_io_traffic].
Qed.

Lemma snes_polls_io_step (ios : list usb_io) (d : UsbSnes.grub_usb_snes_data) :
  UsbSnes.queue_wf d ->
  length (UsbSnes.report d) = 8%nat -> length (UsbSnes.prev_report d) = 8%nat ->
  let d' := snd (fst (UsbSnes.polls_io ios d)) in
  UsbSnes.queue_wf d'
  /\ length (UsbSnes.report d') = 8%nat /\ length (UsbSnes.prev_report d') = 8%nat
  /\ UsbSnes.usbdev d' = UsbSnes.usbdev d
  /\ UsbSnes.endp d' = UsbSnes.endp d.
Proof.
  revert d. induction ios as [|io ios IH]; intros d Hwf Hr Hp; [cbn; auto 10|].
  cbv zeta. cbn [UsbSnes.polls_io].
  destruct (snes_deliver_frame (io_bytes io) d)
    as (Hu0 & He0 & _ & Hp0 & _ & _ & _ & Hwf0 & Hr0). cbv zeta in *.
  set (d0 := UsbSnes.usb_deliver (io_bytes io) d) in *.
  rewrite <- Hp0 in Hp.
  destruct (snes_getkey_step (io_reply io) d0 (Hwf0 Hwf) (Hr0 Hr) Hp)
    as (Hwf1 & Hr1 & Hp1 & Hu1 & He1 & _).
  destruct (UsbSnes.grub_usb_snes_getkey (io_reply io) d0) as [[k d1] c1].
  cbn [fst snd] in *.
  destruct (IH d1 Hwf1 Hr1 Hp1) as (Hwf2 & Hr2 & Hp2 & Hu2 & He2).
  destruct (UsbSnes.polls_io ios d1) as [[ks d2] c2]. cbn [fst snd] in *.
  rewrite Hu2, He2, Hu1, He1. auto 10.
Qed.

Lemma gamepad_polls_io_step (ios : list usb_io)
    (d : UsbSnesGamepad.grub_usb_snes_data) :
  is_Some (UsbSnesGamepad.transfer d) ->
  Forall (fun io => reply_err (io_reply io) = GRUB_USB_ERR_WAIT
                    \/ is_Some (reply_transfer (io_reply io))) ios ->
  UsbSnesGamepad.queue_wf d ->
  length (UsbSnesGamepad.report d) = 8%nat ->
  length (UsbSnesGamepad.prev_report d) = 8%nat ->
  let d' := snd (fst (UsbSnesGamepad.polls_io ios d)) in
  UsbSnesGamepad.queue_wf d'
  /\ length (UsbSnesGamepad.report d') = 8%nat
  /\ length (UsbSnesGamepad.prev_report d') = 8%nat
  /\ UsbSnesGamepad.usbdev d' = UsbSnesGamepad.usbdev d
  /\ UsbSnesGamepad.endp d' = UsbSnesGamepad.endp d.
Proof.
  revert d. induction ios as [|io ios IH]; intros d Htr Hios Hwf Hr Hp; [cbn; auto 10|].
  apply Forall_cons in Hios as (Hio & Hios).
  cbv zeta. cbn [UsbSnesGamepad.polls_io].
  destruct (gamepad_deliver_frame (io_bytes io) d)
    as (Hu0 & He0 & Ht0 & Hp0 & _ & Hwf0 & Hr0). cbv zeta in *.
  set (d0 := UsbSnesGamepad.usb_deliver (io_bytes io) d) in *.
  rewrite <- Hp0 in Hp. rewrite <- Ht0 in Htr.
  destruct (gamepad_getkey_step (io_reply io) d0 (Hwf0 Hwf) (Hr0 Hr) Hp)
    as (Hwf1 & Hr1 & Hp1 & Hu1 & He1 & _).
  destruct (gamepad_getkey_handle (io_reply io) d0 Htr Hio) as (_ & Htr1).
  cbv zeta in Htr1.
  destruct (UsbSnesGamepad.grub_usb_snes_getkey (io_reply io) d0) as [[k d1] c1].
  cbn [fst snd] in *.
  destruct (IH d1 Htr1 Hios Hwf1 Hr1 Hp1) as (Hwf2 & Hr2 & Hp2 & Hu2 & He2).
  destruct (UsbSnesGamepad.polls_io ios d1) as [[ks d2] c2]. cbn [fst snd] in *.
  rewrite Hu2, He2, Hu1, He1. auto 10.
Qed.

Lemma snes_init_data_wf (dev : grub_usb_device) (interfno : Z) (e : grub_usb_desc_endp)
    (tr : option transfer_handle) :
  let d := UsbSnes.set_transfer tr (UsbSnes.init_data dev interfno e) in
  UsbSnes.queue_wf d /\ UsbSnes.queue_contents d = []
  /\ length (UsbSnes.report d) = 8%nat /\ length (UsbSnes.prev_report d) = 8%nat.
Proof.
  cbv zeta. unfold UsbSnes.queue_wf, UsbSnes.queue_contents. cbn.
  repeat split; try reflexivity; lia.
Qed.

Lemma gamepad_init_data_wf (garbage : list Z) (dev : grub_usb_device)
    (configno interfno : Z) (e : grub_usb_desc_endp) (tr : option transfer_handle) :
  length garbage = 32%nat ->
  let d := UsbSnesGamepad.set_transfer tr
             (UsbSnesGamepad.init_data garbage dev configno interfno e) in
  UsbSnesGamepad.queue_wf d /\ UsbSnesGamepad.queue_contents d = []
  /\ length (UsbSnesGamepad.report d) = 8%nat
  /\ length (UsbSnesGamepad.prev_report d) = 8%nat.
Proof.
  intros Hg. cbv zeta.
  unfold UsbSnesGamepad.queue_wf, UsbSnesGamepad.queue_contents,
    UsbSnesGamepad.KEY_QUEUE_CAPACITY. cbn.
  repeat split; try reflexivity; try assumption; lia.
Qed.

(** X6: the session invariant.  The session attach creates has a
    well-formed, empty queue and two report buffers of 8 bytes (in
    [usb_snes_gamepad.c] whatever [grub_malloc] left in the queue's 32
    cells).  One poll keeps the queue well formed, the two buffers at 8
    bytes, the device and the endpoint, and does not itself write the
    current report buffer, which only the host controller fills.  Every run
    of polls, whatever bytes the host controller delivers into that buffer
    and whatever the USB stack answers (in [usb_snes_gamepad.c]: as long as
    every restart of the read succeeds), keeps the queue well formed, the
    buffers at 8 bytes, the device and the endpoint. *)
Theorem polls_keep_session_invariant :
  (forall dev interfno e tr,
     let d := UsbSnes.set_transfer tr (UsbSnes.init_data dev interfno e) in
     UsbSnes.queue_wf d /\ UsbSnes.queue_contents d = []
     /\ length (UsbSnes.report d) = 8%nat /\ length (UsbSnes.prev_report d) = 8%nat)
  /\ (forall garbage dev configno interfno e tr,
        length garbage = 32%nat ->
        let d := UsbSnesGamepad.set_transfer tr
                   (UsbSnesGamepad.init_data garbage dev configno interfno e) in
        UsbSnesGamepad.queue_wf d /\ UsbSnesGamepad.queue_contents d = []
        /\ length (UsbSnesGamepad.report d) = 8%nat
        /\ length (UsbSnesGamepad.prev_report d) = 8%nat)
  /\ (forall env d,
        UsbSnes.queue_wf d ->
        length (UsbSnes.report d) = 8%nat -> length (UsbSnes.prev_report d) = 8%nat ->
        let d' := snd (fst (UsbSnes.grub_usb_snes_getkey env d)) in
        UsbSnes.queue_wf d'
        /\ length (UsbSnes.report d') = 8%nat
        /\ length (UsbSnes.prev_report d') = 8%nat
        /\ UsbSnes.usbdev d' = UsbSnes.usbdev d
        /\ UsbSnes.endp d' = UsbSnes.endp d
        /\ UsbSnes.report d' = UsbSnes.report d)
  /\ (forall env d,
        UsbSnesGamepad.queue_wf d ->
        length (UsbSnesGamepad.report d) = 8%nat ->
        length (UsbSnesGamepad.prev_report d) = 8%nat ->
        let d' := snd (fst (UsbSnesGamepad.grub_usb_snes_getkey env d)) in
        UsbSnesGamepad.queue_wf d'
        /\ length (UsbSnesGamepad.report d') = 8%nat
        /\ length (UsbSnesGamepad.prev_report d') = 8%nat
        /\ UsbSnesGamepad.usbdev d' = UsbSnesGamepad.usbdev d
        /\ UsbSnesGamepad.endp d' = UsbSnesGamepad.endp d
        /\ UsbSnesGamepad.report d' = UsbSnesGamepad.report d)
  /\ (forall ios d,
        UsbSnes.queue_wf d ->
        length (UsbSnes.report d) = 8%nat -> length (UsbSnes.prev_report d) = 8%nat ->
        let d' := snd (fst (UsbSnes.polls_io ios d)) in
        UsbSnes.queue_wf d'
        /\ length (UsbSnes.report d') = 8%nat
        /\ length (UsbSnes.prev_report d') = 8%nat
        /\ UsbSnes.usbdev d' = UsbSnes.usbdev d
        /\ UsbSnes.endp d' = UsbSnes.endp d)
  /\ (forall ios d,
        is_Some (UsbSnesGamepad.transfer d) ->
        Forall (fun io => reply_err (io_reply io) = GRUB_USB_ERR_WAIT
                          \/ is_Some (reply_transfer (io_reply io))) ios ->
        UsbSnesGamepad.queue_wf d ->
        length (UsbSnesGamepad.report d) = 8%nat ->
        length (UsbSnesGamepad.prev_report d) = 8%nat ->
        let d' := snd (fst (UsbSnesGamepad.polls_io ios d)) in
        UsbSnesGamepad.queue_wf d'
        /\ length (UsbSnesGamepad.report d') = 8%nat
        /\ length (UsbSnesGamepad.prev_report d') = 8%nat
        /\ UsbSnesGamepad.usbdev d' = UsbSnesGamepad.usbdev d
        /\ UsbSnesGamepad.endp d' = UsbSnesGamepad.endp d).
Proof.
  split; [exact snes_init_data_wf|]. split; [exact gamepad_init_data_wf|].
  split; [exact snes_getkey_step|]. split; [exact gamepad_getkey_step|].
  split; [exact snes_polls_io_step|exact gamepad_polls_io_step].
Qed.

End PollTheorems.

Section PollDelivery.
Context {K : grub_term_keys}.

Lemma length_tl_pred {A : Type} (l : list A) : length (tl l) = (length l - 1)%nat.
Proof. destruct l; cbn; lia. Qed.

Lemma snes_dead_false (d : UsbSnes.grub_usb_snes_data) :
  UsbSnes.dead d = 0 -> c_true (UsbSnes.dead d) = false.
Proof. intros ->. reflexivity. Qed.

(** While keys are queued, [usb_snes.c] pops and does nothing else. *)
Lemma snes_polls_drain (envs : list usb_reply) (d : UsbSnes.grub_usb_snes_data) :
  UsbSnes.queue_wf d -> UsbSnes.dead d = 0 ->
  (length envs <= length (UsbSnes.queue_contents d))%nat ->
  UsbSnes.polls envs d
  = (fst (UsbSnes.pop_n (length envs) d), snd (UsbSnes.pop_n (length envs) d), []).
Proof.
  revert d. induction envs as [|env envs IH]; intros d Hwf Hdead Hlen; [reflexivity|].
  cbn [UsbSnes.polls UsbSnes.pop_n length].
  rewrite snes_getkey_eq, snes_dead_false by assumption.
  rewrite snes_contents_length in Hlen. cbn [length] in Hlen.
  destruct (Z.gtb_spec (UsbSnes.key_queue_count d) 0); [|lia].
  destruct (snes_pop_spec d Hwf) as (_ & Hwf1 & Hc1).
  destruct (snes_pop_frame d) as (_ & _ & _ & _ & _ & Hd1). cbv zeta in Hd1.
  destruct (UsbSnes.key_queue_pop d) as [k d1]. cbn [fst snd] in *.
  rewrite IH; [|assumption|lia|].
  - destruct (UsbSnes.pop_n (length envs) d1). reflexivity.
  - rewrite Hc1, length_tl_pred, snes_contents_length. lia.
Qed.

(** X8: [usb_snes.c] serves queued keys before it looks at the device: on
    a live session whose queue holds at least [n] keys, the next [n] polls
    return the first [n] queued keys in order, leave the others queued, and
    make no call into the USB stack, whatever it would answer. *)
Theorem snes_queue_drains_first (envs : list usb_reply)
    (d : UsbSnes.grub_usb_snes_data) :
  UsbSnes.queue_wf d -> UsbSnes.dead d = 0 ->
  (length envs <= length (UsbSnes.queue_contents d))%nat ->
  exists d',
    UsbSnes.polls envs d = (take (length envs) (UsbSnes.queue_contents d), d', [])
    /\ UsbSnes.queue_contents d' = drop (length envs) (UsbSnes.queue_contents d)
    /\ UsbSnes.transfer d' = UsbSnes.transfer d
    /\ UsbSnes.prev_report d' = UsbSnes.prev_report d.
Proof.
  intros Hwf Hdead Hlen.
  destruct (snes_pop_n_spec (length envs) d Hwf) as (Hk & _ & Hc).
  exists (snd (UsbSnes.pop_n (length envs) d)).
  rewrite snes_polls_drain, Hk by assumption.
  replace (length envs - length (UsbSnes.queue_contents d))%nat with 0%nat by lia.
  cbn [replicate]. rewrite app_nil_r. split; [reflexivity|]. split; [assumption|].
  clear. generalize (length envs) as n. intros n. revert d.
  induction n as [|n IH]; intros d; [cbn; auto|].
  cbn [UsbSnes.pop_n].
  destruct (snes_pop_frame d) as (_ & _ & Ht & _ & Hp & _). cbv zeta in Ht, Hp.
  destruct (UsbSnes.key_queue_pop d) as [k d1]. cbn [fst snd] in *.
  destruct (IH d1) as (Ht1 & Hp1).
  destruct (UsbSnes.pop_n n d1) as [ks d2]. cbn [fst snd] in *.
  split; congruence.
Qed.

Lemma snes_parsed_contents (d : UsbSnes.grub_usb_snes_data) (t : option transfer_handle) :
  UsbSnes.queue_wf d -> UsbSnes.key_queue_count d = 0 ->
  let evs := filter (fun k => k <> GRUB_TERM_NO_KEY)
               (UsbSnes.deriveEvents (UsbSnes.prev_report d) (UsbSnes.report d)) in
  let d2 := UsbSnes.set_transfer t
              (UsbSnes.set_prev_report
                 (grub_memcpy (UsbSnes.prev_report d) (UsbSnes.report d) 8)
                 (UsbSnes.push_all d
                    (UsbSnes.deriveEvents (UsbSnes.prev_report d) (UsbSnes.report d)))) in
  UsbSnes.queue_wf d2 /\ UsbSnes.queue_contents d2 = evs
  /\ UsbSnes.dead d2 = UsbSnes.dead d.
Proof.
  intros Hwf Hz evs d2.
  set (all := UsbSnes.deriveEvents (UsbSnes.prev_report d) (UsbSnes.report d)) in *.
  pose proof (snes_push_all_wf all d Hwf) as Hwf'.
  pose proof (snes_push_all_any all d Hwf) as Hc.
  destruct (snes_push_all_frame all d) as (_ & _ & _ & _ & _ & Hd). cbv zeta in Hd.
  rewrite (snes_contents_empty d) in Hc by lia. cbn [app] in Hc.
  rewrite take_ge in Hc.
  2:{ pose proof (snes_events_length (UsbSnes.prev_report d) (UsbSnes.report d)).
      pose proof (length_filter (fun k => k <> GRUB_TERM_NO_KEY) all).
      fold all in H. lia. }
  split; [exact Hwf'|]. split; [exact Hc|exact Hd].
Qed.

(** X7: [usb_snes.c] loses no key to the full-queue guard when it is driven
    by polls.  The codec only runs on an empty queue and one report yields
    far fewer keys than the queue holds, so after a successful read on a live session every key
    the report produced is queued, and with the poll of the read and the
    polls that follow the keys are returned one by one, in codec order, the
    later polls making no call into the USB stack. *)
Theorem snes_poll_delivers_all_events (env : usb_reply) (envs : list usb_reply)
    (d : UsbSnes.grub_usb_snes_data) :
  UsbSnes.queue_wf d -> UsbSnes.dead d = 0 -> UsbSnes.key_queue_count d = 0 ->
  reply_err env = GRUB_USB_ERR_NONE -> 1 <= reply_actual env ->
  is_Some (reply_transfer env) ->
  let evs := filter (fun k => k <> GRUB_TERM_NO_KEY)
               (UsbSnes.deriveEvents (UsbSnes.prev_report d) (UsbSnes.report d)) in
  length envs = (length evs - 1)%nat ->
  exists d',
    UsbSnes.polls (env :: envs) d
    = (hd GRUB_TERM_NO_KEY evs :: tl evs, d',
       [UsbCheckTransfer (UsbSnes.transfer d);
        UsbBulkReadBackground (UsbSnes.usbdev d) (UsbSnes.endp d) 8])
    /\ UsbSnes.queue_contents d' = []
    /\ UsbSnes.dead d' = 0.
Proof.
  intros Hwf Hdead Hz Herr Hact [t Ht] evs Hlen.
  cbn [UsbSnes.polls].
  rewrite snes_getkey_eq, snes_dead_false by assumption.
  destruct (Z.gtb_spec (UsbSnes.key_queue_count d) 0); [lia|].
  rewrite Herr.
  rewrite (bool_decide_eq_false_2 (GRUB_USB_ERR_NONE = GRUB_USB_ERR_WAIT)) by discriminate.
  rewrite (bool_decide_eq_true_2 (GRUB_USB_ERR_NONE = GRUB_USB_ERR_NONE)) by reflexivity.
  destruct (Z.geb_spec (reply_actual env) 1); [|lia].
  cbn [andb]. cbv zeta. rewrite Ht.
  destruct (snes_parsed_contents d (Some t) Hwf Hz) as (Hwf2 & Hc2 & Hd2).
  cbv zeta in Hwf2, Hc2, Hd2. fold evs in Hc2.
  set (d2 := UsbSnes.set_transfer _ _) in *.
  destruct (snes_pop_spec d2 Hwf2) as (Hk & Hwf3 & Hc3).
  destruct (snes_pop_frame d2) as (_ & _ & _ & _ & _ & Hd3). cbv zeta in Hd3.
  destruct (UsbSnes.key_queue_pop d2) as [k d3]. cbn [fst snd] in *.
  rewrite Hc2 in Hk, Hc3.
  assert (Hlen3 : (length envs <= length (UsbSnes.queue_contents d3))%nat).
  { rewrite Hc3, length_tl_pred. lia. }
  destruct (snes_pop_n_spec (length envs) d3 Hwf3) as (Hks & _ & Hc4).
  rewrite snes_polls_drain by (assumption || congruence).
  exists (snd (UsbSnes.pop_n (length envs) d3)).
  destruct (UsbSnes.pop_n (length envs) d3) as [ks d4] eqn:E. cbn [fst snd] in *.
  assert (Hd4 : UsbSnes.dead d4 = UsbSnes.dead d3).
  { clear -E. revert d3 ks d4 E. generalize (length envs) as n.
    induction n as [|n IH]; intros d3 ks d4 E; [cbn in E; congruence|].
    cbn [UsbSnes.pop_n] in E.
    destruct (snes_pop_frame d3) as (_ & _ & _ & _ & _ & Hd). cbv zeta in Hd.
    destruct (UsbSnes.key_queue_pop d3) as [k' d3'].
    destruct (UsbSnes.pop_n n d3') as [ks' d4'] eqn:E'. cbn [fst snd] in *.
    injection E as <- <-. rewrite (IH _ _ _ E'). exact Hd. }
  split; [|split].
  - rewrite Hks, Hc3, Hk, Hlen, <- length_tl_pred.
    rewrite firstn_all, Nat.sub_diag. cbn [replicate]. rewrite app_nil_r. reflexivity.
  - rewrite Hc4, Hc3, Hlen, <- length_tl_pred. apply drop_all.
  - congruence.
Qed.

(** X10: a restart failure in [usb_snes.c] strands the keys of the report
    just read: when the read succeeded and the restart fails, the keys the
    report produced are put on the queue, the session is marked dead before
    any of them is returned, and no later poll returns them. *)
Theorem snes_dead_session_strands_keys (env : usb_reply)
    (d : UsbSnes.grub_usb_snes_data) :
  UsbSnes.queue_wf d -> UsbSnes.dead d = 0 -> UsbSnes.key_queue_count d = 0 ->
  reply_err env = GRUB_USB_ERR_NONE -> 1 <= reply_actual env ->
  reply_transfer env = None ->
  let d' := snd (fst (UsbSnes.grub_usb_snes_getkey env d)) in
  UsbSnes.queue_contents d'
  = filter (fun k => k <> GRUB_TERM_NO_KEY)
      (UsbSnes.deriveEvents (UsbSnes.prev_report d) (UsbSnes.report d))
  /\ forall envs,
       fst (fst (UsbSnes.polls (env :: envs) d))
       = replicate (S (length envs)) GRUB_TERM_NO_KEY
       /\ snd (fst (UsbSnes.polls (env :: envs) d)) = d'.
Proof.
  intros Hwf Hdead Hz Herr Hact Ht. cbv zeta.
  cbn [UsbSnes.polls].
  rewrite snes_getkey_eq, snes_dead_false by assumption.
  destruct (Z.gtb_spec (UsbSnes.key_queue_count d) 0); [lia|].
  rewrite Herr.
  rewrite (bool_decide_eq_false_2 (GRUB_USB_ERR_NONE = GRUB_USB_ERR_WAIT)) by discriminate.
  rewrite (bool_decide_eq_true_2 (GRUB_USB_ERR_NONE = GRUB_USB_ERR_NONE)) by reflexivity.
  destruct (Z.geb_spec (reply_actual env) 1); [|lia].
  cbn [andb]. cbv zeta. rewrite Ht. cbn [fst snd].
  destruct (snes_parsed_contents d None Hwf Hz) as (Hwf2 & Hc2 & Hd2).
  cbv zeta in Hwf2, Hc2, Hd2.
  set (d2 := UsbSnes.set_transfer _ _) in *.
  split; [exact Hc2|].
  intros envs. rewrite (snes_dead_polls envs (UsbSnes.set_dead 1 d2)) by (cbn; lia).
  cbn [fst snd replicate]. auto.
Qed.

(** Pending polls of [usb_snes_gamepad.c] pop and check, nothing else. *)
Lemma gamepad_polls_pending (envs : list usb_reply)
    (d : UsbSnesGamepad.grub_usb_snes_data) :
  Forall (fun env => reply_err env = GRUB_USB_ERR_WAIT) envs ->
  UsbSnesGamepad.polls envs d
  = (fst (UsbSnesGamepad.pop_n (length envs) d),
     snd (UsbSnesGamepad.pop_n (length envs) d),
     replicate (length envs) (UsbCheckTransfer (UsbSnesGamepad.transfer d))).
Proof.
  revert d. induction envs as [|env envs IH]; intros d Hw; [reflexivity|].
  apply Forall_cons in Hw as (Hw1 & Hw).
  cbn [UsbSnesGamepad.polls UsbSnesGamepad.pop_n length replicate].
  rewrite gamepad_getkey_eq, Hw1.
  rewrite (bool_decide_eq_true_2 (GRUB_USB_ERR_WAIT = GRUB_USB_ERR_WAIT)) by reflexivity.
  destruct (gamepad_pop_frame d) as (_ & _ & Ht & _). cbv zeta in Ht.
  destruct (UsbSnesGamepad.key_queue_pop d) as [k d1]. cbn [fst snd] in *.
  rewrite IH by assumption. rewrite Ht.
  destruct (UsbSnesGamepad.pop_n (length envs) d1). reflexivity.
Qed.

(** X9: while the read is pending, [usb_snes_gamepad.c] drains its queue:
    [n] polls that find the transfer still waiting return the first [n]
    queued keys in order, then [GRUB_TERM_NO_KEY], leave the remaining keys
    queued, and each makes exactly one call, the check of the transfer in
    flight; the read is not restarted. *)
Theorem gamepad_pending_polls_drain (envs : list usb_reply)
    (d : UsbSnesGamepad.grub_usb_snes_data) :
  UsbSnesGamepad.queue_wf d ->
  Forall (fun env => reply_err env = GRUB_USB_ERR_WAIT) envs ->
  exists d',
    UsbSnesGamepad.polls envs d
    = (take (length envs) (UsbSnesGamepad.queue_contents d)
       ++ replicate (length envs - length (UsbSnesGamepad.queue_contents d))
                    GRUB_TERM_NO_KEY,
       d',
       replicate (length envs) (UsbCheckTransfer (UsbSnesGamepad.transfer d)))
    /\ UsbSnesGamepad.queue_wf d'
    /\ UsbSnesGamepad.queue_contents d'
       = drop (length envs) (UsbSnesGamepad.queue_contents d).
Proof.
  intros Hwf Hw.
  destruct (gamepad_pop_n_spec (length envs) d Hwf) as (Hk & Hwf' & Hc).
  exists (snd (UsbSnesGamepad.pop_n (length envs) d)).
  rewrite gamepad_polls_pending, Hk by assumption. auto.
Qed.

End PollDelivery.

Section PollKeys.
Context {K : grub_term_keys}.

Lemma snes_deriveEvents_same (R : list Z) : UsbSnes.deriveEvents R R = [].
Proof. rewrite snes_deriveEvents_spec. apply spec_events_same. Qed.

Lemma gamepad_deriveEvents_same (R : list Z) : UsbSnesGamepad.deriveEvents R R = [].
Proof. rewrite gamepad_deriveEvents_spec. apply spec_events_same. Qed.

(** X4: no auto-repeat.  After a poll that ran the codec (in
    [usb_snes_gamepad.c]: after any poll that found the read completed), on
    a session with 8-byte buffers, the previous report equals the current
    one; so as long as the controller delivers the same bytes the codec
    derives and pushes nothing: a button or direction that is held yields
    one key, not a stream. *)
Theorem no_auto_repeat :
  (forall env d,
     UsbSnes.dead d = 0 -> UsbSnes.key_queue_count d <= 0 ->
     reply_err env = GRUB_USB_ERR_NONE -> 1 <= reply_actual env ->
     length (UsbSnes.report d) = 8%nat -> length (UsbSnes.prev_report d) = 8%nat ->
     let d' := snd (fst (UsbSnes.grub_usb_snes_getkey env d)) in
     UsbSnes.prev_report d' = UsbSnes.report d
     /\ UsbSnes.report d' = UsbSnes.report d
     /\ UsbSnes.deriveEvents (UsbSnes.prev_report d') (UsbSnes.report d') = []
     /\ UsbSnes.parse_snes_report d' = d')
  /\ (forall env d,
        reply_err env <> GRUB_USB_ERR_WAIT ->
        length (UsbSnesGamepad.report d) = 8%nat ->
        length (UsbSnesGamepad.prev_report d) = 8%nat ->
        let d' := snd (fst (UsbSnesGamepad.grub_usb_snes_getkey env d)) in
        UsbSnesGamepad.prev_report d' = UsbSnesGamepad.report d
        /\ UsbSnesGamepad.report d' = UsbSnesGamepad.report d
        /\ UsbSnesGamepad.deriveEvents (UsbSnesGamepad.prev_report d')
                                       (UsbSnesGamepad.report d') = []
        /\ UsbSnesGamepad.process_report d' = d').
Proof.
  split.
  - intros env d Hdead Hz Herr Hact Hr Hp d'.
    assert (H : UsbSnes.prev_report d' = UsbSnes.report d
                /\ UsbSnes.report d' = UsbSnes.report d).
    { subst d'. rewrite snes_getkey_eq, snes_dead_false by assumption.
      destruct (Z.gtb_spec (UsbSnes.key_queue_count d) 0); [lia|].
      rewrite Herr.
      rewrite (bool_decide_eq_false_2 (GRUB_USB_ERR_NONE = GRUB_USB_ERR_WAIT))
        by discriminate.
      rewrite (bool_decide_eq_true_2 (GRUB_USB_ERR_NONE = GRUB_USB_ERR_NONE))
        by reflexivity.
      destruct (Z.geb_spec (reply_actual env) 1); [|lia].
      cbn [andb]. cbv zeta.
      set (evs := UsbSnes.deriveEvents (UsbSnes.prev_report d) (UsbSnes.report d)).
      destruct (snes_push_all_frame evs d) as (_ & _ & _ & Hr' & _). cbv zeta in Hr'.
      set (d2 := UsbSnes.set_transfer _ _).
      assert (H2 : UsbSnes.prev_report d2 = UsbSnes.report d
                   /\ UsbSnes.report d2 = UsbSnes.report d).
      { subst d2. cbn. rewrite length_memcpy_8 by assumption. auto. }
      destruct H2 as (Hp2 & Hr2).
      destruct (reply_transfer env); [|cbn; auto].
      destruct (snes_pop_frame d2) as (_ & _ & _ & Hr3 & Hp3 & _). cbv zeta in *.
      cbn [fst snd]. rewrite Hr3, Hp3. auto. }
    destruct H as (Hp' & Hr'). split; [assumption|]. split; [assumption|].
    rewrite parse_snes_report_pushes, Hp', Hr', snes_deriveEvents_same. auto.
  - intros env d Hw Hr Hp d'.
    assert (H : UsbSnesGamepad.prev_report d' = UsbSnesGamepad.report d
                /\ UsbSnesGamepad.report d' = UsbSnesGamepad.report d).
    { subst d'. rewrite gamepad_getkey_eq.
      rewrite bool_decide_eq_false_2 by assumption. cbv zeta.
      set (evs := UsbSnesGamepad.deriveEvents (UsbSnesGamepad.prev_report d)
                                              (UsbSnesGamepad.report d)).
      destruct (gamepad_push_all_frame evs d) as (_ & _ & _ & Hr' & _).
      cbv zeta in Hr'.
      set (d2 := UsbSnesGamepad.set_transfer _ _).
      assert (H2 : UsbSnesGamepad.prev_report d2 = UsbSnesGamepad.report d
                   /\ UsbSnesGamepad.report d2 = UsbSnesGamepad.report d).
      { subst d2. cbn. rewrite length_memcpy_8 by assumption.
        destruct (bool_decide (reply_err env = GRUB_USB_ERR_NONE)
                  && (reply_actual env =? 8)); auto. }
      destruct H2 as (Hp2 & Hr2).
      destruct (gamepad_pop_frame d2) as (_ & _ & _ & Hr3 & Hp3). cbv zeta in *.
      cbn [fst snd]. rewrite Hr3, Hp3. auto. }
    destruct H as (Hp' & Hr'). split; [assumption|]. split; [assumption|].
    rewrite process_report_pushes, Hp', Hr', gamepad_deriveEvents_same. auto.
Qed.

Lemma hd_tl_Forall (P : Z -> Prop) (x : Z) (l : list Z) :
  Forall P l -> (hd x l = x \/ P (hd x l)) /\ Forall P (tl l).
Proof. intros H. destruct H; cbn; auto. Qed.

Lemma Forall_filter_sublist (P : Z -> Prop) (Q : Z -> Prop) `{!forall k, Decision (Q k)}
    (l t : list Z) :
  l `sublist_of` t -> Forall P t -> Forall P (filter Q l).
Proof.
  intros Hs Ht. apply Forall_forall. intros k Hk.
  apply list_elem_of_filter in Hk as (_ & Hk).
  rewrite Forall_forall in Ht. apply Ht. eapply elem_of_sublist; eassumption.
Qed.

Lemma snes_getkey_keys (P : Z -> Prop) (env : usb_reply)
    (d : UsbSnes.grub_usb_snes_data) :
  (forall prev curr, Forall P (filter (fun k => k <> GRUB_TERM_NO_KEY)
                                 (UsbSnes.deriveEvents prev curr))) ->
  UsbSnes.queue_wf d -> Forall P (UsbSnes.queue_contents d) ->
  let r := UsbSnes.grub_usb_snes_getkey env d in
  (fst (fst r) = GRUB_TERM_NO_KEY \/ P (fst (fst r)))
  /\ UsbSnes.queue_wf (snd (fst r))
  /\ Forall P (UsbSnes.queue_contents (snd (fst r))).
Proof.
  intros Hev Hwf HP. cbv zeta. rewrite snes_getkey_eq.
  destruct (c_true (UsbSnes.dead d)); [cbn; auto|].
  destruct (UsbSnes.key_queue_count d >? 0).
  { destruct (snes_pop_spec d Hwf) as (Hk & Hwf' & Hc).
    cbn [fst snd]. rewrite Hk, Hc.
    destruct (hd_tl_Forall P GRUB_TERM_NO_KEY _ HP). auto. }
  destruct (bool_decide (reply_err env = GRUB_USB_ERR_WAIT)); [cbn; auto|].
  cbv zeta.
  set (evs := UsbSnes.deriveEvents (UsbSnes.prev_report d) (UsbSnes.report d)).
  set (d2 := UsbSnes.set_transfer _ _).
  assert (H2 : UsbSnes.queue_wf d2 /\ Forall P (UsbSnes.queue_contents d2)).
  { subst d2.
    destruct (bool_decide (reply_err env = GRUB_USB_ERR_NONE) && (reply_actual env >=? 1));
      [|auto].
    split; [exact (snes_push_all_wf evs d Hwf)|].
    change (Forall P (UsbSnes.queue_contents (UsbSnes.push_all d evs))).
    rewrite snes_push_all_any by assumption.
    apply Forall_take, Forall_app. split; [assumption|apply Hev]. }
  destruct H2 as (Hwf2 & HP2).
  destruct (reply_transfer env); [|cbn [fst snd]; auto].
  destruct (snes_pop_spec d2 Hwf2) as (Hk & Hwf' & Hc).
  cbn [fst snd]. rewrite Hk, Hc.
  destruct (hd_tl_Forall P GRUB_TERM_NO_KEY _ HP2). auto.
Qed.

Lemma gamepad_getkey_keys (P : Z -> Prop) (env : usb_reply)
    (d : UsbSnesGamepad.grub_usb_snes_data) :
  (forall prev curr, Forall P (filter (fun k => k <> GRUB_TERM_NO_KEY)
                                 (UsbSnesGamepad.deriveEvents prev curr))) ->
  UsbSnesGamepad.queue_wf d -> Forall P (UsbSnesGamepad.queue_contents d) ->
  let r := UsbSnesGamepad.grub_usb_snes_getkey env d in
  (fst (fst r) = GRUB_TERM_NO_KEY \/ P (fst (fst r)))
  /\ UsbSnesGamepad.queue_wf (snd (fst r))
  /\ Forall P (UsbSnesGamepad.queue_contents (snd (fst r))).
Proof.
  intros Hev Hwf HP. cbv zeta. rewrite gamepad_getkey_eq.
  destruct (bool_decide (reply_err env = GRUB_USB_ERR_WAIT)).
  { destruct (gamepad_pop_spec d Hwf) as (Hk & Hwf' & Hc).
    cbn [fst snd]. rewrite Hk, Hc.
    destruct (hd_tl_Forall P GRUB_TERM_NO_KEY _ HP). auto. }
  cbv zeta.
  set (evs := UsbSnesGamepad.deriveEvents (UsbSnesGamepad.prev_report d)
                                          (UsbSnesGamepad.report d)).
  set (d2 := UsbSnesGamepad.set_transfer _ _).
  assert (H2 : UsbSnesGamepad.queue_wf d2
               /\ Forall P (UsbSnesGamepad.queue_contents d2)).
  { subst d2.
    destruct (bool_decide (reply_err env = GRUB_USB_ERR_NONE) && (reply_actual env =? 8));
      [|auto].
    split; [exact (gamepad_push_all_wf evs d Hwf)|].
    change (Forall P (UsbSnesGamepad.queue_contents (UsbSnesGamepad.push_all d evs))).
    rewrite gamepad_push_all_any by assumption.
    apply Forall_drop, Forall_app. split; [assumption|apply Hev]. }
  destruct H2 as (Hwf2 & HP2).
  destruct (gamepad_pop_spec d2 Hwf2) as (Hk & Hwf' & Hc).
  cbn [fst snd]. rewrite Hk, Hc.
  destruct (hd_tl_Forall P GRUB_TERM_NO_KEY _ HP2). auto.
Qed.

Lemma snes_polls_io_keys (P : Z -> Prop) (ios : list usb_io)
    (d : UsbSnes.grub_usb_snes_data) :
  (forall prev curr, Forall P (filter (fun k => k <> GRUB_TERM_NO_KEY)
                                 (UsbSnes.deriveEvents prev curr))) ->
  UsbSnes.queue_wf d -> Forall P (UsbSnes.queue_contents d) ->
  let r := UsbSnes.polls_io ios d in
  Forall (fun k => k = GRUB_TERM_NO_KEY \/ P k) (fst (fst r))
  /\ UsbSnes.queue_wf (snd (fst r))
  /\ Forall P (UsbSnes.queue_contents (snd (fst r))).
Proof.
  intros Hev. revert d. induction ios as [|io ios IH]; intros d Hwf HP.
  { cbn. split; [apply List.Forall_nil|auto]. }
  cbv zeta. cbn [UsbSnes.polls_io].
  destruct (snes_deliver_frame (io_bytes io) d)
    as (_ & _ & _ & _ & _ & _ & Hc0 & Hwf0 & _). cbv zeta in Hc0, Hwf0.
  set (d0 := UsbSnes.usb_deliver (io_bytes io) d) in *.
  rewrite <- Hc0 in HP.
  destruct (snes_getkey_keys P (io_reply io) d0 Hev (Hwf0 Hwf) HP) as (Hk & Hwf1 & HP1).
  cbv zeta in *.
  destruct (UsbSnes.grub_usb_snes_getkey (io_reply io) d0) as [[k d1] c1].
  cbn [fst snd] in *.
  destruct (IH d1 Hwf1 HP1) as (IH1 & IH2 & IH3).
  destruct (UsbSnes.polls_io ios d1) as [[ks d2] c2]. cbn [fst snd] in *.
  split; [apply List.Forall_cons; assumption|auto].
Qed.

Lemma gamepad_polls_io_keys (P : Z -> Prop) (ios : list usb_io)
    (d : UsbSnesGamepad.grub_usb_snes_data) :
  (forall prev curr, Forall P (filter (fun k => k <> GRUB_TERM_NO_KEY)
                                 (UsbSnesGamepad.deriveEvents prev curr))) ->
  is_Some (UsbSnesGamepad.transfer d) ->
  Forall (fun io => reply_err (io_reply io) = GRUB_USB_ERR_WAIT
                    \/ is_Some (reply_transfer (io_reply io))) ios ->
  UsbSnesGamepad.queue_wf d -> Forall P (UsbSnesGamepad.queue_contents d) ->
  let r := UsbSnesGamepad.polls_io ios d in
  Forall (fun k => k = GRUB_TERM_NO_KEY \/ P k) (fst (fst r))
  /\ UsbSnesGamepad.queue_wf (snd (fst r))
  /\ Forall P (UsbSnesGamepad.queue_contents (snd (fst r))).
Proof.
  intros Hev. revert d. induction ios as [|io ios IH]; intros d Htr Hios Hwf HP.
  { cbn. split; [apply List.Forall_nil|auto]. }
  apply Forall_cons in Hios as (Hio & Hios).
  cbv zeta. cbn [UsbSnesGamepad.polls_io].
  destruct (gamepad_deliver_frame (io_bytes io) d)
    as (_ & _ & Ht0 & _ & Hc0 & Hwf0 & _). cbv zeta in Ht0, Hc0, Hwf0.
  set (d0 := UsbSnesGamepad.usb_deliver (io_bytes io) d) in *.
  rewrite <- Hc0 in HP. rewrite <- Ht0 in Htr.
  destruct (gamepad_getkey_keys P (io_reply io) d0 Hev (Hwf0 Hwf) HP)
    as (Hk & Hwf1 & HP1).
  destruct (gamepad_getkey_handle (io_reply io) d0 Htr Hio) as (_ & Htr1).
  cbv zeta in *.
  destruct (UsbSnesGamepad.grub_usb_snes_getkey (io_reply io) d0) as [[k d1] c1].
  cbn [fst snd] in *.
  destruct (IH d1 Htr1 Hios Hwf1 HP1) as (IH1 & IH2 & IH3).
  destruct (UsbSnesGamepad.polls_io ios d1) as [[ks d2] c2]. cbn [fst snd] in *.
  split; [apply List.Forall_cons; assumption|auto].
Qed.

(** X11: polling returns key-table codes only.  On a session whose queue is
    well formed and holds key-table codes (the empty queue of a new session
    in particular), every value a run of polls returns is
    [GRUB_TERM_NO_KEY] or one of the codes of the file's key table, whatever
    bytes the host controller delivers into the report buffer and whatever
    the USB stack answers (in [usb_snes_gamepad.c]: as long as every restart
    of the read succeeds), and the queue is again well formed and holds
    key-table codes at the end of the run; one poll does the same.  In
    [usb_snes_gamepad.c], where the queue's memory is not cleared at attach,
    what [grub_malloc] left there is never returned. *)
Theorem polls_return_table_keys :
  (forall env d,
     UsbSnes.queue_wf d ->
     Forall (fun k => k ∈ [GRUB_TERM_KEY_UP; GRUB_TERM_KEY_DOWN; GRUB_TERM_KEY_LEFT;
                            GRUB_TERM_KEY_RIGHT; 13; GRUB_TERM_ESC; 101; 99;
                            GRUB_TERM_KEY_PPAGE; GRUB_TERM_KEY_NPAGE])
            (UsbSnes.queue_contents d) ->
     let r := UsbSnes.grub_usb_snes_getkey env d in
     (fst (fst r) = GRUB_TERM_NO_KEY
      \/ fst (fst r) ∈ [GRUB_TERM_KEY_UP; GRUB_TERM_KEY_DOWN; GRUB_TERM_KEY_LEFT;
                         GRUB_TERM_KEY_RIGHT; 13; GRUB_TERM_ESC; 101; 99;
                         GRUB_TERM_KEY_PPAGE; GRUB_TERM_KEY_NPAGE])
     /\ UsbSnes.queue_wf (snd (fst r))
     /\ Forall (fun k => k ∈ [GRUB_TERM_KEY_UP; GRUB_TERM_KEY_DOWN;
                               GRUB_TERM_KEY_LEFT; GRUB_TERM_KEY_RIGHT; 13;
                               GRUB_TERM_ESC; 101; 99; GRUB_TERM_KEY_PPAGE;
                               GRUB_TERM_KEY_NPAGE])
               (UsbSnes.queue_contents (snd (fst r))))
  /\ (forall ios d,
        UsbSnes.queue_wf d ->
        Forall (fun k => k ∈ [GRUB_TERM_KEY_UP; GRUB_TERM_KEY_DOWN; GRUB_TERM_KEY_LEFT;
                               GRUB_TERM_KEY_RIGHT; 13; GRUB_TERM_ESC; 101; 99;
                               GRUB_TERM_KEY_PPAGE; GRUB_TERM_KEY_NPAGE])
               (UsbSnes.queue_contents d) ->
        let r := UsbSnes.polls_io ios d in
        Forall (fun k => k = GRUB_TERM_NO_KEY
                         \/ k ∈ [GRUB_TERM_KEY_UP; GRUB_TERM_KEY_DOWN;
                                  GRUB_TERM_KEY_LEFT; GRUB_TERM_KEY_RIGHT; 13;
                                  GRUB_TERM_ESC; 101; 99; GRUB_TERM_KEY_PPAGE;
                                  GRUB_TERM_KEY_NPAGE])
               (fst (fst r))
        /\ UsbSnes.queue_wf (snd (fst r))
        /\ Forall (fun k => k ∈ [GRUB_TERM_KEY_UP; GRUB_TERM_KEY_DOWN;
                                  GRUB_TERM_KEY_LEFT; GRUB_TERM_KEY_RIGHT; 13;
                                  GRUB_TERM_ESC; 101; 99; GRUB_TERM_KEY_PPAGE;
                                  GRUB_TERM_KEY_NPAGE])
                  (UsbSnes.queue_contents (snd (fst r))))
  /\ (forall env d,
        UsbSnesGamepad.queue_wf d ->
        Forall (fun k => k ∈ [UsbSnesGamepad.key_up; UsbSnesGamepad.key_down;
                               UsbSnesGamepad.key_left; UsbSnesGamepad.key_right;
                               UsbSnesGamepad.key_a; UsbSnesGamepad.key_b;
                               UsbSnesGamepad.key_x; UsbSnesGamepad.key_y;
                               UsbSnesGamepad.key_start; UsbSnesGamepad.key_select;
                               UsbSnesGamepad.key_l; UsbSnesGamepad.key_r])
               (UsbSnesGamepad.queue_contents d) ->
        let r := UsbSnesGamepad.grub_usb_snes_getkey env d in
        (fst (fst r) = GRUB_TERM_NO_KEY
         \/ fst (fst r) ∈ [UsbSnesGamepad.key_up; UsbSnesGamepad.key_down;
                            UsbSnesGamepad.key_left; UsbSnesGamepad.key_right;
                            UsbSnesGamepad.key_a; UsbSnesGamepad.key_b;
                            UsbSnesGamepad.key_x; UsbSnesGamepad.key_y;
                            UsbSnesGamepad.key_start; UsbSnesGamepad.key_select;
                            UsbSnesGamepad.key_l; UsbSnesGamepad.key_r])
        /\ UsbSnesGamepad.queue_wf (snd (fst r))
        /\ Forall (fun k => k ∈ [UsbSnesGamepad.key_up; UsbSnesGamepad.key_down;
                                  UsbSnesGamepad.key_left; UsbSnesGamepad.key_right;
                                  UsbSnesGamepad.key_a; UsbSnesGamepad.key_b;
                                  UsbSnesGamepad.key_x; UsbSnesGamepad.key_y;
                                  UsbSnesGamepad.key_start; UsbSnesGamepad.key_select;
                                  UsbSnesGamepad.key_l; UsbSnesGamepad.key_r])
                  (UsbSnesGamepad.queue_contents (snd (fst r))))
  /\ (forall ios d,
        is_Some (UsbSnesGamepad.transfer d) ->
        Forall (fun io => reply_err (io_reply io) = GRUB_USB_ERR_WAIT
                          \/ is_Some (reply_transfer (io_reply io))) ios ->
        UsbSnesGamepad.queue_wf d ->
        Forall (fun k => k ∈ [UsbSnesGamepad.key_up; UsbSnesGamepad.key_down;
                               UsbSnesGamepad.key_left; UsbSnesGamepad.key_right;
                               UsbSnesGamepad.key_a; UsbSnesGamepad.key_b;
                               UsbSnesGamepad.key_x; UsbSnesGamepad.key_y;
                               UsbSnesGamepad.key_start; UsbSnesGamepad.key_select;
                               UsbSnesGamepad.key_l; UsbSnesGamepad.key_r])
               (UsbSnesGamepad.queue_contents d) ->
        let r := UsbSnesGamepad.polls_io ios d in
        Forall (fun k => k = GRUB_TERM_NO_KEY
                         \/ k ∈ [UsbSnesGamepad.key_up; UsbSnesGamepad.key_down;
                                  UsbSnesGamepad.key_left; UsbSnesGamepad.key_right;
                                  UsbSnesGamepad.key_a; UsbSnesGamepad.key_b;
                                  UsbSnesGamepad.key_x; UsbSnesGamepad.key_y;
                                  UsbSnesGamepad.key_start; UsbSnesGamepad.key_select;
                                  UsbSnesGamepad.key_l; UsbSnesGamepad.key_r])
               (fst (fst r))
        /\ UsbSnesGamepad.queue_wf (snd (fst r))
        /\ Forall (fun k => k ∈ [UsbSnesGamepad.key_up; UsbSnesGamepad.key_down;
                                  UsbSnesGamepad.key_left; UsbSnesGamepad.key_right;
                                  UsbSnesGamepad.key_a; UsbSnesGamepad.key_b;
                                  UsbSnesGamepad.key_x; UsbSnesGamepad.key_y;
                                  UsbSnesGamepad.key_start; UsbSnesGamepad.key_select;
                                  UsbSnesGamepad.key_l; UsbSnesGamepad.key_r])
                  (UsbSnesGamepad.queue_contents (snd (fst r)))).
Proof.
  assert (Hs : forall prev curr,
             Forall (fun k => k ∈ [GRUB_TERM_KEY_UP; GRUB_TERM_KEY_DOWN;
                                    GRUB_TERM_KEY_LEFT; GRUB_TERM_KEY_RIGHT; 13;
                                    GRUB_TERM_ESC; 101; 99; GRUB_TERM_KEY_PPAGE;
                                    GRUB_TERM_KEY_NPAGE])
                    (filter (fun k => k <> GRUB_TERM_NO_KEY)
                       (UsbSnes.deriveEvents prev curr))).
  { intros prev curr.
    eapply Forall_filter_sublist; [apply snes_events_sublist|].
    repeat (apply List.Forall_cons || apply List.Forall_nil); set_solver. }
  assert (Hg : forall prev curr,
             Forall (fun k => k ∈ [UsbSnesGamepad.key_up; UsbSnesGamepad.key_down;
                                    UsbSnesGamepad.key_left; UsbSnesGamepad.key_right;
                                    UsbSnesGamepad.key_a; UsbSnesGamepad.key_b;
                                    UsbSnesGamepad.key_x; UsbSnesGamepad.key_y;
                                    UsbSnesGamepad.key_start;
                                    UsbSnesGamepad.key_select;
                                    UsbSnesGamepad.key_l; UsbSnesGamepad.key_r])
                    (filter (fun k => k <> GRUB_TERM_NO_KEY)
                       (UsbSnesGamepad.deriveEvents prev curr))).
  { intros prev curr.
    eapply Forall_filter_sublist; [apply gamepad_events_sublist|].
    repeat (apply List.Forall_cons || apply List.Forall_nil); set_solver. }
  split; [|split; [|split]].
  - intros env d Hwf HP. exact (snes_getkey_keys _ env d Hs Hwf HP).
  - intros ios d Hwf HP. exact (snes_polls_io_keys _ ios d Hs Hwf HP).
  - intros env d Hwf HP. exact (gamepad_getkey_keys _ env d Hg Hwf HP).
  - intros ios d Htr Hios Hwf HP.
    exact (gamepad_polls_io_keys _ ios d Hg Htr Hios Hwf HP).
Qed.

End PollKeys.

(** ** Further properties of attach: the device tables and the endpoint
       search *)

Lemma get_device_name_from_spec (pre rest : list (Z * Z * option string))
    (v p vid pid : Z) :
  Forall (fun e => is_Some (snd e)) pre ->
  is_Some (UsbSnesGamepad.get_device_name_from (pre ++ (v, p, None) :: rest) vid pid)
  <-> (vid, pid) ∈ map fst pre.
Proof.
  induction pre as [|[[v' p'] n'] pre IH]; intros Hpre.
  { cbn. split; [intros [? ?]; discriminate|intros H; inversion H]. }
  apply Forall_cons in Hpre as (Hn & Hpre). cbn in Hn. destruct Hn as [n ->].
  cbn [app map fst].
  cbn [UsbSnesGamepad.get_device_name_from].
  rewrite elem_of_cons.
  destruct (Z.eqb_spec v' vid) as [->|Hv]; cbn [andb].
  - destruct (Z.eqb_spec p' pid) as [->|Hp].
    + split; [auto|intros _; eexists; reflexivity].
    + rewrite (IH Hpre). split; [auto|]. intros [H|H]; [congruence|assumption].
  - rewrite (IH Hpre). split; [auto|]. intros [H|H]; [congruence|assumption].
Qed.

Lemma get_device_name_spec (vid pid : Z) :
  is_Some (UsbSnesGamepad.get_device_name vid pid)
  <-> (vid, pid) ∈ take 8 UsbSnes.supported_devices.
Proof.
  unfold UsbSnesGamepad.get_device_name.
  change UsbSnesGamepad.known_devices
    with (take 8 UsbSnesGamepad.known_devices ++ (0, 0, None) :: []).
  rewrite get_device_name_from_spec.
  - reflexivity.
  - cbn. repeat (apply List.Forall_cons; [eexists; reflexivity|]). apply List.Forall_nil.
Qed.

(** X12: the two device tables.  Both scans stop at the end marker, so
    vendor id 0 is never matched.  Every device [usb_snes_gamepad.c] has a
    name for is on the allow list of [usb_snes.c], and the only pair on that
    list without a name in the other file is 046d:c218. *)
Theorem device_tables_agree (vid pid : Z) :
  (UsbSnes.is_supported_device vid pid = 1
   \/ UsbSnes.is_supported_device vid pid = 0)
  /\ (vid = 0 ->
      UsbSnes.is_supported_device vid pid = 0
      /\ UsbSnesGamepad.get_device_name vid pid = None)
  /\ (is_Some (UsbSnesGamepad.get_device_name vid pid) ->
      UsbSnes.is_supported_device vid pid = 1)
  /\ (UsbSnes.is_supported_device vid pid = 1
      <-> is_Some (UsbSnesGamepad.get_device_name vid pid)
          \/ (vid, pid) = (0x046d, 0xc218)).
Proof.
  pose proof (get_device_name_spec vid pid) as Hg.
  rewrite is_supported_device_spec.
  change snes_allow_list
    with (take 8 UsbSnes.supported_devices ++ [(0x046d, 0xc218)]).
  assert (Hin : (vid, pid) ∈ take 8 UsbSnes.supported_devices ++ [(0x046d, 0xc218)]
                <-> is_Some (UsbSnesGamepad.get_device_name vid pid)
                    \/ (vid, pid) = (0x046d, 0xc218)).
  { rewrite elem_of_app, list_elem_of_singleton, Hg. reflexivity. }
  assert (Hz : vid = 0 ->
               (vid, pid) ∉ take 8 UsbSnes.supported_devices ++ [(0x046d, 0xc218)]).
  { intros -> H. cbn in H.
    repeat (apply elem_of_cons in H as [H|H]; [discriminate|]). inversion H. }
  split; [|split; [|split]].
  - destruct (bool_decide _); auto.
  - intros Hv. specialize (Hz Hv). split.
    + rewrite bool_decide_eq_false_2 by assumption. reflexivity.
    + destruct (UsbSnesGamepad.get_device_name vid pid) eqn:E; [|reflexivity].
      exfalso. apply Hz, Hin. left. eexists; reflexivity.
  - intros H. rewrite bool_decide_eq_true_2; [reflexivity|]. apply Hin. auto.
  - rewrite <- Hin. destruct (bool_decide_reflect
      ((vid, pid) ∈ take 8 UsbSnes.supported_devices ++ [(1133, 49688)]));
      split; intros; try tauto; try reflexivity; discriminate.
Qed.

Lemma find_interrupt_in_first (l : list grub_usb_desc_endp) :
  match find_interrupt_in l with
  | Some e =>
      exists pre post,
        l = pre ++ e :: post
        /\ (Z.testbit (endp_addr e) 7 = true
            /\ grub_usb_get_ep_type e = GRUB_USB_EP_INTERRUPT)
        /\ Forall (fun x => ~ (Z.testbit (endp_addr x) 7 = true
                              /\ grub_usb_get_ep_type x = GRUB_USB_EP_INTERRUPT)) pre
  | None =>
      Forall (fun x => ~ (Z.testbit (endp_addr x) 7 = true
                          /\ grub_usb_get_ep_type x = GRUB_USB_EP_INTERRUPT)) l
  end.
Proof.
  induction l as [|e l IH]; [apply List.Forall_nil|].
  cbn [find_interrupt_in].
  change 128 with (2 ^ 7). fold (c_true (Z.land (endp_addr e) (2 ^ 7))).
  rewrite land_pow2_testbit by lia.
  destruct (Z.testbit (endp_addr e) 7) eqn:Hb; cbn [andb].
  - destruct (bool_decide_reflect (grub_usb_get_ep_type e = GRUB_USB_EP_INTERRUPT))
      as [Ht|Ht].
    + exists [], l. split; [reflexivity|]. split; [auto|apply List.Forall_nil].
    + destruct (find_interrupt_in l) as [e'|].
      * destruct IH as (pre & post & -> & Hok & Hpre).
        exists (e :: pre), post. split; [reflexivity|]. split; [assumption|].
        apply List.Forall_cons; [tauto|assumption].
      * apply List.Forall_cons; [tauto|assumption].
  - destruct (find_interrupt_in l) as [e'|].
    + destruct IH as (pre & post & -> & Hok & Hpre).
      exists (e :: pre), post. split; [reflexivity|]. split; [assumption|].
      apply List.Forall_cons; [|assumption]. intros [? _]; congruence.
    + apply List.Forall_cons; [|assumption]. intros [? _]; congruence.
Qed.

Lemma find_interrupt_in_none (l : list grub_usb_desc_endp) :
  Forall (fun x => ~ (Z.testbit (endp_addr x) 7 = true
                      /\ grub_usb_get_ep_type x = GRUB_USB_EP_INTERRUPT)) l ->
  find_interrupt_in l = None.
Proof.
  intros H. pose proof (find_interrupt_in_first l) as Hf.
  destruct (find_interrupt_in l) as [e|]; [|reflexivity].
  destruct Hf as (pre & post & -> & Hok & _).
  apply Forall_app in H as (_ & H). apply Forall_cons in H as (H & _). contradiction.
Qed.

(** X14: the endpoint search of attach.  The search returns the first
    endpoint of the interface, in descriptor order, whose address has the IN
    bit (bit 7) set and whose type is interrupt, and nothing exactly when no
    endpoint qualifies; in that case attach, in both files, returns 0 and
    leaves the state as it was: no allocation, no request to the device. *)
Theorem attach_endpoint_search :
  (forall l,
     match find_interrupt_in l with
     | Some e =>
         exists pre post,
           l = pre ++ e :: post
           /\ (Z.testbit (endp_addr e) 7 = true
               /\ grub_usb_get_ep_type e = GRUB_USB_EP_INTERRUPT)
           /\ Forall (fun x => ~ (Z.testbit (endp_addr x) 7 = true
                                 /\ grub_usb_get_ep_type x = GRUB_USB_EP_INTERRUPT))
                     pre
     | None =>
         Forall (fun x => ~ (Z.testbit (endp_addr x) 7 = true
                             /\ grub_usb_get_ep_type x = GRUB_USB_EP_INTERRUPT)) l
     end)
  /\ (forall env dev configno interfno m,
        Forall (fun x => ~ (Z.testbit (endp_addr x) 7 = true
                            /\ grub_usb_get_ep_type x = GRUB_USB_EP_INTERRUPT))
               (descendp (config_interf dev configno interfno)) ->
        UsbSnes.grub_usb_snes_attach env dev configno interfno m = Some (0, m))
  /\ (forall env dev configno interfno m,
        Forall (fun x => ~ (Z.testbit (endp_addr x) 7 = true
                            /\ grub_usb_get_ep_type x = GRUB_USB_EP_INTERRUPT))
               (descendp (config_interf dev configno interfno)) ->
        UsbSnesGamepad.grub_usb_snes_attach env dev configno interfno m = Some (0, m)).
Proof.
  split; [exact find_interrupt_in_first|]. split.
  - intros env dev configno interfno m H.
    apply snes_attach_early_rejections. right. right. left.
    apply find_interrupt_in_none, H.
  - intros env dev configno interfno m H.
    apply gamepad_attach_early_rejections. right. right. left.
    apply find_interrupt_in_none, H.
Qed.

(** ** Further properties of the slot table: unloading, and attach followed
       by detach *)

Section Fini.
Context {D : Type} (transfer_of : D -> option transfer_handle) (n : nat).

(** The fini loop is the detach loop for a device every session belongs
    to. *)
Lemma fini_slot_detach (i : nat) (m : machine D) :
  fini_slot transfer_of i m
  = detach_slot (fun _ => 1%positive) transfer_of 1%positive i m.
Proof.
  unfold fini_slot, detach_slot.
  destruct (terms m !! i) as [t|]; [|reflexivity].
  destruct (data t) as [p|]; [|reflexivity].
  destruct (heap m !! p) as [[d|s]|]; try reflexivity.
Qed.

Lemma fini_slots_detach (slots : list nat) (m : machine D) :
  fini_slots transfer_of slots m
  = detach_slots (fun _ => 1%positive) transfer_of 1%positive slots m.
Proof.
  revert m. induction slots as [|i slots IH]; intros m; [reflexivity|].
  cbn [fini_slots detach_slots]. rewrite fini_slot_detach.
  destruct (detach_slot _ _ _ i m) as [m1|]; [|reflexivity].
  rewrite !bind_Some. apply IH.
Qed.

Lemma fini_slots_contract (m : machine D) :
  machine_wf n m ->
  exists m',
    fini_slots transfer_of (seq 0 n) m = Some m'
    /\ machine_wf n m'
    /\ (forall i t p d,
          terms m !! i = Some t -> data t = Some p ->
          heap m !! p = Some (BlockData d) ->
          terms m' !! i = Some {| name := None; data := None |}
          /\ heap m' !! p = None
          /\ (forall nm, name t = Some nm -> heap m' !! nm = None)
          /\ (forall tr, transfer_of d = Some tr -> tr ∉ transfers m'))
    /\ (forall i t, terms m !! i = Some t -> data t = None -> terms m' !! i = Some t)
    /\ (forall i t, terms m' !! i = Some t -> data t = None)
    /\ (forall i, i ∉ term_inputs m')
    /\ heap m' ⊆ heap m
    /\ usb_log m' = usb_log m
    /\ fini_slots transfer_of (seq 0 n) m' = Some m'.
Proof.
  intros Hwf.
  assert (Hslots : forall i, i ∈ seq 0 n -> (i < n)%nat).
  { intros i Hi. apply list_elem_of_In, in_seq in Hi. lia. }
  assert (Hin : forall i t, terms m !! i = Some t -> i ∈ seq 0 n).
  { intros i t Ht. apply lookup_lt_Some in Ht. rewrite (wf_length n m Hwf) in Ht.
    apply list_elem_of_In, in_seq. lia. }
  destruct (detach_slots_detached (fun _ => 1%positive) transfer_of n 1%positive
              (seq 0 n) m Hwf Hslots) as (m' & Hrun & Hdet).
  destruct Hdet as [H1 H2 H3 H4 H5 H6 H7].
  assert (Hrel : forall i t p d,
            terms m !! i = Some t -> data t = Some p ->
            heap m !! p = Some (BlockData d) ->
            terms m' !! i = Some {| name := None; data := None |}
            /\ heap m' !! p = None
            /\ (forall nm, name t = Some nm -> heap m' !! nm = None)
            /\ (forall tr, transfer_of d = Some tr -> tr ∉ transfers m')).
  { intros i t p d Ht Hp Hd.
    destruct (H6 i t p d (Hin i t Ht) Ht Hp Hd eq_refl) as (K1 & _ & K3 & K4 & K5).
    auto. }
  assert (Hkeep : forall i t,
            terms m !! i = Some t -> data t = None -> terms m' !! i = Some t).
  { intros i t Ht Hp. destruct (H7 i t Ht) as (K1 & _); [|exact K1].
    right. intros (t0 & p0 & d0 & Ht0 & Hp0 & _). congruence. }
  assert (Hfree : forall i t, terms m' !! i = Some t -> data t = None).
  { intros i t' Ht'.
    assert (Hi : (i < length (terms m))%nat).
    { apply lookup_lt_Some in Ht'.
      rewrite (wf_length n m' H1) in Ht'. rewrite (wf_length n m Hwf). exact Ht'. }
    destruct (lookup_lt_is_Some_2 _ _ Hi) as [t Ht].
    destruct (data t) as [p|] eqn:Hp.
    - destruct (wf_data n m Hwf i t p Ht Hp) as [d Hd].
      destruct (Hrel i t p d Ht Hp Hd) as (K & _).
      rewrite K in Ht'. inversion Ht'. reflexivity.
    - rewrite (Hkeep i t Ht Hp) in Ht'. inversion Ht'. subst t'. exact Hp. }
  exists m'. rewrite fini_slots_detach. split; [exact Hrun|]. split; [exact H1|].
  split; [exact Hrel|]. split; [exact Hkeep|]. split; [exact Hfree|].
  split.
  { intros i Hi. apply (wf_inputs n m' H1) in Hi as (t & Ht & [p Hp]).
    rewrite (Hfree i t Ht) in Hp. discriminate. }
  split; [exact H3|]. split; [exact H2|].
  rewrite fini_slots_detach. apply (detach_slots_no_match _ _ n); [assumption..|].
  intros i (t & p & d & Ht & Hp & _). rewrite (Hfree i t Ht) in Hp. discriminate.
Qed.

End Fini.

(** X15: unloading the module.  In both files the fini function meets the
    contract on the 8 entries of the table: on a well-formed state it
    returns, the attach hook is unregistered, every attached gamepad has its
    read cancelled, its name and session released and its entry marked free,
    no entry stays registered as a terminal input, nothing is allocated and
    no request is sent, and unloading again changes nothing. *)
Theorem mod_fini_meets_contract :
  fini_contract UsbSnes.transfer UsbSnes.MAX_GAMEPADS UsbSnes.grub_mod_fini
  /\ fini_contract UsbSnesGamepad.transfer UsbSnesGamepad.GAMEPADS_CAPACITY
       UsbSnesGamepad.grub_mod_fini.
Proof.
  split.
  - intros drv m Hwf.
    destruct (fini_slots_contract UsbSnes.transfer UsbSnes.MAX_GAMEPADS
                m Hwf)
      as (m' & Hrun & H1 & H2 & H3 & H4 & H5 & H6 & H7 & H8).
    exists m'. unfold UsbSnes.grub_mod_fini. fold m. cbn [driver_machine].
    rewrite Hrun, H8, !bind_Some. auto 10.
  - intros drv m Hwf.
    destruct (fini_slots_contract UsbSnesGamepad.transfer
                UsbSnesGamepad.GAMEPADS_CAPACITY
                m Hwf)
      as (m' & Hrun & H1 & H2 & H3 & H4 & H5 & H6 & H7 & H8).
    exists m'. unfold UsbSnesGamepad.grub_mod_fini. fold m. cbn [driver_machine].
    rewrite Hrun, H8, !bind_Some. auto 10.
Qed.

Section AttachDetach.
Context {D : Type} (dev_of : D -> addr) (transfer_of : D -> option transfer_handle).
Context (n : nat).

(** When exactly one entry holds a session of [dev], the detach loop
    releases that entry and nothing else. *)
Lemma detach_slots_single (dev : addr) (c : nat) (t : grub_term_input) (p : addr)
    (d : D) (slots : list nat) (m : machine D) :
  machine_wf n m -> NoDup slots -> (forall i, i ∈ slots -> (i < n)%nat) ->
  terms m !! c = Some t -> data t = Some p -> heap m !! p = Some (BlockData d) ->
  dev_of d = dev ->
  (forall j, j <> c -> ~ slot_matches dev_of dev m j) ->
  detach_slots dev_of transfer_of dev slots m
  = Some (if bool_decide (c ∈ slots) then release c t p (transfer_of d) m else m).
Proof.
  intros Hwf Hnd Hslots Ht Hp Hd Hdev Hothers.
  induction slots as [|i slots IH]; [reflexivity|].
  apply NoDup_cons in Hnd as (Hi & Hnd).
  assert (Hslots' : forall j, j ∈ slots -> (j < n)%nat).
  { intros j Hj. apply Hslots. set_solver. }
  cbn [detach_slots].
  destruct (decide (i = c)) as [->|Hne].
  - rewrite (detach_slot_hit dev_of transfer_of n dev c t p d m Hwf Ht Hp Hd Hdev).
    rewrite bind_Some.
    rewrite bool_decide_eq_true_2 by set_solver.
    apply (detach_slots_no_match dev_of transfer_of n);
      [apply (release_wf dev_of transfer_of n c t p d); assumption|assumption|].
    intros j (tj & pj & dj & Htj & Hpj & Hdj & Hdevj).
    destruct (decide (j = c)) as [->|Hjc].
    + destruct (release_self c t p (transfer_of d) m Ht) as (K & _).
      rewrite K in Htj. inversion Htj. subst tj. discriminate.
    + assert (Hj : (j < length (terms m))%nat).
      { apply lookup_lt_Some in Htj. cbn in Htj. rewrite length_insert in Htj.
        exact Htj. }
      destruct (lookup_lt_is_Some_2 _ _ Hj) as [tj0 Htj0].
      destruct (release_other dev_of transfer_of n c t p d (transfer_of d) m j tj0
                  Hwf Ht Hp Hd Hjc Htj0)
        as (K1 & _ & K3 & _).
      rewrite K1 in Htj. inversion Htj. subst tj0.
      rewrite (K3 pj Hpj) in Hdj.
      apply (Hothers j Hjc). exists tj, pj, dj. auto.
  - assert (Hin : (i < length (terms m))%nat).
    { rewrite (wf_length n m Hwf). apply Hslots. set_solver. }
    destruct (lookup_lt_is_Some_2 _ _ Hin) as [ti Hti].
    assert (Hstep : detach_slot dev_of transfer_of dev i m = Some m).
    { destruct (data ti) as [q|] eqn:Hq; [|eapply detach_slot_free; eassumption].
      destruct (wf_data n m Hwf i ti q Hti Hq) as [dq Hdq].
      eapply detach_slot_other; try eassumption.
      intros Hdevq. apply (Hothers i Hne). exists ti, q, dq. auto. }
    rewrite Hstep, bind_Some, (IH Hnd Hslots').
    f_equal. destruct (bool_decide_reflect (c ∈ slots)) as [Hc|Hc].
    + rewrite bool_decide_eq_true_2 by set_solver. reflexivity.
    + rewrite bool_decide_eq_false_2 by set_solver. reflexivity.
Qed.

(** Releasing the entry attach has just installed gives back the memory,
    the registration and the transfer. *)
Lemma release_installed (c : nat) (p nm : addr) (d : D) (s : string)
    (tr : transfer_handle) (calls : list usb_call) (m : machine D) :
  heap m !! p = None -> heap m !! nm = None -> p <> nm ->
  c ∉ term_inputs m -> tr ∉ transfers m ->
  release c {| name := Some nm; data := Some p |} p (Some tr)
    (installed c p nm d s tr calls m)
  = {| terms := <[c := {| name := None; data := None |}]> (terms m);
       heap := heap m;
       term_inputs := term_inputs m;
       transfers := transfers m;
       usb_log := usb_log m ++ calls |}.
Proof.
  intros Hp Hnm Hne Hc Htr. unfold release, installed. cbn [terms heap term_inputs
    transfers usb_log name]. f_equal.
  - apply list_insert_insert_eq.
  - apply map_eq. intros k.
    destruct (decide (k = p)) as [->|Hkp]; [rewrite lookup_delete_eq; auto|].
    rewrite lookup_delete_ne by auto.
    destruct (decide (k = nm)) as [->|Hkn]; [rewrite lookup_delete_eq; auto|].
    rewrite lookup_delete_ne, !lookup_insert_ne by auto. reflexivity.
  - set_solver.
  - set_solver.
Qed.

Lemma find_free_slot_insert_free (ts : list grub_term_input) (nmo : option addr) :
  (find_free_slot ts < length ts)%nat ->
  find_free_slot (<[find_free_slot ts := {| name := nmo; data := None |}]> ts)
  = find_free_slot ts.
Proof.
  induction ts as [|t ts IH]; [cbn; lia|].
  cbn [find_free_slot length]. destruct (data t) as [q|] eqn:Hq.
  - intros H. cbn [insert list_insert]. cbn [find_free_slot]. rewrite Hq.
    f_equal. apply IH. lia.
  - intros _. reflexivity.
Qed.

Lemma find_free_slot_at_most (ts : list grub_term_input) (i : nat) (t : grub_term_input) :
  ts !! i = Some t -> data t = None -> (find_free_slot ts <= i)%nat.
Proof.
  revert i. induction ts as [|t0 ts IH]; intros i Ht Hd; [discriminate|].
  cbn [find_free_slot]. destruct (data t0) as [q|] eqn:Hq; [|lia].
  destruct i as [|i]; [cbn in Ht; congruence|].
  cbn in Ht. specialize (IH i Ht Hd). lia.
Qed.

(** Overwriting a free entry with another free entry keeps the table well
    formed. *)
Lemma wf_free_entry (c : nat) (t : grub_term_input) (nmo : option addr)
    (lg : list usb_call) (m : machine D) :
  machine_wf n m -> terms m !! c = Some t -> data t = None ->
  machine_wf n {| terms := <[c := {| name := nmo; data := None |}]> (terms m);
                  heap := heap m; term_inputs := term_inputs m;
                  transfers := transfers m; usb_log := lg |}.
Proof.
  intros Hwf Ht Hfree.
  assert (Hlk : forall i ti,
            <[c := {| name := nmo; data := None |}]> (terms m) !! i = Some ti ->
            is_Some (data ti) -> i <> c /\ terms m !! i = Some ti).
  { intros i ti Hi [q Hq]. destruct (decide (i = c)) as [->|Hne].
    - rewrite list_lookup_insert_eq in Hi by (eapply lookup_lt_Some; eassumption).
      inversion Hi. subst ti. discriminate.
    - rewrite list_lookup_insert_ne in Hi by auto. auto. }
  split; cbn [terms heap term_inputs transfers usb_log].
  - rewrite length_insert. apply (wf_length n m Hwf).
  - intros i ti q Hi Hq. destruct (Hlk i ti Hi ltac:(eauto)) as (_ & Hi').
    eapply (wf_data n m Hwf); eassumption.
  - intros i ti q nm Hi Hq Hn. destruct (Hlk i ti Hi ltac:(eauto)) as (_ & Hi').
    eapply (wf_name n m Hwf); eassumption.
  - intros i j ti tj q Hi Hj Hqi Hqj.
    destruct (Hlk i ti Hi ltac:(eauto)) as (_ & Hi').
    destruct (Hlk j tj Hj ltac:(eauto)) as (_ & Hj').
    eapply (wf_data_inj n m Hwf); eassumption.
  - intros i j ti tj nm Hi Hj Hdi Hdj Hni Hnj.
    destruct (Hlk i ti Hi Hdi) as (_ & Hi').
    destruct (Hlk j tj Hj Hdj) as (_ & Hj').
    eapply (wf_name_inj n m Hwf); eassumption.
  - intros i. rewrite (wf_inputs n m Hwf i). split.
    + intros (ti & Hi & Hdi). exists ti. split; [|assumption].
      destruct (decide (i = c)) as [->|Hne].
      * rewrite Ht in Hi. inversion Hi. subst ti. destruct Hdi as [q Hq]. congruence.
      * rewrite list_lookup_insert_ne by auto. assumption.
    + intros (ti & Hi & Hdi). destruct (Hlk i ti Hi Hdi) as (_ & Hi'). eauto.
Qed.

(** Attach followed by detach, on the states the two lemmas of each file
    give for attach. *)
Lemma installed_then_detached (dev : addr) (c : nat)
    (p nm : addr) (d : D) (s : string) (tr : transfer_handle) (calls : list usb_call)
    (m : machine D) :
  machine_wf n m ->
  c = find_free_slot (terms m) -> (c < n)%nat ->
  heap m !! p = None -> heap m !! nm = None -> p <> nm -> tr ∉ transfers m ->
  dev_of d = dev -> transfer_of d = Some tr ->
  (forall i, ~ slot_matches dev_of dev m i) ->
  let m2 := {| terms := <[c := {| name := None; data := None |}]> (terms m);
               heap := heap m; term_inputs := term_inputs m;
               transfers := transfers m; usb_log := usb_log m ++ calls |} in
  detach_slots dev_of transfer_of dev (seq 0 n) (installed c p nm d s tr calls m)
  = Some m2
  /\ machine_wf n m2
  /\ find_free_slot (terms m2) = find_free_slot (terms m).
Proof.
  intros Hwf Hc Hlt Hp Hnm Hne Htr Hdev Htrd Hno m2.
  assert (Hlen : length (terms m) = n) by apply (wf_length n m Hwf).
  destruct (find_free_slot_free (terms m) ltac:(lia)) as (t0 & Ht0 & Hfree0).
  rewrite <- Hc in Ht0.
  assert (Hcin : c ∉ term_inputs m).
  { intros Hin. apply (wf_inputs n m Hwf) in Hin as (t1 & Ht1 & [q Hq]). congruence. }
  pose proof (installed_wf n c t0 p nm d s tr calls m Hwf Ht0 Hfree0 Hp Hnm Hne) as Hwf1.
  assert (Hslots : forall i, i ∈ seq 0 n -> (i < n)%nat).
  { intros i Hi. apply list_elem_of_In, in_seq in Hi. lia. }
  assert (Hct : terms (installed c p nm d s tr calls m) !! c
                = Some {| name := Some nm; data := Some p |}).
  { cbn. apply list_lookup_insert_eq. lia. }
  assert (Hpd : heap (installed c p nm d s tr calls m) !! p = Some (BlockData d)).
  { cbn. apply lookup_insert_eq. }
  rewrite (detach_slots_single dev c _ p d (seq 0 n) _ Hwf1 (NoDup_seq 0 n) Hslots
             Hct eq_refl Hpd Hdev).
  - rewrite bool_decide_eq_true_2 by (apply list_elem_of_In, in_seq; lia).
    rewrite Htrd, release_installed by assumption.
    split; [reflexivity|]. split.
    + subst m2. eapply wf_free_entry; eassumption.
    + subst m2. cbn [terms]. rewrite Hc. apply find_free_slot_insert_free. lia.
  - intros j Hjc (tj & q & dq & Htj & Hq & Hdq & Hdevq).
    cbn in Htj, Hdq. rewrite list_lookup_insert_ne in Htj by auto.
    destruct (wf_data n m Hwf j tj q Htj Hq) as [dq0 Hdq0].
    rewrite !lookup_insert_ne in Hdq by congruence.
    apply (Hno j). exists tj, q, dq. auto.
Qed.

End AttachDetach.

(** X16: attach followed by detach of the same device gives everything
    back.  In both files, on a well-formed table in which the device holds
    no entry yet, with the allocator and the USB stack returning blocks and
    a handle that are not in use: attach succeeds, and the detach of that
    device then returns the heap, the set of registered inputs and the set
    of reads in flight to what they were before attach, leaves the entry
    free and cleared, so that the next attach finds the same entry, and keeps
    the table well formed.  Only the log of requests sent to the device has
    grown. *)
Theorem attach_then_detach_restores :
  (forall env dev configno interfno m e p nm tr,
     machine_wf UsbSnes.MAX_GAMEPADS m ->
     UsbSnes.is_supported_device (descdev_vendorid dev) (descdev_prodid dev) <> 0 ->
     (find_free_slot (terms m) < UsbSnes.MAX_GAMEPADS)%nat ->
     find_interrupt_in (descendp (config_interf dev configno interfno)) = Some e ->
     env_malloc env = Some p -> env_xasprintf env = Some nm ->
     env_bulk_read env = Some tr ->
     heap m !! p = None -> heap m !! nm = None -> p <> nm -> tr ∉ transfers m ->
     (forall i, ~ slot_matches UsbSnes.usbdev (dev_ptr dev) m i) ->
     exists m1 m2,
       UsbSnes.grub_usb_snes_attach env dev configno interfno m = Some (1, m1)
       /\ UsbSnes.grub_usb_snes_detach (dev_ptr dev) m1 = Some m2
       /\ heap m2 = heap m
       /\ term_inputs m2 = term_inputs m
       /\ transfers m2 = transfers m
       /\ terms m2 = <[find_free_slot (terms m) := {| name := None; data := None |}]>
                       (terms m)
       /\ find_free_slot (terms m2) = find_free_slot (terms m)
       /\ usb_log m2
          = usb_log m ++ attach_calls UsbSnes.USB_HID_SET_PROTOCOL
                           UsbSnes.USB_HID_SET_IDLE dev configno interfno e
       /\ machine_wf UsbSnes.MAX_GAMEPADS m2)
  /\ (forall env dev configno interfno m e p nm tr,
        machine_wf UsbSnesGamepad.GAMEPADS_CAPACITY m ->
        descif_protocol (config_interf dev configno interfno) <> 1 ->
        (find_free_slot (terms m) < UsbSnesGamepad.GAMEPADS_CAPACITY)%nat ->
        find_interrupt_in (descendp (config_interf dev configno interfno)) = Some e ->
        env_malloc env = Some p -> env_xasprintf env = Some nm ->
        env_bulk_read env = Some tr ->
        heap m !! p = None -> heap m !! nm = None -> p <> nm -> tr ∉ transfers m ->
        (forall i, ~ slot_matches UsbSnesGamepad.usbdev (dev_ptr dev) m i) ->
        exists m1 m2,
          UsbSnesGamepad.grub_usb_snes_attach env dev configno interfno m = Some (1, m1)
          /\ UsbSnesGamepad.grub_usb_snes_detach (dev_ptr dev) m1 = Some m2
          /\ heap m2 = heap m
          /\ term_inputs m2 = term_inputs m
          /\ transfers m2 = transfers m
          /\ terms m2
             = <[find_free_slot (terms m) := {| name := None; data := None |}]> (terms m)
          /\ find_free_slot (terms m2) = find_free_slot (terms m)
          /\ usb_log m2
             = usb_log m ++ attach_calls UsbSnesGamepad.USB_HID_SET_PROTOCOL
                              UsbSnesGamepad.USB_HID_SET_IDLE dev configno interfno e
          /\ machine_wf UsbSnesGamepad.GAMEPADS_CAPACITY m2).
Proof.
  split.
  - intros env dev configno interfno m e p nm tr
      Hwf Hsup Hslot Hendp Hmalloc Hname Hread Hp Hnm Hne Htr Hno.
    pose proof (snes_attach_accepts env dev configno interfno m e p nm tr Hsup
                  (wf_length _ m Hwf) Hslot Hendp Hmalloc Hname Hread Hne) as Hatt.
    destruct (installed_then_detached UsbSnes.usbdev UsbSnes.transfer
                UsbSnes.MAX_GAMEPADS (dev_ptr dev) (find_free_slot (terms m)) p nm
                (UsbSnes.set_transfer (Some tr) (UsbSnes.init_data dev interfno e))
                (xasprintf_d "usb_snes" (find_free_slot (terms m))) tr
                (attach_calls UsbSnes.USB_HID_SET_PROTOCOL UsbSnes.USB_HID_SET_IDLE
                              dev configno interfno e)
                m Hwf eq_refl Hslot Hp Hnm Hne Htr eq_refl eq_refl Hno)
      as (Hdet & Hwf2 & Hff).
    eexists _, _. split; [exact Hatt|]. split; [exact Hdet|].
    cbn [terms heap term_inputs transfers usb_log] in *. auto 10.
  - intros env dev configno interfno m e p nm tr
      Hwf Hproto Hslot Hendp Hmalloc Hname Hread Hp Hnm Hne Htr Hno.
    pose proof (gamepad_attach_accepts env dev configno interfno m e p nm tr Hproto
                  (wf_length _ m Hwf) Hslot Hendp Hmalloc Hname Hread Hne) as Hatt.
    destruct (installed_then_detached UsbSnesGamepad.usbdev UsbSnesGamepad.transfer
                UsbSnesGamepad.GAMEPADS_CAPACITY (dev_ptr dev)
                (find_free_slot (terms m)) p nm
                (UsbSnesGamepad.set_transfer (Some tr)
                   (UsbSnesGamepad.init_data (env_garbage env) dev configno interfno e))
                (xasprintf_d "snes_gamepad" (find_free_slot (terms m))) tr
                (attach_calls UsbSnesGamepad.USB_HID_SET_PROTOCOL
                              UsbSnesGamepad.USB_HID_SET_IDLE dev configno interfno e)
                m Hwf eq_refl Hslot Hp Hnm Hne Htr eq_refl eq_refl Hno)
      as (Hdet & Hwf2 & Hff).
    eexists _, _. split; [exact Hatt|]. split; [exact Hdet|].
    cbn [terms heap term_inputs transfers usb_log] in *. auto 10.
Qed.

(** ** Further properties of attach: the failure paths that release
       everything *)

Lemma snes_attach_read_failure_state (env : attach_env) (dev : grub_usb_device)
    (configno interfno : Z) (m : machine UsbSnes.grub_usb_snes_data)
    (e : grub_usb_desc_endp) (p nm : addr) :
  UsbSnes.is_supported_device (descdev_vendorid dev) (descdev_prodid dev) <> 0 ->
  length (terms m) = UsbSnes.MAX_GAMEPADS ->
  (find_free_slot (terms m) < UsbSnes.MAX_GAMEPADS)%nat ->
  find_interrupt_in (descendp (config_interf dev configno interfno)) = Some e ->
  env_malloc env = Some p -> env_xasprintf env = Some nm ->
  env_bulk_read env = None -> p <> nm ->
  UsbSnes.grub_usb_snes_attach env dev configno interfno m
  = Some (0, {| terms := <[find_free_slot (terms m)
                           := {| name := Some nm; data := None |}]> (terms m);
                heap := delete p (delete nm (heap m));
                term_inputs := term_inputs m;
                transfers := transfers m;
                usb_log := usb_log m
                           ++ attach_calls UsbSnes.USB_HID_SET_PROTOCOL
                                UsbSnes.USB_HID_SET_IDLE dev configno interfno e |}).
Proof.
  intros Hsup Hlen Hslot Hendp Hmalloc Hname Hread Hne.
  destruct (find_free_slot_free (terms m) ltac:(lia)) as (t & Ht & Hfree).
  unfold UsbSnes.grub_usb_snes_attach, c_not.
  destruct (Z.eqb_spec (UsbSnes.is_supported_device (descdev_vendorid dev)
                                                    (descdev_prodid dev)) 0);
    [contradiction|].
  rewrite bool_decide_eq_false_2 by lia.
  rewrite Hendp, Hmalloc, Hname, Hread.
  set (c := find_free_slot (terms m)) in *.
  destruct m as [ts hp ins trs lg]. cbn [terms heap term_inputs transfers usb_log] in *.
  cbv zeta. cbn [UsbSnes.transfer UsbSnes.set_transfer]. machine_run.
  rewrite !list_insert_insert_eq, heap_release_fresh by assumption.
  unfold attach_calls. rewrite <- !app_assoc. reflexivity.
Qed.

Lemma gamepad_attach_name_failure_state (env : attach_env) (dev : grub_usb_device)
    (configno interfno : Z) (m : machine UsbSnesGamepad.grub_usb_snes_data)
    (e : grub_usb_desc_endp) (p : addr) :
  descif_protocol (config_interf dev configno interfno) <> 1 ->
  length (terms m) = UsbSnesGamepad.GAMEPADS_CAPACITY ->
  (find_free_slot (terms m) < UsbSnesGamepad.GAMEPADS_CAPACITY)%nat ->
  find_interrupt_in (descendp (config_interf dev configno interfno)) = Some e ->
  env_malloc env = Some p -> env_xasprintf env = None ->
  UsbSnesGamepad.grub_usb_snes_attach env dev configno interfno m
  = Some (0, {| terms := <[find_free_slot (terms m)
                           := {| name := None; data := None |}]> (terms m);
                heap := delete p (heap m);
                term_inputs := term_inputs m;
                transfers := transfers m;
                usb_log := usb_log m
                           ++ [UsbSetConfiguration (dev_ptr dev) (configno + 1);
                               UsbControlMsg (dev_ptr dev)
                                 UsbSnesGamepad.USB_HID_SET_PROTOCOL 0 interfno;
                               UsbControlMsg (dev_ptr dev)
                                 UsbSnesGamepad.USB_HID_SET_IDLE 0 interfno] |}).
Proof.
  intros Hproto Hlen Hslot Hendp Hmalloc Hname.
  destruct (find_free_slot_free (terms m) ltac:(lia)) as (t & Ht & Hfree).
  unfold UsbSnesGamepad.grub_usb_snes_attach. cbv zeta.
  change (c_true UsbSnesGamepad.ACCEPT_ANY_HID) with true. cbv iota.
  destruct (Z.eqb_spec (descif_protocol (config_interf dev configno interfno)) 1);
    [contradiction|].
  rewrite bool_decide_eq_false_2 by lia.
  rewrite Hendp, Hmalloc, Hname.
  set (c := find_free_slot (terms m)) in *.
  destruct m as [ts hp ins trs lg]. cbn [terms heap term_inputs transfers usb_log] in *.
  machine_run.
  rewrite Hfree, delete_insert_eq, <- !app_assoc. reflexivity.
Qed.

(** X17: the two late failures of attach that do clean up.  When the
    first read cannot be started in [usb_snes.c], and when the name cannot
    be allocated in [usb_snes_gamepad.c], attach returns 0 with every block
    it allocated released and the entry it chose free again: on a
    well-formed table, with the allocator returning blocks not in use, the
    heap, the registered inputs and the reads in flight are what they were,
    the table is still well formed and the next attach finds the same
    entry.  What remains is the requests already sent to the device. *)
Theorem attach_late_failures_released :
  (forall env dev configno interfno m e p nm,
     machine_wf UsbSnes.MAX_GAMEPADS m ->
     UsbSnes.is_supported_device (descdev_vendorid dev) (descdev_prodid dev) <> 0 ->
     (find_free_slot (terms m) < UsbSnes.MAX_GAMEPADS)%nat ->
     find_interrupt_in (descendp (config_interf dev configno interfno)) = Some e ->
     env_malloc env = Some p -> env_xasprintf env = Some nm ->
     env_bulk_read env = None ->
     heap m !! p = None -> heap m !! nm = None -> p <> nm ->
     exists m',
       UsbSnes.grub_usb_snes_attach env dev configno interfno m = Some (0, m')
       /\ machine_wf UsbSnes.MAX_GAMEPADS m'
       /\ heap m' = heap m
       /\ term_inputs m' = term_inputs m
       /\ transfers m' = transfers m
       /\ find_free_slot (terms m') = find_free_slot (terms m)
       /\ (forall i, i <> find_free_slot (terms m) -> terms m' !! i = terms m !! i)
       /\ usb_log m'
          = usb_log m ++ attach_calls UsbSnes.USB_HID_SET_PROTOCOL
                           UsbSnes.USB_HID_SET_IDLE dev configno interfno e)
  /\ (forall env dev configno interfno m e p,
        machine_wf UsbSnesGamepad.GAMEPADS_CAPACITY m ->
        descif_protocol (config_interf dev configno interfno) <> 1 ->
        (find_free_slot (terms m) < UsbSnesGamepad.GAMEPADS_CAPACITY)%nat ->
        find_interrupt_in (descendp (config_interf dev configno interfno)) = Some e ->
        env_malloc env = Some p -> env_xasprintf env = None ->
        heap m !! p = None ->
        exists m',
          UsbSnesGamepad.grub_usb_snes_attach env dev configno interfno m = Some (0, m')
          /\ machine_wf UsbSnesGamepad.GAMEPADS_CAPACITY m'
          /\ heap m' = heap m
          /\ term_inputs m' = term_inputs m
          /\ transfers m' = transfers m
          /\ find_free_slot (terms m') = find_free_slot (terms m)
          /\ (forall i, i <> find_free_slot (terms m) -> terms m' !! i = terms m !! i)
          /\ usb_log m'
             = usb_log m
               ++ [UsbSetConfiguration (dev_ptr dev) (configno + 1);
                   UsbControlMsg (dev_ptr dev)
                     UsbSnesGamepad.USB_HID_SET_PROTOCOL 0 interfno;
                   UsbControlMsg (dev_ptr dev)
                     UsbSnesGamepad.USB_HID_SET_IDLE 0 interfno]).
Proof.
  split.
  - intros env dev configno interfno m e p nm
      Hwf Hsup Hslot Hendp Hmalloc Hname Hread Hp Hnm Hne.
    pose proof (wf_length _ m Hwf) as Hlen.
    destruct (find_free_slot_free (terms m) ltac:(lia)) as (t & Ht & Hfree).
    eexists. split.
    { exact (snes_attach_read_failure_state env dev configno interfno m e p nm
               Hsup Hlen Hslot Hendp Hmalloc Hname Hread Hne). }
    cbn [terms heap term_inputs transfers usb_log].
    rewrite (delete_id (heap m) nm), (delete_id (heap m) p) by assumption.
    split; [eapply wf_free_entry; eassumption|].
    repeat split; try reflexivity.
    + apply find_free_slot_insert_free. lia.
    + intros i Hi. apply list_lookup_insert_ne. auto.
  - intros env dev configno interfno m e p Hwf Hproto Hslot Hendp Hmalloc Hname Hp.
    pose proof (wf_length _ m Hwf) as Hlen.
    destruct (find_free_slot_free (terms m) ltac:(lia)) as (t & Ht & Hfree).
    eexists. split.
    { exact (gamepad_attach_name_failure_state env dev configno interfno m e p
               Hproto Hlen Hslot Hendp Hmalloc Hname). }
    cbn [terms heap term_inputs transfers usb_log].
    rewrite (delete_id (heap m) p) by assumption.
    split; [eapply wf_free_entry; eassumption|].
    repeat split; try reflexivity.
    + apply find_free_slot_insert_free. lia.
    + intros i Hi. apply list_lookup_insert_ne. auto.
Qed.

(** X18: detach makes room.  In both files, on a well-formed table, after
    the detach of a device that held entry [i] the slot search of attach
    finds a free entry at [i] or before: the table is not full, and a
    gamepad that is plugged in again gets an entry. *)
Theorem detach_makes_room :
  (forall dev m i,
     machine_wf UsbSnes.MAX_GAMEPADS m ->
     slot_matches UsbSnes.usbdev dev m i ->
     exists m',
       UsbSnes.grub_usb_snes_detach dev m = Some m'
       /\ (find_free_slot (terms m') <= i)%nat
       /\ (find_free_slot (terms m') < UsbSnes.MAX_GAMEPADS)%nat)
  /\ (forall dev m i,
        machine_wf UsbSnesGamepad.GAMEPADS_CAPACITY m ->
        slot_matches UsbSnesGamepad.usbdev dev m i ->
        exists m',
          UsbSnesGamepad.grub_usb_snes_detach dev m = Some m'
          /\ (find_free_slot (terms m') <= i)%nat
          /\ (find_free_slot (terms m') < UsbSnesGamepad.GAMEPADS_CAPACITY)%nat).
Proof.
  split.
  - intros dev m i Hwf (t & p & d & Ht & Hp & Hd & Hdev).
    destruct (detach_slots_contract UsbSnes.usbdev UsbSnes.transfer
                UsbSnes.MAX_GAMEPADS dev m Hwf) as (m' & Hrun & _ & Hrel & _).
    destruct (Hrel i t p d Ht Hp Hd Hdev) as (K & _).
    exists m'. split; [exact Hrun|].
    pose proof (find_free_slot_at_most (terms m') i _ K eq_refl).
    apply lookup_lt_Some in Ht. rewrite (wf_length _ m Hwf) in Ht. lia.
  - intros dev m i Hwf (t & p & d & Ht & Hp & Hd & Hdev).
    destruct (detach_slots_contract UsbSnesGamepad.usbdev UsbSnesGamepad.transfer
                UsbSnesGamepad.GAMEPADS_CAPACITY dev m Hwf)
      as (m' & Hrun & _ & Hrel & _).
    destruct (Hrel i t p d Ht Hp Hd Hdev) as (K & _).
    exists m'. split; [exact Hrun|].
    pose proof (find_free_slot_at_most (terms m') i _ K eq_refl).
    apply lookup_lt_Some in Ht. rewrite (wf_length _ m Hwf) in Ht. lia.
Qed.

(** X19: attach as a whole.  On a well-formed table, with an allocator
    that returns blocks not in use, attach always returns, with 0 or 1, and
    leaves the table well formed, provided the one allocation whose failure
    is mishandled succeeds (the name in [usb_snes.c], the first read in
    [usb_snes_gamepad.c]).  When it returns 0, for whatever reason, the heap,
    the registered inputs and the reads in flight are what they were and the
    slot search still finds the same entry; when it returns 1 the entry the
    slot search found is occupied and registered as an input. *)
Theorem attach_total_and_safe :
  (forall env dev configno interfno m,
     machine_wf UsbSnes.MAX_GAMEPADS m ->
     (forall p, env_malloc env = Some p -> heap m !! p = None) ->
     (forall nm, env_xasprintf env = Some nm -> heap m !! nm = None) ->
     (forall p nm, env_malloc env = Some p -> env_xasprintf env = Some nm -> p <> nm) ->
     is_Some (env_xasprintf env) ->
     exists r m',
       UsbSnes.grub_usb_snes_attach env dev configno interfno m = Some (r, m')
       /\ (r = 0 \/ r = 1)
       /\ machine_wf UsbSnes.MAX_GAMEPADS m'
       /\ (r = 0 ->
           heap m' = heap m /\ term_inputs m' = term_inputs m
           /\ transfers m' = transfers m
           /\ find_free_slot (terms m') = find_free_slot (terms m))
       /\ (r = 1 ->
           exists t, terms m' !! find_free_slot (terms m) = Some t
                     /\ is_Some (data t)
                     /\ find_free_slot (terms m) ∈ term_inputs m'))
  /\ (forall env dev configno interfno m,
        machine_wf UsbSnesGamepad.GAMEPADS_CAPACITY m ->
        (forall p, env_malloc env = Some p -> heap m !! p = None) ->
        (forall nm, env_xasprintf env = Some nm -> heap m !! nm = None) ->
        (forall p nm, env_malloc env = Some p -> env_xasprintf env = Some nm -> p <> nm) ->
        is_Some (env_bulk_read env) ->
        exists r m',
          UsbSnesGamepad.grub_usb_snes_attach env dev configno interfno m = Some (r, m')
          /\ (r = 0 \/ r = 1)
          /\ machine_wf UsbSnesGamepad.GAMEPADS_CAPACITY m'
          /\ (r = 0 ->
              heap m' = heap m /\ term_inputs m' = term_inputs m
              /\ transfers m' = transfers m
              /\ find_free_slot (terms m') = find_free_slot (terms m))
          /\ (r = 1 ->
              exists t, terms m' !! find_free_slot (terms m) = Some t
                        /\ is_Some (data t)
                        /\ find_free_slot (terms m) ∈ term_inputs m')).
Proof.
  split.
  - intros env dev configno interfno m Hwf Hfp Hfn Hne [nm Hname].
    pose proof (wf_length _ m Hwf) as Hlen.
    pose proof (find_free_slot_le (terms m)) as Hle. rewrite Hlen in Hle.
    assert (Hearly : UsbSnes.grub_usb_snes_attach env dev configno interfno m
                     = Some (0, m) ->
                     exists r m',
                       UsbSnes.grub_usb_snes_attach env dev configno interfno m
                       = Some (r, m')
                       /\ (r = 0 \/ r = 1)
                       /\ machine_wf UsbSnes.MAX_GAMEPADS m'
                       /\ (r = 0 ->
                           heap m' = heap m /\ term_inputs m' = term_inputs m
                           /\ transfers m' = transfers m
                           /\ find_free_slot (terms m') = find_free_slot (terms m))
                       /\ (r = 1 ->
                           exists t, terms m' !! find_free_slot (terms m) = Some t
                                     /\ is_Some (data t)
                                     /\ find_free_slot (terms m) ∈ term_inputs m')).
    { intros H. exists 0, m. split; [exact H|]. split; [auto|]. split; [exact Hwf|].
      split; [auto|]. intros; discriminate. }
    destruct (Z.eq_dec (UsbSnes.is_supported_device (descdev_vendorid dev)
                                                    (descdev_prodid dev)) 0)
      as [Hsup|Hsup].
    { apply Hearly, snes_attach_early_rejections. auto. }
    destruct (decide (find_free_slot (terms m) = UsbSnes.MAX_GAMEPADS)) as [Hfull|Hfree].
    { apply Hearly, snes_attach_early_rejections. auto. }
    assert (Hslot : (find_free_slot (terms m) < UsbSnes.MAX_GAMEPADS)%nat) by lia.
    destruct (find_interrupt_in (descendp (config_interf dev configno interfno)))
      as [e|] eqn:Hendp.
    2:{ apply Hearly, snes_attach_early_rejections. auto. }
    destruct (env_malloc env) as [p|] eqn:Hmalloc.
    2:{ apply Hearly, snes_attach_early_rejections. auto. }
    destruct (find_free_slot_free (terms m) ltac:(lia)) as (t & Ht & Hfr).
    specialize (Hfp p eq_refl). specialize (Hfn nm Hname).
    specialize (Hne p nm eq_refl Hname).
    destruct (env_bulk_read env) as [tr|] eqn:Hread.
    + exists 1. eexists. split.
      { exact (snes_attach_accepts env dev configno interfno m e p nm tr Hsup Hlen
                 Hslot Hendp Hmalloc Hname Hread Hne). }
      split; [auto|]. split; [eapply installed_wf; eassumption|].
      split; [intros; discriminate|]. intros _.
      eexists. cbn [terms term_inputs installed].
      split; [apply list_lookup_insert_eq; lia|]. split; [eexists; reflexivity|].
      set_solver.
    + exists 0. eexists. split.
      { exact (snes_attach_read_failure_state env dev configno interfno m e p nm
                 Hsup Hlen Hslot Hendp Hmalloc Hname Hread Hne). }
      rewrite (delete_id (heap m) nm), (delete_id (heap m) p) by assumption.
      split; [auto|]. split; [eapply wf_free_entry; eassumption|].
      split; [|intros; discriminate]. intros _.
      cbn [terms heap term_inputs transfers].
      repeat split. apply find_free_slot_insert_free. lia.
  - intros env dev configno interfno m Hwf Hfp Hfn Hne [tr Hread].
    pose proof (wf_length _ m Hwf) as Hlen.
    pose proof (find_free_slot_le (terms m)) as Hle. rewrite Hlen in Hle.
    assert (Hearly : UsbSnesGamepad.grub_usb_snes_attach env dev configno interfno m
                     = Some (0, m) ->
                     exists r m',
                       UsbSnesGamepad.grub_usb_snes_attach env dev configno interfno m
                       = Some (r, m')
                       /\ (r = 0 \/ r = 1)
                       /\ machine_wf UsbSnesGamepad.GAMEPADS_CAPACITY m'
                       /\ (r = 0 ->
                           heap m' = heap m /\ term_inputs m' = term_inputs m
                           /\ transfers m' = transfers m
                           /\ find_free_slot (terms m') = find_free_slot (terms m))
                       /\ (r = 1 ->
                           exists t, terms m' !! find_free_slot (terms m) = Some t
                                     /\ is_Some (data t)
                                     /\ find_free_slot (terms m) ∈ term_inputs m')).
    { intros H. exists 0, m. split; [exact H|]. split; [auto|]. split; [exact Hwf|].
      split; [auto|]. intros; discriminate. }
    destruct (Z.eq_dec (descif_protocol (config_interf dev configno interfno)) 1)
      as [Hproto|Hproto].
    { apply Hearly, gamepad_attach_early_rejections. auto. }
    destruct (decide (UsbSnesGamepad.GAMEPADS_CAPACITY <= find_free_slot (terms m))%nat)
      as [Hfull|Hfree].
    { apply Hearly, gamepad_attach_early_rejections. auto. }
    assert (Hslot : (find_free_slot (terms m) < UsbSnesGamepad.GAMEPADS_CAPACITY)%nat)
      by lia.
    destruct (find_interrupt_in (descendp (config_interf dev configno interfno)))
      as [e|] eqn:Hendp.
    2:{ apply Hearly, gamepad_attach_early_rejections. auto. }
    destruct (env_malloc env) as [p|] eqn:Hmalloc.
    2:{ apply Hearly, gamepad_attach_early_rejections. auto. }
    destruct (find_free_slot_free (terms m) ltac:(lia)) as (t & Ht & Hfr).
    specialize (Hfp p eq_refl).
    destruct (env_xasprintf env) as [nm|] eqn:Hname.
    + specialize (Hfn nm eq_refl). specialize (Hne p nm eq_refl eq_refl).
      exists 1. eexists. split.
      { exact (gamepad_attach_accepts env dev configno interfno m e p nm tr Hproto Hlen
                 Hslot Hendp Hmalloc Hname Hread Hne). }
      split; [auto|]. split; [eapply installed_wf; eassumption|].
      split; [intros; discriminate|]. intros _.
      eexists. cbn [terms term_inputs installed].
      split; [apply list_lookup_insert_eq; lia|]. split; [eexists; reflexivity|].
      set_solver.
    + exists 0. eexists. split.
      { exact (gamepad_attach_name_failure_state env dev configno interfno m e p
                 Hproto Hlen Hslot Hendp Hmalloc Hname). }
      rewrite (delete_id (heap m) p) by assumption.
      split; [auto|]. split; [eapply wf_free_entry; eassumption|].
      split; [|intros; discriminate]. intros _.
      cbn [terms heap term_inputs transfers].
      repeat split. apply find_free_slot_insert_free. lia.
Qed.

Lemma attach_total_and_safe_witness :
  exists r m',
    UsbSnes.grub_usb_snes_attach env_ok sample_device 0 0
      (boot_machine UsbSnes.grub_usb_snes_data 8) = Some (r, m')
    /\ (r = 0 \/ r = 1) /\ machine_wf 8 m'.
Proof.
  pose proof attach_total_and_safe as (Hs & _).
  assert (H1 : forall p, env_malloc env_ok = Some p ->
                 heap (boot_machine UsbSnes.grub_usb_snes_data 8) !! p = None)
    by (intros; apply lookup_empty).
  assert (H2 : forall nm, env_xasprintf env_ok = Some nm ->
                 heap (boot_machine UsbSnes.grub_usb_snes_data 8) !! nm = None)
    by (intros; apply lookup_empty).
  assert (H3 : forall p nm, env_malloc env_ok = Some p ->
                 env_xasprintf env_ok = Some nm -> p <> nm)
    by (intros p nm Hp Hn; inversion Hp; inversion Hn; discriminate).
  assert (H4 : is_Some (env_xasprintf env_ok)) by (eexists; reflexivity).
  destruct (Hs env_ok sample_device 0 0 (boot_machine UsbSnes.grub_usb_snes_data 8)
              (boot_machine_wf 8) H1 H2 H3 H4) as (r & m' & Hrun & Hr & Hwf & _).
  exists r, m'. split; [exact Hrun|]. split; [exact Hr|exact Hwf].
Defined.

Section GamepadDelivery.
Context {K : grub_term_keys}.

(** X20: [usb_snes_gamepad.c] delivers the keys of a report in order.
    After a successful 8-byte read on a session whose queue is empty, the
    poll of the read returns the first key the report produced, and the
    polls that follow, while the next read is pending, return the others in
    codec order, each checking the transfer once more. *)
Theorem gamepad_poll_delivers_all_events (env : usb_reply) (envs : list usb_reply)
    (d : UsbSnesGamepad.grub_usb_snes_data) :
  UsbSnesGamepad.queue_wf d -> UsbSnesGamepad.key_queue_size d = 0 ->
  reply_err env = GRUB_USB_ERR_NONE -> reply_actual env = 8 ->
  Forall (fun env => reply_err env = GRUB_USB_ERR_WAIT) envs ->
  let evs := filter (fun k => k <> GRUB_TERM_NO_KEY)
               (UsbSnesGamepad.deriveEvents (UsbSnesGamepad.prev_report d)
                                            (UsbSnesGamepad.report d)) in
  length envs = (length evs - 1)%nat ->
  exists d',
    UsbSnesGamepad.polls (env :: envs) d
    = (hd GRUB_TERM_NO_KEY evs :: tl evs, d',
       [UsbCheckTransfer (UsbSnesGamepad.transfer d);
        UsbBulkReadBackground (UsbSnesGamepad.usbdev d) (UsbSnesGamepad.endp d) 8]
       ++ replicate (length envs) (UsbCheckTransfer (reply_transfer env)))
    /\ UsbSnesGamepad.queue_contents d' = [].
Proof.
  intros Hwf Hz Herr Hact Hw evs Hlen.
  cbn [UsbSnesGamepad.polls].
  rewrite gamepad_getkey_eq, Herr, Hact.
  rewrite (bool_decide_eq_false_2 (GRUB_USB_ERR_NONE = GRUB_USB_ERR_WAIT)) by discriminate.
  rewrite (bool_decide_eq_true_2 (GRUB_USB_ERR_NONE = GRUB_USB_ERR_NONE)) by reflexivity.
  cbn [andb Z.eqb Pos.eqb]. cbv zeta.
  set (all := UsbSnesGamepad.deriveEvents (UsbSnesGamepad.prev_report d)
                                          (UsbSnesGamepad.report d)) in *.
  pose proof (gamepad_push_all_wf all d Hwf) as Hwf1.
  pose proof (gamepad_push_all_any all d Hwf) as Hc1.
  rewrite (gamepad_contents_empty d) in Hc1 by lia. cbn [app] in Hc1.
  fold evs in Hc1.
  rewrite keep_last_short in Hc1.
  2:{ pose proof (gamepad_events_length (UsbSnesGamepad.prev_report d)
                                        (UsbSnesGamepad.report d)).
      pose proof (length_filter (fun k => k <> GRUB_TERM_NO_KEY) all).
      fold all in H. subst evs. lia. }
  set (d2 := UsbSnesGamepad.set_transfer _ _).
  assert (Hwf2 : UsbSnesGamepad.queue_wf d2) by exact Hwf1.
  assert (Hc2 : UsbSnesGamepad.queue_contents d2 = evs) by exact Hc1.
  assert (Ht2 : UsbSnesGamepad.transfer d2 = reply_transfer env) by reflexivity.
  destruct (gamepad_pop_spec d2 Hwf2) as (Hk & Hwf3 & Hc3).
  destruct (gamepad_pop_frame d2) as (_ & _ & Ht3 & _). cbv zeta in Ht3.
  destruct (UsbSnesGamepad.key_queue_pop d2) as [k d3]. cbn [fst snd] in *.
  rewrite Hc2 in Hk, Hc3.
  destruct (gamepad_pop_n_spec (length envs) d3 Hwf3) as (Hks & _ & Hc4).
  rewrite gamepad_polls_pending by assumption.
  exists (snd (UsbSnesGamepad.pop_n (length envs) d3)).
  rewrite Hks, Hc3, Hk, Ht3, Ht2. split.
  - rewrite Hlen, <- length_tl_pred.
    rewrite firstn_all, Nat.sub_diag. cbn [replicate]. rewrite app_nil_r. reflexivity.
  - rewrite Hc4, Hc3, Hlen, <- length_tl_pred. apply drop_all.
Qed.

End GamepadDelivery.

Lemma gamepad_poll_delivers_all_events_witness :
  let K := grub_term_h in
  exists d',
    UsbSnesGamepad.polls [reply_full; reply_wait; reply_wait]
      (UsbSnesGamepad.set_reports Spec.baseline [0; 0x7F; 0x7F; 0x7F; 0x06; 0; 0; 0]
         gamepad_session)
    = ([GRUB_TERM_KEY_LEFT; 13; GRUB_TERM_ESC], d',
       [UsbCheckTransfer (Some 3%positive);
        UsbBulkReadBackground 7%positive (Some sample_endp) 8;
        UsbCheckTransfer (Some 5%positive); UsbCheckTransfer (Some 5%positive)])
    /\ UsbSnesGamepad.queue_contents d' = [].
Proof.
  intros K.
  assert (Hwf : UsbSnesGamepad.queue_wf
                  (UsbSnesGamepad.set_reports Spec.baseline
                     [0; 0x7F; 0x7F; 0x7F; 0x06; 0; 0; 0] gamepad_session))
    by exact gamepad_session_wf.
  assert (Hw : Forall (fun env => reply_err env = GRUB_USB_ERR_WAIT)
                      [reply_wait; reply_wait])
    by (repeat (apply List.Forall_cons; [reflexivity|]); apply List.Forall_nil).
  destruct (gamepad_poll_delivers_all_events (K := grub_term_h) reply_full
              [reply_wait; reply_wait]
              (UsbSnesGamepad.set_reports Spec.baseline
                 [0; 0x7F; 0x7F; 0x7F; 0x06; 0; 0; 0] gamepad_session)
              Hwf eq_refl eq_refl eq_refl Hw eq_refl) as (d' & Hrun & Hc).
  exists d'. split; [exact Hrun|exact Hc].
Defined.

(** ** The names of the terminals *)

Lemma string_append_inj (prefix s1 s2 : string) :
  (prefix ++ s1)%string = (prefix ++ s2)%string -> s1 = s2.
Proof.
  induction prefix as [|c prefix IH]; cbn; intros H; [exact H|].
  injection H as H. auto.
Qed.

Lemma to_uint_not_nil (n : nat) : Nat.to_uint n <> Decimal.Nil.
Proof.
  intros H. pose proof (DecimalNat.Unsigned.of_to n) as Hn.
  rewrite H in Hn. cbn in Hn. subst n. discriminate H.
Qed.

Lemma xasprintf_d_inj (prefix : string) (i j : nat) :
  xasprintf_d prefix i = xasprintf_d prefix j -> i = j.
Proof.
  unfold xasprintf_d. intros H. apply string_append_inj in H.
  apply (f_equal NilZero.uint_of_string) in H.
  rewrite !NilZero.usu in H by apply to_uint_not_nil.
  injection H as H. apply DecimalNat.Unsigned.to_uint_inj, H.
Qed.

(** X21: the names of the terminals.  A successful attach names the entry
    it fills after its index: the name block holds ["usb_snes"] (in
    [usb_snes_gamepad.c]: ["snes_gamepad"]) followed by the index in decimal.
    Different entries therefore get different names, and the names of the
    two files never coincide. *)
Theorem attach_names_entries :
  (forall env dev configno interfno m e p nm tr,
     UsbSnes.is_supported_device (descdev_vendorid dev) (descdev_prodid dev) <> 0 ->
     length (terms m) = UsbSnes.MAX_GAMEPADS ->
     (find_free_slot (terms m) < UsbSnes.MAX_GAMEPADS)%nat ->
     find_interrupt_in (descendp (config_interf dev configno interfno)) = Some e ->
     env_malloc env = Some p -> env_xasprintf env = Some nm ->
     env_bulk_read env = Some tr -> p <> nm ->
     exists m',
       UsbSnes.grub_usb_snes_attach env dev configno interfno m = Some (1, m')
       /\ (name <$> terms m' !! find_free_slot (terms m)) = Some (Some nm)
       /\ heap m' !! nm
          = Some (BlockName (xasprintf_d "usb_snes" (find_free_slot (terms m)))))
  /\ (forall env dev configno interfno m e p nm tr,
        descif_protocol (config_interf dev configno interfno) <> 1 ->
        length (terms m) = UsbSnesGamepad.GAMEPADS_CAPACITY ->
        (find_free_slot (terms m) < UsbSnesGamepad.GAMEPADS_CAPACITY)%nat ->
        find_interrupt_in (descendp (config_interf dev configno interfno)) = Some e ->
        env_malloc env = Some p -> env_xasprintf env = Some nm ->
        env_bulk_read env = Some tr -> p <> nm ->
        exists m',
          UsbSnesGamepad.grub_usb_snes_attach env dev configno interfno m = Some (1, m')
          /\ (name <$> terms m' !! find_free_slot (terms m)) = Some (Some nm)
          /\ heap m' !! nm
             = Some (BlockName (xasprintf_d "snes_gamepad" (find_free_slot (terms m)))))
  /\ (forall prefix i j, xasprintf_d prefix i = xasprintf_d prefix j -> i = j)
  /\ (forall i j, xasprintf_d "usb_snes" i <> xasprintf_d "snes_gamepad" j)
  /\ xasprintf_d "usb_snes" 0 = "usb_snes0"%string
  /\ xasprintf_d "snes_gamepad" 7 = "snes_gamepad7"%string.
Proof.
  split; [|split; [|split; [exact xasprintf_d_inj|]]].
  - intros env dev configno interfno m e p nm tr
      Hsup Hlen Hslot Hendp Hmalloc Hname Hread Hne.
    eexists. split.
    { exact (snes_attach_accepts env dev configno interfno m e p nm tr Hsup Hlen
               Hslot Hendp Hmalloc Hname Hread Hne). }
    cbn [terms heap installed]. split.
    + rewrite list_lookup_insert_eq by lia. reflexivity.
    + rewrite lookup_insert_ne by assumption. apply lookup_insert_eq.
  - intros env dev configno interfno m e p nm tr
      Hproto Hlen Hslot Hendp Hmalloc Hname Hread Hne.
    eexists. split.
    { exact (gamepad_attach_accepts env dev configno interfno m e p nm tr Hproto Hlen
               Hslot Hendp Hmalloc Hname Hread Hne). }
    cbn [terms heap installed]. split.
    + rewrite list_lookup_insert_eq by lia. reflexivity.
    + rewrite lookup_insert_ne by assumption. apply lookup_insert_eq.
  - split; [|split; reflexivity].
    intros i j H. unfold xasprintf_d in H. cbn in H. discriminate H.
Qed.

Lemma attach_names_entries_witness :
  exists m',
    UsbSnes.grub_usb_snes_attach env_ok sample_device 0 0
      (boot_machine UsbSnes.grub_usb_snes_data 8) = Some (1, m')
    /\ heap m' !! 2%positive = Some (BlockName "usb_snes0"%string).
Proof.
  pose proof attach_names_entries as (Hs & _).
  assert (H1 : UsbSnes.is_supported_device (descdev_vendorid sample_device)
                                           (descdev_prodid sample_device) <> 0)
    by (vm_compute; discriminate).
  assert (H2 : (find_free_slot (terms (boot_machine UsbSnes.grub_usb_snes_data 8))
                < UsbSnes.MAX_GAMEPADS)%nat) by (vm_compute; lia).
  assert (H3 : find_interrupt_in (descendp (config_interf sample_device 0 0))
               = Some sample_endp) by reflexivity.
  assert (H4 : 1%positive <> 2%positive) by discriminate.
  destruct (Hs env_ok sample_device 0 0 (boot_machine UsbSnes.grub_usb_snes_data 8)
              sample_endp 1%positive 2%positive 5%positive
              H1 eq_refl H2 H3 eq_refl eq_refl eq_refl H4)
    as (m' & Hatt & _ & Hname).
  exists m'. split; [exact Hatt|exact Hname].
Defined.

(** ** Concrete runs of the further properties *)

Lemma codec_events_ordered_and_bounded_witness :
  let K := grub_term_h in
  let d := UsbSnes.set_reports Spec.baseline left_report snes_session in
  exists new,
    Nat.le (length new) 9
    /\ UsbSnes.queue_contents (UsbSnes.parse_snes_report d)
       = take 32 (UsbSnes.queue_contents d ++ new).
Proof.
  intros K d.
  pose proof (codec_events_ordered_and_bounded (K := grub_term_h))
    as (_ & _ & _ & Hs & _).
  assert (Hwf : UsbSnes.queue_wf d) by exact snes_session_wf.
  destruct (Hs d Hwf) as (new & _ & Hlen & Hc & _).
  exists new. split; [exact Hlen|exact Hc].
Defined.

Lemma codec_silent_iff_no_rising_signal_witness :
  let K := grub_term_h in
  UsbSnes.parse_snes_report
    (UsbSnes.set_reports [0; 0x7F; 0x7F; 0x7F; 0x06; 0; 0; 0]
       [0; 0x7F; 0x7F; 0x7F; 0x02; 0; 0; 0] snes_session)
  = UsbSnes.set_reports [0; 0x7F; 0x7F; 0x7F; 0x06; 0; 0; 0]
      [0; 0x7F; 0x7F; 0x7F; 0x02; 0; 0; 0] snes_session
  /\ UsbSnes.key_queue_count snes_session
     < UsbSnes.key_queue_count
         (UsbSnes.parse_snes_report
            (UsbSnes.set_reports Spec.baseline left_report snes_session)).
Proof.
  intros K.
  destruct (codec_silent_iff_no_rising_signal (K := grub_term_h)
              [0; 0x7F; 0x7F; 0x7F; 0x06; 0; 0; 0] [0; 0x7F; 0x7F; 0x7F; 0x02; 0; 0; 0])
    as (_ & _ & Hheld & _).
  destruct (codec_silent_iff_no_rising_signal (K := grub_term_h)
              Spec.baseline left_report)
    as (_ & _ & _ & _ & Hrise & _).
  assert (H : (array_get [0; 0x7F; 0x7F; 0x7F; 0x02; 0; 0; 0] 1 < 0x3F ->
               array_get [0; 0x7F; 0x7F; 0x7F; 0x06; 0; 0; 0] 1 < 0x3F)
              /\ (0xBF < array_get [0; 0x7F; 0x7F; 0x7F; 0x02; 0; 0; 0] 1 ->
                  0xBF < array_get [0; 0x7F; 0x7F; 0x7F; 0x06; 0; 0; 0] 1)
              /\ (array_get [0; 0x7F; 0x7F; 0x7F; 0x02; 0; 0; 0] 0 < 0x3F ->
                  array_get [0; 0x7F; 0x7F; 0x7F; 0x06; 0; 0; 0] 0 < 0x3F)
              /\ (0xBF < array_get [0; 0x7F; 0x7F; 0x7F; 0x02; 0; 0; 0] 0 ->
                  0xBF < array_get [0; 0x7F; 0x7F; 0x7F; 0x06; 0; 0; 0] 0)
              /\ (forall i : Z, 0 <= i < 8 ->
                    Z.testbit (array_get [0; 0x7F; 0x7F; 0x7F; 0x02; 0; 0; 0] 4) i = true ->
                    Z.testbit (array_get [0; 0x7F; 0x7F; 0x7F; 0x06; 0; 0; 0] 4) i = true)).
  { do 4 (split; [intros H; exact H|]).
    intros i Hi.
    assert (i = 0 \/ i = 1 \/ i = 2 \/ i = 3 \/ i = 4 \/ i = 5 \/ i = 6 \/ i = 7)
      as [->|[->|[->|[->|[->|[->|[->| ->]]]]]]] by lia; vm_compute; congruence. }
  assert (Hn : ~ ((array_get left_report 1 < 0x3F -> array_get Spec.baseline 1 < 0x3F)
                  /\ (0xBF < array_get left_report 1 ->
                      0xBF < array_get Spec.baseline 1)
                  /\ (array_get left_report 0 < 0x3F ->
                      array_get Spec.baseline 0 < 0x3F)
                  /\ (0xBF < array_get left_report 0 ->
                      0xBF < array_get Spec.baseline 0)
                  /\ (forall i : Z, 0 <= i < 8 ->
                        Z.testbit (array_get left_report 4) i = true ->
                        Z.testbit (array_get Spec.baseline 4) i = true))).
  { intros (_ & _ & H3 & _).
    assert (H0 : array_get left_report 0 < 0x3F) by (vm_compute; reflexivity).
    specialize (H3 H0). vm_compute in H3. discriminate H3. }
  assert (Hk : Forall (fun k => k <> GRUB_TERM_NO_KEY (grub_term_keys := grub_term_h))
                 [GRUB_TERM_KEY_UP; GRUB_TERM_KEY_DOWN; GRUB_TERM_KEY_LEFT;
                  GRUB_TERM_KEY_RIGHT; 13; 13; GRUB_TERM_ESC; 101; 99;
                  GRUB_TERM_KEY_PPAGE; GRUB_TERM_KEY_NPAGE])
    by (repeat (apply List.Forall_cons; [discriminate|]); apply List.Forall_nil).
  assert (Hroom : UsbSnes.key_queue_count snes_session < 32) by (vm_compute; reflexivity).
  split; [exact (Hheld H snes_session)|].
  exact (Hrise Hn Hk snes_session snes_session_wf Hroom).
Defined.

Lemma no_auto_repeat_witness :
  let K := grub_term_h in
  let d' := snd (fst (UsbSnes.grub_usb_snes_getkey reply_full
                        (UsbSnes.set_reports Spec.baseline left_report snes_session))) in
  UsbSnes.prev_report d' = left_report /\ UsbSnes.parse_snes_report d' = d'.
Proof.
  intros K d'.
  pose proof (no_auto_repeat (K := grub_term_h)) as (Hs & _).
  assert (H1 : UsbSnes.key_queue_count
                 (UsbSnes.set_reports Spec.baseline left_report snes_session) <= 0)
    by (vm_compute; discriminate).
  assert (H2 : 1 <= reply_actual reply_full) by (vm_compute; discriminate).
  destruct (Hs reply_full (UsbSnes.set_reports Spec.baseline left_report snes_session)
              eq_refl H1 eq_refl H2 eq_refl eq_refl) as (Hp & _ & _ & Hparse).
  split; [exact Hp|exact Hparse].
Defined.

Lemma gamepad_session_restarts :
  is_Some (UsbSnesGamepad.transfer gamepad_session)
  /\ Forall (fun io => reply_err (io_reply io) = GRUB_USB_ERR_WAIT
                       \/ is_Some (reply_transfer (io_reply io)))
            [io_wait; io_left; io_left].
Proof.
  split; [eexists; reflexivity|].
  apply List.Forall_cons; [left; reflexivity|].
  apply List.Forall_cons; [right; eexists; reflexivity|].
  apply List.Forall_cons; [right; eexists; reflexivity|apply List.Forall_nil].
Qed.

Lemma poll_usb_traffic_witness :
  let K := grub_term_h in
  Forall (fun c => c <> UsbCheckTransfer None)
         (snd (UsbSnes.polls_io [io_wait; io_left; io_left] snes_session))
  /\ poll_traffic 7%positive (Some sample_endp)
       (snd (UsbSnesGamepad.polls_io [io_wait; io_left; io_left] gamepad_session)).
Proof.
  intros K.
  pose proof (poll_usb_traffic (K := grub_term_h)) as (Hs & Hg).
  destruct (Hs [io_wait; io_left; io_left] snes_session) as (_ & _ & Hnull).
  assert (Htr : c_true (UsbSnes.dead snes_session) = true
                \/ is_Some (UsbSnes.transfer snes_session))
    by (right; eexists; reflexivity).
  destruct gamepad_session_restarts as (Hgt & Hgr).
  split; [exact (Hnull Htr)|].
  exact (proj1 (Hg [io_wait; io_left; io_left] gamepad_session Hgt Hgr)).
Defined.

Lemma polls_keep_session_invariant_witness :
  UsbSnes.queue_wf
    (snd (fst (UsbSnes.polls_io (K := grub_term_h) [io_wait; io_left; io_left]
                 snes_session)))
  /\ UsbSnesGamepad.queue_wf
       (snd (fst (UsbSnesGamepad.polls_io (K := grub_term_h)
                    [io_wait; io_left; io_left] gamepad_session))).
Proof.
  pose proof (polls_keep_session_invariant (K := grub_term_h))
    as (_ & _ & _ & _ & Hs & Hg).
  destruct gamepad_session_restarts as (Hgt & Hgr).
  split.
  - exact (proj1 (Hs [io_wait; io_left; io_left] snes_session snes_session_wf
                    eq_refl eq_refl)).
  - exact (proj1 (Hg [io_wait; io_left; io_left] gamepad_session Hgt Hgr
                    gamepad_session_wf eq_refl eq_refl)).
Defined.

Lemma snes_poll_delivers_all_events_witness :
  let K := grub_term_h in
  exists d',
    UsbSnes.polls [reply_full; reply_stall]
      (UsbSnes.set_reports Spec.baseline [0; 0x7F; 0x7F; 0x7F; 0x02; 0; 0; 0]
         snes_session)
    = ([GRUB_TERM_KEY_LEFT; 13], d',
       [UsbCheckTransfer (Some 3%positive);
        UsbBulkReadBackground 7%positive (Some sample_endp) 8])
    /\ UsbSnes.queue_contents d' = [].
Proof.
  intros K.
  assert (Hwf : UsbSnes.queue_wf
                  (UsbSnes.set_reports Spec.baseline
                     [0; 0x7F; 0x7F; 0x7F; 0x02; 0; 0; 0] snes_session))
    by exact snes_session_wf.
  assert (H2 : 1 <= reply_actual reply_full) by (vm_compute; discriminate).
  assert (H3 : is_Some (reply_transfer reply_full)) by (eexists; reflexivity).
  destruct (snes_poll_delivers_all_events (K := grub_term_h) reply_full [reply_stall]
              (UsbSnes.set_reports Spec.baseline
                 [0; 0x7F; 0x7F; 0x7F; 0x02; 0; 0; 0] snes_session)
              Hwf eq_refl eq_refl eq_refl H2 H3 eq_refl) as (d' & Hrun & Hc & _).
  exists d'. split; [exact Hrun|exact Hc].
Defined.

Lemma snes_queue_drains_first_witness :
  let K := grub_term_h in
  exists d',
    UsbSnes.polls [reply_stall; reply_full] (UsbSnes.push_all snes_session [1; 2; 3])
    = ([1; 2], d', [])
    /\ UsbSnes.queue_contents d' = [3].
Proof.
  intros K.
  assert (Hwf : UsbSnes.queue_wf (UsbSnes.push_all snes_session [1; 2; 3]))
    by (apply snes_push_all_wf, snes_session_wf).
  assert (Hlen : Nat.le (length [reply_stall; reply_full])
                        (length (UsbSnes.queue_contents
                                   (UsbSnes.push_all snes_session [1; 2; 3]))))
    by (vm_compute; lia).
  destruct (snes_queue_drains_first (K := grub_term_h) [reply_stall; reply_full]
              (UsbSnes.push_all snes_session [1; 2; 3]) Hwf eq_refl Hlen)
    as (d' & Hrun & Hc & _).
  exists d'. split; [exact Hrun|exact Hc].
Defined.

Lemma gamepad_pending_polls_drain_witness :
  let K := grub_term_h in
  exists d',
    UsbSnesGamepad.polls [reply_wait; reply_wait; reply_wait]
      (UsbSnesGamepad.push_all gamepad_session [1; 2])
    = ([1; 2; GRUB_TERM_NO_KEY], d',
       [UsbCheckTransfer (Some 3%positive); UsbCheckTransfer (Some 3%positive);
        UsbCheckTransfer (Some 3%positive)])
    /\ UsbSnesGamepad.queue_contents d' = [].
Proof.
  intros K.
  assert (Hwf : UsbSnesGamepad.queue_wf (UsbSnesGamepad.push_all gamepad_session [1; 2]))
    by (apply gamepad_push_all_wf, gamepad_session_wf).
  assert (Hw : Forall (fun env => reply_err env = GRUB_USB_ERR_WAIT)
                      [reply_wait; reply_wait; reply_wait])
    by (repeat (apply List.Forall_cons; [reflexivity|]); apply List.Forall_nil).
  destruct (gamepad_pending_polls_drain (K := grub_term_h)
              [reply_wait; reply_wait; reply_wait]
              (UsbSnesGamepad.push_all gamepad_session [1; 2]) Hwf Hw)
    as (d' & Hrun & _ & Hc).
  exists d'. split; [exact Hrun|exact Hc].
Defined.

Lemma snes_dead_session_strands_keys_witness :
  let K := grub_term_h in
  let d := UsbSnes.set_reports Spec.baseline left_report snes_session in
  UsbSnes.queue_contents (snd (fst (UsbSnes.grub_usb_snes_getkey reply_full_no_rearm d)))
  = [GRUB_TERM_KEY_LEFT]
  /\ fst (fst (UsbSnes.polls [reply_full_no_rearm; reply_full; reply_full] d))
     = [GRUB_TERM_NO_KEY; GRUB_TERM_NO_KEY; GRUB_TERM_NO_KEY].
Proof.
  intros K d.
  assert (Hwf : UsbSnes.queue_wf d) by exact snes_session_wf.
  assert (H2 : 1 <= reply_actual reply_full_no_rearm) by (vm_compute; discriminate).
  destruct (snes_dead_session_strands_keys (K := grub_term_h) reply_full_no_rearm d
              Hwf eq_refl eq_refl eq_refl H2 eq_refl) as (Hc & Hpolls).
  split; [exact Hc|exact (proj1 (Hpolls [reply_full; reply_full]))].
Defined.

Lemma polls_return_table_keys_witness :
  let K := grub_term_h in
  Forall (fun k => k = GRUB_TERM_NO_KEY
                   \/ k ∈ [GRUB_TERM_KEY_UP; GRUB_TERM_KEY_DOWN; GRUB_TERM_KEY_LEFT;
                            GRUB_TERM_KEY_RIGHT; 13; GRUB_TERM_ESC; 101; 99;
                            GRUB_TERM_KEY_PPAGE; GRUB_TERM_KEY_NPAGE])
         (fst (fst (UsbSnes.polls_io [io_wait; io_left; io_left] snes_session))).
Proof.
  intros K.
  pose proof (polls_return_table_keys (K := grub_term_h)) as (_ & Hs & _).
  assert (Hq : Forall (fun k => k ∈ [GRUB_TERM_KEY_UP; GRUB_TERM_KEY_DOWN;
                                      GRUB_TERM_KEY_LEFT; GRUB_TERM_KEY_RIGHT; 13;
                                      GRUB_TERM_ESC; 101; 99; GRUB_TERM_KEY_PPAGE;
                                      GRUB_TERM_KEY_NPAGE])
                      (UsbSnes.queue_contents snes_session))
    by apply List.Forall_nil.
  exact (proj1 (Hs [io_wait; io_left; io_left] snes_session snes_session_wf Hq)).
Defined.

Lemma device_tables_agree_witness :
  UsbSnes.is_supported_device 0x0810 0xe501 = 1
  /\ UsbSnes.is_supported_device 0 0xe501 = 0.
Proof.
  destruct (device_tables_agree 0x0810 0xe501) as (_ & _ & Hn & _).
  destruct (device_tables_agree 0 0xe501) as (_ & Hz & _).
  assert (H : is_Some (UsbSnesGamepad.get_device_name 0x0810 0xe501))
    by (eexists; reflexivity).
  split; [exact (Hn H)|exact (proj1 (Hz eq_refl))].
Defined.

Lemma attach_endpoint_search_witness :
  let dev := {| dev_ptr := 7%positive; descdev_vendorid := 0x0810;
                descdev_prodid := 0xe501;
                config_interf := fun _ _ =>
                  {| descif_protocol := 0;
                     descendp := [ {| endp_addr := 0x01;
                                      ep_type := GRUB_USB_EP_INTERRUPT |};
                                   {| endp_addr := 0x82;
                                      ep_type := GRUB_USB_EP_BULK |} ] |} |} in
  UsbSnes.grub_usb_snes_attach env_ok dev 0 0 (boot_machine UsbSnes.grub_usb_snes_data 8)
  = Some (0, boot_machine UsbSnes.grub_usb_snes_data 8)
  /\ UsbSnesGamepad.grub_usb_snes_attach env_ok dev 0 0
       (boot_machine UsbSnesGamepad.grub_usb_snes_data 8)
     = Some (0, boot_machine UsbSnesGamepad.grub_usb_snes_data 8).
Proof.
  intros dev.
  pose proof attach_endpoint_search as (_ & Hs & Hg).
  assert (H : Forall (fun x => ~ (Z.testbit (endp_addr x) 7 = true
                                  /\ grub_usb_get_ep_type x = GRUB_USB_EP_INTERRUPT))
                     (descendp (config_interf dev 0 0))).
  { repeat (apply List.Forall_cons; [intros [H1 H2]; discriminate|]).
    apply List.Forall_nil. }
  split; [exact (Hs env_ok dev 0 0 _ H)|exact (Hg env_ok dev 0 0 _ H)].
Defined.

Lemma mod_fini_meets_contract_witness :
  exists m',
    UsbSnes.grub_mod_fini {| attach_hook_registered := true;
                             driver_machine := snes_machine |}
    = Some {| attach_hook_registered := false; driver_machine := m' |}
    /\ terms m' !! 0%nat = Some {| name := None; data := None |}
    /\ heap m' !! 1%positive = None
    /\ 0%nat ∉ term_inputs m'.
Proof.
  pose proof mod_fini_meets_contract as (Hs & _).
  destruct (Hs {| attach_hook_registered := true; driver_machine := snes_machine |}
              snes_machine_wf)
    as (m' & Hrun & _ & Hrel & _ & _ & Hin & _).
  assert (H1 : terms snes_machine !! 0%nat
               = Some {| name := Some 2%positive; data := Some 1%positive |})
    by reflexivity.
  assert (H2 : heap snes_machine !! 1%positive
               = Some (BlockData (UsbSnes.set_transfer (Some 5%positive) snes_session)))
    by (unfold snes_machine, installed; cbn [heap]; apply lookup_insert_eq).
  destruct (Hrel 0%nat _ 1%positive _ H1 eq_refl H2) as (Hslot & Hheap & _).
  exists m'. split; [exact Hrun|]. split; [exact Hslot|]. split; [exact Hheap|apply Hin].
Defined.

Lemma boot_no_slot_matches {D : Type} (dev_of : D -> addr) (dev : addr) (n i : nat) :
  ~ slot_matches dev_of dev (boot_machine D n) i.
Proof.
  intros (t & p & d & Ht & Hp & _). cbn in Ht.
  apply lookup_replicate in Ht as [-> _]. discriminate.
Qed.

Lemma attach_then_detach_restores_witness :
  exists m1 m2,
    UsbSnes.grub_usb_snes_attach env_ok sample_device 0 0
      (boot_machine UsbSnes.grub_usb_snes_data 8) = Some (1, m1)
    /\ UsbSnes.grub_usb_snes_detach 7%positive m1 = Some m2
    /\ heap m2 = ∅ /\ term_inputs m2 = ∅ /\ transfers m2 = ∅.
Proof.
  pose proof attach_then_detach_restores as (Hs & _).
  assert (H1 : UsbSnes.is_supported_device (descdev_vendorid sample_device)
                                           (descdev_prodid sample_device) <> 0)
    by (vm_compute; discriminate).
  assert (H2 : (find_free_slot (terms (boot_machine UsbSnes.grub_usb_snes_data 8))
                < UsbSnes.MAX_GAMEPADS)%nat) by (vm_compute; lia).
  assert (H3 : find_interrupt_in (descendp (config_interf sample_device 0 0))
               = Some sample_endp) by reflexivity.
  assert (H4 : 1%positive <> 2%positive) by discriminate.
  assert (H5 : 5%positive ∉ transfers (boot_machine UsbSnes.grub_usb_snes_data 8))
    by (cbn; set_solver).
  destruct (Hs env_ok sample_device 0 0 (boot_machine UsbSnes.grub_usb_snes_data 8)
              sample_endp 1%positive 2%positive 5%positive
              (boot_machine_wf 8) H1 H2 H3 eq_refl eq_refl eq_refl
              (lookup_empty _) (lookup_empty _) H4 H5
              (boot_no_slot_matches UsbSnes.usbdev 7%positive 8))
    as (m1 & m2 & Hatt & Hdet & Hh & Hi & Ht & _).
  exists m1, m2. split; [exact Hatt|]. split; [exact Hdet|].
  split; [exact Hh|]. split; [exact Hi|exact Ht].
Defined.

Lemma attach_late_failures_released_witness :
  exists m',
    UsbSnes.grub_usb_snes_attach env_read_fails sample_device 0 0
      (boot_machine UsbSnes.grub_usb_snes_data 8) = Some (0, m')
    /\ machine_wf 8 m' /\ heap m' = ∅ /\ find_free_slot (terms m') = 0%nat.
Proof.
  pose proof attach_late_failures_released as (Hs & _).
  assert (H1 : UsbSnes.is_supported_device (descdev_vendorid sample_device)
                                           (descdev_prodid sample_device) <> 0)
    by (vm_compute; discriminate).
  assert (H2 : (find_free_slot (terms (boot_machine UsbSnes.grub_usb_snes_data 8))
                < UsbSnes.MAX_GAMEPADS)%nat) by (vm_compute; lia).
  assert (H3 : find_interrupt_in (descendp (config_interf sample_device 0 0))
               = Some sample_endp) by reflexivity.
  assert (H4 : 1%positive <> 2%positive) by discriminate.
  destruct (Hs env_read_fails sample_device 0 0
              (boot_machine UsbSnes.grub_usb_snes_data 8)
              sample_endp 1%positive 2%positive
              (boot_machine_wf 8) H1 H2 H3 eq_refl eq_refl eq_refl
              (lookup_empty _) (lookup_empty _) H4)
    as (m' & Hatt & Hwf & Hh & _ & _ & Hff & _).
  exists m'. split; [exact Hatt|]. split; [exact Hwf|]. split; [exact Hh|exact Hff].
Defined.

Lemma detach_makes_room_witness :
  exists m',
    UsbSnes.grub_usb_snes_detach 7%positive snes_machine = Some m'
    /\ (find_free_slot (terms m') <= 0)%nat.
Proof.
  pose proof detach_makes_room as (Hs & _).
  assert (H1 : terms snes_machine !! 0%nat
               = Some {| name := Some 2%positive; data := Some 1%positive |})
    by reflexivity.
  assert (H2 : heap snes_machine !! 1%positive
               = Some (BlockData (UsbSnes.set_transfer (Some 5%positive) snes_session)))
    by (unfold snes_machine, installed; cbn [heap]; apply lookup_insert_eq).
  assert (Hm : slot_matches UsbSnes.usbdev 7%positive snes_machine 0).
  { eexists _, _, _. split; [exact H1|]. split; [reflexivity|].
    split; [exact H2|reflexivity]. }
  destruct (Hs 7%positive snes_machine 0%nat snes_machine_wf Hm) as (m' & Hrun & Hle & _).
  exists m'. split; [exact Hrun|exact Hle].
Defined.
